(** * EDI 837 / 835 decoders of [script.js]: a shallow embedding

    The two parser classes [EDI837Parser] and [EDI835Parser] are embedded
    as the modules [EDI837Parser] and [EDI835Parser] below; their methods
    keep their names.

    Conventions of the embedding.

    - A JavaScript string is a [string]; its characters are code units
      below 256.  The result of reading [elements[i]] is a [value]:
      [Some s] for a string, [None] for [undefined].
    - An object literal with a fixed set of keys is a record.  A key that
      is only created by a later assignment ([claim.services],
      [entity.demographics], [parsedData.references] ...) is an [option]
      field, [None] meaning that the key is absent.
    - A parser instance is the record of its two mutable fields,
      [segments] and [parsedData]; the three delimiters, assigned once by
      the constructor, are constants.  A method is a function of the
      instance that returns a [Completion].
    - A method may complete abruptly; [Completion] keeps both the thrown
      message and the state reached when the exception was raised, since
      JavaScript does not undo the mutations already made.
    - An object that is mutated after it has been stored in a list of the
      tree is referred to by its position in that list (the lists are only
      ever pushed to, so positions are stable).  An object whose [push]
      failed is reachable from the local variable only; the reference is
      then [Detached] and writes through it cannot be observed. *)

From Stdlib Require Import Ascii String List Arith Lia Bool.
From stdpp Require Import base option list.

Import ListNotations.
#[local] Open Scope string_scope.
#[local] Open Scope list_scope.

(** ** JavaScript values read from a segment *)

Definition value := option string.

(** [v === 'lit'] for a possibly undefined [v]. *)
Definition strict_eq (v : value) (lit : string) : bool :=
  match v with
  | Some s => String.eqb s lit
  | None => false
  end.

Infix "===" := strict_eq (at level 70, no associativity).

(** ** String primitives *)

Module Str.

Definition CR : ascii := ascii_of_nat 13.
Definition LF : ascii := ascii_of_nat 10.

(** [s.replace(/\r\n/g, '\n')] *)
Fixpoint replace_crlf_lf (s : string) : string :=
  match s with
  | String c1 (String c2 rest as tl) =>
      if Ascii.eqb c1 CR && Ascii.eqb c2 LF
      then String LF (replace_crlf_lf rest)
      else String c1 (replace_crlf_lf tl)
  | _ => s
  end.

(** [s.replace(/\r/g, '\n')] *)
Fixpoint replace_cr_lf (s : string) : string :=
  match s with
  | EmptyString => EmptyString
  | String c rest =>
      String (if Ascii.eqb c CR then LF else c) (replace_cr_lf rest)
  end.

(** [s.replace(/\n/g, '')] *)
Fixpoint remove_lf (s : string) : string :=
  match s with
  | EmptyString => EmptyString
  | String c rest =>
      if Ascii.eqb c LF then remove_lf rest else String c (remove_lf rest)
  end.

(** White space and line terminators of ECMAScript among the code units
    below 256: TAB, LF, VT, FF, CR, SP and NBSP. *)
Definition is_space (c : ascii) : bool :=
  let n := nat_of_ascii c in
  (Nat.leb 9 n && Nat.leb n 13) || Nat.eqb n 32 || Nat.eqb n 160.

Fixpoint trimStart (s : string) : string :=
  match s with
  | EmptyString => EmptyString
  | String c rest => if is_space c then trimStart rest else s
  end.

Fixpoint trimEnd (s : string) : string :=
  match s with
  | EmptyString => EmptyString
  | String c rest =>
      match trimEnd rest with
      | EmptyString => if is_space c then EmptyString else String c EmptyString
      | kept => String c kept
      end
  end.

(** [s.trim()] *)
Definition trim (s : string) : string := trimEnd (trimStart s).

(** [s.split(sep)] for a separator of one character: never empty, and
    [''.split(sep)] is [['']]. *)
Fixpoint split (sep : ascii) (s : string) : list string :=
  match s with
  | EmptyString => [EmptyString]
  | String c rest =>
      if Ascii.eqb c sep then EmptyString :: split sep rest
      else match split sep rest with
           | piece :: pieces => String c piece :: pieces
           | [] => [String c EmptyString]
           end
  end.

End Str.

(** ** Completions: normal or abrupt, with the state reached *)

Inductive Completion (S A : Type) : Type :=
| Normal (result : A) (after : S)
| Abrupt (message : string) (after : S).

Arguments Normal {S A} result after.
Arguments Abrupt {S A} message after.

Definition M (S A : Type) : Type := S -> Completion S A.

Definition ret {S A} (a : A) : M S A := fun s => Normal a s.

Definition bind {S A B} (m : M S A) (k : A -> M S B) : M S B :=
  fun s =>
    match m s with
    | Normal a s' => k a s'
    | Abrupt message s' => Abrupt message s'
    end.

Definition throw {S A} (message : string) : M S A :=
  fun s => Abrupt message s.

Definition get {S} : M S S := fun s => Normal s s.

Definition modify {S} (f : S -> S) : M S unit := fun s => Normal tt (f s).

(** [try { body } catch (e) { handler(e.message) }] *)
Definition try_catch {S A} (body : M S A) (handler : string -> M S A) : M S A :=
  fun s =>
    match body s with
    | Normal a s' => Normal a s'
    | Abrupt message s' => handler message s'
    end.

(** Runs a computation on a component of the state. *)
Definition zoom {S T A} (proj : S -> T) (inj : T -> S -> S) (m : M T A) : M S A :=
  fun s =>
    match m (proj s) with
    | Normal a t => Normal a (inj t s)
    | Abrupt message t => Abrupt message (inj t s)
    end.

Definition after_of {S A} (c : Completion S A) : S :=
  match c with
  | Normal _ s => s
  | Abrupt _ s => s
  end.

Definition result_of {S A} (c : Completion S A) : option A :=
  match c with
  | Normal a _ => Some a
  | Abrupt _ _ => None
  end.

Definition message_of {S A} (c : Completion S A) : option string :=
  match c with
  | Normal _ _ => None
  | Abrupt message _ => Some message
  end.

Notation "x <- m ;; k" := (bind m (fun x => k))
  (at level 100, m at next level, right associativity).
Notation "m ;;; k" := (bind m (fun _ => k))
  (at level 100, right associativity).

(** The message of the [TypeError] raised by [undefined.push(...)]. *)
Definition TypeError_push : string :=
  "Cannot read properties of undefined (reading 'push')".

(** [if (!o.key) o.key = []; o.key.push(x)] on an optional list. *)
Definition push_lazy {A} (x : A) (l : option (list A)) : option (list A) :=
  Some (default [] l ++ [x]).

(** ** Objects that both parser classes build *)

(** The object built by [parseISA]. *)
Module Interchange.

Record t : Type := mk {
  authorizationQualifier : value;
  authorizationInfo : value;
  securityQualifier : value;
  securityInfo : value;
  senderQualifier : value;
  senderId : value;
  receiverQualifier : value;
  receiverId : value;
  date : value;
  time : value;
  repetitionSeparator : value;
  versionNumber : value;
  controlNumber : value;
  acknowledgmentRequested : value;
  testIndicator : value
}.

End Interchange.

(** The object built by [parseGS]. *)
Module Group.

Record t : Type := mk {
  functionalCode : value;
  applicationSender : value;
  applicationReceiver : value;
  date : value;
  time : value;
  controlNumber : value;
  responsibleAgency : value;
  version : value
}.

End Group.

(** The object built by [parseST]. *)
Module TransactionSet.

Record t : Type := mk {
  type : value;
  controlNumber : value;
  implementationGuide : value
}.

End TransactionSet.

(** The object built by [parseREF]. *)
Module Reference.

Record t : Type := mk {
  qualifierCode : value;
  referenceId : value;
  description : value
}.

End Reference.

(** The object built by [parsePER]. *)
Module Contact.

Record t : Type := mk {
  contactFunctionCode : value;
  name : value;
  communicationNumberQualifier1 : value;
  communicationNumber1 : value;
  communicationNumberQualifier2 : value;
  communicationNumber2 : value
}.

End Contact.

(** The object pushed by [parseN3]; [parseN4] later assigns the last four keys. *)
Module Address.

Record t : Type := mk {
  addressLine1 : value;
  addressLine2 : value;
  city : option value;
  state : option value;
  postalCode : option value;
  countryCode : option value
}.

Definition set_city (v : option value) (o : t) : t :=
  mk (addressLine1 o) (addressLine2 o) v (state o) (postalCode o)
     (countryCode o).
Arguments set_city v o /.

Definition set_state (v : option value) (o : t) : t :=
  mk (addressLine1 o) (addressLine2 o) (city o) v (postalCode o)
     (countryCode o).
Arguments set_state v o /.

Definition set_postalCode (v : option value) (o : t) : t :=
  mk (addressLine1 o) (addressLine2 o) (city o) (state o) v
     (countryCode o).
Arguments set_postalCode v o /.

Definition set_countryCode (v : option value) (o : t) : t :=
  mk (addressLine1 o) (addressLine2 o) (city o) (state o) (postalCode o) v.
Arguments set_countryCode v o /.

End Address.

(** The object built by [parseSE]. *)
Module TransactionSetTrailer.

Record t : Type := mk {
  segmentCount : value;
  controlNumber : value
}.

End TransactionSetTrailer.

(** The object built by [parseGE]. *)
Module FunctionalGroupTrailer.

Record t : Type := mk {
  transactionSetCount : value;
  controlNumber : value
}.

End FunctionalGroupTrailer.

(** The object built by [parseIEA]. *)
Module InterchangeTrailer.

Record t : Type := mk {
  groupCount : value;
  controlNumber : value
}.

End InterchangeTrailer.

(** * The 837 decoder: class [EDI837Parser] *)

Module EDI837Parser.

Definition segmentDelimiter : ascii := "~".
Definition elementDelimiter : ascii := "*".
Definition subElementDelimiter : ascii := "^".

(** The value of [entity.type]: what [getEntityType] returns is a string,
    [undefined], or a member inherited from [Object.prototype]. *)
Inductive EntityType : Type :=
| TypeUndefined
| TypeString (s : string)
| TypeInherited (key : string).

(** [entity.type === 'lit'] *)
Definition type_is (t : EntityType) (lit : string) : bool :=
  match t with
  | TypeString s => String.eqb s lit
  | _ => false
  end.

(** References held by the local variables of [parseSegments]. *)
Inductive Ref : Type :=
| At (i : nat)
| Detached.

Inductive EntityRef : Type :=
| SubscriberAt (i : nat)
| PatientAt (i : nat)
| ProviderAt (i : nat)
| DetachedEntity.

(** The object built by [parseBHT]. *)
Module BeginningTransaction.

Record t : Type := mk {
  hierarchicalStructure : value;
  transactionPurpose : value;
  referenceId : value;
  date : value;
  time : value;
  transactionType : value
}.

End BeginningTransaction.

(** The object assigned by [parseDMG]. *)
Module Demographics.

Record t : Type := mk {
  dateFormat : value;
  birthDate : value;
  gender : value
}.

End Demographics.

(** The object returned by [parseNM1]; [parsePRV] and [parseDMG] add keys. *)
Module Entity.

Record t : Type := mk {
  type : EntityType;
  entityTypeCode : value;
  entityType : value;
  lastName : value;
  firstName : value;
  middleName : value;
  namePrefix : value;
  nameSuffix : value;
  identificationQualifier : value;
  identificationCode : value;
  providerCode : option value;
  referenceIdQualifier : option value;
  referenceId : option value;
  demographics : option Demographics.t
}.

Definition set_providerCode (v : option value) (o : t) : t :=
  mk (type o) (entityTypeCode o) (entityType o) (lastName o)
     (firstName o) (middleName o) (namePrefix o) (nameSuffix o)
     (identificationQualifier o) (identificationCode o) v
     (referenceIdQualifier o) (referenceId o) (demographics o).
Arguments set_providerCode v o /.

Definition set_referenceIdQualifier (v : option value) (o : t) : t :=
  mk (type o) (entityTypeCode o) (entityType o) (lastName o)
     (firstName o) (middleName o) (namePrefix o) (nameSuffix o)
     (identificationQualifier o) (identificationCode o) (providerCode o)
     v (referenceId o) (demographics o).
Arguments set_referenceIdQualifier v o /.

Definition set_referenceId (v : option value) (o : t) : t :=
  mk (type o) (entityTypeCode o) (entityType o) (lastName o)
     (firstName o) (middleName o) (namePrefix o) (nameSuffix o)
     (identificationQualifier o) (identificationCode o) (providerCode o)
     (referenceIdQualifier o) v (demographics o).
Arguments set_referenceId v o /.

Definition set_demographics (v : option Demographics.t) (o : t) : t :=
  mk (type o) (entityTypeCode o) (entityType o) (lastName o)
     (firstName o) (middleName o) (namePrefix o) (nameSuffix o)
     (identificationQualifier o) (identificationCode o) (providerCode o)
     (referenceIdQualifier o) (referenceId o) v.
Arguments set_demographics v o /.

End Entity.

(** The object built by [parseDTP]. *)
Module DateInfo.

Record t : Type := mk {
  qualifier : value;
  formatQualifier : value;
  date : value
}.

End DateInfo.

(** The object returned by [parseSV1]. *)
Module Service.

Record t : Type := mk {
  serviceCode : value;
  chargeAmount : value;
  unitOfMeasure : value;
  serviceUnits : value;
  placeOfService : value;
  diagnosisPointer : value
}.

End Service.

(** The object built by [parseHI]. *)
Module HealthInfo.

Record t : Type := mk {
  codeQualifier : value;
  code : value;
  dateQualifier : value;
  date : value
}.

End HealthInfo.

(** The object returned by [parseCLM]; the three lists are created on first use. *)
Module Claim.

Record t : Type := mk {
  claimId : value;
  totalChargeAmount : value;
  placeOfService : value;
  providerSignatureIndicator : value;
  assignmentOfBenefitsIndicator : value;
  releaseOfInformationIndicator : value;
  patientSignatureSourceCode : value;
  services : option (list Service.t);
  dates : option (list DateInfo.t);
  healthInfo : option (list HealthInfo.t)
}.

Definition set_services (v : option (list Service.t)) (o : t) : t :=
  mk (claimId o) (totalChargeAmount o) (placeOfService o)
     (providerSignatureIndicator o) (assignmentOfBenefitsIndicator o)
     (releaseOfInformationIndicator o) (patientSignatureSourceCode o) v
     (dates o) (healthInfo o).
Arguments set_services v o /.

Definition set_dates (v : option (list DateInfo.t)) (o : t) : t :=
  mk (claimId o) (totalChargeAmount o) (placeOfService o)
     (providerSignatureIndicator o) (assignmentOfBenefitsIndicator o)
     (releaseOfInformationIndicator o) (patientSignatureSourceCode o)
     (services o) v (healthInfo o).
Arguments set_dates v o /.

Definition set_healthInfo (v : option (list HealthInfo.t)) (o : t) : t :=
  mk (claimId o) (totalChargeAmount o) (placeOfService o)
     (providerSignatureIndicator o) (assignmentOfBenefitsIndicator o)
     (releaseOfInformationIndicator o) (patientSignatureSourceCode o)
     (services o) (dates o) v.
Arguments set_healthInfo v o /.

End Claim.

(** The object built by [parseSBR]. *)
Module SubscriberInfo.

Record t : Type := mk {
  payerResponsibilitySequence : value;
  individualRelationshipCode : value;
  groupOrPolicyNumber : value;
  groupName : value;
  insuranceTypeCode : value;
  coordinationOfBenefitsCode : value
}.

End SubscriberInfo.

(** [this.parsedData]: every key is optional, the constructor starts from [{}].
    In [interchange], [Some None] is the empty object [{}] of the initial tree. *)
Module ParsedData.

Record t : Type := mk {
  interchange : option (option Interchange.t);
  groups : option (list Group.t);
  claims : option (list Claim.t);
  providers : option (list Entity.t);
  subscribers : option (list Entity.t);
  patients : option (list Entity.t);
  services : option (list Service.t);
  transactionSet : option TransactionSet.t;
  beginningTransaction : option BeginningTransaction.t;
  references : option (list Reference.t);
  contacts : option (list Contact.t);
  addresses : option (list Address.t);
  subscriberInfo : option SubscriberInfo.t;
  serviceLineNumber : option value;
  transactionSetTrailer : option TransactionSetTrailer.t;
  functionalGroupTrailer : option FunctionalGroupTrailer.t;
  interchangeTrailer : option InterchangeTrailer.t
}.

Definition set_interchange (v : option (option Interchange.t)) (o : t) : t :=
  mk v (groups o) (claims o) (providers o) (subscribers o) (patients o)
     (services o) (transactionSet o) (beginningTransaction o)
     (references o) (contacts o) (addresses o) (subscriberInfo o)
     (serviceLineNumber o) (transactionSetTrailer o)
     (functionalGroupTrailer o) (interchangeTrailer o).
Arguments set_interchange v o /.

Definition set_groups (v : option (list Group.t)) (o : t) : t :=
  mk (interchange o) v (claims o) (providers o) (subscribers o)
     (patients o) (services o) (transactionSet o)
     (beginningTransaction o) (references o) (contacts o) (addresses o)
     (subscriberInfo o) (serviceLineNumber o) (transactionSetTrailer o)
     (functionalGroupTrailer o) (interchangeTrailer o).
Arguments set_groups v o /.

Definition set_claims (v : option (list Claim.t)) (o : t) : t :=
  mk (interchange o) (groups o) v (providers o) (subscribers o)
     (patients o) (services o) (transactionSet o)
     (beginningTransaction o) (references o) (contacts o) (addresses o)
     (subscriberInfo o) (serviceLineNumber o) (transactionSetTrailer o)
     (functionalGroupTrailer o) (interchangeTrailer o).
Arguments set_claims v o /.

Definition set_providers (v : option (list Entity.t)) (o : t) : t :=
  mk (interchange o) (groups o) (claims o) v (subscribers o)
     (patients o) (services o) (transactionSet o)
     (beginningTransaction o) (references o) (contacts o) (addresses o)
     (subscriberInfo o) (serviceLineNumber o) (transactionSetTrailer o)
     (functionalGroupTrailer o) (interchangeTrailer o).
Arguments set_providers v o /.

Definition set_subscribers (v : option (list Entity.t)) (o : t) : t :=
  mk (interchange o) (groups o) (claims o) (providers o) v (patients o)
     (services o) (transactionSet o) (beginningTransaction o)
     (references o) (contacts o) (addresses o) (subscriberInfo o)
     (serviceLineNumber o) (transactionSetTrailer o)
     (functionalGroupTrailer o) (interchangeTrailer o).
Arguments set_subscribers v o /.

Definition set_patients (v : option (list Entity.t)) (o : t) : t :=
  mk (interchange o) (groups o) (claims o) (providers o) (subscribers o)
     v (services o) (transactionSet o) (beginningTransaction o)
     (references o) (contacts o) (addresses o) (subscriberInfo o)
     (serviceLineNumber o) (transactionSetTrailer o)
     (functionalGroupTrailer o) (interchangeTrailer o).
Arguments set_patients v o /.

Definition set_services (v : option (list Service.t)) (o : t) : t :=
  mk (interchange o) (groups o) (claims o) (providers o) (subscribers o)
     (patients o) v (transactionSet o) (beginningTransaction o)
     (references o) (contacts o) (addresses o) (subscriberInfo o)
     (serviceLineNumber o) (transactionSetTrailer o)
     (functionalGroupTrailer o) (interchangeTrailer o).
Arguments set_services v o /.

Definition set_transactionSet (v : option TransactionSet.t) (o : t) : t :=
  mk (interchange o) (groups o) (claims o) (providers o) (subscribers o)
     (patients o) (services o) v (beginningTransaction o) (references o)
     (contacts o) (addresses o) (subscriberInfo o) (serviceLineNumber o)
     (transactionSetTrailer o) (functionalGroupTrailer o)
     (interchangeTrailer o).
Arguments set_transactionSet v o /.

Definition set_beginningTransaction (v : option BeginningTransaction.t) (o : t) : t :=
  mk (interchange o) (groups o) (claims o) (providers o) (subscribers o)
     (patients o) (services o) (transactionSet o) v (references o)
     (contacts o) (addresses o) (subscriberInfo o) (serviceLineNumber o)
     (transactionSetTrailer o) (functionalGroupTrailer o)
     (interchangeTrailer o).
Arguments set_beginningTransaction v o /.

Definition set_references (v : option (list Reference.t)) (o : t) : t :=
  mk (interchange o) (groups o) (claims o) (providers o) (subscribers o)
     (patients o) (services o) (transactionSet o)
     (beginningTransaction o) v (contacts o) (addresses o)
     (subscriberInfo o) (serviceLineNumber o) (transactionSetTrailer o)
     (functionalGroupTrailer o) (interchangeTrailer o).
Arguments set_references v o /.

Definition set_contacts (v : option (list Contact.t)) (o : t) : t :=
  mk (interchange o) (groups o) (claims o) (providers o) (subscribers o)
     (patients o) (services o) (transactionSet o)
     (beginningTransaction o) (references o) v (addresses o)
     (subscriberInfo o) (serviceLineNumber o) (transactionSetTrailer o)
     (functionalGroupTrailer o) (interchangeTrailer o).
Arguments set_contacts v o /.

Definition set_addresses (v : option (list Address.t)) (o : t) : t :=
  mk (interchange o) (groups o) (claims o) (providers o) (subscribers o)
     (patients o) (services o) (transactionSet o)
     (beginningTransaction o) (references o) (contacts o) v
     (subscriberInfo o) (serviceLineNumber o) (transactionSetTrailer o)
     (functionalGroupTrailer o) (interchangeTrailer o).
Arguments set_addresses v o /.

Definition set_subscriberInfo (v : option SubscriberInfo.t) (o : t) : t :=
  mk (interchange o) (groups o) (claims o) (providers o) (subscribers o)
     (patients o) (services o) (transactionSet o)
     (beginningTransaction o) (references o) (contacts o) (addresses o)
     v (serviceLineNumber o) (transactionSetTrailer o)
     (functionalGroupTrailer o) (interchangeTrailer o).
Arguments set_subscriberInfo v o /.

Definition set_serviceLineNumber (v : option value) (o : t) : t :=
  mk (interchange o) (groups o) (claims o) (providers o) (subscribers o)
     (patients o) (services o) (transactionSet o)
     (beginningTransaction o) (references o) (contacts o) (addresses o)
     (subscriberInfo o) v (transactionSetTrailer o)
     (functionalGroupTrailer o) (interchangeTrailer o).
Arguments set_serviceLineNumber v o /.

Definition set_transactionSetTrailer (v : option TransactionSetTrailer.t) (o : t) : t :=
  mk (interchange o) (groups o) (claims o) (providers o) (subscribers o)
     (patients o) (services o) (transactionSet o)
     (beginningTransaction o) (references o) (contacts o) (addresses o)
     (subscriberInfo o) (serviceLineNumber o) v
     (functionalGroupTrailer o) (interchangeTrailer o).
Arguments set_transactionSetTrailer v o /.

Definition set_functionalGroupTrailer (v : option FunctionalGroupTrailer.t) (o : t) : t :=
  mk (interchange o) (groups o) (claims o) (providers o) (subscribers o)
     (patients o) (services o) (transactionSet o)
     (beginningTransaction o) (references o) (contacts o) (addresses o)
     (subscriberInfo o) (serviceLineNumber o) (transactionSetTrailer o)
     v (interchangeTrailer o).
Arguments set_functionalGroupTrailer v o /.

Definition set_interchangeTrailer (v : option InterchangeTrailer.t) (o : t) : t :=
  mk (interchange o) (groups o) (claims o) (providers o) (subscribers o)
     (patients o) (services o) (transactionSet o)
     (beginningTransaction o) (references o) (contacts o) (addresses o)
     (subscriberInfo o) (serviceLineNumber o) (transactionSetTrailer o)
     (functionalGroupTrailer o) v.
Arguments set_interchangeTrailer v o /.

End ParsedData.

(** The two mutable fields of a parser instance. *)
Module Parser.

Record t : Type := mk {
  segments : list string;
  parsedData : ParsedData.t
}.

Definition set_segments (v : list string) (o : t) : t :=
  mk v (parsedData o).
Arguments set_segments v o /.

Definition set_parsedData (v : ParsedData.t) (o : t) : t :=
  mk (segments o) v.
Arguments set_parsedData v o /.

End Parser.

(** The instance together with the local variables of [parseSegments]. *)
Module Frame.

Record t : Type := mk {
  this : Parser.t;
  currentClaim : option Ref;
  currentSubscriber : option EntityRef;
  currentPatient : option EntityRef;
  currentProvider : option EntityRef
}.

Definition set_this (v : Parser.t) (o : t) : t :=
  mk v (currentClaim o) (currentSubscriber o) (currentPatient o)
     (currentProvider o).
Arguments set_this v o /.

Definition set_currentClaim (v : option Ref) (o : t) : t :=
  mk (this o) v (currentSubscriber o) (currentPatient o)
     (currentProvider o).
Arguments set_currentClaim v o /.

Definition set_currentSubscriber (v : option EntityRef) (o : t) : t :=
  mk (this o) (currentClaim o) v (currentPatient o) (currentProvider o).
Arguments set_currentSubscriber v o /.

Definition set_currentPatient (v : option EntityRef) (o : t) : t :=
  mk (this o) (currentClaim o) (currentSubscriber o) v
     (currentProvider o).
Arguments set_currentPatient v o /.

Definition set_currentProvider (v : option EntityRef) (o : t) : t :=
  mk (this o) (currentClaim o) (currentSubscriber o) (currentPatient o)
     v.
Arguments set_currentProvider v o /.

End Frame.

(** *** Handlers *)

Definition set_tree (f : ParsedData.t -> ParsedData.t) : M Parser.t unit :=
  modify (fun this => Parser.set_parsedData (f (Parser.parsedData this)) this).

(** [this.parsedData.key.push(x)] on a key that may be absent. *)
Definition push_to {A}
    (key : ParsedData.t -> option (list A))
    (set_key : option (list A) -> ParsedData.t -> ParsedData.t)
    (x : A) : M Parser.t unit :=
  this <- get ;;
  match key (Parser.parsedData this) with
  | Some l => set_tree (set_key (Some (l ++ [x])))
  | None => throw TypeError_push
  end.

Definition parseISA (elements : list string) : M Parser.t unit :=
  set_tree (ParsedData.set_interchange (Some (Some {|
    Interchange.authorizationQualifier := elements !! 1;
    Interchange.authorizationInfo := elements !! 2;
    Interchange.securityQualifier := elements !! 3;
    Interchange.securityInfo := elements !! 4;
    Interchange.senderQualifier := elements !! 5;
    Interchange.senderId := elements !! 6;
    Interchange.receiverQualifier := elements !! 7;
    Interchange.receiverId := elements !! 8;
    Interchange.date := elements !! 9;
    Interchange.time := elements !! 10;
    Interchange.repetitionSeparator := elements !! 11;
    Interchange.versionNumber := elements !! 12;
    Interchange.controlNumber := elements !! 13;
    Interchange.acknowledgmentRequested := elements !! 14;
    Interchange.testIndicator := elements !! 15 |}))).

Definition parseGS (elements : list string) : M Parser.t unit :=
  let group := {|
    Group.functionalCode := elements !! 1;
    Group.applicationSender := elements !! 2;
    Group.applicationReceiver := elements !! 3;
    Group.date := elements !! 4;
    Group.time := elements !! 5;
    Group.controlNumber := elements !! 6;
    Group.responsibleAgency := elements !! 7;
    Group.version := elements !! 8 |} in
  push_to ParsedData.groups ParsedData.set_groups group.

Definition parseST (elements : list string) : M Parser.t unit :=
  set_tree (ParsedData.set_transactionSet (Some {|
    TransactionSet.type := elements !! 1;
    TransactionSet.controlNumber := elements !! 2;
    TransactionSet.implementationGuide := elements !! 3 |})).

Definition parseBHT (elements : list string) : M Parser.t unit :=
  set_tree (ParsedData.set_beginningTransaction (Some {|
    BeginningTransaction.hierarchicalStructure := elements !! 1;
    BeginningTransaction.transactionPurpose := elements !! 2;
    BeginningTransaction.referenceId := elements !! 3;
    BeginningTransaction.date := elements !! 4;
    BeginningTransaction.time := elements !! 5;
    BeginningTransaction.transactionType := elements !! 6 |})).

(** The keys that an object literal inherits from [Object.prototype]:
    [entityTypes[code]] finds them although the literal does not list
    them, and each of them is truthy. *)
Definition Object_prototype_keys : list string :=
  [ "constructor"; "hasOwnProperty"; "isPrototypeOf";
    "propertyIsEnumerable"; "toLocaleString"; "toString"; "valueOf";
    "__proto__"; "__defineGetter__"; "__defineSetter__";
    "__lookupGetter__"; "__lookupSetter__" ].

(** The object literal [entityTypes]. *)
Definition entityTypes : list (string * string) :=
  [ ("85", "billing_provider");
    ("IL", "subscriber");
    ("QC", "patient");
    ("PR", "payer");
    ("82", "rendering_provider");
    ("77", "service_facility");
    ("DN", "referring_provider") ].

Fixpoint own_property (table : list (string * string)) (key : string)
  : option string :=
  match table with
  | [] => None
  | (k, v) :: rest => if String.eqb k key then Some v else own_property rest key
  end.

(** [entityTypes[code] || code] *)
Definition getEntityType (code : value) : EntityType :=
  match code with
  | None => TypeUndefined
  | Some c =>
      match own_property entityTypes c with
      | Some role => TypeString role
      | None =>
          if existsb (String.eqb c) Object_prototype_keys
          then TypeInherited c
          else TypeString c
      end
  end.

Definition parseNM1 (elements : list string) : Entity.t :=
  let entityTypeCode := elements !! 1 in
  let entityType := getEntityType entityTypeCode in
  {| Entity.type := entityType;
     Entity.entityTypeCode := entityTypeCode;
     Entity.entityType := elements !! 2;
     Entity.lastName := elements !! 3;
     Entity.firstName := elements !! 4;
     Entity.middleName := elements !! 5;
     Entity.namePrefix := elements !! 6;
     Entity.nameSuffix := elements !! 7;
     Entity.identificationQualifier := elements !! 8;
     Entity.identificationCode := elements !! 9;
     Entity.providerCode := None;
     Entity.referenceIdQualifier := None;
     Entity.referenceId := None;
     Entity.demographics := None |}.

(** Writes through a reference to an entity. *)
Definition update_entity (r : EntityRef) (f : Entity.t -> Entity.t)
  : M Parser.t unit :=
  match r with
  | SubscriberAt i =>
      set_tree (fun tree =>
        ParsedData.set_subscribers (alter f i <$> ParsedData.subscribers tree) tree)
  | PatientAt i =>
      set_tree (fun tree =>
        ParsedData.set_patients (alter f i <$> ParsedData.patients tree) tree)
  | ProviderAt i =>
      set_tree (fun tree =>
        ParsedData.set_providers (alter f i <$> ParsedData.providers tree) tree)
  | DetachedEntity => ret tt
  end.

Definition parsePRV (elements : list string) (provider : option EntityRef)
  : M Parser.t unit :=
  match provider with
  | Some r =>
      update_entity r (fun entity =>
        Entity.set_referenceId (Some (elements !! 3))
          (Entity.set_referenceIdQualifier (Some (elements !! 2))
             (Entity.set_providerCode (Some (elements !! 1)) entity)))
  | None => ret tt
  end.

Definition parseDMG (elements : list string) (entity : option EntityRef)
  : M Parser.t unit :=
  match entity with
  | Some r =>
      update_entity r (Entity.set_demographics (Some {|
        Demographics.dateFormat := elements !! 1;
        Demographics.birthDate := elements !! 2;
        Demographics.gender := elements !! 3 |}))
  | None => ret tt
  end.

Definition parseREF (elements : list string) : M Parser.t unit :=
  let reference := {|
    Reference.qualifierCode := elements !! 1;
    Reference.referenceId := elements !! 2;
    Reference.description := elements !! 3 |} in
  set_tree (fun tree =>
    ParsedData.set_references (push_lazy reference (ParsedData.references tree)) tree).

Definition parsePER (elements : list string) : M Parser.t unit :=
  let contact := {|
    Contact.contactFunctionCode := elements !! 1;
    Contact.name := elements !! 2;
    Contact.communicationNumberQualifier1 := elements !! 3;
    Contact.communicationNumber1 := elements !! 4;
    Contact.communicationNumberQualifier2 := elements !! 5;
    Contact.communicationNumber2 := elements !! 6 |} in
  set_tree (fun tree =>
    ParsedData.set_contacts (push_lazy contact (ParsedData.contacts tree)) tree).

Definition parseCLM (elements : list string) : Claim.t :=
  {| Claim.claimId := elements !! 1;
     Claim.totalChargeAmount := elements !! 2;
     Claim.placeOfService := elements !! 5;
     Claim.providerSignatureIndicator := elements !! 6;
     Claim.assignmentOfBenefitsIndicator := elements !! 7;
     Claim.releaseOfInformationIndicator := elements !! 8;
     Claim.patientSignatureSourceCode := elements !! 9;
     Claim.services := None;
     Claim.dates := None;
     Claim.healthInfo := None |}.

(** Writes through a reference to a claim. *)
Definition update_claim (r : Ref) (f : Claim.t -> Claim.t) : M Parser.t unit :=
  match r with
  | At i =>
      set_tree (fun tree =>
        ParsedData.set_claims (alter f i <$> ParsedData.claims tree) tree)
  | Detached => ret tt
  end.

Definition parseDTP (elements : list string) (claim : option Ref)
  : M Parser.t unit :=
  let dateInfo := {|
    DateInfo.qualifier := elements !! 1;
    DateInfo.formatQualifier := elements !! 2;
    DateInfo.date := elements !! 3 |} in
  match claim with
  | Some r =>
      update_claim r (fun c => Claim.set_dates (push_lazy dateInfo (Claim.dates c)) c)
  | None => ret tt
  end.

Definition parseSV1 (elements : list string) : Service.t :=
  {| Service.serviceCode := elements !! 1;
     Service.chargeAmount := elements !! 2;
     Service.unitOfMeasure := elements !! 3;
     Service.serviceUnits := elements !! 4;
     Service.placeOfService := elements !! 5;
     Service.diagnosisPointer := elements !! 7 |}.

Definition parseN3 (elements : list string) : M Parser.t unit :=
  set_tree (fun tree =>
    ParsedData.set_addresses
      (push_lazy {| Address.addressLine1 := elements !! 1;
                    Address.addressLine2 := elements !! 2;
                    Address.city := None;
                    Address.state := None;
                    Address.postalCode := None;
                    Address.countryCode := None |}
                 (ParsedData.addresses tree)) tree).

(** [addresses?.[addresses.length - 1]] is the last address when there is
    one; the four assignments are then made to that object. *)
Definition parseN4 (elements : list string) : M Parser.t unit :=
  set_tree (fun tree =>
    match ParsedData.addresses tree with
    | Some addresses =>
        match last addresses with
        | Some _ =>
            ParsedData.set_addresses
              (Some (alter (fun lastAddress =>
                       Address.set_countryCode (Some (elements !! 4))
                         (Address.set_postalCode (Some (elements !! 3))
                            (Address.set_state (Some (elements !! 2))
                               (Address.set_city (Some (elements !! 1)) lastAddress))))
                     (List.length addresses - 1) addresses)) tree
        | None => tree
        end
    | None => tree
    end).

Definition parseSBR (elements : list string) : M Parser.t unit :=
  set_tree (ParsedData.set_subscriberInfo (Some {|
    SubscriberInfo.payerResponsibilitySequence := elements !! 1;
    SubscriberInfo.individualRelationshipCode := elements !! 2;
    SubscriberInfo.groupOrPolicyNumber := elements !! 3;
    SubscriberInfo.groupName := elements !! 4;
    SubscriberInfo.insuranceTypeCode := elements !! 5;
    SubscriberInfo.coordinationOfBenefitsCode := elements !! 9 |})).

(** [elements[1]?.split(':')[k]] *)
Definition composite_part (field : value) (k : nat) : value :=
  match field with
  | Some s => Str.split ":" s !! k
  | None => None
  end.

Definition parseHI (elements : list string) (claim : option Ref)
  : M Parser.t unit :=
  let healthInfo := {|
    HealthInfo.codeQualifier := composite_part (elements !! 1) 0;
    HealthInfo.code := composite_part (elements !! 1) 1;
    HealthInfo.dateQualifier := elements !! 2;
    HealthInfo.date := elements !! 3 |} in
  match claim with
  | Some r =>
      update_claim r (fun c =>
        Claim.set_healthInfo (push_lazy healthInfo (Claim.healthInfo c)) c)
  | None => ret tt
  end.

Definition parseLX (elements : list string) : M Parser.t unit :=
  set_tree (ParsedData.set_serviceLineNumber (Some (elements !! 1))).

Definition parseSE (elements : list string) : M Parser.t unit :=
  set_tree (ParsedData.set_transactionSetTrailer (Some {|
    TransactionSetTrailer.segmentCount := elements !! 1;
    TransactionSetTrailer.controlNumber := elements !! 2 |})).

Definition parseGE (elements : list string) : M Parser.t unit :=
  set_tree (ParsedData.set_functionalGroupTrailer (Some {|
    FunctionalGroupTrailer.transactionSetCount := elements !! 1;
    FunctionalGroupTrailer.controlNumber := elements !! 2 |})).

Definition parseIEA (elements : list string) : M Parser.t unit :=
  set_tree (ParsedData.set_interchangeTrailer (Some {|
    InterchangeTrailer.groupCount := elements !! 1;
    InterchangeTrailer.controlNumber := elements !! 2 |})).

(** *** The dispatch loop *)

Definition on_this {A} (m : M Parser.t A) : M Frame.t A :=
  zoom Frame.this Frame.set_this m.

Definition tree_of (fr : Frame.t) : ParsedData.t :=
  Parser.parsedData (Frame.this fr).

(** The reference to an object that the next statement pushes onto [l]. *)
Definition next_ref {A} (l : option (list A)) : Ref :=
  match l with
  | Some l => At (List.length l)
  | None => Detached
  end.

Definition next_entity {A} (at_ : nat -> EntityRef) (l : option (list A))
  : EntityRef :=
  match l with
  | Some l => at_ (List.length l)
  | None => DetachedEntity
  end.

(** [a || b] on two references that are objects or [null]. *)
Definition or_else {A} (a b : option A) : option A :=
  match a with
  | Some _ => a
  | None => b
  end.

(** The [switch (segmentId)] of [parseSegments]. *)
Definition dispatch (segmentId : value) (elements : list string)
  : M Frame.t unit :=
  if segmentId === "ISA" then on_this (parseISA elements)
  else if segmentId === "GS" then on_this (parseGS elements)
  else if segmentId === "ST" then on_this (parseST elements)
  else if segmentId === "BHT" then on_this (parseBHT elements)
  else if segmentId === "NM1" then
    let entityType := parseNM1 elements in
    if type_is (Entity.type entityType) "subscriber" then
      fr <- get ;;
      modify (Frame.set_currentSubscriber
                (Some (next_entity SubscriberAt
                         (ParsedData.subscribers (tree_of fr))))) ;;;
      on_this (push_to ParsedData.subscribers ParsedData.set_subscribers
                 entityType)
    else if type_is (Entity.type entityType) "patient" then
      fr <- get ;;
      modify (Frame.set_currentPatient
                (Some (next_entity PatientAt
                         (ParsedData.patients (tree_of fr))))) ;;;
      on_this (push_to ParsedData.patients ParsedData.set_patients
                 entityType)
    else if type_is (Entity.type entityType) "provider" then
      fr <- get ;;
      modify (Frame.set_currentProvider
                (Some (next_entity ProviderAt
                         (ParsedData.providers (tree_of fr))))) ;;;
      on_this (push_to ParsedData.providers ParsedData.set_providers
                 entityType)
    else ret tt
  else if segmentId === "PRV" then
    fr <- get ;;
    on_this (parsePRV elements (Frame.currentProvider fr))
  else if segmentId === "DMG" then
    fr <- get ;;
    on_this (parseDMG elements
               (or_else (Frame.currentSubscriber fr) (Frame.currentPatient fr)))
  else if segmentId === "REF" then on_this (parseREF elements)
  else if segmentId === "PER" then on_this (parsePER elements)
  else if segmentId === "CLM" then
    let claim := parseCLM elements in
    fr <- get ;;
    modify (Frame.set_currentClaim
              (Some (next_ref (ParsedData.claims (tree_of fr))))) ;;;
    on_this (push_to ParsedData.claims ParsedData.set_claims claim)
  else if segmentId === "DTP" then
    fr <- get ;;
    on_this (parseDTP elements (Frame.currentClaim fr))
  else if segmentId === "SV1" then
    let service := parseSV1 elements in
    on_this (push_to ParsedData.services ParsedData.set_services service) ;;;
    fr <- get ;;
    match Frame.currentClaim fr with
    | Some r =>
        on_this (update_claim r (fun c =>
          Claim.set_services (push_lazy service (Claim.services c)) c))
    | None => ret tt
    end
  else if segmentId === "N3" then on_this (parseN3 elements)
  else if segmentId === "N4" then on_this (parseN4 elements)
  else if segmentId === "SBR" then on_this (parseSBR elements)
  else if segmentId === "HI" then
    fr <- get ;;
    on_this (parseHI elements (Frame.currentClaim fr))
  else if segmentId === "LX" then on_this (parseLX elements)
  else if segmentId === "SE" then on_this (parseSE elements)
  else if segmentId === "GE" then on_this (parseGE elements)
  else if segmentId === "IEA" then on_this (parseIEA elements)
  else ret tt.

(** One iteration of the [for] loop: the [catch] only writes a warning
    to the console and lets the loop go on. *)
Definition iteration (segment : string) : M Frame.t unit :=
  let elements := Str.split elementDelimiter segment in
  let segmentId := elements !! 0 in
  try_catch (dispatch segmentId elements) (fun _ => ret tt).

Fixpoint for_each (segments : list string) : M Frame.t unit :=
  match segments with
  | [] => ret tt
  | segment :: rest => iteration segment ;;; for_each rest
  end.

(** The frame in which the loop starts: the four locals are [null]. *)
Definition enter (this : Parser.t) : Frame.t :=
  {| Frame.this := this;
     Frame.currentClaim := None;
     Frame.currentSubscriber := None;
     Frame.currentPatient := None;
     Frame.currentProvider := None |}.

(** No handler assigns [this.segments] (lemma [segments_kept_837]), so
    the loop walks the list that it finds on entry. *)
Definition parseSegments : M Parser.t unit :=
  fun this =>
    match for_each (Parser.segments this) (enter this) with
    | Normal _ fr => Normal tt (Frame.this fr)
    | Abrupt message fr => Abrupt message (Frame.this fr)
    end.

(** *** The entry point *)

Definition cleanData (data : string) : string :=
  Str.trim (Str.remove_lf (Str.replace_cr_lf (Str.replace_crlf_lf data))).

(** The object literal assigned to [this.parsedData] by [parse]. *)
Definition fresh_tree : ParsedData.t :=
  {| ParsedData.interchange := Some None;
     ParsedData.groups := Some [];
     ParsedData.claims := Some [];
     ParsedData.providers := Some [];
     ParsedData.subscribers := Some [];
     ParsedData.patients := Some [];
     ParsedData.services := Some [];
     ParsedData.transactionSet := None;
     ParsedData.beginningTransaction := None;
     ParsedData.references := None;
     ParsedData.contacts := None;
     ParsedData.addresses := None;
     ParsedData.subscriberInfo := None;
     ParsedData.serviceLineNumber := None;
     ParsedData.transactionSetTrailer := None;
     ParsedData.functionalGroupTrailer := None;
     ParsedData.interchangeTrailer := None |}.

(** [cleanData.split('~').map(s => s.trim()).filter(s => s.length > 0)] *)
Definition tokenize (cleanData : string) : list string :=
  List.filter (fun segment => Nat.ltb 0 (String.length segment))
    (List.map Str.trim (Str.split segmentDelimiter cleanData)).

Definition parse (ediData : string) : M Parser.t ParsedData.t :=
  try_catch
    (let cleanData := cleanData ediData in
     modify (Parser.set_segments (tokenize cleanData)) ;;;
     this <- get ;;
     if Nat.eqb (List.length (Parser.segments this)) 0
     then throw "No valid EDI segments found"
     else
       modify (Parser.set_parsedData fresh_tree) ;;;
       parseSegments ;;;
       this <- get ;;
       ret (Parser.parsedData this))
    (fun message => throw ("Parsing failed: " ++ message)).

(** [{}] *)
Definition empty_object : ParsedData.t :=
  ParsedData.mk None None None None None None None None None None None
    None None None None None None.

(** [new EDI837Parser()] *)
Definition constructor : Parser.t :=
  {| Parser.segments := []; Parser.parsedData := empty_object |}.

End EDI837Parser.

(** * The 835 decoder: class [EDI835Parser] *)

Module EDI835Parser.

Definition segmentDelimiter : ascii := "~".
Definition elementDelimiter : ascii := "*".
Definition subElementDelimiter : ascii := "^".

(** References held by the local variables of [parseSegments]. *)
Inductive Ref : Type :=
| At (i : nat)
| Detached.

(** The object built by [parseTRN]. *)
Module TraceNumber.

Record t : Type := mk {
  traceTypeCode : value;
  traceNumber : value;
  originatingCompanyId : value;
  referenceId : value
}.

End TraceNumber.

(** The object built by [parseDTM]. *)
Module DateInfo.

Record t : Type := mk {
  qualifier : value;
  date : value;
  time : value;
  timeCode : value
}.

End DateInfo.

(** The object returned by [parseBPR]; [claims] holds references to claims of [parsedData.claims]. *)
Module Payment.

Record t : Type := mk {
  transactionHandlingCode : value;
  totalPremiumPaymentAmount : value;
  creditDebitFlag : value;
  paymentMethodCode : value;
  paymentFormatCode : value;
  senderDFIIdQualifier : value;
  senderDFIId : value;
  senderAccountQualifier : value;
  senderAccountNumber : value;
  originatingCompanyId : value;
  originatingCompanySupplementalCode : value;
  receiverDFIIdQualifier : value;
  receiverDFIId : value;
  receiverAccountQualifier : value;
  receiverAccountNumber : value;
  effectiveEntryDate : value;
  traceNumber : option TraceNumber.t;
  dates : option (list DateInfo.t);
  claims : option (list Ref)
}.

Definition set_traceNumber (v : option TraceNumber.t) (o : t) : t :=
  mk (transactionHandlingCode o) (totalPremiumPaymentAmount o)
     (creditDebitFlag o) (paymentMethodCode o) (paymentFormatCode o)
     (senderDFIIdQualifier o) (senderDFIId o) (senderAccountQualifier o)
     (senderAccountNumber o) (originatingCompanyId o)
     (originatingCompanySupplementalCode o) (receiverDFIIdQualifier o)
     (receiverDFIId o) (receiverAccountQualifier o)
     (receiverAccountNumber o) (effectiveEntryDate o) v (dates o)
     (claims o).
Arguments set_traceNumber v o /.

Definition set_dates (v : option (list DateInfo.t)) (o : t) : t :=
  mk (transactionHandlingCode o) (totalPremiumPaymentAmount o)
     (creditDebitFlag o) (paymentMethodCode o) (paymentFormatCode o)
     (senderDFIIdQualifier o) (senderDFIId o) (senderAccountQualifier o)
     (senderAccountNumber o) (originatingCompanyId o)
     (originatingCompanySupplementalCode o) (receiverDFIIdQualifier o)
     (receiverDFIId o) (receiverAccountQualifier o)
     (receiverAccountNumber o) (effectiveEntryDate o) (traceNumber o) v
     (claims o).
Arguments set_dates v o /.

Definition set_claims (v : option (list Ref)) (o : t) : t :=
  mk (transactionHandlingCode o) (totalPremiumPaymentAmount o)
     (creditDebitFlag o) (paymentMethodCode o) (paymentFormatCode o)
     (senderDFIIdQualifier o) (senderDFIId o) (senderAccountQualifier o)
     (senderAccountNumber o) (originatingCompanyId o)
     (originatingCompanySupplementalCode o) (receiverDFIIdQualifier o)
     (receiverDFIId o) (receiverAccountQualifier o)
     (receiverAccountNumber o) (effectiveEntryDate o) (traceNumber o)
     (dates o) v.
Arguments set_claims v o /.

End Payment.

(** The object returned by [parseN1]. *)
Module Provider.

Record t : Type := mk {
  entityIdentifierCode : value;
  name : value;
  identificationCodeQualifier : value;
  identificationCode : value
}.

End Provider.

(** The object built by [parseCAS]. *)
Module Adjustment.

Record t : Type := mk {
  claimAdjustmentGroupCode : value;
  adjustmentReasonCode1 : value;
  adjustmentAmount1 : value;
  adjustmentQuantity1 : value;
  adjustmentReasonCode2 : value;
  adjustmentAmount2 : value;
  adjustmentQuantity2 : value
}.

End Adjustment.

(** The object built by [parseNM1]. *)
Module Entity.

Record t : Type := mk {
  entityIdentifierCode : value;
  entityTypeQualifier : value;
  lastName : value;
  firstName : value;
  middleName : value;
  namePrefix : value;
  nameSuffix : value;
  identificationCodeQualifier : value;
  identificationCode : value
}.

End Entity.

(** The object assigned by [parseMIA]. *)
Module InpatientAdjudication.

Record t : Type := mk {
  coveredDays : value;
  ppsOperatingOutlierAmount : value;
  lifetimeReserveDays : value;
  coinsuranceDays : value;
  nonCoveredDays : value;
  totalDeductibleAmount : value;
  totalCoinsuranceAmount : value;
  accommodationTotalAmount : value;
  otherMedicalServiceTotalAmount : value
}.

End InpatientAdjudication.

(** The object assigned by [parseMOA]. *)
Module OutpatientAdjudication.

Record t : Type := mk {
  reimbursementRate : value;
  hcpcsPayableAmount : value;
  remarkCode1 : value;
  remarkCode2 : value;
  remarkCode3 : value;
  remarkCode4 : value;
  remarkCode5 : value;
  endStageRenalDiseasePaymentAmount : value;
  nonPayableProfessionalComponentBilledAmount : value
}.

End OutpatientAdjudication.

(** The object returned by [parseSVC]. *)
Module Service.

Record t : Type := mk {
  serviceCode : value;
  chargeAmount : value;
  paymentAmount : value;
  revenueCode : value;
  paidUnits : value;
  bundledUnits : value
}.

End Service.

(** The object returned by [parseDTMService]. *)
Module ServiceDate.

Record t : Type := mk {
  qualifier : value;
  date : value
}.

End ServiceDate.

(** The object built by [parseAMT]. *)
Module Amount.

Record t : Type := mk {
  amountQualifierCode : value;
  monetaryAmount : value
}.

End Amount.

(** The object built by [parseQTY]. *)
Module Quantity.

Record t : Type := mk {
  quantityQualifier : value;
  quantity : value
}.

End Quantity.

(** The object returned by [parsePLB]. *)
Module ProviderAdjustment.

Record t : Type := mk {
  providerIdentifier : value;
  fiscalPeriodDate : value;
  adjustmentIdentifier1 : value;
  providerAdjustmentAmount1 : value;
  adjustmentIdentifier2 : value;
  providerAdjustmentAmount2 : value
}.

End ProviderAdjustment.

(** The object returned by [parseCLP]; the remaining keys are created on first use. *)
Module Claim.

Record t : Type := mk {
  claimSubmitterIdentifier : value;
  claimStatusCode : value;
  totalClaimChargeAmount : value;
  claimPaymentAmount : value;
  patientResponsibilityAmount : value;
  claimFilingIndicatorCode : value;
  payerClaimControlNumber : value;
  facilityTypeCode : value;
  claimFrequencyCode : value;
  adjustments : option (list Adjustment.t);
  entities : option (list Entity.t);
  inpatientAdjudication : option InpatientAdjudication.t;
  outpatientAdjudication : option OutpatientAdjudication.t;
  services : option (list Service.t);
  amounts : option (list Amount.t);
  quantities : option (list Quantity.t)
}.

Definition set_adjustments (v : option (list Adjustment.t)) (o : t) : t :=
  mk (claimSubmitterIdentifier o) (claimStatusCode o)
     (totalClaimChargeAmount o) (claimPaymentAmount o)
     (patientResponsibilityAmount o) (claimFilingIndicatorCode o)
     (payerClaimControlNumber o) (facilityTypeCode o)
     (claimFrequencyCode o) v (entities o) (inpatientAdjudication o)
     (outpatientAdjudication o) (services o) (amounts o) (quantities o).
Arguments set_adjustments v o /.

Definition set_entities (v : option (list Entity.t)) (o : t) : t :=
  mk (claimSubmitterIdentifier o) (claimStatusCode o)
     (totalClaimChargeAmount o) (claimPaymentAmount o)
     (patientResponsibilityAmount o) (claimFilingIndicatorCode o)
     (payerClaimControlNumber o) (facilityTypeCode o)
     (claimFrequencyCode o) (adjustments o) v (inpatientAdjudication o)
     (outpatientAdjudication o) (services o) (amounts o) (quantities o).
Arguments set_entities v o /.

Definition set_inpatientAdjudication (v : option InpatientAdjudication.t) (o : t) : t :=
  mk (claimSubmitterIdentifier o) (claimStatusCode o)
     (totalClaimChargeAmount o) (claimPaymentAmount o)
     (patientResponsibilityAmount o) (claimFilingIndicatorCode o)
     (payerClaimControlNumber o) (facilityTypeCode o)
     (claimFrequencyCode o) (adjustments o) (entities o) v
     (outpatientAdjudication o) (services o) (amounts o) (quantities o).
Arguments set_inpatientAdjudication v o /.

Definition set_outpatientAdjudication (v : option OutpatientAdjudication.t) (o : t) : t :=
  mk (claimSubmitterIdentifier o) (claimStatusCode o)
     (totalClaimChargeAmount o) (claimPaymentAmount o)
     (patientResponsibilityAmount o) (claimFilingIndicatorCode o)
     (payerClaimControlNumber o) (facilityTypeCode o)
     (claimFrequencyCode o) (adjustments o) (entities o)
     (inpatientAdjudication o) v (services o) (amounts o) (quantities o).
Arguments set_outpatientAdjudication v o /.

Definition set_services (v : option (list Service.t)) (o : t) : t :=
  mk (claimSubmitterIdentifier o) (claimStatusCode o)
     (totalClaimChargeAmount o) (claimPaymentAmount o)
     (patientResponsibilityAmount o) (claimFilingIndicatorCode o)
     (payerClaimControlNumber o) (facilityTypeCode o)
     (claimFrequencyCode o) (adjustments o) (entities o)
     (inpatientAdjudication o) (outpatientAdjudication o) v (amounts o)
     (quantities o).
Arguments set_services v o /.

Definition set_amounts (v : option (list Amount.t)) (o : t) : t :=
  mk (claimSubmitterIdentifier o) (claimStatusCode o)
     (totalClaimChargeAmount o) (claimPaymentAmount o)
     (patientResponsibilityAmount o) (claimFilingIndicatorCode o)
     (payerClaimControlNumber o) (facilityTypeCode o)
     (claimFrequencyCode o) (adjustments o) (entities o)
     (inpatientAdjudication o) (outpatientAdjudication o) (services o) v
     (quantities o).
Arguments set_amounts v o /.

Definition set_quantities (v : option (list Quantity.t)) (o : t) : t :=
  mk (claimSubmitterIdentifier o) (claimStatusCode o)
     (totalClaimChargeAmount o) (claimPaymentAmount o)
     (patientResponsibilityAmount o) (claimFilingIndicatorCode o)
     (payerClaimControlNumber o) (facilityTypeCode o)
     (claimFrequencyCode o) (adjustments o) (entities o)
     (inpatientAdjudication o) (outpatientAdjudication o) (services o)
     (amounts o) v.
Arguments set_quantities v o /.

End Claim.

(** [this.parsedData]: every key is optional, the constructor starts from [{}].
    In [interchange], [Some None] is the empty object [{}] of the initial tree. *)
Module ParsedData.

Record t : Type := mk {
  interchange : option (option Interchange.t);
  groups : option (list Group.t);
  payments : option (list Payment.t);
  claims : option (list Claim.t);
  services : option (list Service.t);
  adjustments : option (list ProviderAdjustment.t);
  references : option (list Reference.t);
  contacts : option (list Contact.t);
  addresses : option (list Address.t);
  transactionSet : option TransactionSet.t;
  transactionSetTrailer : option TransactionSetTrailer.t;
  functionalGroupTrailer : option FunctionalGroupTrailer.t;
  interchangeTrailer : option InterchangeTrailer.t
}.

Definition set_interchange (v : option (option Interchange.t)) (o : t) : t :=
  mk v (groups o) (payments o) (claims o) (services o) (adjustments o)
     (references o) (contacts o) (addresses o) (transactionSet o)
     (transactionSetTrailer o) (functionalGroupTrailer o)
     (interchangeTrailer o).
Arguments set_interchange v o /.

Definition set_groups (v : option (list Group.t)) (o : t) : t :=
  mk (interchange o) v (payments o) (claims o) (services o)
     (adjustments o) (references o) (contacts o) (addresses o)
     (transactionSet o) (transactionSetTrailer o)
     (functionalGroupTrailer o) (interchangeTrailer o).
Arguments set_groups v o /.

Definition set_payments (v : option (list Payment.t)) (o : t) : t :=
  mk (interchange o) (groups o) v (claims o) (services o)
     (adjustments o) (references o) (contacts o) (addresses o)
     (transactionSet o) (transactionSetTrailer o)
     (functionalGroupTrailer o) (interchangeTrailer o).
Arguments set_payments v o /.

Definition set_claims (v : option (list Claim.t)) (o : t) : t :=
  mk (interchange o) (groups o) (payments o) v (services o)
     (adjustments o) (references o) (contacts o) (addresses o)
     (transactionSet o) (transactionSetTrailer o)
     (functionalGroupTrailer o) (interchangeTrailer o).
Arguments set_claims v o /.

Definition set_services (v : option (list Service.t)) (o : t) : t :=
  mk (interchange o) (groups o) (payments o) (claims o) v
     (adjustments o) (references o) (contacts o) (addresses o)
     (transactionSet o) (transactionSetTrailer o)
     (functionalGroupTrailer o) (interchangeTrailer o).
Arguments set_services v o /.

Definition set_adjustments (v : option (list ProviderAdjustment.t)) (o : t) : t :=
  mk (interchange o) (groups o) (payments o) (claims o) (services o) v
     (references o) (contacts o) (addresses o) (transactionSet o)
     (transactionSetTrailer o) (functionalGroupTrailer o)
     (interchangeTrailer o).
Arguments set_adjustments v o /.

Definition set_references (v : option (list Reference.t)) (o : t) : t :=
  mk (interchange o) (groups o) (payments o) (claims o) (services o)
     (adjustments o) v (contacts o) (addresses o) (transactionSet o)
     (transactionSetTrailer o) (functionalGroupTrailer o)
     (interchangeTrailer o).
Arguments set_references v o /.

Definition set_contacts (v : option (list Contact.t)) (o : t) : t :=
  mk (interchange o) (groups o) (payments o) (claims o) (services o)
     (adjustments o) (references o) v (addresses o) (transactionSet o)
     (transactionSetTrailer o) (functionalGroupTrailer o)
     (interchangeTrailer o).
Arguments set_contacts v o /.

Definition set_addresses (v : option (list Address.t)) (o : t) : t :=
  mk (interchange o) (groups o) (payments o) (claims o) (services o)
     (adjustments o) (references o) (contacts o) v (transactionSet o)
     (transactionSetTrailer o) (functionalGroupTrailer o)
     (interchangeTrailer o).
Arguments set_addresses v o /.

Definition set_transactionSet (v : option TransactionSet.t) (o : t) : t :=
  mk (interchange o) (groups o) (payments o) (claims o) (services o)
     (adjustments o) (references o) (contacts o) (addresses o) v
     (transactionSetTrailer o) (functionalGroupTrailer o)
     (interchangeTrailer o).
Arguments set_transactionSet v o /.

Definition set_transactionSetTrailer (v : option TransactionSetTrailer.t) (o : t) : t :=
  mk (interchange o) (groups o) (payments o) (claims o) (services o)
     (adjustments o) (references o) (contacts o) (addresses o)
     (transactionSet o) v (functionalGroupTrailer o)
     (interchangeTrailer o).
Arguments set_transactionSetTrailer v o /.

Definition set_functionalGroupTrailer (v : option FunctionalGroupTrailer.t) (o : t) : t :=
  mk (interchange o) (groups o) (payments o) (claims o) (services o)
     (adjustments o) (references o) (contacts o) (addresses o)
     (transactionSet o) (transactionSetTrailer o) v
     (interchangeTrailer o).
Arguments set_functionalGroupTrailer v o /.

Definition set_interchangeTrailer (v : option InterchangeTrailer.t) (o : t) : t :=
  mk (interchange o) (groups o) (payments o) (claims o) (services o)
     (adjustments o) (references o) (contacts o) (addresses o)
     (transactionSet o) (transactionSetTrailer o)
     (functionalGroupTrailer o) v.
Arguments set_interchangeTrailer v o /.

End ParsedData.

(** The two mutable fields of a parser instance. *)
Module Parser.

Record t : Type := mk {
  segments : list string;
  parsedData : ParsedData.t
}.

Definition set_segments (v : list string) (o : t) : t :=
  mk v (parsedData o).
Arguments set_segments v o /.

Definition set_parsedData (v : ParsedData.t) (o : t) : t :=
  mk (segments o) v.
Arguments set_parsedData v o /.

End Parser.

(** The instance together with the local variables of [parseSegments]. *)
Module Frame.

Record t : Type := mk {
  this : Parser.t;
  currentPayment : option Ref;
  currentClaim : option Ref;
  currentProvider : option Provider.t
}.

Definition set_this (v : Parser.t) (o : t) : t :=
  mk v (currentPayment o) (currentClaim o) (currentProvider o).
Arguments set_this v o /.

Definition set_currentPayment (v : option Ref) (o : t) : t :=
  mk (this o) v (currentClaim o) (currentProvider o).
Arguments set_currentPayment v o /.

Definition set_currentClaim (v : option Ref) (o : t) : t :=
  mk (this o) (currentPayment o) v (currentProvider o).
Arguments set_currentClaim v o /.

Definition set_currentProvider (v : option Provider.t) (o : t) : t :=
  mk (this o) (currentPayment o) (currentClaim o) v.
Arguments set_currentProvider v o /.

End Frame.

(** *** Handlers *)

Definition set_tree (f : ParsedData.t -> ParsedData.t) : M Parser.t unit :=
  modify (fun this => Parser.set_parsedData (f (Parser.parsedData this)) this).

(** [this.parsedData.key.push(x)] on a key that may be absent. *)
Definition push_to {A}
    (key : ParsedData.t -> option (list A))
    (set_key : option (list A) -> ParsedData.t -> ParsedData.t)
    (x : A) : M Parser.t unit :=
  this <- get ;;
  match key (Parser.parsedData this) with
  | Some l => set_tree (set_key (Some (l ++ [x])))
  | None => throw TypeError_push
  end.

Definition parseISA (elements : list string) : M Parser.t unit :=
  set_tree (ParsedData.set_interchange (Some (Some {|
    Interchange.authorizationQualifier := elements !! 1;
    Interchange.authorizationInfo := elements !! 2;
    Interchange.securityQualifier := elements !! 3;
    Interchange.securityInfo := elements !! 4;
    Interchange.senderQualifier := elements !! 5;
    Interchange.senderId := elements !! 6;
    Interchange.receiverQualifier := elements !! 7;
    Interchange.receiverId := elements !! 8;
    Interchange.date := elements !! 9;
    Interchange.time := elements !! 10;
    Interchange.repetitionSeparator := elements !! 11;
    Interchange.versionNumber := elements !! 12;
    Interchange.controlNumber := elements !! 13;
    Interchange.acknowledgmentRequested := elements !! 14;
    Interchange.testIndicator := elements !! 15 |}))).

Definition parseGS (elements : list string) : M Parser.t unit :=
  let group := {|
    Group.functionalCode := elements !! 1;
    Group.applicationSender := elements !! 2;
    Group.applicationReceiver := elements !! 3;
    Group.date := elements !! 4;
    Group.time := elements !! 5;
    Group.controlNumber := elements !! 6;
    Group.responsibleAgency := elements !! 7;
    Group.version := elements !! 8 |} in
  push_to ParsedData.groups ParsedData.set_groups group.

Definition parseST (elements : list string) : M Parser.t unit :=
  set_tree (ParsedData.set_transactionSet (Some {|
    TransactionSet.type := elements !! 1;
    TransactionSet.controlNumber := elements !! 2;
    TransactionSet.implementationGuide := elements !! 3 |})).

Definition parseBPR (elements : list string) : Payment.t :=
  {| Payment.transactionHandlingCode := elements !! 1;
     Payment.totalPremiumPaymentAmount := elements !! 2;
     Payment.creditDebitFlag := elements !! 3;
     Payment.paymentMethodCode := elements !! 4;
     Payment.paymentFormatCode := elements !! 5;
     Payment.senderDFIIdQualifier := elements !! 6;
     Payment.senderDFIId := elements !! 7;
     Payment.senderAccountQualifier := elements !! 8;
     Payment.senderAccountNumber := elements !! 9;
     Payment.originatingCompanyId := elements !! 10;
     Payment.originatingCompanySupplementalCode := elements !! 11;
     Payment.receiverDFIIdQualifier := elements !! 12;
     Payment.receiverDFIId := elements !! 13;
     Payment.receiverAccountQualifier := elements !! 14;
     Payment.receiverAccountNumber := elements !! 15;
     Payment.effectiveEntryDate := elements !! 16;
     Payment.traceNumber := None;
     Payment.dates := None;
     Payment.claims := None |}.

(** Writes through a reference to a payment. *)
Definition update_payment (r : Ref) (f : Payment.t -> Payment.t)
  : M Parser.t unit :=
  match r with
  | At i =>
      set_tree (fun tree =>
        ParsedData.set_payments (alter f i <$> ParsedData.payments tree) tree)
  | Detached => ret tt
  end.

(** Writes through a reference to a claim. *)
Definition update_claim (r : Ref) (f : Claim.t -> Claim.t) : M Parser.t unit :=
  match r with
  | At i =>
      set_tree (fun tree =>
        ParsedData.set_claims (alter f i <$> ParsedData.claims tree) tree)
  | Detached => ret tt
  end.

Definition parseTRN (elements : list string) (payment : option Ref)
  : M Parser.t unit :=
  let traceNumber := {|
    TraceNumber.traceTypeCode := elements !! 1;
    TraceNumber.traceNumber := elements !! 2;
    TraceNumber.originatingCompanyId := elements !! 3;
    TraceNumber.referenceId := elements !! 4 |} in
  match payment with
  | Some r => update_payment r (Payment.set_traceNumber (Some traceNumber))
  | None => ret tt
  end.

Definition parseREF (elements : list string) : M Parser.t unit :=
  let reference := {|
    Reference.qualifierCode := elements !! 1;
    Reference.referenceId := elements !! 2;
    Reference.description := elements !! 3 |} in
  push_to ParsedData.references ParsedData.set_references reference.

Definition parseDTM (elements : list string) (payment : option Ref)
  : M Parser.t unit :=
  let dateInfo := {|
    DateInfo.qualifier := elements !! 1;
    DateInfo.date := elements !! 2;
    DateInfo.time := elements !! 3;
    DateInfo.timeCode := elements !! 4 |} in
  match payment with
  | Some r =>
      update_payment r (fun p =>
        Payment.set_dates (push_lazy dateInfo (Payment.dates p)) p)
  | None => ret tt
  end.

Definition parseN1 (elements : list string) : Provider.t :=
  {| Provider.entityIdentifierCode := elements !! 1;
     Provider.name := elements !! 2;
     Provider.identificationCodeQualifier := elements !! 3;
     Provider.identificationCode := elements !! 4 |}.

Definition parseN3 (elements : list string) : M Parser.t unit :=
  push_to ParsedData.addresses ParsedData.set_addresses
    {| Address.addressLine1 := elements !! 1;
       Address.addressLine2 := elements !! 2;
       Address.city := None;
       Address.state := None;
       Address.postalCode := None;
       Address.countryCode := None |}.

(** [addresses?.[addresses.length - 1]] is the last address when there is
    one; the four assignments are then made to that object. *)
Definition parseN4 (elements : list string) : M Parser.t unit :=
  set_tree (fun tree =>
    match ParsedData.addresses tree with
    | Some addresses =>
        match last addresses with
        | Some _ =>
            ParsedData.set_addresses
              (Some (alter (fun lastAddress =>
                       Address.set_countryCode (Some (elements !! 4))
                         (Address.set_postalCode (Some (elements !! 3))
                            (Address.set_state (Some (elements !! 2))
                               (Address.set_city (Some (elements !! 1)) lastAddress))))
                     (List.length addresses - 1) addresses)) tree
        | None => tree
        end
    | None => tree
    end).

Definition parsePER (elements : list string) : M Parser.t unit :=
  let contact := {|
    Contact.contactFunctionCode := elements !! 1;
    Contact.name := elements !! 2;
    Contact.communicationNumberQualifier1 := elements !! 3;
    Contact.communicationNumber1 := elements !! 4;
    Contact.communicationNumberQualifier2 := elements !! 5;
    Contact.communicationNumber2 := elements !! 6 |} in
  push_to ParsedData.contacts ParsedData.set_contacts contact.

Definition parseCLP (elements : list string) : Claim.t :=
  {| Claim.claimSubmitterIdentifier := elements !! 1;
     Claim.claimStatusCode := elements !! 2;
     Claim.totalClaimChargeAmount := elements !! 3;
     Claim.claimPaymentAmount := elements !! 4;
     Claim.patientResponsibilityAmount := elements !! 5;
     Claim.claimFilingIndicatorCode := elements !! 6;
     Claim.payerClaimControlNumber := elements !! 7;
     Claim.facilityTypeCode := elements !! 8;
     Claim.claimFrequencyCode := elements !! 9;
     Claim.adjustments := None;
     Claim.entities := None;
     Claim.inpatientAdjudication := None;
     Claim.outpatientAdjudication := None;
     Claim.services := None;
     Claim.amounts := None;
     Claim.quantities := None |}.

Definition parseCAS (elements : list string) (claim : option Ref)
  : M Parser.t unit :=
  let adjustment := {|
    Adjustment.claimAdjustmentGroupCode := elements !! 1;
    Adjustment.adjustmentReasonCode1 := elements !! 2;
    Adjustment.adjustmentAmount1 := elements !! 3;
    Adjustment.adjustmentQuantity1 := elements !! 4;
    Adjustment.adjustmentReasonCode2 := elements !! 5;
    Adjustment.adjustmentAmount2 := elements !! 6;
    Adjustment.adjustmentQuantity2 := elements !! 7 |} in
  match claim with
  | Some r =>
      update_claim r (fun c =>
        Claim.set_adjustments (push_lazy adjustment (Claim.adjustments c)) c)
  | None => ret tt
  end.

Definition parseNM1 (elements : list string) (claim : option Ref)
  : M Parser.t unit :=
  let entity := {|
    Entity.entityIdentifierCode := elements !! 1;
    Entity.entityTypeQualifier := elements !! 2;
    Entity.lastName := elements !! 3;
    Entity.firstName := elements !! 4;
    Entity.middleName := elements !! 5;
    Entity.namePrefix := elements !! 6;
    Entity.nameSuffix := elements !! 7;
    Entity.identificationCodeQualifier := elements !! 8;
    Entity.identificationCode := elements !! 9 |} in
  match claim with
  | Some r =>
      update_claim r (fun c =>
        Claim.set_entities (push_lazy entity (Claim.entities c)) c)
  | None => ret tt
  end.

Definition parseMIA (elements : list string) (claim : option Ref)
  : M Parser.t unit :=
  match claim with
  | Some r =>
      update_claim r (Claim.set_inpatientAdjudication (Some {|
        InpatientAdjudication.coveredDays := elements !! 1;
        InpatientAdjudication.ppsOperatingOutlierAmount := elements !! 2;
        InpatientAdjudication.lifetimeReserveDays := elements !! 3;
        InpatientAdjudication.coinsuranceDays := elements !! 4;
        InpatientAdjudication.nonCoveredDays := elements !! 5;
        InpatientAdjudication.totalDeductibleAmount := elements !! 6;
        InpatientAdjudication.totalCoinsuranceAmount := elements !! 7;
        InpatientAdjudication.accommodationTotalAmount := elements !! 8;
        InpatientAdjudication.otherMedicalServiceTotalAmount := elements !! 9 |}))
  | None => ret tt
  end.

Definition parseMOA (elements : list string) (claim : option Ref)
  : M Parser.t unit :=
  match claim with
  | Some r =>
      update_claim r (Claim.set_outpatientAdjudication (Some {|
        OutpatientAdjudication.reimbursementRate := elements !! 1;
        OutpatientAdjudication.hcpcsPayableAmount := elements !! 2;
        OutpatientAdjudication.remarkCode1 := elements !! 3;
        OutpatientAdjudication.remarkCode2 := elements !! 4;
        OutpatientAdjudication.remarkCode3 := elements !! 5;
        OutpatientAdjudication.remarkCode4 := elements !! 6;
        OutpatientAdjudication.remarkCode5 := elements !! 7;
        OutpatientAdjudication.endStageRenalDiseasePaymentAmount := elements !! 8;
        OutpatientAdjudication.nonPayableProfessionalComponentBilledAmount :=
          elements !! 9 |}))
  | None => ret tt
  end.

Definition parseSVC (elements : list string) : Service.t :=
  {| Service.serviceCode := elements !! 1;
     Service.chargeAmount := elements !! 2;
     Service.paymentAmount := elements !! 3;
     Service.revenueCode := elements !! 4;
     Service.paidUnits := elements !! 5;
     Service.bundledUnits := elements !! 6 |}.

Definition parseDTMService (elements : list string) : ServiceDate.t :=
  {| ServiceDate.qualifier := elements !! 1;
     ServiceDate.date := elements !! 2 |}.

Definition parseAMT (elements : list string) (claim : option Ref)
  : M Parser.t unit :=
  let amount := {|
    Amount.amountQualifierCode := elements !! 1;
    Amount.monetaryAmount := elements !! 2 |} in
  match claim with
  | Some r =>
      update_claim r (fun c =>
        Claim.set_amounts (push_lazy amount (Claim.amounts c)) c)
  | None => ret tt
  end.

Definition parseQTY (elements : list string) (claim : option Ref)
  : M Parser.t unit :=
  let quantity := {|
    Quantity.quantityQualifier := elements !! 1;
    Quantity.quantity := elements !! 2 |} in
  match claim with
  | Some r =>
      update_claim r (fun c =>
        Claim.set_quantities (push_lazy quantity (Claim.quantities c)) c)
  | None => ret tt
  end.

Definition parsePLB (elements : list string) : ProviderAdjustment.t :=
  {| ProviderAdjustment.providerIdentifier := elements !! 1;
     ProviderAdjustment.fiscalPeriodDate := elements !! 2;
     ProviderAdjustment.adjustmentIdentifier1 := elements !! 3;
     ProviderAdjustment.providerAdjustmentAmount1 := elements !! 4;
     ProviderAdjustment.adjustmentIdentifier2 := elements !! 5;
     ProviderAdjustment.providerAdjustmentAmount2 := elements !! 6 |}.

Definition parseSE (elements : list string) : M Parser.t unit :=
  set_tree (ParsedData.set_transactionSetTrailer (Some {|
    TransactionSetTrailer.segmentCount := elements !! 1;
    TransactionSetTrailer.controlNumber := elements !! 2 |})).

Definition parseGE (elements : list string) : M Parser.t unit :=
  set_tree (ParsedData.set_functionalGroupTrailer (Some {|
    FunctionalGroupTrailer.transactionSetCount := elements !! 1;
    FunctionalGroupTrailer.controlNumber := elements !! 2 |})).

Definition parseIEA (elements : list string) : M Parser.t unit :=
  set_tree (ParsedData.set_interchangeTrailer (Some {|
    InterchangeTrailer.groupCount := elements !! 1;
    InterchangeTrailer.controlNumber := elements !! 2 |})).

(** *** The dispatch loop *)

Definition on_this {A} (m : M Parser.t A) : M Frame.t A :=
  zoom Frame.this Frame.set_this m.

Definition tree_of (fr : Frame.t) : ParsedData.t :=
  Parser.parsedData (Frame.this fr).

(** The reference to an object that the next statement pushes onto [l]. *)
Definition next_ref {A} (l : option (list A)) : Ref :=
  match l with
  | Some l => At (List.length l)
  | None => Detached
  end.

(** The [switch (segmentId)] of [parseSegments]. *)
Definition dispatch (segmentId : value) (elements : list string)
  : M Frame.t unit :=
  if segmentId === "ISA" then on_this (parseISA elements)
  else if segmentId === "GS" then on_this (parseGS elements)
  else if segmentId === "ST" then on_this (parseST elements)
  else if segmentId === "BPR" then
    let payment := parseBPR elements in
    fr <- get ;;
    modify (Frame.set_currentPayment
              (Some (next_ref (ParsedData.payments (tree_of fr))))) ;;;
    on_this (push_to ParsedData.payments ParsedData.set_payments payment)
  else if segmentId === "TRN" then
    fr <- get ;;
    on_this (parseTRN elements (Frame.currentPayment fr))
  else if segmentId === "REF" then on_this (parseREF elements)
  else if segmentId === "DTM" then
    fr <- get ;;
    on_this (parseDTM elements (Frame.currentPayment fr))
  else if segmentId === "N1" then
    modify (Frame.set_currentProvider (Some (parseN1 elements)))
  else if segmentId === "N3" then on_this (parseN3 elements)
  else if segmentId === "N4" then on_this (parseN4 elements)
  else if segmentId === "PER" then on_this (parsePER elements)
  else if segmentId === "CLP" then
    let claim := parseCLP elements in
    fr <- get ;;
    let currentClaim := next_ref (ParsedData.claims (tree_of fr)) in
    modify (Frame.set_currentClaim (Some currentClaim)) ;;;
    on_this (push_to ParsedData.claims ParsedData.set_claims claim) ;;;
    match Frame.currentPayment fr with
    | Some r =>
        on_this (update_payment r (fun p =>
          Payment.set_claims (push_lazy currentClaim (Payment.claims p)) p))
    | None => ret tt
    end
  else if segmentId === "CAS" then
    fr <- get ;;
    on_this (parseCAS elements (Frame.currentClaim fr))
  else if segmentId === "NM1" then
    fr <- get ;;
    on_this (parseNM1 elements (Frame.currentClaim fr))
  else if segmentId === "MIA" then
    fr <- get ;;
    on_this (parseMIA elements (Frame.currentClaim fr))
  else if segmentId === "MOA" then
    fr <- get ;;
    on_this (parseMOA elements (Frame.currentClaim fr))
  else if segmentId === "SVC" then
    let service := parseSVC elements in
    on_this (push_to ParsedData.services ParsedData.set_services service) ;;;
    fr <- get ;;
    match Frame.currentClaim fr with
    | Some r =>
        on_this (update_claim r (fun c =>
          Claim.set_services (push_lazy service (Claim.services c)) c))
    | None => ret tt
    end
  else if segmentId === "DTM_SVC" then
    let _ := parseDTMService elements in ret tt
  else if segmentId === "AMT" then
    fr <- get ;;
    on_this (parseAMT elements (Frame.currentClaim fr))
  else if segmentId === "QTY" then
    fr <- get ;;
    on_this (parseQTY elements (Frame.currentClaim fr))
  else if segmentId === "PLB" then
    let adjustment := parsePLB elements in
    on_this (push_to ParsedData.adjustments ParsedData.set_adjustments
               adjustment)
  else if segmentId === "SE" then on_this (parseSE elements)
  else if segmentId === "GE" then on_this (parseGE elements)
  else if segmentId === "IEA" then on_this (parseIEA elements)
  else ret tt.

(** One iteration of the [for] loop: the [catch] only writes a warning
    to the console and lets the loop go on. *)
Definition iteration (segment : string) : M Frame.t unit :=
  let elements := Str.split elementDelimiter segment in
  let segmentId := elements !! 0 in
  try_catch (dispatch segmentId elements) (fun _ => ret tt).

Fixpoint for_each (segments : list string) : M Frame.t unit :=
  match segments with
  | [] => ret tt
  | segment :: rest => iteration segment ;;; for_each rest
  end.

(** The frame in which the loop starts: the three locals are [null]. *)
Definition enter (this : Parser.t) : Frame.t :=
  {| Frame.this := this;
     Frame.currentPayment := None;
     Frame.currentClaim := None;
     Frame.currentProvider := None |}.

(** No handler assigns [this.segments] (lemma [segments_kept_835]), so
    the loop walks the list that it finds on entry. *)
Definition parseSegments : M Parser.t unit :=
  fun this =>
    match for_each (Parser.segments this) (enter this) with
    | Normal _ fr => Normal tt (Frame.this fr)
    | Abrupt message fr => Abrupt message (Frame.this fr)
    end.

(** *** The entry point *)

Definition cleanData (data : string) : string :=
  Str.trim (Str.remove_lf (Str.replace_cr_lf (Str.replace_crlf_lf data))).

(** The object literal assigned to [this.parsedData] by [parse]. *)
Definition fresh_tree : ParsedData.t :=
  {| ParsedData.interchange := Some None;
     ParsedData.groups := Some [];
     ParsedData.payments := Some [];
     ParsedData.claims := Some [];
     ParsedData.services := Some [];
     ParsedData.adjustments := Some [];
     ParsedData.references := Some [];
     ParsedData.contacts := Some [];
     ParsedData.addresses := Some [];
     ParsedData.transactionSet := None;
     ParsedData.transactionSetTrailer := None;
     ParsedData.functionalGroupTrailer := None;
     ParsedData.interchangeTrailer := None |}.

(** [cleanData.split('~').map(s => s.trim()).filter(s => s.length > 0)] *)
Definition tokenize (cleanData : string) : list string :=
  List.filter (fun segment => Nat.ltb 0 (String.length segment))
    (List.map Str.trim (Str.split segmentDelimiter cleanData)).

Definition parse (ediData : string) : M Parser.t ParsedData.t :=
  try_catch
    (let cleanData := cleanData ediData in
     modify (Parser.set_segments (tokenize cleanData)) ;;;
     this <- get ;;
     if Nat.eqb (List.length (Parser.segments this)) 0
     then throw "No valid EDI segments found"
     else
       modify (Parser.set_parsedData fresh_tree) ;;;
       parseSegments ;;;
       this <- get ;;
       ret (Parser.parsedData this))
    (fun message => throw ("Parsing failed: " ++ message)).

(** [{}] *)
Definition empty_object : ParsedData.t :=
  ParsedData.mk None None None None None None None None None None None
    None None.

(** [new EDI835Parser()] *)
Definition constructor : Parser.t :=
  {| Parser.segments := []; Parser.parsedData := empty_object |}.

End EDI835Parser.

(** * The renderers: classes [EDIRenderer] and [EDI835Renderer]

    The renderers turn a tree into markup and assign it to the page.  What
    they compute before any markup is made is embedded here: the summary
    cards that [renderSummaryCards] builds from the tree, the display name
    that [formatFieldName] makes of a key, and the display value that
    [formatFieldValue] makes of a key and its value.  The markup itself
    and the assignments to [innerHTML] are not embedded.

    [JSON.stringify], [parseFloat] and [Number.prototype.toFixed] are
    parameters of the embedding: what is proved holds whatever they
    return. *)

(** ** String primitives of the renderers *)

Module Text.

Definition code (c : ascii) : nat := nat_of_ascii c.

Definition between (lo hi : nat) (c : ascii) : bool :=
  Nat.leb lo (code c) && Nat.leb (code c) hi.

(** [\d] *)
Definition is_digit (c : ascii) : bool := between 48 57 c.

(** [[A-Z]] *)
Definition is_capital (c : ascii) : bool := between 65 90 c.

Fixpoint all_digits (s : string) : bool :=
  match s with
  | EmptyString => true
  | String c rest => is_digit c && all_digits rest
  end.

(** [/^\d{n}$/.test(s)] *)
Definition digits (n : nat) (s : string) : bool :=
  Nat.eqb (String.length s) n && all_digits s.

(** [toLowerCase] of a code unit below 256: the capitals of ASCII and
    those of Latin-1, among which the multiplication sign (215) is not. *)
Definition lower (c : ascii) : ascii :=
  if is_capital c || (between 192 222 c && negb (Nat.eqb (code c) 215))
  then ascii_of_nat (code c + 32)
  else c.

Fixpoint toLowerCase (s : string) : string :=
  match s with
  | EmptyString => EmptyString
  | String c rest => String (lower c) (toLowerCase rest)
  end.

(** [toUpperCase] of one code unit below 256, when the result is made of
    such code units: the sharp s (223) becomes SS, and the capitals of
    the micro sign (181) and of the y with diaeresis (255) are characters
    above 255, which a [string] does not hold. *)
Definition upper (c : ascii) : option string :=
  if Nat.eqb (code c) 181 || Nat.eqb (code c) 255 then None
  else if Nat.eqb (code c) 223 then Some "SS"
  else if between 97 122 c
          || (between 224 254 c && negb (Nat.eqb (code c) 247))
       then Some (String (ascii_of_nat (code c - 32)) EmptyString)
       else Some (String c EmptyString).

Fixpoint starts_with (prefix s : string) : bool :=
  match prefix, s with
  | EmptyString, _ => true
  | String p prefix', String c rest =>
      Ascii.eqb p c && starts_with prefix' rest
  | String _ _, EmptyString => false
  end.

(** [s.includes(sub)] *)
Fixpoint includes (sub s : string) : bool :=
  starts_with sub s
  || match s with
     | EmptyString => false
     | String _ rest => includes sub rest
     end.

(** [s.substring(start, end)]: the two indices are swapped when they
    come in the wrong order, and are cut at the length of [s]. *)
Definition substring (start end_ : nat) (s : string) : string :=
  String.substring (Nat.min start end_)
    (Nat.max start end_ - Nat.min start end_) s.

(** The double quote. *)
Definition quote : string := String (ascii_of_nat 34) EmptyString.

End Text.

(** A value that [renderDataFields] hands to [formatFieldValue]: a string,
    or an object (an array is one), of a type [Obj] that is left open.
    The values [undefined], [null] and the empty string are filtered out
    before; the trees of the two parsers hold no number and no boolean. *)
Inductive Field (Obj : Type) : Type :=
| Text (s : string)
| Object (o : Obj).

Arguments Text {Obj} s.
Arguments Object {Obj} o.

(** ** Class [EDIRenderer] *)

Module EDIRenderer.

(** An entry of the array [cards] of [renderSummaryCards]; the icon is
    the list of its UTF-16 code units. *)
Module Card.
Record t : Type := mk {
  title : string;
  count : nat;
  icon : list N;
  color : string
}.
End Card.

(** [list?.length || 0] *)
Definition length_or_0 {A} (l : option (list A)) : nat :=
  match l with
  | Some l => List.length l
  | None => 0
  end.

(** The array [cards] of [renderSummaryCards]. *)
Definition cards (data : EDI837Parser.ParsedData.t) : list Card.t :=
  [ {| Card.title := "Claims";
       Card.count := length_or_0 (EDI837Parser.ParsedData.claims data);
       Card.icon := [55357%N; 56523%N];
       Card.color := "blue" |};
    {| Card.title := "Services";
       Card.count := length_or_0 (EDI837Parser.ParsedData.services data);
       Card.icon := [55356%N; 57317%N];
       Card.color := "green" |};
    {| Card.title := "Providers";
       Card.count := length_or_0 (EDI837Parser.ParsedData.providers data);
       Card.icon := [55357%N; 56424%N; 8205%N; 9877%N; 65039%N];
       Card.color := "purple" |};
    {| Card.title := "Patients";
       Card.count := length_or_0 (EDI837Parser.ParsedData.subscribers data);
       Card.icon := [55357%N; 56420%N];
       Card.color := "indigo" |} ].

(** [key.replace(/([A-Z])/g, ' $1')] *)
Fixpoint space_capitals (s : string) : string :=
  match s with
  | EmptyString => EmptyString
  | String c rest =>
      if Text.is_capital c
      then String " " (String c (space_capitals rest))
      else String c (space_capitals rest)
  end.

(** [s.replace(/^./, str => str.toUpperCase())]: the dot matches any
    first character but a line terminator. *)
Definition capitalize (s : string) : option string :=
  match s with
  | EmptyString => Some EmptyString
  | String c rest =>
      if Ascii.eqb c Str.LF || Ascii.eqb c Str.CR then Some s
      else (fun first => (first ++ rest)%string) <$> Text.upper c
  end.

(** [None] when the result is not made of code units below 256. *)
Definition formatFieldName (key : string) : option string :=
  Str.trim <$> capitalize (space_capitals key).

Section Formatting.
Context {Obj Num : Type}.
(** [JSON.stringify(value, null, 2)] *)
Variable JSON_stringify : Obj -> string.
(** [parseFloat(value)], [None] standing for [NaN]. *)
Variable parseFloat : string -> option Num.
(** [num.toFixed(2)] *)
Variable toFixed_2 : Num -> string.

Definition formatFieldValue (key : string) (value : Field Obj) : string :=
  match value with
  | Object o =>
      ("<pre class=" ++ Text.quote ++ "code-block text-xs" ++ Text.quote
       ++ ">" ++ JSON_stringify o ++ "</pre>")%string
  | Text value =>
      if Text.includes "date" (Text.toLowerCase key)
         && Text.digits 8 value
      then
        let year := Text.substring 0 4 value in
        let month := Text.substring 4 6 value in
        let day := Text.substring 6 8 value in
        (month ++ "/" ++ day ++ "/" ++ year)%string
      else if Text.includes "time" (Text.toLowerCase key)
              && Text.digits 4 value
      then
        let hour := Text.substring 0 2 value in
        let minute := Text.substring 2 4 value in
        (hour ++ ":" ++ minute)%string
      else if Text.includes "amount" (Text.toLowerCase key)
      then
        match parseFloat value with
        | None => value
        | Some num => ("$" ++ toFixed_2 num)%string
        end
      else value
  end.
End Formatting.

End EDIRenderer.

(** ** Class [EDI835Renderer] *)

Module EDI835Renderer.

Module Card := EDIRenderer.Card.

(** [list?.length || 0] *)
Definition length_or_0 {A} (l : option (list A)) : nat :=
  match l with
  | Some l => List.length l
  | None => 0
  end.

(** The array [cards] of [renderSummaryCards]. *)
Definition cards (data : EDI835Parser.ParsedData.t) : list Card.t :=
  [ {| Card.title := "Payments";
       Card.count := length_or_0 (EDI835Parser.ParsedData.payments data);
       Card.icon := [55357%N; 56496%N];
       Card.color := "green" |};
    {| Card.title := "Claims";
       Card.count := length_or_0 (EDI835Parser.ParsedData.claims data);
       Card.icon := [55357%N; 56523%N];
       Card.color := "blue" |};
    {| Card.title := "Services";
       Card.count := length_or_0 (EDI835Parser.ParsedData.services data);
       Card.icon := [55356%N; 57317%N];
       Card.color := "purple" |};
    {| Card.title := "Adjustments";
       Card.count := length_or_0 (EDI835Parser.ParsedData.adjustments data);
       Card.icon := [9878%N; 65039%N];
       Card.color := "orange" |} ].

Definition formatFieldName (key : string) : option string :=
  Str.trim <$> EDIRenderer.capitalize (EDIRenderer.space_capitals key).

(** What [formatFieldValue] returns: a string, or, when the status code
    is the name of a member that the table [statusCodes] inherits from
    [Object.prototype], that member. *)
Inductive Shown : Type :=
| Shown_string (s : string)
| Shown_inherited (key : string).

(** The object literal [statusCodes]. *)
Definition statusCodes : list (string * string) :=
  [ ("1", "Processed as Primary");
    ("2", "Processed as Secondary");
    ("3", "Processed as Tertiary");
    ("4", "Denied");
    ("19", "Processed as Primary, Forwarded to Additional Payer(s)");
    ("20", "Processed as Secondary, Forwarded to Additional Payer(s)");
    ("21", "Processed as Tertiary, Forwarded to Additional Payer(s)");
    ("22", "Reversal of Previous Payment");
    ("23", "Not Our Claim, Forwarded to Additional Payer(s)");
    ("25", "Predetermination Pricing Only - No Payment") ].

Section Formatting.
Context {Obj Num : Type}.
(** [JSON.stringify(value, null, 2)] *)
Variable JSON_stringify : Obj -> string.
(** [parseFloat(value)], [None] standing for [NaN]. *)
Variable parseFloat : string -> option Num.
(** [num.toFixed(2)] *)
Variable toFixed_2 : Num -> string.

Definition formatFieldValue (key : string) (value : Field Obj) : Shown :=
  match value with
  | Object o =>
      Shown_string
        ("<pre class=" ++ Text.quote ++ "code-block text-xs" ++ Text.quote
         ++ ">" ++ JSON_stringify o ++ "</pre>")%string
  | Text value =>
      if Text.includes "date" (Text.toLowerCase key)
         && Text.digits 8 value
      then
        let year := Text.substring 0 4 value in
        let month := Text.substring 4 6 value in
        let day := Text.substring 6 8 value in
        Shown_string (month ++ "/" ++ day ++ "/" ++ year)%string
      else if Text.includes "date" (Text.toLowerCase key)
              && Text.digits 6 value
      then
        let year := ("20" ++ Text.substring 0 2 value)%string in
        let month := Text.substring 2 4 value in
        let day := Text.substring 4 6 value in
        Shown_string (month ++ "/" ++ day ++ "/" ++ year)%string
      else if Text.includes "time" (Text.toLowerCase key)
              && Text.digits 4 value
      then
        let hour := Text.substring 0 2 value in
        let minute := Text.substring 2 4 value in
        Shown_string (hour ++ ":" ++ minute)%string
      else if Text.includes "amount" (Text.toLowerCase key)
              || Text.includes "payment" (Text.toLowerCase key)
      then
        match parseFloat value with
        | None => Shown_string value
        | Some num => Shown_string ("$" ++ toFixed_2 num)%string
        end
      else if String.eqb key "claimStatusCode"
      then
        match EDI837Parser.own_property statusCodes value with
        | Some status => Shown_string status
        | None =>
            if existsb (String.eqb value)
                 EDI837Parser.Object_prototype_keys
            then Shown_inherited value
            else Shown_string value
        end
      else Shown_string value
  end.
End Formatting.

End EDI835Renderer.

(** * Vocabulary of the statements *)

(** [contains c s]: the character [c] occurs in [s]. *)
Fixpoint contains (c : ascii) (s : string) : bool :=
  match s with
  | EmptyString => false
  | String c' rest => Ascii.eqb c' c || contains c rest
  end.

(** What a caller of [parse] can observe of a completion: the tree that is
    returned, or the message of the error that is thrown. *)
Definition outcome {S A} (c : Completion S A) : option A * option string :=
  (result_of c, message_of c).

(** A list of the tree [grows] when entries are added at its end only: the
    entries already there keep their positions, and each is related by [R]
    to what it was (equal, for objects that are never written again).  An
    absent list counts as empty, and a list that exists stays. *)
Definition grows {A} (R : A -> A -> Prop) (old new : option (list A)) : Prop :=
  (is_Some old -> is_Some new) /\
  exists kept added,
    default [] new = kept ++ added /\ Forall2 R (default [] old) kept.

(** An address is the same object: only the keys written by [parseN4] may
    differ. *)
Definition address_kept (a a' : Address.t) : Prop :=
  Address.addressLine1 a' = Address.addressLine1 a /\
  Address.addressLine2 a' = Address.addressLine2 a.

Module Spec837.
Import EDI837Parser.

(** The frame left by one iteration of the loop, and by a run of them. *)
Definition step (fr : Frame.t) (segment : string) : Frame.t :=
  after_of (iteration segment fr).

Definition run (segments : list string) (fr : Frame.t) : Frame.t :=
  fold_left step segments fr.

(** The frame in which [parse] enters the loop. *)
Definition start (segments : list string) : Frame.t :=
  enter {| Parser.segments := segments; Parser.parsedData := fresh_tree |}.

(** A claim is the same object grown: only its three lists differ, and
    each of them has grown. *)
Definition claim_grows (c c' : Claim.t) : Prop :=
  c' = Claim.set_healthInfo (Claim.healthInfo c')
         (Claim.set_dates (Claim.dates c')
            (Claim.set_services (Claim.services c') c)) /\
  grows eq (Claim.services c) (Claim.services c') /\
  grows eq (Claim.dates c) (Claim.dates c') /\
  grows eq (Claim.healthInfo c) (Claim.healthInfo c').

(** An entity is the same object: only the keys written by [parsePRV]
    and [parseDMG] may differ. *)
Definition entity_kept (e e' : Entity.t) : Prop :=
  e' = Entity.set_demographics (Entity.demographics e')
         (Entity.set_referenceId (Entity.referenceId e')
            (Entity.set_referenceIdQualifier (Entity.referenceIdQualifier e')
               (Entity.set_providerCode (Entity.providerCode e') e))).

Definition tree_grows (t t' : ParsedData.t) : Prop :=
  grows eq (ParsedData.groups t) (ParsedData.groups t') /\
  grows claim_grows (ParsedData.claims t) (ParsedData.claims t') /\
  grows entity_kept (ParsedData.providers t) (ParsedData.providers t') /\
  grows entity_kept (ParsedData.subscribers t) (ParsedData.subscribers t') /\
  grows entity_kept (ParsedData.patients t) (ParsedData.patients t') /\
  grows eq (ParsedData.services t) (ParsedData.services t') /\
  grows eq (ParsedData.references t) (ParsedData.references t') /\
  grows eq (ParsedData.contacts t) (ParsedData.contacts t') /\
  grows address_kept (ParsedData.addresses t) (ParsedData.addresses t').

(** An invariant of the loop of [parse]: the lists of the fresh tree
    exist, and a local that is set refers to an entry of its list. *)
Record frame_ok (fr : Frame.t) : Prop := {
  has_groups : is_Some (ParsedData.groups (tree_of fr));
  has_claims : is_Some (ParsedData.claims (tree_of fr));
  has_providers : is_Some (ParsedData.providers (tree_of fr));
  has_subscribers : is_Some (ParsedData.subscribers (tree_of fr));
  has_patients : is_Some (ParsedData.patients (tree_of fr));
  has_services : is_Some (ParsedData.services (tree_of fr));
  claim_listed : forall r, Frame.currentClaim fr = Some r ->
    exists i, r = At i /\
      i < List.length (default [] (ParsedData.claims (tree_of fr)));
  subscriber_listed : forall r, Frame.currentSubscriber fr = Some r ->
    exists i, r = SubscriberAt i /\
      i < List.length (default [] (ParsedData.subscribers (tree_of fr)));
  patient_listed : forall r, Frame.currentPatient fr = Some r ->
    exists i, r = PatientAt i /\
      i < List.length (default [] (ParsedData.patients (tree_of fr)));
  provider_listed : forall r, Frame.currentProvider fr = Some r ->
    exists i, r = ProviderAt i /\
      i < List.length (default [] (ParsedData.providers (tree_of fr)))
}.

End Spec837.

Module Spec835.
Import EDI835Parser.

(** The frame left by one iteration of the loop, and by a run of them. *)
Definition step (fr : Frame.t) (segment : string) : Frame.t :=
  after_of (iteration segment fr).

Definition run (segments : list string) (fr : Frame.t) : Frame.t :=
  fold_left step segments fr.

(** The frame in which [parse] enters the loop. *)
Definition start (segments : list string) : Frame.t :=
  enter {| Parser.segments := segments; Parser.parsedData := fresh_tree |}.

(** A claim is the same object grown: only the keys created after [CLP]
    differ, and each of its lists has grown. *)
Definition claim_grows (c c' : Claim.t) : Prop :=
  c' = Claim.set_quantities (Claim.quantities c')
         (Claim.set_amounts (Claim.amounts c')
            (Claim.set_services (Claim.services c')
               (Claim.set_outpatientAdjudication
                  (Claim.outpatientAdjudication c')
                  (Claim.set_inpatientAdjudication
                     (Claim.inpatientAdjudication c')
                     (Claim.set_entities (Claim.entities c')
                        (Claim.set_adjustments (Claim.adjustments c')
                           c)))))) /\
  grows eq (Claim.adjustments c) (Claim.adjustments c') /\
  grows eq (Claim.entities c) (Claim.entities c') /\
  grows eq (Claim.services c) (Claim.services c') /\
  grows eq (Claim.amounts c) (Claim.amounts c') /\
  grows eq (Claim.quantities c) (Claim.quantities c').

(** A payment is the same object grown: only the keys created after
    [BPR] differ, and each of its lists has grown. *)
Definition payment_grows (p p' : Payment.t) : Prop :=
  p' = Payment.set_claims (Payment.claims p')
         (Payment.set_dates (Payment.dates p')
            (Payment.set_traceNumber (Payment.traceNumber p') p)) /\
  grows eq (Payment.dates p) (Payment.dates p') /\
  grows eq (Payment.claims p) (Payment.claims p').

Definition tree_grows (t t' : ParsedData.t) : Prop :=
  grows eq (ParsedData.groups t) (ParsedData.groups t') /\
  grows payment_grows (ParsedData.payments t) (ParsedData.payments t') /\
  grows claim_grows (ParsedData.claims t) (ParsedData.claims t') /\
  grows eq (ParsedData.services t) (ParsedData.services t') /\
  grows eq (ParsedData.adjustments t) (ParsedData.adjustments t') /\
  grows eq (ParsedData.references t) (ParsedData.references t') /\
  grows eq (ParsedData.contacts t) (ParsedData.contacts t') /\
  grows address_kept (ParsedData.addresses t) (ParsedData.addresses t').

(** An invariant of the loop of [parse]: the lists of the fresh tree
    exist, and a local that is set refers to an entry of its list. *)
Record frame_ok (fr : Frame.t) : Prop := {
  has_groups : is_Some (ParsedData.groups (tree_of fr));
  has_payments : is_Some (ParsedData.payments (tree_of fr));
  has_claims : is_Some (ParsedData.claims (tree_of fr));
  has_services : is_Some (ParsedData.services (tree_of fr));
  has_adjustments : is_Some (ParsedData.adjustments (tree_of fr));
  has_references : is_Some (ParsedData.references (tree_of fr));
  has_contacts : is_Some (ParsedData.contacts (tree_of fr));
  has_addresses : is_Some (ParsedData.addresses (tree_of fr));
  payment_listed : forall r, Frame.currentPayment fr = Some r ->
    exists i, r = At i /\
      i < List.length (default [] (ParsedData.payments (tree_of fr)));
  claim_listed : forall r, Frame.currentClaim fr = Some r ->
    exists i, r = At i /\
      i < List.length (default [] (ParsedData.claims (tree_of fr)))
}.

End Spec835.

(** * Vocabulary of the further properties *)

(** The segment as the loop of either parser reads it: its elements, and
    its tag. *)
Definition elements_of (segment : string) : list string :=
  Str.split "*" segment.

Definition tag_of (segment : string) : value := elements_of segment !! 0.

Definition has_tag (tag : string) (segment : string) : bool :=
  tag_of segment === tag.

(** [s] with every carriage return and line feed deleted. *)
Fixpoint strip_line_breaks (s : string) : string :=
  match s with
  | EmptyString => EmptyString
  | String c rest =>
      if Ascii.eqb c Str.CR || Ascii.eqb c Str.LF
      then strip_line_breaks rest
      else String c (strip_line_breaks rest)
  end.

(** [blank s]: every character of [s] is white space. *)
Fixpoint blank (s : string) : bool :=
  match s with
  | EmptyString => true
  | String c rest => Str.is_space c && blank rest
  end.

(** A segment as the tokenizer hands it to the loop: not empty, without
    white space at either end, without terminator and without line break. *)
Definition clean_segment (segment : string) : Prop :=
  segment <> EmptyString
  /\ Str.trim segment = segment
  /\ contains "~" segment = false
  /\ contains Str.CR segment = false
  /\ contains Str.LF segment = false.

(** The document made of the given segments, each followed by its
    terminator. *)
Fixpoint terminated (segments : list string) : string :=
  match segments with
  | [] => EmptyString
  | segment :: rest => segment ++ String "~" (terminated rest)
  end.

(** [f] applied to the last entry of a list. *)
Fixpoint map_last {A} (f : A -> A) (l : list A) : list A :=
  match l with
  | [] => []
  | [x] => [f x]
  | x :: rest => x :: map_last f rest
  end.

(** The part that a segment plays for a list of parents and the lists
    nested in them: it opens a new parent, it joins the latest parent with
    an entry, or it does neither. *)
Inductive Role (B : Type) : Type :=
| Opens
| Joins (entry : B)
| Neither.

Arguments Opens {B}.
Arguments Joins {B} entry.
Arguments Neither {B}.

(** The entries that join before the next parent opens. *)
Fixpoint joined_before_next {B} (role : string -> Role B)
    (segments : list string) : list B :=
  match segments with
  | [] => []
  | segment :: rest =>
      match role segment with
      | Opens => []
      | Joins entry => entry :: joined_before_next role rest
      | Neither => joined_before_next role rest
      end
  end.

(** For each segment that opens a parent, the entries that join it. *)
Fixpoint nested_by_parent {B} (role : string -> Role B)
    (segments : list string) : list (list B) :=
  match segments with
  | [] => []
  | segment :: rest =>
      match role segment with
      | Opens => joined_before_next role rest :: nested_by_parent role rest
      | _ => nested_by_parent role rest
      end
  end.

(** The segments that stand before the next segment of a tag. *)
Fixpoint until_next (tag : string) (segments : list string) : list string :=
  match segments with
  | [] => []
  | segment :: rest =>
      if has_tag tag segment then [] else segment :: until_next tag rest
  end.

(** The blocks of a tag: each segment of the tag with the segments that
    follow it up to the next segment of the tag.  What stands before the
    first segment of the tag is in no block. *)
Fixpoint blocks_of (tag : string) (segments : list string)
  : list (list string) :=
  match segments with
  | [] => []
  | segment :: rest =>
      if has_tag tag segment
      then (segment :: until_next tag rest) :: blocks_of tag rest
      else blocks_of tag rest
  end.

(** The parent that a run of segments makes of [parent], each segment
    acting on it by [grown]; and the parent that a block builds: the one
    that its first segment opens, grown by the others. *)
Definition grown_by {C} (grown : string -> C -> C) (segments : list string)
    (parent : C) : C :=
  fold_left (fun parent segment => grown segment parent) segments parent.

Definition parent_of_block {C} (opened : string -> C)
    (grown : string -> C -> C) (block : list string) : list C :=
  match block with
  | [] => []
  | segment :: rest => [grown_by grown rest (opened segment)]
  end.

(** The local [r] is null while the list is empty, and refers to the last
    entry of the list otherwise. *)
Definition latest {A R} (at_ : nat -> R) (r : option R) (l : option (list A))
  : Prop :=
  exists entries,
    l = Some entries
    /\ r = match entries with
           | [] => None
           | _ => Some (at_ (List.length entries - 1))
           end.

(** The entries built from the segments that carry a given tag, in order. *)
Definition built_from {B} (tag : string) (build : list string -> B)
    (segments : list string) : list B :=
  List.map (fun segment => build (elements_of segment))
    (List.filter (has_tag tag) segments).

(** The address that an N3 segment pushes, what an N4 segment writes to
    the last address, and what a segment makes of the last address. *)
Definition pushed_address (elements : list string) : Address.t :=
  {| Address.addressLine1 := elements !! 1;
     Address.addressLine2 := elements !! 2;
     Address.city := None;
     Address.state := None;
     Address.postalCode := None;
     Address.countryCode := None |}.

Definition written_address (elements : list string) (address : Address.t)
  : Address.t :=
  Address.set_countryCode (Some (elements !! 4))
    (Address.set_postalCode (Some (elements !! 3))
       (Address.set_state (Some (elements !! 2))
          (Address.set_city (Some (elements !! 1)) address))).

Definition grown_address (segment : string) (address : Address.t)
  : Address.t :=
  if has_tag "N4" segment then written_address (elements_of segment) address
  else address.

(** The address that a block of the tag N3 builds: the two lines of its N3
    segment, and the city, state, postal code and country code of the last
    N4 segment among those that follow. *)
Definition address_of_block (block : list string) : list Address.t :=
  match block with
  | [] => []
  | n3 :: rest =>
      let n4 := last (List.filter (has_tag "N4") rest) in
      [ {| Address.addressLine1 := elements_of n3 !! 1;
           Address.addressLine2 := elements_of n3 !! 2;
           Address.city := (fun segment => elements_of segment !! 1) <$> n4;
           Address.state := (fun segment => elements_of segment !! 2) <$> n4;
           Address.postalCode :=
             (fun segment => elements_of segment !! 3) <$> n4;
           Address.countryCode :=
             (fun segment => elements_of segment !! 4) <$> n4 |} ]
  end.


(** A letter of ASCII or a digit; a small letter of ASCII and its capital;
    a string whose every character passes a test; and a string without its
    spaces. *)
Definition alphanumeric (c : ascii) : bool :=
  Text.between 48 57 c || Text.between 65 90 c || Text.between 97 122 c.

Definition small_letter (c : ascii) : bool := Text.between 97 122 c.

Definition capital_of (c : ascii) : ascii := ascii_of_nat (Text.code c - 32).

Fixpoint every (p : ascii -> bool) (s : string) : bool :=
  match s with
  | EmptyString => true
  | String c rest => p c && every p rest
  end.

Fixpoint without_spaces (s : string) : string :=
  match s with
  | EmptyString => EmptyString
  | String c rest =>
      if Ascii.eqb c " " then without_spaces rest
      else String c (without_spaces rest)
  end.

Module Nest837.
Import EDI837Parser.

(** CLM opens a claim, SV1 joins the latest claim with its service. *)
Definition service_role_of (segmentId : value) (elements : list string)
  : Role Service.t :=
  if segmentId === "CLM" then Opens
  else if segmentId === "SV1" then Joins (parseSV1 elements)
  else Neither.

Definition service_role (segment : string) : Role Service.t :=
  service_role_of (tag_of segment) (elements_of segment).

(** The services nested in each claim of the tree, claim by claim. *)
Definition nested_services (tree : ParsedData.t) : list (list Service.t) :=
  List.map (fun claim => default [] (Claim.services claim))
    (default [] (ParsedData.claims tree)).

(** The frame of the loop when the tree holds one claim, which is the
    current claim; and what a segment makes of that claim. *)
Definition with_claim (claim : Claim.t) : Frame.t :=
  {| Frame.this :=
       {| Parser.segments := [];
          Parser.parsedData :=
            ParsedData.set_claims (Some [claim]) fresh_tree |};
     Frame.currentClaim := Some (At 0);
     Frame.currentSubscriber := None;
     Frame.currentPatient := None;
     Frame.currentProvider := None |}.

Definition grown_claim_of (segmentId : value) (elements : list string)
    (claim : Claim.t) : Claim.t :=
  default claim
    (default []
       (ParsedData.claims
          (tree_of (after_of (dispatch segmentId elements
                                (with_claim claim))))) !! 0).

Definition grown_claim (segment : string) : Claim.t -> Claim.t :=
  grown_claim_of (tag_of segment) (elements_of segment).

Definition opened_claim (segment : string) : Claim.t :=
  parseCLM (elements_of segment).

(** The claims of the tree held by a frame. *)
Definition claims_view (fr : Frame.t) : list Claim.t :=
  default [] (ParsedData.claims (tree_of fr)).

(** The tree of the document that holds one segment only; and the tree
    of the last segment of a tag taken alone, the fresh tree when the
    tag does not occur. *)
Definition alone (segment : string) : ParsedData.t :=
  default fresh_tree (result_of (parse (terminated [segment]) constructor)).

Definition last_alone (tag : string) (segments : list string)
  : ParsedData.t :=
  match last (List.filter (has_tag tag) segments) with
  | Some segment => alone segment
  | None => fresh_tree
  end.

(** The segments that can leave a trace in the tree: those whose tag
    the loop dispatches on. *)
Definition traced_tags : list string :=
  [ "ISA"; "GS"; "ST"; "BHT"; "NM1"; "PRV"; "DMG"; "REF"; "PER"; "CLM";
    "DTP"; "SV1"; "N3"; "N4"; "SBR"; "HI"; "LX"; "SE"; "GE"; "IEA" ].

Definition traced (segment : string) : bool :=
  existsb (fun tag => has_tag tag segment) traced_tags.

(** An NM1 segment whose entity-type code is one of [codes], and the
    entities of the segments that are such. *)
Definition names (codes : list string) (segment : string) : bool :=
  has_tag "NM1" segment
  && existsb (fun code => elements_of segment !! 1 === code) codes.

Definition entities_named (codes : list string) (segments : list string)
  : list Entity.t :=
  List.map (fun segment => parseNM1 (elements_of segment))
    (List.filter (names codes) segments).

(** A segment that depends on a parent which no segment before it has
    opened: a date or a diagnosis code before the first claim, demographics
    before the first subscriber or patient, a provider code before the
    first provider. *)
Definition orphaned (before : list string) (segment : string) : bool :=
  ((has_tag "DTP" segment || has_tag "HI" segment)
   && negb (existsb (has_tag "CLM") before))
  || (has_tag "DMG" segment
      && negb (existsb (names ["IL"; "subscriber"; "QC"; "patient"]) before))
  || (has_tag "PRV" segment
      && negb (existsb (names ["provider"]) before)).

(** The locals that are still null when no segment before has opened
    their parent. *)
Definition nulls (before : list string) (fr : Frame.t) : Prop :=
  (existsb (has_tag "CLM") before = false -> Frame.currentClaim fr = None)
  /\ (existsb (names ["IL"; "subscriber"; "QC"; "patient"]) before = false ->
      Frame.currentSubscriber fr = None /\ Frame.currentPatient fr = None)
  /\ (existsb (names ["provider"]) before = false ->
      Frame.currentProvider fr = None).

(** The current claim is the latest claim, and the flat list of services
    exists. *)
Definition claims_settled (fr : Frame.t) : Prop :=
  latest At (Frame.currentClaim fr) (ParsedData.claims (tree_of fr))
  /\ is_Some (ParsedData.services (tree_of fr)).

(** Each local is null or refers to the latest entry of its list. *)
Definition locals_settled (fr : Frame.t) : Prop :=
  latest At (Frame.currentClaim fr) (ParsedData.claims (tree_of fr))
  /\ latest SubscriberAt (Frame.currentSubscriber fr)
       (ParsedData.subscribers (tree_of fr))
  /\ latest PatientAt (Frame.currentPatient fr)
       (ParsedData.patients (tree_of fr))
  /\ latest ProviderAt (Frame.currentProvider fr)
       (ParsedData.providers (tree_of fr)).

End Nest837.

Module Nest835.
Import EDI835Parser.

(** The tree of the document that holds one segment only; and the tree
    of the last segment of a tag taken alone, the fresh tree when the
    tag does not occur. *)
Definition alone (segment : string) : ParsedData.t :=
  default fresh_tree (result_of (parse (terminated [segment]) constructor)).

Definition last_alone (tag : string) (segments : list string)
  : ParsedData.t :=
  match last (List.filter (has_tag tag) segments) with
  | Some segment => alone segment
  | None => fresh_tree
  end.

(** The segments that can leave a trace in the tree: those whose tag
    the loop dispatches on, but for N1, whose record is held by a local
    that is never read, and DTM_SVC, whose record is dropped. *)
Definition traced_tags : list string :=
  [ "ISA"; "GS"; "ST"; "BPR"; "TRN"; "REF"; "DTM"; "N3"; "N4"; "PER";
    "CLP"; "CAS"; "NM1"; "MIA"; "MOA"; "SVC"; "AMT"; "QTY"; "PLB"; "SE";
    "GE"; "IEA" ].

Definition traced (segment : string) : bool :=
  existsb (fun tag => has_tag tag segment) traced_tags.

(** CLP opens a claim, SVC joins the latest claim with its service. *)
Definition service_role_of (segmentId : value) (elements : list string)
  : Role Service.t :=
  if segmentId === "CLP" then Opens
  else if segmentId === "SVC" then Joins (parseSVC elements)
  else Neither.

Definition service_role (segment : string) : Role Service.t :=
  service_role_of (tag_of segment) (elements_of segment).

(** The services nested in each claim of the tree, claim by claim. *)
Definition nested_services (tree : ParsedData.t) : list (list Service.t) :=
  List.map (fun claim => default [] (Claim.services claim))
    (default [] (ParsedData.claims tree)).

(** The references to claims held by each payment of the tree. *)
Definition claims_of_payments (tree : ParsedData.t) : list (list Ref) :=
  List.map (fun payment => default [] (Payment.claims payment))
    (default [] (ParsedData.payments tree)).

(** The references to the claims of the CLP segments that stand before
    the next BPR segment, [k] claims having been parsed before. *)
Fixpoint claims_before_next_payment (k : nat) (segments : list string)
  : list Ref :=
  match segments with
  | [] => []
  | segment :: rest =>
      if has_tag "BPR" segment then []
      else if has_tag "CLP" segment
           then At k :: claims_before_next_payment (S k) rest
           else claims_before_next_payment k rest
  end.

(** For each BPR segment, the references to the claims of the CLP
    segments that stand between it and the next BPR segment. *)
Fixpoint claims_by_payment (k : nat) (segments : list string)
  : list (list Ref) :=
  match segments with
  | [] => []
  | segment :: rest =>
      if has_tag "BPR" segment
      then claims_before_next_payment k rest :: claims_by_payment k rest
      else if has_tag "CLP" segment
           then claims_by_payment (S k) rest
           else claims_by_payment k rest
  end.

(** The frame of the loop when the tree holds one claim, which is the
    current claim; and what a segment makes of that claim. *)
Definition with_claim (claim : Claim.t) : Frame.t :=
  {| Frame.this :=
       {| Parser.segments := [];
          Parser.parsedData :=
            ParsedData.set_claims (Some [claim]) fresh_tree |};
     Frame.currentPayment := None;
     Frame.currentClaim := Some (At 0);
     Frame.currentProvider := None |}.

Definition grown_claim_of (segmentId : value) (elements : list string)
    (claim : Claim.t) : Claim.t :=
  default claim
    (default []
       (ParsedData.claims
          (tree_of (after_of (dispatch segmentId elements
                                (with_claim claim))))) !! 0).

Definition grown_claim (segment : string) : Claim.t -> Claim.t :=
  grown_claim_of (tag_of segment) (elements_of segment).

Definition opened_claim (segment : string) : Claim.t :=
  parseCLP (elements_of segment).

(** The claims of the tree held by a frame. *)
Definition claims_view (fr : Frame.t) : list Claim.t :=
  default [] (ParsedData.claims (tree_of fr)).

(** A payment without its references to claims, which are positions in
    the list of claims of the whole tree. *)
Definition without_claims (payment : Payment.t) : Payment.t :=
  Payment.set_claims None payment.

(** The frame of the loop when the tree holds one payment, which is the
    current payment; and what a segment makes of that payment, its
    references to claims apart. *)
Definition with_payment (payment : Payment.t) : Frame.t :=
  {| Frame.this :=
       {| Parser.segments := [];
          Parser.parsedData :=
            ParsedData.set_payments (Some [payment]) fresh_tree |};
     Frame.currentPayment := Some (At 0);
     Frame.currentClaim := None;
     Frame.currentProvider := None |}.

Definition grown_payment_of (segmentId : value) (elements : list string)
    (payment : Payment.t) : Payment.t :=
  without_claims
    (default payment
       (default []
          (ParsedData.payments
             (tree_of (after_of (dispatch segmentId elements
                                   (with_payment payment))))) !! 0)).

Definition grown_payment (segment : string) : Payment.t -> Payment.t :=
  grown_payment_of (tag_of segment) (elements_of segment).

Definition opened_payment (segment : string) : Payment.t :=
  without_claims (parseBPR (elements_of segment)).

(** The payments of the tree held by a frame, without their references
    to claims. *)
Definition payments_view (fr : Frame.t) : list Payment.t :=
  List.map without_claims (default [] (ParsedData.payments (tree_of fr))).

(** A segment that depends on a parent which no segment before it has
    opened: a trace number or a date before the first payment, and an
    adjustment, an entity, an adjudication record, an amount or a quantity
    before the first claim. *)
Definition orphaned (before : list string) (segment : string) : bool :=
  ((has_tag "TRN" segment || has_tag "DTM" segment)
   && negb (existsb (has_tag "BPR") before))
  || (existsb (fun tag => has_tag tag segment)
        ["CAS"; "NM1"; "MIA"; "MOA"; "AMT"; "QTY"]
      && negb (existsb (has_tag "CLP") before)).

(** The locals that are still null when no segment before has opened
    their parent. *)
Definition nulls (before : list string) (fr : Frame.t) : Prop :=
  (existsb (has_tag "BPR") before = false -> Frame.currentPayment fr = None)
  /\ (existsb (has_tag "CLP") before = false -> Frame.currentClaim fr = None).

(** Each local that refers into the tree is null or refers to the latest
    entry of its list; the flat list of services exists. *)
Definition locals_settled (fr : Frame.t) : Prop :=
  latest At (Frame.currentPayment fr) (ParsedData.payments (tree_of fr))
  /\ latest At (Frame.currentClaim fr) (ParsedData.claims (tree_of fr))
  /\ is_Some (ParsedData.services (tree_of fr)).

End Nest835.
(** * Vocabulary of the reference reading of a document

    The reading of a document that the specification describes (sections
    4.3 and 4.4): one pass over the segments, in which each recognized tag
    has one effect on the tree and on the current pointers, an effect that
    never fails; a record is read by position, and a position beyond the
    last element of the segment reads as absent.  It is written as pure
    functions of the frame, without the handlers of either class, their
    exceptions or their instance; the positions of each record are those
    that its handler reads in [script.js].  The theorems compare the two
    classes with it. *)

(** The element at position [k] of a segment: absent beyond the last
    element. *)
Definition reading (elements : list string) (k : nat) : value :=
  if Nat.ltb k (List.length elements)
  then Some (List.nth k elements EmptyString)
  else None.

(** A list that is created by the first entry appended to it: absent
    while nothing has been appended. *)
Definition lazily {A} (entries : list A) : option (list A) :=
  match entries with
  | [] => None
  | _ => Some entries
  end.

(** Appending an entry to a list of the tree; an absent list is created,
    and then holds that entry only. *)
Definition appended {A} (entry : A) (l : option (list A)) : option (list A) :=
  Some (default [] l ++ [entry]).

(** Appending several entries, in order; nothing is created when there
    is no entry to append. *)
Definition extended {A} (entries : list A) (l : option (list A))
  : option (list A) :=
  match entries with
  | [] => l
  | _ => Some (default [] l ++ entries)
  end.

(** Writing to the entry at position [i] of a list of the tree. *)
Definition written {A} (i : nat) (f : A -> A) (l : option (list A))
  : option (list A) :=
  match l with
  | Some entries => Some (alter f i entries)
  | None => None
  end.

(** The records read from the segments that carry a given tag, in the
    order of the segments. *)
Definition read_from {B} (tag : string) (record : (nat -> value) -> B)
    (segments : list string) : list B :=
  List.map (fun segment => record (reading (elements_of segment)))
    (List.filter (has_tag tag) segments).

(** The part of a segment for the lists nested in the parents that the
    tag [parent] opens and that the tag [child] joins. *)
Definition nests {B} (parent child : string) (record : (nat -> value) -> B)
    (segment : string) : Role B :=
  if has_tag parent segment then Opens
  else if has_tag child segment
       then Joins (record (reading (elements_of segment)))
       else Neither.

(** ** The records that both decoders read *)

Module Expected.

(** ISA: positions 1 to 15. *)
Definition interchange (read : nat -> value) : Interchange.t :=
  {| Interchange.authorizationQualifier := read 1;
     Interchange.authorizationInfo := read 2;
     Interchange.securityQualifier := read 3;
     Interchange.securityInfo := read 4;
     Interchange.senderQualifier := read 5;
     Interchange.senderId := read 6;
     Interchange.receiverQualifier := read 7;
     Interchange.receiverId := read 8;
     Interchange.date := read 9;
     Interchange.time := read 10;
     Interchange.repetitionSeparator := read 11;
     Interchange.versionNumber := read 12;
     Interchange.controlNumber := read 13;
     Interchange.acknowledgmentRequested := read 14;
     Interchange.testIndicator := read 15 |}.

(** GS: positions 1 to 8. *)
Definition group (read : nat -> value) : Group.t :=
  {| Group.functionalCode := read 1;
     Group.applicationSender := read 2;
     Group.applicationReceiver := read 3;
     Group.date := read 4;
     Group.time := read 5;
     Group.controlNumber := read 6;
     Group.responsibleAgency := read 7;
     Group.version := read 8 |}.

(** ST: positions 1 to 3. *)
Definition transactionSet (read : nat -> value) : TransactionSet.t :=
  {| TransactionSet.type := read 1;
     TransactionSet.controlNumber := read 2;
     TransactionSet.implementationGuide := read 3 |}.

(** REF: positions 1 to 3. *)
Definition reference (read : nat -> value) : Reference.t :=
  {| Reference.qualifierCode := read 1;
     Reference.referenceId := read 2;
     Reference.description := read 3 |}.

(** PER: positions 1 to 6. *)
Definition contact (read : nat -> value) : Contact.t :=
  {| Contact.contactFunctionCode := read 1;
     Contact.name := read 2;
     Contact.communicationNumberQualifier1 := read 3;
     Contact.communicationNumber1 := read 4;
     Contact.communicationNumberQualifier2 := read 5;
     Contact.communicationNumber2 := read 6 |}.

(** N3: positions 1 and 2; the other four keys are not created. *)
Definition address (read : nat -> value) : Address.t :=
  {| Address.addressLine1 := read 1;
     Address.addressLine2 := read 2;
     Address.city := None;
     Address.state := None;
     Address.postalCode := None;
     Address.countryCode := None |}.

(** SE: positions 1 and 2. *)
Definition transactionSetTrailer (read : nat -> value) : TransactionSetTrailer.t :=
  {| TransactionSetTrailer.segmentCount := read 1;
     TransactionSetTrailer.controlNumber := read 2 |}.

(** GE: positions 1 and 2. *)
Definition functionalGroupTrailer (read : nat -> value) : FunctionalGroupTrailer.t :=
  {| FunctionalGroupTrailer.transactionSetCount := read 1;
     FunctionalGroupTrailer.controlNumber := read 2 |}.

(** IEA: positions 1 and 2. *)
Definition interchangeTrailer (read : nat -> value) : InterchangeTrailer.t :=
  {| InterchangeTrailer.groupCount := read 1;
     InterchangeTrailer.controlNumber := read 2 |}.

(** N4: positions 1 to 4, written to an address that exists. *)
Definition located (read : nat -> value) (address : Address.t) : Address.t :=
  {| Address.addressLine1 := Address.addressLine1 address;
     Address.addressLine2 := Address.addressLine2 address;
     Address.city := Some (read 1);
     Address.state := Some (read 2);
     Address.postalCode := Some (read 3);
     Address.countryCode := Some (read 4) |}.

End Expected.

(** ** The 837 decoder *)

Module Expected837.
Import EDI837Parser.

(** BHT: positions 1 to 6. *)
Definition beginningTransaction (read : nat -> value) : BeginningTransaction.t :=
  {| BeginningTransaction.hierarchicalStructure := read 1;
     BeginningTransaction.transactionPurpose := read 2;
     BeginningTransaction.referenceId := read 3;
     BeginningTransaction.date := read 4;
     BeginningTransaction.time := read 5;
     BeginningTransaction.transactionType := read 6 |}.

(** DMG: positions 1 to 3. *)
Definition demographics (read : nat -> value) : Demographics.t :=
  {| Demographics.dateFormat := read 1;
     Demographics.birthDate := read 2;
     Demographics.gender := read 3 |}.

(** CLM: positions 1, 2 and 5 to 9; the three lists are not created. *)
Definition claim (read : nat -> value) : Claim.t :=
  {| Claim.claimId := read 1;
     Claim.totalChargeAmount := read 2;
     Claim.placeOfService := read 5;
     Claim.providerSignatureIndicator := read 6;
     Claim.assignmentOfBenefitsIndicator := read 7;
     Claim.releaseOfInformationIndicator := read 8;
     Claim.patientSignatureSourceCode := read 9;
     Claim.services := None;
     Claim.dates := None;
     Claim.healthInfo := None |}.

(** DTP: positions 1 to 3. *)
Definition dateInfo (read : nat -> value) : DateInfo.t :=
  {| DateInfo.qualifier := read 1;
     DateInfo.formatQualifier := read 2;
     DateInfo.date := read 3 |}.

(** SV1: positions 1 to 5 and 7. *)
Definition service (read : nat -> value) : Service.t :=
  {| Service.serviceCode := read 1;
     Service.chargeAmount := read 2;
     Service.unitOfMeasure := read 3;
     Service.serviceUnits := read 4;
     Service.placeOfService := read 5;
     Service.diagnosisPointer := read 7 |}.

(** SBR: positions 1 to 5 and 9. *)
Definition subscriberInfo (read : nat -> value) : SubscriberInfo.t :=
  {| SubscriberInfo.payerResponsibilitySequence := read 1;
     SubscriberInfo.individualRelationshipCode := read 2;
     SubscriberInfo.groupOrPolicyNumber := read 3;
     SubscriberInfo.groupName := read 4;
     SubscriberInfo.insuranceTypeCode := read 5;
     SubscriberInfo.coordinationOfBenefitsCode := read 9 |}.

(** The role of an entity-type code: the seven codes of the table, and
    the code itself otherwise.  A code that names a member of every
    object resolves to that member, which is no string. *)
Definition inherited (code : string) : bool :=
  existsb (String.eqb code)
    [ "constructor"; "hasOwnProperty"; "isPrototypeOf";
      "propertyIsEnumerable"; "toLocaleString"; "toString"; "valueOf";
      "__proto__"; "__defineGetter__"; "__defineSetter__";
      "__lookupGetter__"; "__lookupSetter__" ].

Definition role (code : value) : EntityType :=
  match code with
  | None => TypeUndefined
  | Some c =>
      if String.eqb c "85" then TypeString "billing_provider"
      else if String.eqb c "IL" then TypeString "subscriber"
      else if String.eqb c "QC" then TypeString "patient"
      else if String.eqb c "PR" then TypeString "payer"
      else if String.eqb c "82" then TypeString "rendering_provider"
      else if String.eqb c "77" then TypeString "service_facility"
      else if String.eqb c "DN" then TypeString "referring_provider"
      else if inherited c then TypeInherited c
      else TypeString c
  end.

(** The role is the string [name]. *)
Definition is_role (name : string) (t : EntityType) : bool :=
  match t with
  | TypeString s => String.eqb s name
  | _ => false
  end.

(** NM1: the role of position 1, and positions 1 to 9; the keys of PRV
    and DMG are not created. *)
Definition entity (read : nat -> value) : Entity.t :=
  {| Entity.type := role (read 1);
     Entity.entityTypeCode := read 1;
     Entity.entityType := read 2;
     Entity.lastName := read 3;
     Entity.firstName := read 4;
     Entity.middleName := read 5;
     Entity.namePrefix := read 6;
     Entity.nameSuffix := read 7;
     Entity.identificationQualifier := read 8;
     Entity.identificationCode := read 9;
     Entity.providerCode := None;
     Entity.referenceIdQualifier := None;
     Entity.referenceId := None;
     Entity.demographics := None |}.

(** PRV: positions 1 to 3, written to an entity that exists. *)
Definition qualified (read : nat -> value) (e : Entity.t) : Entity.t :=
  {| Entity.type := Entity.type e;
     Entity.entityTypeCode := Entity.entityTypeCode e;
     Entity.entityType := Entity.entityType e;
     Entity.lastName := Entity.lastName e;
     Entity.firstName := Entity.firstName e;
     Entity.middleName := Entity.middleName e;
     Entity.namePrefix := Entity.namePrefix e;
     Entity.nameSuffix := Entity.nameSuffix e;
     Entity.identificationQualifier := Entity.identificationQualifier e;
     Entity.identificationCode := Entity.identificationCode e;
     Entity.providerCode := Some (read 1);
     Entity.referenceIdQualifier := Some (read 2);
     Entity.referenceId := Some (read 3);
     Entity.demographics := Entity.demographics e |}.

(** The part [k] of a composite element, its parts being separated by a
    colon; absent when the element is, or when it has fewer parts. *)
Definition part (element : value) (k : nat) : value :=
  match element with
  | Some s => reading (Str.split ":" s) k
  | None => None
  end.

(** HI: the two parts of position 1, and positions 2 and 3. *)
Definition healthInfo (read : nat -> value) : HealthInfo.t :=
  {| HealthInfo.codeQualifier := part (read 1) 0;
     HealthInfo.code := part (read 1) 1;
     HealthInfo.dateQualifier := read 2;
     HealthInfo.date := read 3 |}.

(** The frame with another tree. *)
Definition put (tree : ParsedData.t) (fr : Frame.t) : Frame.t :=
  {| Frame.this :=
       {| Parser.segments := Parser.segments (Frame.this fr);
          Parser.parsedData := tree |};
     Frame.currentClaim := Frame.currentClaim fr;
     Frame.currentSubscriber := Frame.currentSubscriber fr;
     Frame.currentPatient := Frame.currentPatient fr;
     Frame.currentProvider := Frame.currentProvider fr |}.

(** A write to the current claim, dropped when there is none. *)
Definition on_claim (f : Claim.t -> Claim.t) (fr : Frame.t) : Frame.t :=
  match Frame.currentClaim fr with
  | Some (At i) =>
      put (ParsedData.set_claims
             (written i f (ParsedData.claims (tree_of fr))) (tree_of fr)) fr
  | _ => fr
  end.

(** A write to the entity that a pointer refers to, dropped when the
    pointer is not set. *)
Definition on_entity (pointer : option EntityRef)
    (f : Entity.t -> Entity.t) (fr : Frame.t) : Frame.t :=
  match pointer with
  | Some (SubscriberAt i) =>
      put (ParsedData.set_subscribers
             (written i f (ParsedData.subscribers (tree_of fr)))
             (tree_of fr)) fr
  | Some (PatientAt i) =>
      put (ParsedData.set_patients
             (written i f (ParsedData.patients (tree_of fr)))
             (tree_of fr)) fr
  | Some (ProviderAt i) =>
      put (ParsedData.set_providers
             (written i f (ParsedData.providers (tree_of fr)))
             (tree_of fr)) fr
  | _ => fr
  end.

(** The position that the next entry of a list takes. *)
Definition next {A} (l : option (list A)) : nat :=
  List.length (default [] l).

(** The effect of one segment on the tree and on the four current
    pointers. *)
Definition effect (fr : Frame.t) (segment : string) : Frame.t :=
  let read := reading (elements_of segment) in
  let tag := read 0 in
  let tree := tree_of fr in
  if tag === "ISA" then
    put (ParsedData.set_interchange
           (Some (Some (Expected.interchange read))) tree) fr
  else if tag === "GS" then
    put (ParsedData.set_groups
           (appended (Expected.group read) (ParsedData.groups tree)) tree) fr
  else if tag === "ST" then
    put (ParsedData.set_transactionSet
           (Some (Expected.transactionSet read)) tree) fr
  else if tag === "BHT" then
    put (ParsedData.set_beginningTransaction
           (Some (beginningTransaction read)) tree) fr
  else if tag === "NM1" then
    if is_role "subscriber" (role (read 1)) then
      Frame.set_currentSubscriber
        (Some (SubscriberAt (next (ParsedData.subscribers tree))))
        (put (ParsedData.set_subscribers
                (appended (entity read) (ParsedData.subscribers tree))
                tree) fr)
    else if is_role "patient" (role (read 1)) then
      Frame.set_currentPatient
        (Some (PatientAt (next (ParsedData.patients tree))))
        (put (ParsedData.set_patients
                (appended (entity read) (ParsedData.patients tree))
                tree) fr)
    else if is_role "provider" (role (read 1)) then
      Frame.set_currentProvider
        (Some (ProviderAt (next (ParsedData.providers tree))))
        (put (ParsedData.set_providers
                (appended (entity read) (ParsedData.providers tree))
                tree) fr)
    else fr
  else if tag === "PRV" then
    on_entity (Frame.currentProvider fr) (qualified read) fr
  else if tag === "DMG" then
    on_entity
      (match Frame.currentSubscriber fr with
       | Some subscriber => Some subscriber
       | None => Frame.currentPatient fr
       end)
      (Entity.set_demographics (Some (demographics read))) fr
  else if tag === "REF" then
    put (ParsedData.set_references
           (appended (Expected.reference read) (ParsedData.references tree))
           tree) fr
  else if tag === "PER" then
    put (ParsedData.set_contacts
           (appended (Expected.contact read) (ParsedData.contacts tree))
           tree) fr
  else if tag === "CLM" then
    Frame.set_currentClaim (Some (At (next (ParsedData.claims tree))))
      (put (ParsedData.set_claims
              (appended (claim read) (ParsedData.claims tree)) tree) fr)
  else if tag === "DTP" then
    on_claim (fun c =>
      Claim.set_dates (appended (dateInfo read) (Claim.dates c)) c) fr
  else if tag === "SV1" then
    on_claim (fun c =>
      Claim.set_services (appended (service read) (Claim.services c)) c)
      (put (ParsedData.set_services
              (appended (service read) (ParsedData.services tree)) tree) fr)
  else if tag === "N3" then
    put (ParsedData.set_addresses
           (appended (Expected.address read) (ParsedData.addresses tree))
           tree) fr
  else if tag === "N4" then
    put (ParsedData.set_addresses
           (map_last (Expected.located read) <$> ParsedData.addresses tree)
           tree) fr
  else if tag === "SBR" then
    put (ParsedData.set_subscriberInfo (Some (subscriberInfo read)) tree) fr
  else if tag === "HI" then
    on_claim (fun c =>
      Claim.set_healthInfo
        (appended (healthInfo read) (Claim.healthInfo c)) c) fr
  else if tag === "LX" then
    put (ParsedData.set_serviceLineNumber (Some (read 1)) tree) fr
  else if tag === "SE" then
    put (ParsedData.set_transactionSetTrailer
           (Some (Expected.transactionSetTrailer read)) tree) fr
  else if tag === "GE" then
    put (ParsedData.set_functionalGroupTrailer
           (Some (Expected.functionalGroupTrailer read)) tree) fr
  else if tag === "IEA" then
    put (ParsedData.set_interchangeTrailer
           (Some (Expected.interchangeTrailer read)) tree) fr
  else fr.

(** The frame that a run of segments leaves. *)
Definition reads (segments : list string) (fr : Frame.t) : Frame.t :=
  fold_left effect segments fr.

(** A claim, an entity without the keys that later segments create. *)
Definition bare_claim (c : Claim.t) : Claim.t :=
  Claim.set_healthInfo None (Claim.set_dates None (Claim.set_services None c)).

Definition bare_entity (e : Entity.t) : Entity.t :=
  Entity.set_demographics None
    (Entity.set_referenceId None
       (Entity.set_referenceIdQualifier None
          (Entity.set_providerCode None e))).

(** An NM1 segment whose code resolves to the given role. *)
Definition plays (name : string) (segment : string) : bool :=
  has_tag "NM1" segment
  && is_role name (role (reading (elements_of segment) 1)).

Definition entities_read (name : string) (segments : list string)
  : list Entity.t :=
  List.map (fun segment => entity (reading (elements_of segment)))
    (List.filter (plays name) segments).

(** What the loop of [parse] maintains: the lists of the fresh tree
    exist, and each current pointer is null or refers to the latest entry
    of its list. *)
Definition settled (fr : Frame.t) : Prop :=
  Spec837.frame_ok fr /\ Nest837.locals_settled fr.

(** The lists of a tree are those read from the segments [pre], in the
    order of the segments.  The six lists of the fresh tree exist, and are
    empty when no segment of [pre] appends to them.  The other lists are
    absent until a segment appends to them: the references, contacts and
    addresses of the tree, and in each claim the services, dates and
    diagnosis codes of the segments that stand between its CLM segment
    and the next. *)
Definition lists_read (pre : list string) (tree : ParsedData.t) : Prop :=
  ParsedData.groups tree = Some (read_from "GS" Expected.group pre)
  /\ ParsedData.services tree = Some (read_from "SV1" service pre)
  /\ (exists claims,
        ParsedData.claims tree = Some claims
        /\ List.map bare_claim claims = read_from "CLM" claim pre
        /\ List.map Claim.services claims
           = List.map lazily
               (nested_by_parent (nests "CLM" "SV1" service) pre)
        /\ List.map Claim.dates claims
           = List.map lazily
               (nested_by_parent (nests "CLM" "DTP" dateInfo) pre)
        /\ List.map Claim.healthInfo claims
           = List.map lazily
               (nested_by_parent (nests "CLM" "HI" healthInfo) pre))
  /\ (exists subscribers,
        ParsedData.subscribers tree = Some subscribers
        /\ List.map bare_entity subscribers = entities_read "subscriber" pre)
  /\ (exists patients,
        ParsedData.patients tree = Some patients
        /\ List.map bare_entity patients = entities_read "patient" pre)
  /\ (exists providers,
        ParsedData.providers tree = Some providers
        /\ List.map bare_entity providers = entities_read "provider" pre)
  /\ ParsedData.references tree
     = lazily (read_from "REF" Expected.reference pre)
  /\ ParsedData.contacts tree = lazily (read_from "PER" Expected.contact pre)
  /\ ParsedData.addresses tree
     = lazily (flat_map address_of_block (blocks_of "N3" pre)).

End Expected837.

(** ** The 835 decoder *)

Module Expected835.
Import EDI835Parser.

(** BPR: positions 1 to 16; the trace number and the two lists are not created. *)
Definition payment (read : nat -> value) : Payment.t :=
  {| Payment.transactionHandlingCode := read 1;
     Payment.totalPremiumPaymentAmount := read 2;
     Payment.creditDebitFlag := read 3;
     Payment.paymentMethodCode := read 4;
     Payment.paymentFormatCode := read 5;
     Payment.senderDFIIdQualifier := read 6;
     Payment.senderDFIId := read 7;
     Payment.senderAccountQualifier := read 8;
     Payment.senderAccountNumber := read 9;
     Payment.originatingCompanyId := read 10;
     Payment.originatingCompanySupplementalCode := read 11;
     Payment.receiverDFIIdQualifier := read 12;
     Payment.receiverDFIId := read 13;
     Payment.receiverAccountQualifier := read 14;
     Payment.receiverAccountNumber := read 15;
     Payment.effectiveEntryDate := read 16;
     Payment.traceNumber := None;
     Payment.dates := None;
     Payment.claims := None |}.

(** TRN: positions 1 to 4. *)
Definition traceNumber (read : nat -> value) : TraceNumber.t :=
  {| TraceNumber.traceTypeCode := read 1;
     TraceNumber.traceNumber := read 2;
     TraceNumber.originatingCompanyId := read 3;
     TraceNumber.referenceId := read 4 |}.

(** DTM: positions 1 to 4. *)
Definition dateInfo (read : nat -> value) : DateInfo.t :=
  {| DateInfo.qualifier := read 1;
     DateInfo.date := read 2;
     DateInfo.time := read 3;
     DateInfo.timeCode := read 4 |}.

(** N1: positions 1 to 4. *)
Definition provider (read : nat -> value) : Provider.t :=
  {| Provider.entityIdentifierCode := read 1;
     Provider.name := read 2;
     Provider.identificationCodeQualifier := read 3;
     Provider.identificationCode := read 4 |}.

(** CLP: positions 1 to 9; the other keys are not created. *)
Definition claim (read : nat -> value) : Claim.t :=
  {| Claim.claimSubmitterIdentifier := read 1;
     Claim.claimStatusCode := read 2;
     Claim.totalClaimChargeAmount := read 3;
     Claim.claimPaymentAmount := read 4;
     Claim.patientResponsibilityAmount := read 5;
     Claim.claimFilingIndicatorCode := read 6;
     Claim.payerClaimControlNumber := read 7;
     Claim.facilityTypeCode := read 8;
     Claim.claimFrequencyCode := read 9;
     Claim.adjustments := None;
     Claim.entities := None;
     Claim.inpatientAdjudication := None;
     Claim.outpatientAdjudication := None;
     Claim.services := None;
     Claim.amounts := None;
     Claim.quantities := None |}.

(** CAS: positions 1 to 7. *)
Definition adjustment (read : nat -> value) : Adjustment.t :=
  {| Adjustment.claimAdjustmentGroupCode := read 1;
     Adjustment.adjustmentReasonCode1 := read 2;
     Adjustment.adjustmentAmount1 := read 3;
     Adjustment.adjustmentQuantity1 := read 4;
     Adjustment.adjustmentReasonCode2 := read 5;
     Adjustment.adjustmentAmount2 := read 6;
     Adjustment.adjustmentQuantity2 := read 7 |}.

(** NM1: positions 1 to 9. *)
Definition entity (read : nat -> value) : Entity.t :=
  {| Entity.entityIdentifierCode := read 1;
     Entity.entityTypeQualifier := read 2;
     Entity.lastName := read 3;
     Entity.firstName := read 4;
     Entity.middleName := read 5;
     Entity.namePrefix := read 6;
     Entity.nameSuffix := read 7;
     Entity.identificationCodeQualifier := read 8;
     Entity.identificationCode := read 9 |}.

(** MIA: positions 1 to 9. *)
Definition inpatientAdjudication (read : nat -> value) : InpatientAdjudication.t :=
  {| InpatientAdjudication.coveredDays := read 1;
     InpatientAdjudication.ppsOperatingOutlierAmount := read 2;
     InpatientAdjudication.lifetimeReserveDays := read 3;
     InpatientAdjudication.coinsuranceDays := read 4;
     InpatientAdjudication.nonCoveredDays := read 5;
     InpatientAdjudication.totalDeductibleAmount := read 6;
     InpatientAdjudication.totalCoinsuranceAmount := read 7;
     InpatientAdjudication.accommodationTotalAmount := read 8;
     InpatientAdjudication.otherMedicalServiceTotalAmount := read 9 |}.

(** MOA: positions 1 to 9. *)
Definition outpatientAdjudication (read : nat -> value) : OutpatientAdjudication.t :=
  {| OutpatientAdjudication.reimbursementRate := read 1;
     OutpatientAdjudication.hcpcsPayableAmount := read 2;
     OutpatientAdjudication.remarkCode1 := read 3;
     OutpatientAdjudication.remarkCode2 := read 4;
     OutpatientAdjudication.remarkCode3 := read 5;
     OutpatientAdjudication.remarkCode4 := read 6;
     OutpatientAdjudication.remarkCode5 := read 7;
     OutpatientAdjudication.endStageRenalDiseasePaymentAmount := read 8;
     OutpatientAdjudication.nonPayableProfessionalComponentBilledAmount := read 9 |}.

(** SVC: positions 1 to 6. *)
Definition service (read : nat -> value) : Service.t :=
  {| Service.serviceCode := read 1;
     Service.chargeAmount := read 2;
     Service.paymentAmount := read 3;
     Service.revenueCode := read 4;
     Service.paidUnits := read 5;
     Service.bundledUnits := read 6 |}.

(** AMT: positions 1 and 2. *)
Definition amount (read : nat -> value) : Amount.t :=
  {| Amount.amountQualifierCode := read 1;
     Amount.monetaryAmount := read 2 |}.

(** QTY: positions 1 and 2. *)
Definition quantity (read : nat -> value) : Quantity.t :=
  {| Quantity.quantityQualifier := read 1;
     Quantity.quantity := read 2 |}.

(** PLB: positions 1 to 6. *)
Definition providerAdjustment (read : nat -> value) : ProviderAdjustment.t :=
  {| ProviderAdjustment.providerIdentifier := read 1;
     ProviderAdjustment.fiscalPeriodDate := read 2;
     ProviderAdjustment.adjustmentIdentifier1 := read 3;
     ProviderAdjustment.providerAdjustmentAmount1 := read 4;
     ProviderAdjustment.adjustmentIdentifier2 := read 5;
     ProviderAdjustment.providerAdjustmentAmount2 := read 6 |}.

(** The frame with another tree. *)
Definition put (tree : ParsedData.t) (fr : Frame.t) : Frame.t :=
  {| Frame.this :=
       {| Parser.segments := Parser.segments (Frame.this fr);
          Parser.parsedData := tree |};
     Frame.currentPayment := Frame.currentPayment fr;
     Frame.currentClaim := Frame.currentClaim fr;
     Frame.currentProvider := Frame.currentProvider fr |}.

(** A write to the current payment, to the current claim, dropped when
    there is none. *)
Definition on_payment (f : Payment.t -> Payment.t) (fr : Frame.t)
  : Frame.t :=
  match Frame.currentPayment fr with
  | Some (At i) =>
      put (ParsedData.set_payments
             (written i f (ParsedData.payments (tree_of fr))) (tree_of fr))
          fr
  | _ => fr
  end.

Definition on_claim (f : Claim.t -> Claim.t) (fr : Frame.t) : Frame.t :=
  match Frame.currentClaim fr with
  | Some (At i) =>
      put (ParsedData.set_claims
             (written i f (ParsedData.claims (tree_of fr))) (tree_of fr)) fr
  | _ => fr
  end.

(** The position that the next entry of a list takes. *)
Definition next {A} (l : option (list A)) : nat :=
  List.length (default [] l).

(** The effect of one segment on the tree and on the three current
    pointers. *)
Definition effect (fr : Frame.t) (segment : string) : Frame.t :=
  let read := reading (elements_of segment) in
  let tag := read 0 in
  let tree := tree_of fr in
  if tag === "ISA" then
    put (ParsedData.set_interchange
           (Some (Some (Expected.interchange read))) tree) fr
  else if tag === "GS" then
    put (ParsedData.set_groups
           (appended (Expected.group read) (ParsedData.groups tree)) tree) fr
  else if tag === "ST" then
    put (ParsedData.set_transactionSet
           (Some (Expected.transactionSet read)) tree) fr
  else if tag === "BPR" then
    Frame.set_currentPayment (Some (At (next (ParsedData.payments tree))))
      (put (ParsedData.set_payments
              (appended (payment read) (ParsedData.payments tree)) tree) fr)
  else if tag === "TRN" then
    on_payment (Payment.set_traceNumber (Some (traceNumber read))) fr
  else if tag === "REF" then
    put (ParsedData.set_references
           (appended (Expected.reference read) (ParsedData.references tree))
           tree) fr
  else if tag === "DTM" then
    on_payment (fun p =>
      Payment.set_dates (appended (dateInfo read) (Payment.dates p)) p) fr
  else if tag === "N1" then
    Frame.set_currentProvider (Some (provider read)) fr
  else if tag === "N3" then
    put (ParsedData.set_addresses
           (appended (Expected.address read) (ParsedData.addresses tree))
           tree) fr
  else if tag === "N4" then
    put (ParsedData.set_addresses
           (map_last (Expected.located read) <$> ParsedData.addresses tree)
           tree) fr
  else if tag === "PER" then
    put (ParsedData.set_contacts
           (appended (Expected.contact read) (ParsedData.contacts tree))
           tree) fr
  else if tag === "CLP" then
    let k := next (ParsedData.claims tree) in
    on_payment (fun p =>
      Payment.set_claims (appended (At k) (Payment.claims p)) p)
      (Frame.set_currentClaim (Some (At k))
         (put (ParsedData.set_claims
                 (appended (claim read) (ParsedData.claims tree)) tree) fr))
  else if tag === "CAS" then
    on_claim (fun c =>
      Claim.set_adjustments
        (appended (adjustment read) (Claim.adjustments c)) c) fr
  else if tag === "NM1" then
    on_claim (fun c =>
      Claim.set_entities (appended (entity read) (Claim.entities c)) c) fr
  else if tag === "MIA" then
    on_claim
      (Claim.set_inpatientAdjudication (Some (inpatientAdjudication read)))
      fr
  else if tag === "MOA" then
    on_claim
      (Claim.set_outpatientAdjudication
         (Some (outpatientAdjudication read))) fr
  else if tag === "SVC" then
    on_claim (fun c =>
      Claim.set_services (appended (service read) (Claim.services c)) c)
      (put (ParsedData.set_services
              (appended (service read) (ParsedData.services tree)) tree) fr)
  else if tag === "AMT" then
    on_claim (fun c =>
      Claim.set_amounts (appended (amount read) (Claim.amounts c)) c) fr
  else if tag === "QTY" then
    on_claim (fun c =>
      Claim.set_quantities
        (appended (quantity read) (Claim.quantities c)) c) fr
  else if tag === "PLB" then
    put (ParsedData.set_adjustments
           (appended (providerAdjustment read) (ParsedData.adjustments tree))
           tree) fr
  else if tag === "SE" then
    put (ParsedData.set_transactionSetTrailer
           (Some (Expected.transactionSetTrailer read)) tree) fr
  else if tag === "GE" then
    put (ParsedData.set_functionalGroupTrailer
           (Some (Expected.functionalGroupTrailer read)) tree) fr
  else if tag === "IEA" then
    put (ParsedData.set_interchangeTrailer
           (Some (Expected.interchangeTrailer read)) tree) fr
  else fr.

(** The frame that a run of segments leaves. *)
Definition reads (segments : list string) (fr : Frame.t) : Frame.t :=
  fold_left effect segments fr.

(** A claim, a payment without the keys that later segments create. *)
Definition bare_claim (c : Claim.t) : Claim.t :=
  Claim.set_quantities None
    (Claim.set_amounts None
       (Claim.set_services None
          (Claim.set_outpatientAdjudication None
             (Claim.set_inpatientAdjudication None
                (Claim.set_entities None
                   (Claim.set_adjustments None c)))))).

Definition bare_payment (p : Payment.t) : Payment.t :=
  Payment.set_claims None
    (Payment.set_dates None (Payment.set_traceNumber None p)).

(** What the loop of [parse] maintains: the lists of the fresh tree
    exist, and each current pointer is null or refers to the latest entry
    of its list. *)
Definition settled (fr : Frame.t) : Prop :=
  Spec835.frame_ok fr /\ Nest835.locals_settled fr.

(** The lists of a tree are those read from the segments [pre], in the
    order of the segments.  The eight lists of the fresh tree exist, and
    are empty when no segment of [pre] appends to them.  The lists of a
    payment and of a claim are absent until a segment appends to them:
    in each payment the dates of the DTM segments and the references to
    the claims of the CLP segments that stand between its BPR segment and
    the next, and in each claim the adjustments, entities, services,
    amounts and quantities of the segments that stand between its CLP
    segment and the next. *)
Definition lists_read (pre : list string) (tree : ParsedData.t) : Prop :=
  ParsedData.groups tree = Some (read_from "GS" Expected.group pre)
  /\ ParsedData.services tree = Some (read_from "SVC" service pre)
  /\ ParsedData.adjustments tree
     = Some (read_from "PLB" providerAdjustment pre)
  /\ ParsedData.references tree
     = Some (read_from "REF" Expected.reference pre)
  /\ ParsedData.contacts tree = Some (read_from "PER" Expected.contact pre)
  /\ ParsedData.addresses tree
     = Some (flat_map address_of_block (blocks_of "N3" pre))
  /\ (exists payments,
        ParsedData.payments tree = Some payments
        /\ List.map bare_payment payments = read_from "BPR" payment pre
        /\ List.map Payment.dates payments
           = List.map lazily
               (nested_by_parent (nests "BPR" "DTM" dateInfo) pre)
        /\ List.map Payment.claims payments
           = List.map lazily (Nest835.claims_by_payment 0 pre))
  /\ (exists claims,
        ParsedData.claims tree = Some claims
        /\ List.map bare_claim claims = read_from "CLP" claim pre
        /\ List.map Claim.adjustments claims
           = List.map lazily
               (nested_by_parent (nests "CLP" "CAS" adjustment) pre)
        /\ List.map Claim.entities claims
           = List.map lazily
               (nested_by_parent (nests "CLP" "NM1" entity) pre)
        /\ List.map Claim.services claims
           = List.map lazily
               (nested_by_parent (nests "CLP" "SVC" service) pre)
        /\ List.map Claim.amounts claims
           = List.map lazily
               (nested_by_parent (nests "CLP" "AMT" amount) pre)
        /\ List.map Claim.quantities claims
           = List.map lazily
               (nested_by_parent (nests "CLP" "QTY" quantity) pre)).

End Expected835.


(** * Facts about the string primitives *)

Example split_example :
  Str.split "*" "CLM*CLAIM001*150.00" = ["CLM"; "CLAIM001"; "150.00"].
Proof. reflexivity. Qed.

Example split_trailing_example : Str.split "~" "A~B~" = ["A"; "B"; ""].
Proof. reflexivity. Qed.

Example trim_example : Str.trim "  a b  " = "a b".
Proof. reflexivity. Qed.

(** A string without the separator is one piece. *)
Lemma split_without sep s :
  contains sep s = false -> Str.split sep s = [s].
Proof.
  induction s as [|c s IH]; cbn; [reflexivity|].
  intros H. apply orb_false_elim in H as [Hc Hs].
  rewrite Hc, (IH Hs). reflexivity.
Qed.

(** Two pieces joined by the separator are split back into the two. *)
Lemma split_joined sep s1 s2 :
  contains sep s1 = false -> contains sep s2 = false ->
  Str.split sep (s1 ++ String sep s2) = [s1; s2].
Proof.
  intros H1 H2. induction s1 as [|c s1 IH]; cbn.
  - rewrite Ascii.eqb_refl, (split_without _ _ H2). reflexivity.
  - cbn in H1. apply orb_false_elim in H1 as [Hc Hs].
    rewrite Hc, (IH Hs). reflexivity.
Qed.

(** * Lists that grow *)

Create HintDb grows.

Section Grows.
Context {A : Type} (R : A -> A -> Prop).
Hypothesis R_refl : forall x, R x x.

Lemma Forall2_same (l : list A) : Forall2 R l l.
Proof. induction l; constructor; auto. Qed.

Lemma grows_refl (o : option (list A)) : grows R o o.
Proof.
  split; [auto|]. exists (default [] o), [].
  rewrite app_nil_r. split; [reflexivity|apply Forall2_same].
Qed.

Lemma grows_push (l : list A) x : grows R (Some l) (Some (l ++ [x])).
Proof.
  split; [eauto|]. exists l, [x]. split; [reflexivity|apply Forall2_same].
Qed.

Lemma grows_push_lazy (o : option (list A)) x : grows R o (push_lazy x o).
Proof.
  split; [unfold push_lazy; eauto|]. exists (default [] o), [x].
  split; [reflexivity|apply Forall2_same].
Qed.

Lemma grows_alter (f : A -> A) i (l : list A) :
  (forall x, R x (f x)) -> grows R (Some l) (Some (alter f i l)).
Proof.
  intros Hf. split; [eauto|]. exists (alter f i l), [].
  rewrite app_nil_r. split; [reflexivity|]. cbn.
  revert i. induction l as [|x l IH]; intros [|i]; cbn; constructor;
    auto using Forall2_same.
Qed.

Lemma grows_alter_opt (f : A -> A) i (o : option (list A)) :
  (forall x, R x (f x)) -> grows R o (alter f i <$> o).
Proof.
  intros Hf. destruct o as [l|]; cbn; [apply grows_alter, Hf|apply grows_refl].
Qed.

Hypothesis R_trans : forall x y z, R x y -> R y z -> R x z.

Lemma Forall2_chain (l1 l2 l3 : list A) :
  Forall2 R l1 l2 -> Forall2 R l2 l3 -> Forall2 R l1 l3.
Proof.
  intros F12. revert l3.
  induction F12; intros l3 F23; inversion F23; subst; constructor; eauto.
Qed.

Lemma grows_trans (o1 o2 o3 : option (list A)) :
  grows R o1 o2 -> grows R o2 o3 -> grows R o1 o3.
Proof.
  intros [S12 (k1 & a1 & E1 & F1)] [S23 (k2 & a2 & E2 & F2)].
  split; [auto|].
  rewrite E1 in F2.
  apply Forall2_app_inv_l in F2 as (k2a & k2b & Fa & Fb & ->).
  exists k2a, (k2b ++ a2).
  split; [rewrite E2, <- app_assoc; reflexivity|].
  eapply Forall2_chain; eauto.
Qed.

(** What was in the list stays where it was. *)
Lemma grows_lookup (o o' : option (list A)) i x :
  grows R o o' -> default [] o !! i = Some x ->
  exists x', default [] o' !! i = Some x' /\ R x x'.
Proof.
  intros [_ (kept & added & -> & F)] Hx.
  destruct (Forall2_lookup_l _ _ _ _ _ F Hx) as (x' & Hx' & HR).
  exists x'. split; [|exact HR].
  apply lookup_app_l_Some. exact Hx'.
Qed.

Lemma grows_length (o o' : option (list A)) :
  grows R o o' ->
  List.length (default [] o) <= List.length (default [] o').
Proof.
  intros [_ (kept & added & -> & F)].
  rewrite (Forall2_length _ _ _ F), length_app. lia.
Qed.
End Grows.

#[global] Hint Extern 1 (grows _ ?o ?o) => apply grows_refl : grows.
#[global] Hint Extern 1 (grows _ (Some ?l) (Some (?l ++ [_]))) =>
  apply grows_push : grows.
#[global] Hint Extern 1 (grows _ ?o (push_lazy _ ?o)) =>
  apply grows_push_lazy : grows.
#[global] Hint Extern 1 (grows _ ?o (Some (default [] ?o ++ [_]))) =>
  apply (grows_push_lazy _ _ o) : grows.
#[global] Hint Extern 1 (grows _ None (Some [_])) =>
  apply (grows_push_lazy _ _ None) : grows.
#[global] Hint Extern 2 (grows _ (Some ?l) (Some (alter _ _ ?l))) =>
  apply grows_alter : grows.
#[global] Hint Extern 2 (grows _ ?o (alter _ _ <$> ?o)) =>
  apply grows_alter_opt : grows.

Lemma address_kept_refl a : address_kept a a.
Proof. split; reflexivity. Qed.

Lemma address_kept_trans a1 a2 a3 :
  address_kept a1 a2 -> address_kept a2 a3 -> address_kept a1 a3.
Proof. intros [] []; split; congruence. Qed.

#[global] Hint Resolve address_kept_refl : grows.

Ltac branches :=
  repeat match goal with
         | |- context [if ?b then _ else _] => destruct b
         end.

Ltac scrutinees :=
  repeat match goal with
         | |- context [match ?x with _ => _ end] => is_var x; destruct x
         | |- context [match last ?l with _ => _ end] => destruct (last l)
         end.

(** A local that is set still refers to an entry of its list. *)
Ltac listed :=
  let r := fresh "r" in
  let Hr := fresh "Hr" in
  intros r Hr;
  first
    [ match goal with
      | H : forall r', _ = Some r' -> _ |- _ =>
          destruct (H _ Hr) as (? & -> & ?)
      end
    | injection Hr as <- ];
  eexists; (split; [reflexivity|]);
  cbn in *; rewrite ?length_alter, ?length_app; cbn; lia.

Ltac conjuncts := repeat match goal with |- _ /\ _ => split end.

(** Writing through a reference to an entry that exists replaces it. *)
Lemma alter_at {A} (f : A -> A) (l : list A) i x :
  l !! i = Some x -> alter f i l = <[i := f x]> l.
Proof.
  revert i. induction l as [|y l IH]; intros [|i] H; cbn in *;
    try discriminate.
  - injection H as ->. reflexivity.
  - f_equal. apply IH, H.
Qed.

(** * Facts about the 837 decoder *)

Module Lemmas837.
Import EDI837Parser Spec837.

(** The loop body never completes abruptly, whatever the frame. *)
Lemma iteration_normal_837 segment fr :
  iteration segment fr = Normal tt (step fr segment).
Proof.
  unfold step, iteration, try_catch.
  destruct (dispatch _ _ fr) as [[] fr'|m fr']; reflexivity.
Qed.

Lemma step_dispatch_837 fr segment :
  step fr segment
  = after_of (dispatch (Str.split elementDelimiter segment !! 0)
                (Str.split elementDelimiter segment) fr).
Proof.
  unfold step, iteration, try_catch.
  destruct (dispatch _ _ fr); reflexivity.
Qed.

Lemma for_each_run_837 segments : forall fr,
  for_each segments fr = Normal tt (run segments fr).
Proof.
  induction segments as [|segment rest IH]; intros fr; [reflexivity|].
  cbn [for_each]. unfold bind. rewrite iteration_normal_837. apply IH.
Qed.

Lemma parseSegments_run_837 this :
  parseSegments this
  = Normal tt (Frame.this (run (Parser.segments this) (enter this))).
Proof. unfold parseSegments. rewrite for_each_run_837. reflexivity. Qed.

(** [parse] in one equation. *)
Lemma parse_eq_837 ediData this :
  parse ediData this =
  match tokenize (cleanData ediData) with
  | [] =>
      Abrupt "Parsing failed: No valid EDI segments found"
        (Parser.set_segments [] this)
  | segments =>
      let this' := Frame.this (run segments (start segments)) in
      Normal (Parser.parsedData this') this'
  end.
Proof.
  unfold parse, try_catch, bind, modify, get, throw, ret.
  cbn [Parser.segments Parser.set_segments].
  destruct (tokenize (cleanData ediData)) as [|segment rest] eqn:E;
    [reflexivity|].
  cbn [List.length Nat.eqb]. rewrite parseSegments_run_837. reflexivity.
Qed.

Lemma run_app_837 pre post fr : run (pre ++ post) fr = run post (run pre fr).
Proof. apply fold_left_app. Qed.

Ltac crunch :=
  repeat (progress
            (cbn;
             unfold on_this, zoom, bind, get, modify, ret, throw, set_tree,
               push_to, parseISA, parseGS, parseST, parseBHT, parsePRV,
               parseDMG, parseREF, parsePER, parseDTP, parseN3, parseN4,
               parseSBR, parseHI, parseLX, parseSE, parseGE, parseIEA,
               or_else, update_entity, update_claim, next_ref, next_entity,
               tree_of, after_of;
             scrutinees)).

(** ** Frames of the loop are well formed *)

Lemma frame_ok_start_837 segments : frame_ok (start segments).
Proof. split; cbn; eauto; intros r [=]. Qed.

Lemma frame_ok_dispatch_837 sid elements fr :
  frame_ok fr -> frame_ok (after_of (dispatch sid elements fr)).
Proof.
  intros [Hg Hc Hp Hs Hpa Hsv Rc Rs Rp Rpr].
  destruct fr as [[segs pd] cc cs cp cpr].
  destruct pd; cbn in *.
  destruct Hg as [lg ->], Hc as [lc ->], Hp as [lp ->], Hs as [ls ->],
    Hpa as [lpa ->], Hsv as [lsv ->].
  unfold dispatch.
  branches; crunch.
  all: split; cbn; eauto.
  all: listed.
Qed.

Lemma frame_ok_step_837 fr segment : frame_ok fr -> frame_ok (step fr segment).
Proof. rewrite step_dispatch_837. apply frame_ok_dispatch_837. Qed.

Lemma frame_ok_run_837 segments : forall fr,
  frame_ok fr -> frame_ok (run segments fr).
Proof.
  induction segments as [|segment rest IH]; intros fr H; [exact H|].
  apply IH, frame_ok_step_837, H.
Qed.

(** No iteration assigns [this.segments]. *)
Lemma segments_kept_837 fr segment :
  Parser.segments (Frame.this (step fr segment))
  = Parser.segments (Frame.this fr).
Proof.
  rewrite step_dispatch_837.
  generalize (Str.split elementDelimiter segment !! 0).
  generalize (Str.split elementDelimiter segment).
  intros elements sid.
  destruct fr as [[segs pd] cc cs cp cpr].
  destruct pd. unfold dispatch.
  branches; crunch; reflexivity.
Qed.

(** ** The lists of the tree only grow *)

Lemma claim_grows_refl_837 c : claim_grows c c.
Proof.
  destruct c. split; [reflexivity|].
  split; [|split]; apply grows_refl; auto.
Qed.

Lemma claim_grows_trans_837 c1 c2 c3 :
  claim_grows c1 c2 -> claim_grows c2 c3 -> claim_grows c1 c3.
Proof.
  intros (E1 & S1 & D1 & H1) (E2 & S2 & D2 & H2).
  split; [rewrite E2 at 1; rewrite E1 at 1; destruct c1; reflexivity|].
  split; [|split]; eapply grows_trans; eauto; congruence.
Qed.

Lemma entity_kept_refl_837 e : entity_kept e e.
Proof. destruct e; reflexivity. Qed.

Lemma entity_kept_trans_837 e1 e2 e3 :
  entity_kept e1 e2 -> entity_kept e2 e3 -> entity_kept e1 e3.
Proof.
  unfold entity_kept. intros E1 E2.
  rewrite E2 at 1. rewrite E1 at 1. destruct e1; reflexivity.
Qed.

#[local] Hint Resolve claim_grows_refl_837 entity_kept_refl_837 : grows.

Lemma tree_grows_refl_837 t : tree_grows t t.
Proof. unfold tree_grows; conjuncts; auto with grows. Qed.

Lemma tree_grows_trans_837 t1 t2 t3 :
  tree_grows t1 t2 -> tree_grows t2 t3 -> tree_grows t1 t3.
Proof.
  unfold tree_grows.
  intros (G1 & C1 & P1 & S1 & Pa1 & Sv1 & R1 & Co1 & A1)
         (G2 & C2 & P2 & S2 & Pa2 & Sv2 & R2 & Co2 & A2).
  conjuncts; eapply grows_trans; eauto;
    eauto using claim_grows_trans_837, entity_kept_trans_837, address_kept_trans;
    congruence.
Qed.

Lemma tree_grows_dispatch_837 sid elements fr :
  tree_grows (tree_of fr) (tree_of (after_of (dispatch sid elements fr))).
Proof.
  destruct fr as [[segs pd] cc cs cp cpr].
  destruct pd.
  unfold dispatch.
  branches; crunch.
  all: unfold tree_grows; conjuncts; cbn; auto with grows.
  all: first [apply grows_alter_opt | apply grows_alter]; auto with grows.
  all: intros []; try reflexivity; split; try reflexivity.
  all: cbn; conjuncts; auto with grows.
Qed.

Lemma tree_grows_step_837 fr segment :
  tree_grows (tree_of fr) (tree_of (step fr segment)).
Proof. rewrite step_dispatch_837. apply tree_grows_dispatch_837. Qed.

Lemma tree_grows_run_837 segments : forall fr,
  tree_grows (tree_of fr) (tree_of (run segments fr)).
Proof.
  induction segments as [|segment rest IH]; intros fr;
    [apply tree_grows_refl_837|].
  eapply tree_grows_trans_837; [apply tree_grows_step_837|apply IH].
Qed.

End Lemmas837.

(** * Facts about the 835 decoder *)

Module Lemmas835.
Import EDI835Parser Spec835.

(** The loop body never completes abruptly, whatever the frame. *)
Lemma iteration_normal_835 segment fr :
  iteration segment fr = Normal tt (step fr segment).
Proof.
  unfold step, iteration, try_catch.
  destruct (dispatch _ _ fr) as [[] fr'|m fr']; reflexivity.
Qed.

Lemma step_dispatch_835 fr segment :
  step fr segment
  = after_of (dispatch (Str.split elementDelimiter segment !! 0)
                (Str.split elementDelimiter segment) fr).
Proof.
  unfold step, iteration, try_catch.
  destruct (dispatch _ _ fr); reflexivity.
Qed.

Lemma for_each_run_835 segments : forall fr,
  for_each segments fr = Normal tt (run segments fr).
Proof.
  induction segments as [|segment rest IH]; intros fr; [reflexivity|].
  cbn [for_each]. unfold bind. rewrite iteration_normal_835. apply IH.
Qed.

Lemma parseSegments_run_835 this :
  parseSegments this
  = Normal tt (Frame.this (run (Parser.segments this) (enter this))).
Proof. unfold parseSegments. rewrite for_each_run_835. reflexivity. Qed.

(** [parse] in one equation. *)
Lemma parse_eq_835 ediData this :
  parse ediData this =
  match tokenize (cleanData ediData) with
  | [] =>
      Abrupt "Parsing failed: No valid EDI segments found"
        (Parser.set_segments [] this)
  | segments =>
      let this' := Frame.this (run segments (start segments)) in
      Normal (Parser.parsedData this') this'
  end.
Proof.
  unfold parse, try_catch, bind, modify, get, throw, ret.
  cbn [Parser.segments Parser.set_segments].
  destruct (tokenize (cleanData ediData)) as [|segment rest] eqn:E;
    [reflexivity|].
  cbn [List.length Nat.eqb]. rewrite parseSegments_run_835. reflexivity.
Qed.

Lemma run_app_835 pre post fr : run (pre ++ post) fr = run post (run pre fr).
Proof. apply fold_left_app. Qed.

Ltac crunch :=
  repeat (progress
            (cbn;
             unfold on_this, zoom, bind, get, modify, ret, throw, set_tree,
               push_to, parseISA, parseGS, parseST, parseTRN, parseREF,
               parseDTM, parseN3, parseN4, parsePER, parseCAS, parseNM1,
               parseMIA, parseMOA, parseAMT, parseQTY, parseSE, parseGE,
               parseIEA, update_payment, update_claim, next_ref, tree_of,
               after_of;
             scrutinees)).

(** ** Frames of the loop are well formed *)

Lemma frame_ok_start_835 segments : frame_ok (start segments).
Proof. split; cbn; eauto; intros r [=]. Qed.

Lemma frame_ok_dispatch_835 sid elements fr :
  frame_ok fr -> frame_ok (after_of (dispatch sid elements fr)).
Proof.
  intros [Hg Hp Hc Hs Ha Hr Hco Had Rp Rc].
  destruct fr as [[segs pd] cpay cc cprov].
  destruct pd; cbn in *.
  destruct Hg as [lg ->], Hp as [lp ->], Hc as [lc ->], Hs as [ls ->],
    Ha as [la ->], Hr as [lr ->], Hco as [lco ->], Had as [lad ->].
  unfold dispatch.
  branches; crunch.
  all: split; cbn; eauto.
  all: listed.
Qed.

Lemma frame_ok_step_835 fr segment : frame_ok fr -> frame_ok (step fr segment).
Proof. rewrite step_dispatch_835. apply frame_ok_dispatch_835. Qed.

Lemma frame_ok_run_835 segments : forall fr,
  frame_ok fr -> frame_ok (run segments fr).
Proof.
  induction segments as [|segment rest IH]; intros fr H; [exact H|].
  apply IH, frame_ok_step_835, H.
Qed.

(** No iteration assigns [this.segments]. *)
Lemma segments_kept_835 fr segment :
  Parser.segments (Frame.this (step fr segment))
  = Parser.segments (Frame.this fr).
Proof.
  rewrite step_dispatch_835.
  generalize (Str.split elementDelimiter segment !! 0).
  generalize (Str.split elementDelimiter segment).
  intros elements sid.
  destruct fr as [[segs pd] cpay cc cprov].
  destruct pd. unfold dispatch.
  branches; crunch; reflexivity.
Qed.

(** ** The lists of the tree only grow *)

Lemma claim_grows_refl_835 c : claim_grows c c.
Proof.
  destruct c. split; [reflexivity|]. conjuncts; apply grows_refl; auto.
Qed.

Lemma claim_grows_trans_835 c1 c2 c3 :
  claim_grows c1 c2 -> claim_grows c2 c3 -> claim_grows c1 c3.
Proof.
  intros (E1 & A1 & N1 & S1 & M1 & Q1) (E2 & A2 & N2 & S2 & M2 & Q2).
  split; [rewrite E2 at 1; rewrite E1 at 1; destruct c1; reflexivity|].
  conjuncts; eapply grows_trans; eauto; congruence.
Qed.

Lemma payment_grows_refl_835 p : payment_grows p p.
Proof.
  destruct p. split; [reflexivity|]. conjuncts; apply grows_refl; auto.
Qed.

Lemma payment_grows_trans_835 p1 p2 p3 :
  payment_grows p1 p2 -> payment_grows p2 p3 -> payment_grows p1 p3.
Proof.
  intros (E1 & D1 & C1) (E2 & D2 & C2).
  split; [rewrite E2 at 1; rewrite E1 at 1; destruct p1; reflexivity|].
  conjuncts; eapply grows_trans; eauto; congruence.
Qed.

#[local] Hint Resolve claim_grows_refl_835 payment_grows_refl_835 : grows.

Lemma tree_grows_refl_835 t : tree_grows t t.
Proof. unfold tree_grows; conjuncts; auto with grows. Qed.

Lemma tree_grows_trans_835 t1 t2 t3 :
  tree_grows t1 t2 -> tree_grows t2 t3 -> tree_grows t1 t3.
Proof.
  unfold tree_grows.
  intros (G1 & P1 & C1 & S1 & A1 & R1 & Co1 & Ad1)
         (G2 & P2 & C2 & S2 & A2 & R2 & Co2 & Ad2).
  conjuncts; eapply grows_trans; eauto;
    eauto using claim_grows_trans_835, payment_grows_trans_835, address_kept_trans;
    congruence.
Qed.

Lemma tree_grows_dispatch_835 sid elements fr :
  tree_grows (tree_of fr) (tree_of (after_of (dispatch sid elements fr))).
Proof.
  destruct fr as [[segs pd] cpay cc cprov].
  destruct pd.
  unfold dispatch.
  branches; crunch.
  all: unfold tree_grows; conjuncts; cbn; auto with grows.
  all: first [apply grows_alter_opt | apply grows_alter]; auto with grows.
  all: intros []; try reflexivity; split; try reflexivity.
  all: cbn; conjuncts; auto with grows.
Qed.

Lemma tree_grows_step_835 fr segment :
  tree_grows (tree_of fr) (tree_of (step fr segment)).
Proof. rewrite step_dispatch_835. apply tree_grows_dispatch_835. Qed.

Lemma tree_grows_run_835 segments : forall fr,
  tree_grows (tree_of fr) (tree_of (run segments fr)).
Proof.
  induction segments as [|segment rest IH]; intros fr;
    [apply tree_grows_refl_835|].
  eapply tree_grows_trans_835; [apply tree_grows_step_835|apply IH].
Qed.

End Lemmas835.

(** * The claims of the specification *)

(** ** Entity routing in the 837 decoder *)

(** C1 (the code departs from the claim).  The claim expects an NM1 segment
    whose entity-type code is 85, 82, 77 or DN to be pushed onto
    [providers] and to become the current provider.  [getEntityType] turns
    these codes into billing_provider, rendering_provider, service_facility
    and referring_provider, but the loop compares [entity.type] with the
    literal 'provider': for each of the four codes the NM1 segment leaves
    the frame as it was, whatever the other elements and the frame are.  On
    the NM1*85 and PRV segments of the sample document the tree returned is
    the fresh one: [providers] is empty and nothing carries the PRV keys.
    The branch is taken, and PRV attaches its three keys, only for an
    entity-type code that is itself the word provider. *)
Theorem provider_codes_are_not_stored :
  Forall
    (fun code : string =>
       forall (rest : list string) (fr : EDI837Parser.Frame.t),
         EDI837Parser.dispatch (Some "NM1") ("NM1" :: code :: rest) fr
         = Normal tt fr)
    ["85"; "82"; "77"; "DN"]
  /\ (exists this',
        EDI837Parser.parse
          "NM1*85*2*BILLING PROVIDER*****XX*1234567890~PRV*BI*PXC*207Q00000X~"
          EDI837Parser.constructor
        = Normal EDI837Parser.fresh_tree this'
        /\ EDI837Parser.ParsedData.providers EDI837Parser.fresh_tree = Some [])
  /\ (exists tree this' provider,
        EDI837Parser.parse
          "NM1*provider*2*BILLING PROVIDER~PRV*BI*PXC*207Q00000X~"
          EDI837Parser.constructor
        = Normal tree this'
        /\ EDI837Parser.ParsedData.providers tree = Some [provider]
        /\ EDI837Parser.Entity.providerCode provider = Some (Some "BI")
        /\ EDI837Parser.Entity.referenceIdQualifier provider = Some (Some "PXC")
        /\ EDI837Parser.Entity.referenceId provider
           = Some (Some "207Q00000X")).
Proof.
  split; [|split].
  - repeat constructor; intros rest [this cc cs cp cpr]; reflexivity.
  - eexists. split; [vm_compute; reflexivity|reflexivity].
  - do 3 eexists. split; [vm_compute; reflexivity|]. cbn. repeat split.
Qed.

(** ** Scenario A *)

(** C2.  Whatever the elements of the ISA, GS and ST segments and of the
    SE, GE and IEA trailers are, an input whose segments are that prologue,
    CLM*CLAIM001*150.00, SV1*HC:99213*75.00*UN*1 and those trailers is
    parsed into a tree with exactly one claim, whose [claimId] is CLAIM001
    and [totalChargeAmount] 150.00, and whose [services] hold exactly one
    service, with [serviceCode] HC:99213 and [chargeAmount] 75.00. *)
Theorem scenario_A_one_claim_one_service :
  forall (ediData isa gs st se ge iea : string) (this : EDI837Parser.Parser.t),
    EDI837Parser.tokenize (EDI837Parser.cleanData ediData)
    = [ ("ISA*" ++ isa)%string; ("GS*" ++ gs)%string; ("ST*" ++ st)%string;
        "CLM*CLAIM001*150.00"; "SV1*HC:99213*75.00*UN*1";
        ("SE*" ++ se)%string; ("GE*" ++ ge)%string; ("IEA*" ++ iea)%string ] ->
    exists tree this' claim service,
      EDI837Parser.parse ediData this = Normal tree this'
      /\ EDI837Parser.ParsedData.claims tree = Some [claim]
      /\ EDI837Parser.Claim.claimId claim = Some "CLAIM001"
      /\ EDI837Parser.Claim.totalChargeAmount claim = Some "150.00"
      /\ EDI837Parser.Claim.services claim = Some [service]
      /\ EDI837Parser.Service.serviceCode service = Some "HC:99213"
      /\ EDI837Parser.Service.chargeAmount service = Some "75.00".
Proof.
  intros ediData isa gs st se ge iea this Htok.
  rewrite Lemmas837.parse_eq_837, Htok.
  do 4 eexists. split; [reflexivity|].
  cbn. repeat split.
Qed.

(** The input of Scenario A as the specification writes it. *)
Lemma scenario_A_one_claim_one_service_witness :
  exists tree this' claim service,
    EDI837Parser.parse
      "ISA*...~GS*HC*...~ST*837*0001*...~CLM*CLAIM001*150.00~SV1*HC:99213*75.00*UN*1~SE*30*0001~GE*1*1~IEA*1*000000001~"
      EDI837Parser.constructor
    = Normal tree this'
    /\ EDI837Parser.ParsedData.claims tree = Some [claim]
    /\ EDI837Parser.Claim.claimId claim = Some "CLAIM001"
    /\ EDI837Parser.Claim.totalChargeAmount claim = Some "150.00"
    /\ EDI837Parser.Claim.services claim = Some [service]
    /\ EDI837Parser.Service.serviceCode service = Some "HC:99213"
    /\ EDI837Parser.Service.chargeAmount service = Some "75.00".
Proof.
  apply (scenario_A_one_claim_one_service _ "..." "HC*..." "837*0001*..."
           "30*0001" "1*1" "1*000000001").
  reflexivity.
Defined.

(** ** Scenario C *)

(** C3.  The three segments CLP, CAS and SVC of Scenario C are parsed into
    a claim whose [claimPaymentAmount] is 125.00, whose [adjustments] hold
    exactly one entry, with [adjustmentReasonCode1] 45 and
    [adjustmentAmount1] 25.00, and whose [services] hold exactly one
    service, with [paymentAmount] 65.00. *)
Theorem scenario_C_claim_adjustment_service :
  forall this : EDI835Parser.Parser.t,
    exists tree this' claim adjustment service,
      EDI835Parser.parse
        "CLP*CLAIM001*1*150.00*125.00*25.00*MC*PAY001*11~CAS*CO*45*25.00~SVC*HC:99213*75.00*65.00**1~"
        this
      = Normal tree this'
      /\ EDI835Parser.ParsedData.claims tree = Some [claim]
      /\ EDI835Parser.Claim.claimPaymentAmount claim = Some "125.00"
      /\ EDI835Parser.Claim.adjustments claim = Some [adjustment]
      /\ EDI835Parser.Adjustment.adjustmentReasonCode1 adjustment = Some "45"
      /\ EDI835Parser.Adjustment.adjustmentAmount1 adjustment = Some "25.00"
      /\ EDI835Parser.Claim.services claim = Some [service]
      /\ EDI835Parser.Service.paymentAmount service = Some "65.00".
Proof.
  intros this. rewrite Lemmas835.parse_eq_835.
  do 5 eexists. split; [vm_compute; reflexivity|].
  cbn. repeat split.
Qed.

(** ** Errors of [parse] *)

(** C4 (the claim as stated fails).  On the blank input of Scenario D the
    message that reaches the caller is not the bare text thrown inside
    [parse]: the [catch] of [parse] wraps it as well. *)
Lemma empty_payload_message_is_wrapped :
  message_of (EDI837Parser.parse "   " EDI837Parser.constructor)
  <> Some "No valid EDI segments found"
  /\ message_of (EDI835Parser.parse "   " EDI835Parser.constructor)
     <> Some "No valid EDI segments found".
Proof. split; vm_compute; intros [=]. Qed.

(** C4 (amended).  For every input that leaves no non-empty segment after
    cleaning, [parse] of either parser throws, returns no tree, and the
    message is exactly "Parsing failed: No valid EDI segments found"; and a
    message thrown by [parse], on any input, has the form
    "Parsing failed: <cause>". *)
Theorem empty_payload_error :
  forall (ediData : string)
         (this837 : EDI837Parser.Parser.t) (this835 : EDI835Parser.Parser.t),
    (EDI837Parser.tokenize (EDI837Parser.cleanData ediData) = [] ->
     outcome (EDI837Parser.parse ediData this837)
     = (None, Some "Parsing failed: No valid EDI segments found")
     /\ outcome (EDI835Parser.parse ediData this835)
        = (None, Some "Parsing failed: No valid EDI segments found"))
    /\ (forall message,
          message_of (EDI837Parser.parse ediData this837) = Some message
          \/ message_of (EDI835Parser.parse ediData this835) = Some message ->
          exists cause, message = ("Parsing failed: " ++ cause)%string).
Proof.
  intros ediData this837 this835.
  rewrite Lemmas837.parse_eq_837, Lemmas835.parse_eq_835.
  change (EDI835Parser.tokenize (EDI835Parser.cleanData ediData))
    with (EDI837Parser.tokenize (EDI837Parser.cleanData ediData)).
  destruct (EDI837Parser.tokenize (EDI837Parser.cleanData ediData)).
  - split; [intros _; split; reflexivity|].
    intros message [[= <-]|[= <-]]; eexists; reflexivity.
  - split; [discriminate|]. intros message [[=]|[=]].
Qed.

(** Scenario D: the blank input. *)
Lemma empty_payload_error_witness :
  outcome (EDI837Parser.parse "   " EDI837Parser.constructor)
  = (None, Some "Parsing failed: No valid EDI segments found")
  /\ outcome (EDI835Parser.parse "   " EDI835Parser.constructor)
     = (None, Some "Parsing failed: No valid EDI segments found").
Proof.
  apply (proj1 (empty_payload_error "   " EDI837Parser.constructor
                  EDI835Parser.constructor)).
  reflexivity.
Defined.

(** ** Composite diagnosis codes *)

(** C5 (the claim as stated fails).  A second field BK^Z8701 is not split:
    the entry keeps the whole field as [codeQualifier] and has no [code]. *)
Lemma hi_caret_composite_is_not_split :
  exists tree this' claim entry,
    EDI837Parser.parse "CLM*CLAIM001*150.00~HI*BK^Z8701~"
      EDI837Parser.constructor
    = Normal tree this'
    /\ EDI837Parser.ParsedData.claims tree = Some [claim]
    /\ EDI837Parser.Claim.healthInfo claim = Some [entry]
    /\ EDI837Parser.HealthInfo.codeQualifier entry = Some "BK^Z8701"
    /\ EDI837Parser.HealthInfo.code entry = None
    /\ EDI837Parser.HealthInfo.codeQualifier entry <> Some "BK"
    /\ EDI837Parser.HealthInfo.code entry <> Some "Z8701".
Proof.
  do 4 eexists. split; [vm_compute; reflexivity|].
  cbn. repeat split; intros [=].
Qed.

(** C5 (amended).  In the 837 decoder, for every HI segment met by the loop
    of [parse] whose second field is a qualifier and a code joined by ':'
    (neither containing ':'), the handler splits the field on ':': the
    entry it builds has the part before the ':' as [codeQualifier] and the
    part after it as [code].  The entry is appended to the [healthInfo] of
    the current claim; with no current claim the tree is left as it was. *)
Theorem hi_composite_is_split_on_colon :
  forall (segments pre : list string) (segment qualifier code : string),
    let fr := Spec837.run pre (Spec837.start segments) in
    let elements := Str.split EDI837Parser.elementDelimiter segment in
    let entry :=
      {| EDI837Parser.HealthInfo.codeQualifier := Some qualifier;
         EDI837Parser.HealthInfo.code := Some code;
         EDI837Parser.HealthInfo.dateQualifier := elements !! 2;
         EDI837Parser.HealthInfo.date := elements !! 3 |} in
    let tree := EDI837Parser.tree_of fr in
    let tree' := EDI837Parser.tree_of (Spec837.step fr segment) in
    elements !! 0 = Some "HI" ->
    elements !! 1 = Some (qualifier ++ ":" ++ code)%string ->
    contains ":" qualifier = false ->
    contains ":" code = false ->
    (forall r, EDI837Parser.Frame.currentClaim fr = Some r ->
       exists i claims claim,
         r = EDI837Parser.At i
         /\ EDI837Parser.ParsedData.claims tree = Some claims
         /\ claims !! i = Some claim
         /\ tree' = EDI837Parser.ParsedData.set_claims
                      (Some (<[i := EDI837Parser.Claim.set_healthInfo
                                      (Some (default []
                                               (EDI837Parser.Claim.healthInfo claim)
                                             ++ [entry]))
                                      claim]> claims))
                      tree)
    /\ (EDI837Parser.Frame.currentClaim fr = None -> tree' = tree).
Proof.
  intros segments pre segment qualifier code fr elements entry tree tree'
    Htag Hfield Hq Hc.
  assert (Hfr : Spec837.frame_ok fr)
    by apply Lemmas837.frame_ok_run_837, Lemmas837.frame_ok_start_837.
  subst tree tree'. rewrite Lemmas837.step_dispatch_837. fold elements.
  rewrite Htag. subst entry.
  generalize dependent elements. intros elements _ Hfield.
  destruct Hfr as [_ [claims Hcl] _ _ _ _ Rc _ _ _].
  generalize dependent fr. intros [[segs tree] cc cs cp cpr]; cbn.
  intros Hcl Rc.
  unfold EDI837Parser.dispatch; cbn.
  unfold EDI837Parser.on_this, zoom, EDI837Parser.parseHI, bind, get; cbn.
  split.
  - intros r ->. destruct (Rc _ eq_refl) as (i & -> & Hi).
    rewrite Hcl in Hi. cbn in Hi.
    destruct (lookup_lt_is_Some_2 claims i Hi) as [claim Hclaim].
    exists i, claims, claim. cbn.
    unfold EDI837Parser.set_tree, modify; cbn.
    rewrite Hcl, Hfield; cbn.
    rewrite (split_joined ":" qualifier code Hq Hc); cbn.
    rewrite (alter_at _ _ _ _ Hclaim).
    repeat split; auto.
  - intros ->. reflexivity.
Qed.

(** The first HI composite of the sample document, after a CLM segment and
    with no claim before it. *)
Lemma hi_composite_is_split_on_colon_witness :
  (exists i claims claim,
     EDI837Parser.At 0 = EDI837Parser.At i
     /\ EDI837Parser.ParsedData.claims
          (EDI837Parser.tree_of
             (Spec837.run ["CLM*CLAIM001*150.00"] (Spec837.start [])))
        = Some claims
     /\ claims !! i = Some claim
     /\ EDI837Parser.tree_of
          (Spec837.step
             (Spec837.run ["CLM*CLAIM001*150.00"] (Spec837.start []))
             "HI*BK:Z8701")
        = EDI837Parser.ParsedData.set_claims
            (Some (<[i := EDI837Parser.Claim.set_healthInfo
                            (Some (default []
                                     (EDI837Parser.Claim.healthInfo claim)
                                   ++ [ {| EDI837Parser.HealthInfo.codeQualifier :=
                                             Some "BK";
                                           EDI837Parser.HealthInfo.code :=
                                             Some "Z8701";
                                           EDI837Parser.HealthInfo.dateQualifier :=
                                             None;
                                           EDI837Parser.HealthInfo.date :=
                                             None |} ]))
                            claim]> claims))
            (EDI837Parser.tree_of
               (Spec837.run ["CLM*CLAIM001*150.00"] (Spec837.start []))))
  /\ EDI837Parser.tree_of
       (Spec837.step (Spec837.run [] (Spec837.start [])) "HI*BK:Z8701")
     = EDI837Parser.tree_of (Spec837.run [] (Spec837.start [])).
Proof.
  split.
  - apply (proj1 (hi_composite_is_split_on_colon [] ["CLM*CLAIM001*150.00"]
                    "HI*BK:Z8701" "BK" "Z8701"
                    eq_refl eq_refl eq_refl eq_refl)).
    reflexivity.
  - apply (proj2 (hi_composite_is_split_on_colon [] []
                    "HI*BK:Z8701" "BK" "Z8701"
                    eq_refl eq_refl eq_refl eq_refl)).
    reflexivity.
Defined.

(** ** Dates of the 835 decoder *)

(** C6 (the claim as stated fails).  A DTM segment that follows a CLP
    segment, with no BPR segment before, leaves no trace: the tree is the
    fresh tree with the one claim exactly as [parseCLP] built it, and no
    list of dates exists anywhere in it. *)
Lemma dtm_after_clp_leaves_the_claim_untouched :
  exists this',
    EDI835Parser.parse "CLP*CLAIM001*1*150.00~DTM*232*20210301~"
      EDI835Parser.constructor
    = Normal
        (EDI835Parser.ParsedData.set_claims
           (Some [EDI835Parser.parseCLP ["CLP"; "CLAIM001"; "1"; "150.00"]])
           EDI835Parser.fresh_tree)
        this'.
Proof. eexists. vm_compute. reflexivity. Qed.

(** C6 (amended).  In the 835 decoder, for every DTM segment that arrives
    while a current payment is set (after a BPR segment), the date record
    is appended to the [dates] of that payment, the list being created when
    absent; the claims of the tree, the current claim among them, are left
    as they were. *)
Theorem dtm_appends_to_the_current_payment :
  forall (segments pre : list string) (segment : string),
    let fr := Spec835.run pre (Spec835.start segments) in
    let elements := Str.split EDI835Parser.elementDelimiter segment in
    let dateInfo :=
      {| EDI835Parser.DateInfo.qualifier := elements !! 1;
         EDI835Parser.DateInfo.date := elements !! 2;
         EDI835Parser.DateInfo.time := elements !! 3;
         EDI835Parser.DateInfo.timeCode := elements !! 4 |} in
    elements !! 0 = Some "DTM" ->
    forall r, EDI835Parser.Frame.currentPayment fr = Some r ->
    exists i payments payment,
      r = EDI835Parser.At i
      /\ EDI835Parser.ParsedData.payments (EDI835Parser.tree_of fr)
         = Some payments
      /\ payments !! i = Some payment
      /\ EDI835Parser.tree_of (Spec835.step fr segment)
         = EDI835Parser.ParsedData.set_payments
             (Some (<[i := EDI835Parser.Payment.set_dates
                             (Some (default [] (EDI835Parser.Payment.dates payment)
                                    ++ [dateInfo]))
                             payment]> payments))
             (EDI835Parser.tree_of fr)
      /\ EDI835Parser.ParsedData.claims
           (EDI835Parser.tree_of (Spec835.step fr segment))
         = EDI835Parser.ParsedData.claims (EDI835Parser.tree_of fr).
Proof.
  intros segments pre segment fr elements dateInfo Htag r Hr.
  assert (Hfr : Spec835.frame_ok fr)
    by apply Lemmas835.frame_ok_run_835, Lemmas835.frame_ok_start_835.
  destruct (Spec835.payment_listed _ Hfr _ Hr) as (i & -> & Hi).
  destruct (Spec835.has_payments _ Hfr) as [payments Hp].
  rewrite Hp in Hi. cbn in Hi.
  destruct (lookup_lt_is_Some_2 payments i Hi) as [payment Hpay].
  exists i, payments, payment.
  rewrite Lemmas835.step_dispatch_835. fold elements. rewrite Htag.
  subst dateInfo. generalize dependent elements. intros elements _.
  generalize dependent fr. intros [[segs tree] cpay cc cprov]; cbn.
  intros -> _ Hp.
  unfold EDI835Parser.dispatch; cbn.
  unfold EDI835Parser.on_this, zoom, EDI835Parser.parseDTM,
    EDI835Parser.update_payment, EDI835Parser.set_tree, modify, bind, get; cbn.
  rewrite Hp; cbn. rewrite (alter_at _ _ _ _ Hpay).
  repeat split; auto.
Qed.

(** A DTM segment after BPR and CLP: the payment receives the date. *)
Lemma dtm_appends_to_the_current_payment_witness :
  exists i payments payment,
    EDI835Parser.At 0 = EDI835Parser.At i
    /\ EDI835Parser.ParsedData.payments
         (EDI835Parser.tree_of
            (Spec835.run ["BPR*I*150.00"; "CLP*CLAIM001*1"] (Spec835.start [])))
       = Some payments
    /\ payments !! i = Some payment
    /\ EDI835Parser.tree_of
         (Spec835.step
            (Spec835.run ["BPR*I*150.00"; "CLP*CLAIM001*1"] (Spec835.start []))
            "DTM*232*20210301")
       = EDI835Parser.ParsedData.set_payments
           (Some (<[i := EDI835Parser.Payment.set_dates
                           (Some (default [] (EDI835Parser.Payment.dates payment)
                                  ++ [ {| EDI835Parser.DateInfo.qualifier :=
                                            Some "232";
                                          EDI835Parser.DateInfo.date :=
                                            Some "20210301";
                                          EDI835Parser.DateInfo.time := None;
                                          EDI835Parser.DateInfo.timeCode := None |} ]))
                           payment]> payments))
           (EDI835Parser.tree_of
              (Spec835.run ["BPR*I*150.00"; "CLP*CLAIM001*1"] (Spec835.start [])))
    /\ EDI835Parser.ParsedData.claims
         (EDI835Parser.tree_of
            (Spec835.step
               (Spec835.run ["BPR*I*150.00"; "CLP*CLAIM001*1"] (Spec835.start []))
               "DTM*232*20210301"))
       = EDI835Parser.ParsedData.claims
           (EDI835Parser.tree_of
              (Spec835.run ["BPR*I*150.00"; "CLP*CLAIM001*1"] (Spec835.start []))).
Proof.
  apply (dtm_appends_to_the_current_payment [] ["BPR*I*150.00"; "CLP*CLAIM001*1"]
           "DTM*232*20210301");
    reflexivity.
Defined.

(** ** Lists of the tree *)

(** C7 (the claim as stated fails).  The 837 tree returned for a lone ST
    segment has no [references], [contacts] or [addresses] list at all, and
    the claim built from a lone CLM segment has no [services], [dates] or
    [healthInfo] list: these lists are not initialised to the empty list. *)
Lemma lazy_lists_are_absent_until_used :
  (exists tree this',
     EDI837Parser.parse "ST*837*0001~" EDI837Parser.constructor
     = Normal tree this'
     /\ EDI837Parser.ParsedData.references tree = None
     /\ EDI837Parser.ParsedData.contacts tree = None
     /\ EDI837Parser.ParsedData.addresses tree = None)
  /\ (exists tree this' claim,
        EDI837Parser.parse "CLM*CLAIM001*150.00~" EDI837Parser.constructor
        = Normal tree this'
        /\ EDI837Parser.ParsedData.claims tree = Some [claim]
        /\ EDI837Parser.Claim.services claim = None
        /\ EDI837Parser.Claim.dates claim = None
        /\ EDI837Parser.Claim.healthInfo claim = None).
Proof.
  split.
  - do 2 eexists. split; [vm_compute; reflexivity|]. cbn. repeat split.
  - do 3 eexists. split; [vm_compute; reflexivity|]. cbn. repeat split.
Qed.

(** What does hold of the lists is stated and proved in the last part of
    the development, against the reference reading. *)

(** ** Demographics in the 837 decoder *)

(** C8.  For every DMG segment met by the loop of [parse]: when a current
    subscriber is set the demographics record is attached to that
    subscriber and nothing else changes, whether or not a current patient
    is set; otherwise, when a current patient is set, it is attached to
    that patient; when neither is set the tree is left as it was.  And
    NM1*IL*1*SMITH*JOHN followed by DMG*D8*19800101*M yields one subscriber
    SMITH, JOHN whose demographics have the birth date 19800101. *)
Theorem dmg_attaches_to_subscriber_else_patient :
  (forall (segments pre : list string) (segment : string),
     let fr := Spec837.run pre (Spec837.start segments) in
     let elements := Str.split EDI837Parser.elementDelimiter segment in
     let demographics :=
       {| EDI837Parser.Demographics.dateFormat := elements !! 1;
          EDI837Parser.Demographics.birthDate := elements !! 2;
          EDI837Parser.Demographics.gender := elements !! 3 |} in
     let tree := EDI837Parser.tree_of fr in
     let tree' := EDI837Parser.tree_of (Spec837.step fr segment) in
     elements !! 0 = Some "DMG" ->
     (forall r, EDI837Parser.Frame.currentSubscriber fr = Some r ->
        exists i subscribers subscriber,
          r = EDI837Parser.SubscriberAt i
          /\ EDI837Parser.ParsedData.subscribers tree = Some subscribers
          /\ subscribers !! i = Some subscriber
          /\ tree' = EDI837Parser.ParsedData.set_subscribers
                       (Some (<[i := EDI837Parser.Entity.set_demographics
                                       (Some demographics) subscriber]>
                                subscribers))
                       tree)
     /\ (EDI837Parser.Frame.currentSubscriber fr = None ->
         forall r, EDI837Parser.Frame.currentPatient fr = Some r ->
           exists i patients patient,
             r = EDI837Parser.PatientAt i
             /\ EDI837Parser.ParsedData.patients tree = Some patients
             /\ patients !! i = Some patient
             /\ tree' = EDI837Parser.ParsedData.set_patients
                          (Some (<[i := EDI837Parser.Entity.set_demographics
                                          (Some demographics) patient]>
                                   patients))
                          tree)
     /\ (EDI837Parser.Frame.currentSubscriber fr = None ->
         EDI837Parser.Frame.currentPatient fr = None ->
         tree' = tree))
  /\ (forall this, exists tree this' subscriber demographics,
        EDI837Parser.parse "NM1*IL*1*SMITH*JOHN~DMG*D8*19800101*M~" this
        = Normal tree this'
        /\ EDI837Parser.ParsedData.subscribers tree = Some [subscriber]
        /\ EDI837Parser.Entity.lastName subscriber = Some "SMITH"
        /\ EDI837Parser.Entity.firstName subscriber = Some "JOHN"
        /\ EDI837Parser.Entity.demographics subscriber = Some demographics
        /\ EDI837Parser.Demographics.birthDate demographics = Some "19800101").
Proof.
  split.
  - intros segments pre segment fr elements demographics tree tree' Htag.
    assert (Hfr : Spec837.frame_ok fr)
      by apply Lemmas837.frame_ok_run_837, Lemmas837.frame_ok_start_837.
    subst tree tree'. rewrite Lemmas837.step_dispatch_837. fold elements.
    rewrite Htag. subst demographics.
    generalize dependent elements. intros elements _.
    destruct Hfr as [_ _ _ [subscribers Hs] [patients Hp] _ _ Rs Rp _].
    generalize dependent fr. intros [[segs tree] cc cs cp cpr]; cbn.
    intros Hs Hp Rs Rp.
    unfold EDI837Parser.dispatch; cbn.
    unfold EDI837Parser.on_this, zoom, EDI837Parser.parseDMG,
      EDI837Parser.or_else, bind, get; cbn.
    split; [|split].
    + intros r ->. destruct (Rs _ eq_refl) as (i & -> & Hi).
      rewrite Hs in Hi. cbn in Hi.
      destruct (lookup_lt_is_Some_2 subscribers i Hi) as [subscriber Hsub].
      exists i, subscribers, subscriber. cbn.
      unfold EDI837Parser.set_tree, modify; cbn.
      rewrite Hs; cbn. rewrite (alter_at _ _ _ _ Hsub). repeat split; auto.
    + intros -> r ->. destruct (Rp _ eq_refl) as (i & -> & Hi).
      rewrite Hp in Hi. cbn in Hi.
      destruct (lookup_lt_is_Some_2 patients i Hi) as [patient Hpat].
      exists i, patients, patient. cbn.
      unfold EDI837Parser.set_tree, modify; cbn.
      rewrite Hp; cbn. rewrite (alter_at _ _ _ _ Hpat). repeat split; auto.
    + intros -> ->. reflexivity.
  - intros this. rewrite Lemmas837.parse_eq_837.
    do 4 eexists. split; [vm_compute; reflexivity|]. cbn. repeat split.
Qed.

(** A DMG segment met while both a subscriber and a patient are current,
    while a patient only is current, and while neither is. *)
Lemma dmg_attaches_to_subscriber_else_patient_witness :
  (EDI837Parser.Frame.currentPatient
     (Spec837.run ["NM1*IL*1*SMITH*JOHN"; "NM1*QC*1*DOE*JANE"] (Spec837.start []))
   = Some (EDI837Parser.PatientAt 0)
   /\ exists i subscribers subscriber,
        EDI837Parser.SubscriberAt 0 = EDI837Parser.SubscriberAt i
        /\ EDI837Parser.ParsedData.subscribers
             (EDI837Parser.tree_of
                (Spec837.run ["NM1*IL*1*SMITH*JOHN"; "NM1*QC*1*DOE*JANE"]
                   (Spec837.start [])))
           = Some subscribers
        /\ subscribers !! i = Some subscriber
        /\ EDI837Parser.tree_of
             (Spec837.step
                (Spec837.run ["NM1*IL*1*SMITH*JOHN"; "NM1*QC*1*DOE*JANE"]
                   (Spec837.start []))
                "DMG*D8*19800101*M")
           = EDI837Parser.ParsedData.set_subscribers
               (Some (<[i := EDI837Parser.Entity.set_demographics
                               (Some {| EDI837Parser.Demographics.dateFormat :=
                                          Some "D8";
                                        EDI837Parser.Demographics.birthDate :=
                                          Some "19800101";
                                        EDI837Parser.Demographics.gender :=
                                          Some "M" |})
                               subscriber]> subscribers))
               (EDI837Parser.tree_of
                  (Spec837.run ["NM1*IL*1*SMITH*JOHN"; "NM1*QC*1*DOE*JANE"]
                     (Spec837.start []))))
  /\ (exists i patients patient,
        EDI837Parser.PatientAt 0 = EDI837Parser.PatientAt i
        /\ EDI837Parser.ParsedData.patients
             (EDI837Parser.tree_of
                (Spec837.run ["NM1*QC*1*DOE*JANE"] (Spec837.start [])))
           = Some patients
        /\ patients !! i = Some patient
        /\ EDI837Parser.tree_of
             (Spec837.step
                (Spec837.run ["NM1*QC*1*DOE*JANE"] (Spec837.start []))
                "DMG*D8*19950615*F")
           = EDI837Parser.ParsedData.set_patients
               (Some (<[i := EDI837Parser.Entity.set_demographics
                               (Some {| EDI837Parser.Demographics.dateFormat :=
                                          Some "D8";
                                        EDI837Parser.Demographics.birthDate :=
                                          Some "19950615";
                                        EDI837Parser.Demographics.gender :=
                                          Some "F" |})
                               patient]> patients))
               (EDI837Parser.tree_of
                  (Spec837.run ["NM1*QC*1*DOE*JANE"] (Spec837.start []))))
  /\ EDI837Parser.tree_of
       (Spec837.step (Spec837.run ["CLM*CLAIM001*150.00"] (Spec837.start []))
          "DMG*D8*19800101*M")
     = EDI837Parser.tree_of
         (Spec837.run ["CLM*CLAIM001*150.00"] (Spec837.start [])).
Proof.
  split; [split; [reflexivity|]|split].
  - apply (proj1 (proj1 dmg_attaches_to_subscriber_else_patient []
                    ["NM1*IL*1*SMITH*JOHN"; "NM1*QC*1*DOE*JANE"]
                    "DMG*D8*19800101*M" eq_refl)).
    reflexivity.
  - apply (proj1 (proj2 (proj1 dmg_attaches_to_subscriber_else_patient []
                           ["NM1*QC*1*DOE*JANE"] "DMG*D8*19950615*F" eq_refl)));
      reflexivity.
  - apply (proj2 (proj2 (proj1 dmg_attaches_to_subscriber_else_patient []
                           ["CLM*CLAIM001*150.00"] "DMG*D8*19800101*M" eq_refl)));
      reflexivity.
Defined.

(** ** Independence from earlier calls *)

Lemma outcome_independent_837 ediData this1 this2 :
  outcome (EDI837Parser.parse ediData this1)
  = outcome (EDI837Parser.parse ediData this2).
Proof.
  rewrite !Lemmas837.parse_eq_837.
  destruct (EDI837Parser.tokenize _); reflexivity.
Qed.

Lemma outcome_independent_835 ediData this1 this2 :
  outcome (EDI835Parser.parse ediData this1)
  = outcome (EDI835Parser.parse ediData this2).
Proof.
  rewrite !Lemmas835.parse_eq_835.
  destruct (EDI835Parser.tokenize _); reflexivity.
Qed.

(** C10.  On an instance of either parser, in whatever state, what
    [parse B] returns or throws right after [parse A] is what it returns or
    throws on a new instance; and [parse A] called twice in a row returns
    or throws the same twice. *)
Theorem parse_is_history_insensitive :
  forall (A B : string)
         (this837 : EDI837Parser.Parser.t) (this835 : EDI835Parser.Parser.t),
    outcome (EDI837Parser.parse B (after_of (EDI837Parser.parse A this837)))
    = outcome (EDI837Parser.parse B EDI837Parser.constructor)
    /\ outcome (EDI837Parser.parse A (after_of (EDI837Parser.parse A this837)))
       = outcome (EDI837Parser.parse A this837)
    /\ outcome (EDI835Parser.parse B (after_of (EDI835Parser.parse A this835)))
       = outcome (EDI835Parser.parse B EDI835Parser.constructor)
    /\ outcome (EDI835Parser.parse A (after_of (EDI835Parser.parse A this835)))
       = outcome (EDI835Parser.parse A this835).
Proof.
  intros A B this837 this835.
  repeat split;
    first [apply outcome_independent_837 | apply outcome_independent_835].
Qed.
(** * Further facts: the tokenizer *)

Section Tokenizer.
Import Str.

Lemma strip_after_remove s :
  remove_lf (replace_cr_lf s) = strip_line_breaks s.
Proof.
  induction s as [|c s IH]; cbn; [reflexivity|].
  destruct (Ascii.eqb_spec c CR) as [->|Hc]; cbn.
  - exact IH.
  - destruct (Ascii.eqb c LF); cbn; rewrite IH; reflexivity.
Qed.

Lemma replace_crlf_lf_eq c1 c2 rest :
  replace_crlf_lf (String c1 (String c2 rest))
  = if Ascii.eqb c1 CR && Ascii.eqb c2 LF
    then String LF (replace_crlf_lf rest)
    else String c1 (replace_crlf_lf (String c2 rest)).
Proof. reflexivity. Qed.

Lemma strip_cons c s :
  strip_line_breaks (String c s)
  = if Ascii.eqb c CR || Ascii.eqb c LF
    then strip_line_breaks s
    else String c (strip_line_breaks s).
Proof. reflexivity. Qed.

Lemma strip_replace_crlf_aux n : forall s,
  String.length s <= n ->
  strip_line_breaks (replace_crlf_lf s) = strip_line_breaks s.
Proof.
  induction n as [|n IH]; intros [|c1 [|c2 rest]] Hn;
    try reflexivity; try (cbn in Hn; lia).
  rewrite replace_crlf_lf_eq.
  assert (H2 : strip_line_breaks (replace_crlf_lf (String c2 rest))
               = strip_line_breaks (String c2 rest))
    by (apply IH; cbn in *; lia).
  destruct (Ascii.eqb_spec c1 CR) as [->|H1];
    [destruct (Ascii.eqb_spec c2 LF) as [->|HL]|]; cbn [andb].
  - rewrite !strip_cons. cbn [Ascii.eqb orb]. 
    change (Ascii.eqb LF CR) with false. change (Ascii.eqb LF LF) with true.
    change (Ascii.eqb CR CR) with true. cbn [orb].
    apply IH. cbn in *; lia.
  - rewrite (strip_cons CR (replace_crlf_lf _)), (strip_cons CR (String c2 rest)).
    change (Ascii.eqb CR CR) with true. cbn [orb]. exact H2.
  - rewrite (strip_cons c1 (replace_crlf_lf _)), (strip_cons c1 (String c2 rest)).
    rewrite H2. reflexivity.
Qed.

Lemma strip_replace_crlf s :
  strip_line_breaks (replace_crlf_lf s) = strip_line_breaks s.
Proof. apply (strip_replace_crlf_aux (String.length s)). lia. Qed.

Lemma cleanData_strip data :
  EDI837Parser.cleanData data = trim (strip_line_breaks data).
Proof.
  unfold EDI837Parser.cleanData.
  rewrite strip_after_remove, strip_replace_crlf. reflexivity.
Qed.

(** ** Trimming *)

Lemma trimEnd_blank s : trimEnd s = EmptyString <-> blank s = true.
Proof.
  induction s as [|c s IH]; cbn; [tauto|].
  destruct (trimEnd s) eqn:E, (is_space c); cbn; split; intros H;
    try discriminate; try reflexivity.
  - apply IH. reflexivity.
  - apply IH in H. discriminate.
Qed.

Lemma trimStart_blank s : trimStart s = EmptyString <-> blank s = true.
Proof.
  induction s as [|c s IH]; cbn; [tauto|].
  destruct (is_space c); cbn; [exact IH|]. split; discriminate.
Qed.

Lemma trimEnd_cons c s :
  trimEnd (String c s)
  = if is_space c && blank s then EmptyString else String c (trimEnd s).
Proof.
  cbn. destruct (trimEnd s) eqn:E.
  - apply trimEnd_blank in E. rewrite E, andb_true_r.
    destruct (is_space c); reflexivity.
  - destruct (blank s) eqn:B.
    + apply trimEnd_blank in B. congruence.
    + rewrite andb_false_r. reflexivity.
Qed.

Lemma blank_trimEnd s : blank (trimEnd s) = blank s.
Proof.
  induction s as [|c s IH]; [reflexivity|].
  rewrite trimEnd_cons. cbn [blank].
  destruct (is_space c) eqn:C, (blank s) eqn:B; cbn;
    rewrite ?C, ?IH; reflexivity.
Qed.

Lemma trimEnd_idem s : trimEnd (trimEnd s) = trimEnd s.
Proof.
  induction s as [|c s IH]; [reflexivity|].
  rewrite trimEnd_cons. destruct (is_space c && blank s) eqn:E;
    [reflexivity|].
  rewrite trimEnd_cons, blank_trimEnd, E, IH. reflexivity.
Qed.

Lemma trimStart_idem s : trimStart (trimStart s) = trimStart s.
Proof.
  induction s as [|c s IH]; [reflexivity|]. cbn.
  destruct (is_space c) eqn:C; [exact IH|]. cbn. rewrite C. reflexivity.
Qed.

(** Trimming either end first gives the same string. *)
Lemma trim_trimEnd s : trim (trimEnd s) = trim s.
Proof.
  unfold trim. induction s as [|c s IH]; [reflexivity|].
  rewrite trimEnd_cons. destruct (is_space c) eqn:C; cbn [andb].
  - destruct (blank s) eqn:B.
    + cbn. rewrite C.
      apply trimStart_blank in B. rewrite B. reflexivity.
    + cbn. rewrite C. exact IH.
  - cbn [trimStart]. rewrite C. rewrite trimEnd_cons, C. cbn [andb].
    rewrite trimEnd_cons, C. cbn [andb]. rewrite trimEnd_idem. reflexivity.
Qed.

Lemma trimStart_trimEnd s : trimStart (trimEnd s) = trimEnd (trimStart s).
Proof.
  induction s as [|c s IH]; [reflexivity|].
  rewrite trimEnd_cons. destruct (is_space c) eqn:C; cbn [andb].
  - destruct (blank s) eqn:B; cbn; rewrite C.
    + apply trimStart_blank in B. rewrite B. reflexivity.
    + exact IH.
  - cbn. rewrite C. rewrite trimEnd_cons, C. reflexivity.
Qed.

Lemma trim_idem s : trim (trim s) = trim s.
Proof.
  unfold trim. rewrite trimStart_trimEnd, trimStart_idem, trimEnd_idem.
  reflexivity.
Qed.

Lemma contains_trimStart c s :
  contains c s = false -> contains c (trimStart s) = false.
Proof.
  induction s as [|c' s IH]; cbn; [auto|].
  intros H. apply orb_false_elim in H as [H1 H2].
  destruct (is_space c'); cbn; [auto|]. rewrite H1. exact H2.
Qed.

Lemma contains_trimEnd c s :
  contains c s = false -> contains c (trimEnd s) = false.
Proof.
  induction s as [|c' s IH]; [auto|]. cbn [contains].
  intros H. apply orb_false_elim in H as [H1 H2].
  rewrite trimEnd_cons. destruct (is_space c' && blank s); cbn;
    [reflexivity|]. rewrite H1. auto.
Qed.

Lemma contains_trim c s : contains c s = false -> contains c (trim s) = false.
Proof. intros H. apply contains_trimEnd, contains_trimStart, H. Qed.

Lemma trimStart_app_solid x c y :
  is_space c = false ->
  trimStart (x ++ String c y) = (trimStart x ++ String c y)%string.
Proof.
  intros Hc. induction x as [|c' x IH]; cbn; [rewrite Hc; reflexivity|].
  destruct (is_space c'); [exact IH|reflexivity].
Qed.

Lemma blank_app x y : blank (x ++ y) = blank x && blank y.
Proof.
  induction x as [|c x IH]; cbn; [reflexivity|].
  rewrite IH, andb_assoc. reflexivity.
Qed.

Lemma trimEnd_app_solid x c :
  is_space c = false ->
  trimEnd (x ++ String c EmptyString) = (x ++ String c EmptyString)%string.
Proof.
  intros Hc. induction x as [|c' x IH]; cbn [String.append].
  - rewrite trimEnd_cons, Hc. reflexivity.
  - rewrite trimEnd_cons, blank_app. cbn [blank]. rewrite Hc.
    cbn [andb]. rewrite !andb_false_r, IH. reflexivity.
Qed.

(** ** Splitting *)

Lemma split_nonempty sep s : Str.split sep s <> [].
Proof.
  induction s as [|c s IH]; cbn; [discriminate|].
  destruct (Ascii.eqb c sep); [discriminate|].
  destruct (Str.split sep s); [contradiction|discriminate].
Qed.

Lemma split_cons sep c s :
  Str.split sep (String c s)
  = if Ascii.eqb c sep then EmptyString :: Str.split sep s
    else match Str.split sep s with
         | piece :: pieces => String c piece :: pieces
         | [] => [String c EmptyString]
         end.
Proof. reflexivity. Qed.

Lemma split_pieces_solid sep s :
  Forall (fun piece => contains sep piece = false) (Str.split sep s).
Proof.
  induction s as [|c s IH]; [repeat constructor|].
  rewrite split_cons. destruct (Ascii.eqb c sep) eqn:E.
  - constructor; [reflexivity|exact IH].
  - destruct (Str.split sep s) as [|p ps]; inversion IH; subst;
      constructor; cbn; rewrite ?E; auto.
Qed.

Lemma split_pieces_within c sep s :
  contains c s = false ->
  Forall (fun piece => contains c piece = false) (Str.split sep s).
Proof.
  induction s as [|c' s IH]; intros H; [repeat constructor|].
  cbn in H. apply orb_false_elim in H as [H1 H2]. specialize (IH H2).
  rewrite split_cons. destruct (Ascii.eqb c' sep).
  - constructor; [reflexivity|exact IH].
  - destruct (Str.split sep s) as [|p ps]; inversion IH; subst;
      constructor; cbn; rewrite ?H1; auto.
Qed.

Lemma split_app_sep sep y z :
  Str.split sep (y ++ String sep z) = Str.split sep y ++ Str.split sep z.
Proof.
  induction y as [|c y IH]; cbn [String.append].
  - rewrite split_cons, Ascii.eqb_refl. reflexivity.
  - rewrite !split_cons, IH. destruct (Ascii.eqb c sep); [reflexivity|].
    pose proof (split_nonempty sep y) as Hy.
    destruct (Str.split sep y); [contradiction|reflexivity].
Qed.

Lemma contains_strip_CR s : contains CR (strip_line_breaks s) = false.
Proof.
  induction s as [|c s IH]; [reflexivity|]. rewrite strip_cons.
  destruct (Ascii.eqb_spec c CR) as [->|H]; cbn [orb]; [exact IH|].
  destruct (Ascii.eqb c LF); [exact IH|]. cbn.
  rewrite IH. destruct (Ascii.eqb_spec c CR); [contradiction|reflexivity].
Qed.

Lemma contains_strip_LF s : contains LF (strip_line_breaks s) = false.
Proof.
  induction s as [|c s IH]; [reflexivity|]. rewrite strip_cons.
  destruct (Ascii.eqb_spec c LF) as [->|H]; [rewrite orb_true_r; exact IH|].
  destruct (Ascii.eqb c CR); cbn [orb]; [exact IH|]. cbn.
  rewrite IH. destruct (Ascii.eqb_spec c LF); [contradiction|reflexivity].
Qed.

Lemma blank_solid c s :
  is_space c = false -> blank s = true -> contains c s = false.
Proof.
  intros Hc. induction s as [|c' s IH]; cbn; [reflexivity|].
  intros H. apply andb_prop in H as [H1 H2]. rewrite (IH H2), orb_false_r.
  destruct (Ascii.eqb_spec c' c) as [->|]; [congruence|reflexivity].
Qed.

Lemma split_single sep s piece : Str.split sep s = [piece] -> piece = s.
Proof.
  revert piece. induction s as [|c s IH]; intros piece.
  - cbn. intros [= <-]. reflexivity.
  - rewrite split_cons. pose proof (split_nonempty sep s) as Hs.
    destruct (Ascii.eqb c sep).
    + destruct (Str.split sep s); [contradiction|discriminate].
    + destruct (Str.split sep s) as [|p ps]; [contradiction|].
      intros [= <- ->]. rewrite (IH p eq_refl). reflexivity.
Qed.

Lemma map_last_cons {A} (f : A -> A) x l :
  l <> [] -> map_last f (x :: l) = x :: map_last f l.
Proof. destruct l; [contradiction|reflexivity]. Qed.

(** Trailing white space lies in the last piece only. *)
Lemma split_trimEnd sep s :
  is_space sep = false ->
  Str.split sep (trimEnd s) = map_last trimEnd (Str.split sep s).
Proof.
  intros Hsep. induction s as [|c s IH]; [reflexivity|].
  rewrite trimEnd_cons, (split_cons sep c s).
  pose proof (split_nonempty sep s) as Hs.
  destruct (Ascii.eqb_spec c sep) as [->|Hc].
  - rewrite Hsep. cbn [andb]. rewrite split_cons, Ascii.eqb_refl, IH.
    rewrite map_last_cons by exact Hs. reflexivity.
  - destruct (Str.split sep s) as [|p ps] eqn:E; [contradiction|].
    destruct (is_space c && blank s) eqn:B.
    + apply andb_prop in B as [B1 B2].
      rewrite (split_without sep s (blank_solid _ _ Hsep B2)) in E.
      injection E as <- <-. cbn [map_last].
      rewrite trimEnd_cons, B1, B2. reflexivity.
    + rewrite split_cons, IH.
      destruct (Ascii.eqb_spec c sep) as [|_]; [contradiction|].
      destruct ps as [|p' ps].
      * cbn [map_last]. rewrite (split_single _ _ _ E).
        rewrite trimEnd_cons, B. reflexivity.
      * reflexivity.
Qed.

Lemma map_trim_map_last l :
  List.map trim (map_last trimEnd l) = List.map trim l.
Proof.
  induction l as [|x [|y l] IH]; [reflexivity| |].
  - cbn. rewrite trim_trimEnd. reflexivity.
  - change (map_last trimEnd (x :: y :: l))
      with (x :: map_last trimEnd (y :: l)).
    cbn [List.map]. rewrite IH. reflexivity.
Qed.

Lemma strip_app a b :
  strip_line_breaks (a ++ b)
  = (strip_line_breaks a ++ strip_line_breaks b)%string.
Proof.
  induction a as [|c a IH]; [reflexivity|]. cbn [String.append].
  rewrite !strip_cons, IH.
  destruct (Ascii.eqb c CR || Ascii.eqb c LF); reflexivity.
Qed.
End Tokenizer.

(** X1.  Carriage returns and line feeds are deleted wherever they stand,
    between two segments or inside an element: two inputs that are equal
    once their line breaks are deleted are parsed alike by either parser,
    with the same tree or error and the same instance state. *)
Theorem line_breaks_are_insignificant :
  forall (data data' : string)
         (this837 : EDI837Parser.Parser.t) (this835 : EDI835Parser.Parser.t),
    strip_line_breaks data = strip_line_breaks data' ->
    EDI837Parser.parse data this837 = EDI837Parser.parse data' this837
    /\ EDI835Parser.parse data this835 = EDI835Parser.parse data' this835.
Proof.
  intros data data' this837 this835 H.
  assert (E : EDI837Parser.cleanData data = EDI837Parser.cleanData data')
    by (rewrite !cleanData_strip, H; reflexivity).
  split.
  - unfold EDI837Parser.parse. rewrite E. reflexivity.
  - unfold EDI835Parser.parse.
    change (EDI835Parser.cleanData data) with (EDI837Parser.cleanData data).
    change (EDI835Parser.cleanData data') with (EDI837Parser.cleanData data').
    rewrite E. reflexivity.
Qed.

(** X2.  Every segment that the tokenizer hands to the loop is non-empty,
    has no white space at either end, and contains neither the segment
    terminator nor a line break. *)
Theorem tokenized_segments_are_clean :
  forall data : string,
    Forall
      (fun segment =>
         segment <> EmptyString
         /\ Str.trim segment = segment
         /\ contains "~" segment = false
         /\ contains Str.CR segment = false
         /\ contains Str.LF segment = false)
      (EDI837Parser.tokenize (EDI837Parser.cleanData data))
    /\ EDI835Parser.tokenize (EDI835Parser.cleanData data)
       = EDI837Parser.tokenize (EDI837Parser.cleanData data).
Proof.
  intros data. split; [|reflexivity].
  unfold EDI837Parser.tokenize. rewrite cleanData_strip.
  apply List.Forall_forall. intros segment Hin.
  apply List.filter_In in Hin as [Hin Hlen].
  apply List.in_map_iff in Hin as (piece & <- & Hpiece).
  pose proof (split_pieces_solid EDI837Parser.segmentDelimiter
                (Str.trim (strip_line_breaks data))) as Hsolid.
  pose proof (split_pieces_within Str.CR EDI837Parser.segmentDelimiter _
                (contains_trim _ _ (contains_strip_CR data))) as HCR.
  pose proof (split_pieces_within Str.LF EDI837Parser.segmentDelimiter _
                (contains_trim _ _ (contains_strip_LF data))) as HLF.
  rewrite List.Forall_forall in Hsolid, HCR, HLF.
  repeat split.
  - intros E. rewrite E in Hlen. discriminate.
  - apply trim_idem.
  - apply contains_trim, Hsolid, Hpiece.
  - apply contains_trim, HCR, Hpiece.
  - apply contains_trim, HLF, Hpiece.
Qed.

(** X3.  The terminator of the last segment is optional: an input and the
    same input followed by one more [~] are tokenized alike, and so are
    parsed alike by either parser. *)
Theorem final_terminator_is_optional :
  forall (data : string)
         (this837 : EDI837Parser.Parser.t) (this835 : EDI835Parser.Parser.t),
    EDI837Parser.tokenize (EDI837Parser.cleanData (data ++ "~"))
    = EDI837Parser.tokenize (EDI837Parser.cleanData data)
    /\ EDI837Parser.parse (data ++ "~") this837
       = EDI837Parser.parse data this837
    /\ EDI835Parser.parse (data ++ "~") this835
       = EDI835Parser.parse data this835.
Proof.
  intros data this837 this835.
  assert (E : EDI837Parser.tokenize (EDI837Parser.cleanData (data ++ "~"))
              = EDI837Parser.tokenize (EDI837Parser.cleanData data)).
  { unfold EDI837Parser.tokenize. rewrite !cleanData_strip, strip_app.
    change (strip_line_breaks "~") with "~".
    unfold Str.trim at 2 4.
    rewrite trimStart_app_solid by reflexivity.
    rewrite trimEnd_app_solid by reflexivity.
    rewrite split_app_sep. change (Str.split "~" "") with [""].
    rewrite List.map_app, List.filter_app. cbn [List.map List.filter].
    change (Str.trim "") with "". cbn [String.length Nat.ltb Nat.leb].
    rewrite app_nil_r.
    rewrite split_trimEnd by reflexivity.
    rewrite map_trim_map_last. reflexivity. }
  split; [exact E|].
  split.
  - unfold EDI837Parser.parse. rewrite E. reflexivity.
  - unfold EDI835Parser.parse.
    change (EDI835Parser.tokenize (EDI835Parser.cleanData (data ++ "~")))
      with (EDI837Parser.tokenize (EDI837Parser.cleanData (data ++ "~"))).
    change (EDI835Parser.tokenize (EDI835Parser.cleanData data))
      with (EDI837Parser.tokenize (EDI837Parser.cleanData data)).
    rewrite E. reflexivity.
Qed.

(** A line break inside an element, and one after a terminator. *)
Lemma line_breaks_are_insignificant_witness :
  EDI837Parser.parse
    ("CLM*CLAIM" ++ String Str.CR (String Str.LF "001*150.00~")
     ++ String Str.LF "SV1*HC:99213*75.00~")
    EDI837Parser.constructor
  = EDI837Parser.parse "CLM*CLAIM001*150.00~SV1*HC:99213*75.00~"
      EDI837Parser.constructor
  /\ EDI835Parser.parse
       ("CLM*CLAIM" ++ String Str.CR (String Str.LF "001*150.00~")
        ++ String Str.LF "SV1*HC:99213*75.00~")
       EDI835Parser.constructor
     = EDI835Parser.parse "CLM*CLAIM001*150.00~SV1*HC:99213*75.00~"
         EDI835Parser.constructor.
Proof.
  apply (line_breaks_are_insignificant
           ("CLM*CLAIM" ++ String Str.CR (String Str.LF "001*150.00~")
            ++ String Str.LF "SV1*HC:99213*75.00~")
           "CLM*CLAIM001*150.00~SV1*HC:99213*75.00~").
  vm_compute. reflexivity.
Defined.
(** * Further facts: lists nested in their parents *)

Section MapLast.
Context {A : Type}.

Lemma map_last_snoc (f : A -> A) l x : map_last f (l ++ [x]) = l ++ [f x].
Proof.
  induction l as [|y l IH]; [reflexivity|].
  cbn [app]. rewrite map_last_cons, IH; [reflexivity|].
  destruct l; discriminate.
Qed.

Lemma map_last_ext (f g : A -> A) l :
  (forall x, f x = g x) -> map_last f l = map_last g l.
Proof.
  intros H. induction l as [|x [|y l] IH]; cbn; [reflexivity| |].
  - rewrite H. reflexivity.
  - cbn in IH. rewrite IH. reflexivity.
Qed.

Lemma map_last_map_last (f g : A -> A) l :
  map_last f (map_last g l) = map_last (fun x => f (g x)) l.
Proof.
  induction l as [|x [|y l] IH]; [reflexivity|reflexivity|].
  change (map_last g (x :: y :: l)) with (x :: map_last g (y :: l)).
  change (map_last (fun x => f (g x)) (x :: y :: l))
    with (x :: map_last (fun x => f (g x)) (y :: l)).
  rewrite <- IH. apply map_last_cons.
  destruct l; discriminate.
Qed.

Lemma map_last_id (f : A -> A) l : (forall x, f x = x) -> map_last f l = l.
Proof.
  intros H. induction l as [|x [|y l] IH]; cbn; [reflexivity| |].
  - rewrite H. reflexivity.
  - cbn in IH. rewrite IH. reflexivity.
Qed.
End MapLast.

Section AlterMap.
Context {A B : Type} (g : A -> B) (f : A -> A).

Lemma map_alter_same i l :
  (forall x, g (f x) = g x) -> List.map g (alter f i l) = List.map g l.
Proof.
  intros H. revert i. induction l as [|x l IH]; intros [|i]; cbn;
    rewrite ?H, ?IH; reflexivity.
Qed.

Lemma map_alter_last (h : B -> B) l :
  (forall x, g (f x) = h (g x)) ->
  List.map g (alter f (List.length l - 1) l) = map_last h (List.map g l).
Proof.
  intros H. induction l as [|x [|y l] IH]; [reflexivity| |].
  - cbn. rewrite H. reflexivity.
  - replace (List.length (x :: y :: l) - 1)
      with (S (List.length (y :: l) - 1)) by (cbn; lia).
    change (alter f (S (List.length (y :: l) - 1)) (x :: y :: l))
      with (x :: alter f (List.length (y :: l) - 1) (y :: l)).
    cbn [List.map]. rewrite IH. reflexivity.
Qed.
End AlterMap.

(** A loop whose iterations open parents and fill the latest one builds,
    for each opening segment, the list of the entries that joined it. *)
Section Nesting.
Context {Fr B : Type}.
Variable step : Fr -> string -> Fr.
Variable Inv : Fr -> Prop.
Variable role : string -> Role B.
Variable view : Fr -> list (list B).

Hypothesis Inv_step : forall fr segment, Inv fr -> Inv (step fr segment).
Hypothesis view_step : forall fr segment,
  Inv fr ->
  view (step fr segment)
  = match role segment with
    | Opens => view fr ++ [[]]
    | Joins entry => map_last (fun l => l ++ [entry]) (view fr)
    | Neither => view fr
    end.

Lemma view_fold segments : forall fr,
  Inv fr ->
  view (fold_left step segments fr)
  = map_last (fun l => l ++ joined_before_next role segments) (view fr)
    ++ nested_by_parent role segments.
Proof.
  induction segments as [|segment rest IH]; intros fr H; cbn.
  - rewrite app_nil_r, map_last_id; [reflexivity|].
    intros l. apply app_nil_r.
  - rewrite (IH _ (Inv_step _ segment H)), (view_step _ segment H).
    destruct (role segment) as [|entry|].
    + rewrite map_last_snoc, <- app_assoc. cbn.
      rewrite map_last_id; [reflexivity|]. intros l. apply app_nil_r.
    + rewrite map_last_map_last. f_equal. apply map_last_ext.
      intros l. rewrite <- app_assoc. reflexivity.
    + reflexivity.
Qed.
End Nesting.

(** * Further facts: the locals and the latest entries *)

Section Latest.
Context {A R : Type} (at_ : nat -> R).

Lemma latest_alter r (l : list A) f i :
  latest at_ r (Some l) -> latest at_ r (Some (alter f i l)).
Proof.
  intros (e & [= <-] & ->). exists (alter f i l). split; [reflexivity|].
  rewrite length_alter. destruct l; [reflexivity|].
  destruct i; reflexivity.
Qed.

Lemma latest_alter_opt r (o : option (list A)) f i :
  latest at_ r o -> latest at_ r (alter f i <$> o).
Proof.
  intros H. pose proof H as (e & -> & _). apply latest_alter, H.
Qed.

Lemma latest_push r (l : list A) x :
  latest at_ r (Some l) ->
  latest at_ (Some (at_ (List.length l))) (Some (l ++ [x])).
Proof.
  intros _. exists (l ++ [x]). split; [reflexivity|].
  destruct (l ++ [x]) eqn:E; [destruct l; discriminate|].
  rewrite <- E, length_app. cbn. do 2 f_equal. lia.
Qed.

Lemma latest_start : latest at_ None (Some (@nil A)).
Proof. exists []. split; reflexivity. Qed.

Lemma latest_none (l : list A) : latest at_ None (Some l) -> l = [].
Proof. intros (e & [= <-] & H). destruct l; [reflexivity|discriminate]. Qed.
End Latest.

Lemma Forall2_alter_kept {A} (R : A -> A -> Prop) (f : A -> A) i l :
  (forall x, R x x) -> (forall x, R x (f x)) -> Forall2 R l (alter f i l).
Proof.
  intros Hr Hf. revert i.
  induction l as [|x l IH]; intros [|i]; cbn; constructor;
    auto using Forall2_same.
Qed.

Lemma latest_At_837 {A} i (l : list A) :
  latest EDI837Parser.At (Some (EDI837Parser.At i)) (Some l) ->
  i = List.length l - 1 /\ l <> [].
Proof.
  intros (e & [= <-] & H). destruct l; [discriminate|].
  injection H as ->. split; [reflexivity|discriminate].
Qed.

Ltac absurd_latest :=
  match goal with
  | H : latest _ (Some _) _ |- _ =>
      solve [ let e := fresh in
              let Hr := fresh in
              destruct H as (e & _ & Hr); destruct e; discriminate Hr ]
  end.

Ltac keep_latest :=
  first [ assumption
        | apply latest_alter; assumption
        | eapply latest_push; eassumption
        | exfalso; absurd_latest ].

Ltac tag_goals s tac :=
  repeat (match goal with
          | |- context [String.eqb s ?lit] =>
              destruct (String.eqb_spec s lit) as [->|?]; [tac|]
          end);
  tac.

Ltac tag_cases s tac :=
  repeat (match goal with
          | |- context [String.eqb s ?lit] =>
              destruct (String.eqb_spec s lit) as [->|?]; [solve [tac]|]
          end);
  tac.

Module Further837.
Import EDI837Parser Spec837 Nest837 Lemmas837.

Ltac crunch :=
  repeat (progress
            (cbn;
             unfold on_this, zoom, bind, get, modify, ret, throw, set_tree,
               push_to, parseISA, parseGS, parseST, parseBHT, parsePRV,
               parseDMG, parseREF, parsePER, parseDTP, parseN3, parseN4,
               parseSBR, parseHI, parseLX, parseSE, parseGE, parseIEA,
               or_else, update_entity, update_claim, next_ref, next_entity,
               tree_of, after_of;
             scrutinees)).

(** Brings a frame and its tree to constructor form. *)
Ltac open_frame fr :=
  let segs := fresh "segs" in
  let pd := fresh "pd" in
  destruct fr as [[segs pd] ?cc ?cs ?cp ?cpr]; destruct pd; cbn in *.

Lemma locals_settled_start_837 segments : locals_settled (start segments).
Proof. repeat split; apply latest_start. Qed.

Lemma locals_settled_dispatch_837 sid elements fr :
  locals_settled fr -> locals_settled (after_of (dispatch sid elements fr)).
Proof.
  unfold locals_settled. intros (Hc & Hs & Hp & Hpr).
  open_frame fr.
  pose proof Hc as (lc & -> & _). pose proof Hs as (ls & -> & _).
  pose proof Hp as (lp & -> & _). pose proof Hpr as (lpr & -> & _).
  unfold dispatch. branches; crunch.
  all: conjuncts; keep_latest.
Qed.

Lemma locals_settled_run_837 segments : forall fr,
  locals_settled fr -> locals_settled (run segments fr).
Proof.
  induction segments as [|segment rest IH]; intros fr H; [exact H|].
  apply IH. unfold step. rewrite iteration_normal_837. cbn.
  rewrite step_dispatch_837. apply locals_settled_dispatch_837, H.
Qed.

Lemma claims_settled_start_837 segments : claims_settled (start segments).
Proof. split; [apply latest_start|cbn; eauto]. Qed.

Lemma claims_settled_dispatch_837 sid elements fr :
  claims_settled fr -> claims_settled (after_of (dispatch sid elements fr)).
Proof.
  unfold claims_settled. intros (Hc & [lsv Hsv]).
  open_frame fr. subst.
  pose proof Hc as (lc & -> & _).
  unfold dispatch. branches; crunch.
  all: split; [keep_latest|eauto].
Qed.

(** Uses what [latest] says of the current claim. *)
Ltac use_latest :=
  repeat match goal with
         | H : latest At (Some (At ?i)) (Some ?l) |- _ =>
             let Hi := fresh in
             destruct (latest_At_837 _ _ H) as [Hi _]; clear H; subst i
         | H : latest At None (Some ?l) |- _ =>
             apply latest_none in H; subst l
         | H : latest At (Some Detached) _ |- _ => exfalso; absurd_latest
         end.

Lemma nested_services_dispatch_837 sid elements fr :
  claims_settled fr ->
  nested_services (tree_of (after_of (dispatch sid elements fr)))
  = match service_role_of sid elements with
    | Opens => nested_services (tree_of fr) ++ [[]]
    | Joins entry =>
        map_last (fun l => l ++ [entry]) (nested_services (tree_of fr))
    | Neither => nested_services (tree_of fr)
    end.
Proof.
  unfold claims_settled. intros (Hc & [lsv Hsv]).
  open_frame fr. subst.
  pose proof Hc as (lc & -> & _).
  unfold service_role_of, nested_services, dispatch.
  destruct sid as [s|]; [|reflexivity]; unfold strict_eq.
  tag_cases s ltac:(idtac; cbn; branches; crunch; use_latest;
                    first [ reflexivity
                          | rewrite List.map_app; reflexivity
                          | apply map_alter_same; intros; reflexivity
                          | apply map_alter_last; intros; reflexivity ]).
Qed.

Lemma services_dispatch_837 sid elements fr flat :
  ParsedData.services (tree_of fr) = Some flat ->
  ParsedData.services (tree_of (after_of (dispatch sid elements fr)))
  = Some (flat ++ if sid === "SV1" then [parseSV1 elements] else []).
Proof.
  open_frame fr. intros ->.
  unfold dispatch.
  destruct sid as [s|]; [|cbn; rewrite app_nil_r; reflexivity];
    unfold strict_eq.
  tag_cases s ltac:(idtac; cbn; branches; crunch; rewrite ?app_nil_r;
                    reflexivity).
Qed.

Lemma claims_dispatch_837 sid elements fr claims :
  ParsedData.claims (tree_of fr) = Some claims ->
  exists kept,
    ParsedData.claims (tree_of (after_of (dispatch sid elements fr)))
    = Some (kept ++ if sid === "CLM" then [parseCLM elements] else [])
    /\ Forall2 claim_grows claims kept.
Proof.
  open_frame fr. intros ->.
  unfold dispatch.
  destruct sid as [s|];
    [|exists claims; cbn; rewrite app_nil_r;
      split; [reflexivity|apply Forall2_same, claim_grows_refl_837]];
    unfold strict_eq.
  tag_cases s ltac:(idtac; cbn; branches; crunch;
                    eexists; rewrite ?app_nil_r;
                    (split; [reflexivity|]);
                    first [ apply Forall2_same, claim_grows_refl_837
                          | apply Forall2_alter_kept;
                            [ apply claim_grows_refl_837
                            | intros []; split; [reflexivity|];
                              cbn; conjuncts; auto with grows ] ]).
Qed.

Lemma step_is_dispatch_837 fr segment :
  step fr segment
  = after_of (dispatch (tag_of segment) (elements_of segment) fr).
Proof. apply step_dispatch_837. Qed.

Lemma claims_settled_step_837 fr segment :
  claims_settled fr -> claims_settled (step fr segment).
Proof. rewrite step_is_dispatch_837. apply claims_settled_dispatch_837. Qed.

Lemma services_run_837 segments : forall fr flat,
  ParsedData.services (tree_of fr) = Some flat ->
  ParsedData.services (tree_of (run segments fr))
  = Some (flat ++ built_from "SV1" parseSV1 segments).
Proof.
  unfold built_from.
  induction segments as [|segment rest IH]; intros fr flat H.
  - cbn. rewrite app_nil_r. exact H.
  - change (run (segment :: rest) fr) with (run rest (step fr segment)).
    rewrite step_is_dispatch_837.
    rewrite (IH _ _ (services_dispatch_837 (tag_of segment)
                       (elements_of segment) fr flat H)).
    rewrite <- app_assoc. cbn [List.filter]. unfold has_tag.
    destruct (tag_of segment === "SV1"); reflexivity.
Qed.

Lemma claims_run_837 segments : forall fr claims,
  ParsedData.claims (tree_of fr) = Some claims ->
  exists final,
    ParsedData.claims (tree_of (run segments fr)) = Some final
    /\ Forall2 claim_grows (claims ++ built_from "CLM" parseCLM segments)
         final.
Proof.
  unfold built_from.
  induction segments as [|segment rest IH]; intros fr claims H.
  - exists claims. cbn. rewrite app_nil_r.
    split; [exact H|apply Forall2_same, claim_grows_refl_837].
  - destruct (claims_dispatch_837 (tag_of segment) (elements_of segment)
                fr claims H) as (kept & Hk & Fk).
    change (run (segment :: rest) fr) with (run rest (step fr segment)).
    rewrite step_is_dispatch_837.
    destruct (IH _ _ Hk) as (final & Hf & Ff).
    exists final. split; [exact Hf|].
    eapply Forall2_chain; [apply claim_grows_trans_837| |exact Ff].
    cbn [List.filter]. unfold has_tag.
    destruct (tag_of segment === "CLM"); cbn [List.map app].
    + change (claims ++ ?x :: ?l) with (claims ++ [x] ++ l).
      rewrite !app_assoc. apply Forall2_app;
        [apply Forall2_app; [exact Fk|]|];
        apply Forall2_same, claim_grows_refl_837.
    + rewrite app_nil_r.
      apply Forall2_app; [exact Fk|].
      apply Forall2_same, claim_grows_refl_837.
Qed.

Lemma nested_services_run_837 segments : forall fr,
  claims_settled fr ->
  nested_services (tree_of (run segments fr))
  = map_last (fun l => l ++ joined_before_next service_role segments)
      (nested_services (tree_of fr))
    ++ nested_by_parent service_role segments.
Proof.
  apply (view_fold step claims_settled service_role
           (fun fr => nested_services (tree_of fr))).
  - apply claims_settled_step_837.
  - intros fr segment H. rewrite step_is_dispatch_837.
    apply nested_services_dispatch_837, H.
Qed.
End Further837.

(** X4.  The 837 tree has one claim for each CLM segment of the input, in
    the order of the segments, each with the seven fields read from its
    segment (only its nested lists were filled afterwards); and its flat
    list of services holds one service for each SV1 segment, in order,
    each exactly as [parseSV1] built it. *)
Theorem claims_and_services_follow_the_segments :
  forall (ediData : string) (this : EDI837Parser.Parser.t),
    let segments := EDI837Parser.tokenize (EDI837Parser.cleanData ediData) in
    segments <> [] ->
    exists tree this' claims,
      EDI837Parser.parse ediData this = Normal tree this'
      /\ EDI837Parser.ParsedData.claims tree = Some claims
      /\ Forall2 Spec837.claim_grows
           (built_from "CLM" EDI837Parser.parseCLM segments) claims
      /\ EDI837Parser.ParsedData.services tree
         = Some (built_from "SV1" EDI837Parser.parseSV1 segments).
Proof.
  intros ediData this segments Hne.
  rewrite Lemmas837.parse_eq_837. fold segments.
  destruct segments as [|s0 rest] eqn:E; [congruence|]. rewrite <- E.
  destruct (Further837.claims_run_837 segments (Spec837.start segments) []
              eq_refl) as (final & Hf & Ff).
  exists (EDI837Parser.tree_of (Spec837.run segments (Spec837.start segments))).
  eexists. exists final.
  split; [reflexivity|]. split; [exact Hf|]. split; [exact Ff|].
  apply (Further837.services_run_837 segments (Spec837.start segments) []).
  reflexivity.
Qed.

(** X5.  Each claim of the 837 tree nests exactly the services of the SV1
    segments that stand between its CLM segment and the next CLM segment,
    in order; a service that arrives before the first CLM segment is nested
    nowhere. *)
Theorem services_nest_in_the_latest_claim :
  forall (ediData : string) (this : EDI837Parser.Parser.t),
    let segments := EDI837Parser.tokenize (EDI837Parser.cleanData ediData) in
    segments <> [] ->
    exists tree this',
      EDI837Parser.parse ediData this = Normal tree this'
      /\ Nest837.nested_services tree
         = nested_by_parent Nest837.service_role segments.
Proof.
  intros ediData this segments Hne.
  rewrite Lemmas837.parse_eq_837. fold segments.
  destruct segments as [|s0 rest] eqn:E; [congruence|]. rewrite <- E.
  do 2 eexists. split; [reflexivity|].
  cbv zeta.
  apply (Further837.nested_services_run_837 segments (Spec837.start segments)).
  apply Further837.claims_settled_start_837.
Qed.
Lemma latest_At_835 {A} i (l : list A) :
  latest EDI835Parser.At (Some (EDI835Parser.At i)) (Some l) ->
  i = List.length l - 1 /\ l <> [].
Proof.
  intros (e & [= <-] & H). destruct l; [discriminate|].
  injection H as ->. split; [reflexivity|discriminate].
Qed.

Module Further835.
Import EDI835Parser Spec835 Nest835 Lemmas835.

Ltac crunch :=
  repeat (progress
            (cbn;
             unfold on_this, zoom, bind, get, modify, ret, throw, set_tree,
               push_to, parseISA, parseGS, parseST, parseTRN, parseREF,
               parseDTM, parseN3, parseN4, parsePER, parseCAS, parseNM1,
               parseMIA, parseMOA, parseAMT, parseQTY, parseSE, parseGE,
               parseIEA, update_payment, update_claim, next_ref, tree_of,
               after_of;
             scrutinees)).

Ltac open_frame fr :=
  let segs := fresh "segs" in
  let pd := fresh "pd" in
  destruct fr as [[segs pd] ?cpay ?cc ?cprov]; destruct pd; cbn in *.

Ltac use_latest :=
  repeat match goal with
         | H : latest At (Some (At ?i)) (Some ?l) |- _ =>
             let Hi := fresh in
             destruct (latest_At_835 _ _ H) as [Hi _]; clear H; subst i
         | H : latest At None (Some ?l) |- _ =>
             apply latest_none in H; subst l
         | H : latest At (Some Detached) _ |- _ => exfalso; absurd_latest
         end.

Lemma step_is_dispatch_835 fr segment :
  step fr segment
  = after_of (dispatch (tag_of segment) (elements_of segment) fr).
Proof. apply step_dispatch_835. Qed.

Lemma locals_settled_start_835 segments : locals_settled (start segments).
Proof. repeat split; try apply latest_start. cbn; eauto. Qed.

Lemma locals_settled_dispatch_835 sid elements fr :
  locals_settled fr -> locals_settled (after_of (dispatch sid elements fr)).
Proof.
  unfold locals_settled. intros (Hp & Hc & [lsv Hsv]).
  open_frame fr. subst.
  pose proof Hp as (lp & -> & _). pose proof Hc as (lc & -> & _).
  unfold dispatch. branches; crunch.
  all: conjuncts; first [keep_latest | eauto].
Qed.

Lemma locals_settled_step_835 fr segment :
  locals_settled fr -> locals_settled (step fr segment).
Proof. rewrite step_is_dispatch_835. apply locals_settled_dispatch_835. Qed.

Lemma locals_settled_run_835 segments : forall fr,
  locals_settled fr -> locals_settled (run segments fr).
Proof.
  induction segments as [|segment rest IH]; intros fr H; [exact H|].
  apply IH, locals_settled_step_835, H.
Qed.

Lemma nested_services_dispatch_835 sid elements fr :
  locals_settled fr ->
  nested_services (tree_of (after_of (dispatch sid elements fr)))
  = match service_role_of sid elements with
    | Opens => nested_services (tree_of fr) ++ [[]]
    | Joins entry =>
        map_last (fun l => l ++ [entry]) (nested_services (tree_of fr))
    | Neither => nested_services (tree_of fr)
    end.
Proof.
  unfold locals_settled. intros (Hp & Hc & [lsv Hsv]).
  open_frame fr. subst.
  pose proof Hp as (lp & -> & _). pose proof Hc as (lc & -> & _).
  unfold service_role_of, nested_services, dispatch.
  destruct sid as [s|]; [|reflexivity]; unfold strict_eq.
  tag_cases s ltac:(idtac; cbn; branches; crunch; use_latest;
                    first [ reflexivity
                          | rewrite List.map_app; reflexivity
                          | apply map_alter_same; intros; reflexivity
                          | apply map_alter_last; intros; reflexivity ]).
Qed.

Lemma claims_of_payments_dispatch_835 sid elements fr claims :
  locals_settled fr ->
  ParsedData.claims (tree_of fr) = Some claims ->
  claims_of_payments (tree_of (after_of (dispatch sid elements fr)))
  = (if sid === "BPR" then claims_of_payments (tree_of fr) ++ [[]]
     else if sid === "CLP"
          then map_last (fun l => l ++ [At (List.length claims)])
                 (claims_of_payments (tree_of fr))
          else claims_of_payments (tree_of fr))
  /\ List.length
       (default []
          (ParsedData.claims (tree_of (after_of (dispatch sid elements fr)))))
     = (if sid === "CLP" then S (List.length claims)
        else List.length claims).
Proof.
  unfold locals_settled. intros (Hp & Hc & [lsv Hsv]).
  open_frame fr. intros ->. subst.
  pose proof Hp as (lp & -> & _).
  unfold claims_of_payments, dispatch.
  destruct sid as [s|]; [|split; reflexivity]; unfold strict_eq.
  tag_cases s ltac:(idtac; cbn; branches; crunch; use_latest;
                    (split;
                     [ first [ reflexivity
                             | rewrite List.map_app; reflexivity
                             | apply map_alter_same; intros; reflexivity
                             | apply map_alter_last; intros; reflexivity ]
                     | rewrite ?length_alter, ?length_app; cbn;
                       first [reflexivity | lia] ])).
Qed.

Lemma flat_dispatch_835 sid elements fr services adjustments :
  ParsedData.services (tree_of fr) = Some services ->
  ParsedData.adjustments (tree_of fr) = Some adjustments ->
  ParsedData.services (tree_of (after_of (dispatch sid elements fr)))
  = Some (services ++ if sid === "SVC" then [parseSVC elements] else [])
  /\ ParsedData.adjustments (tree_of (after_of (dispatch sid elements fr)))
     = Some (adjustments
             ++ if sid === "PLB" then [parsePLB elements] else []).
Proof.
  open_frame fr. intros -> ->.
  unfold dispatch.
  destruct sid as [s|]; [|cbn; rewrite !app_nil_r; split; reflexivity];
    unfold strict_eq.
  tag_cases s ltac:(idtac; cbn; branches; crunch; rewrite ?app_nil_r;
                    split; reflexivity).
Qed.

Lemma skeleton_dispatch_835 sid elements fr claims payments :
  ParsedData.claims (tree_of fr) = Some claims ->
  ParsedData.payments (tree_of fr) = Some payments ->
  exists kept_claims kept_payments,
    ParsedData.claims (tree_of (after_of (dispatch sid elements fr)))
    = Some (kept_claims
            ++ if sid === "CLP" then [parseCLP elements] else [])
    /\ Forall2 claim_grows claims kept_claims
    /\ ParsedData.payments (tree_of (after_of (dispatch sid elements fr)))
       = Some (kept_payments
               ++ if sid === "BPR" then [parseBPR elements] else [])
    /\ Forall2 payment_grows payments kept_payments.
Proof.
  open_frame fr. intros -> ->.
  unfold dispatch.
  destruct sid as [s|];
    [|exists claims, payments; cbn; rewrite !app_nil_r;
      conjuncts; try reflexivity;
      apply Forall2_same;
      [apply claim_grows_refl_835|apply payment_grows_refl_835]];
    unfold strict_eq.
  tag_cases s ltac:(idtac; cbn; branches; crunch;
                    do 2 eexists; rewrite ?app_nil_r;
                    (split; [reflexivity|]);
                    (split;
                     [ first [ apply Forall2_same, claim_grows_refl_835
                             | apply Forall2_alter_kept;
                               [ apply claim_grows_refl_835
                               | intros []; split; [reflexivity|];
                                 cbn; conjuncts; auto with grows ] ]|]);
                    (split; [reflexivity|]);
                    first [ apply Forall2_same, payment_grows_refl_835
                          | apply Forall2_alter_kept;
                            [ apply payment_grows_refl_835
                            | intros []; split; [reflexivity|];
                              cbn; conjuncts; auto with grows ] ]).
Qed.

Lemma nested_services_run_835 segments : forall fr,
  locals_settled fr ->
  nested_services (tree_of (run segments fr))
  = map_last (fun l => l ++ joined_before_next service_role segments)
      (nested_services (tree_of fr))
    ++ nested_by_parent service_role segments.
Proof.
  apply (view_fold step locals_settled service_role
           (fun fr => nested_services (tree_of fr))).
  - apply locals_settled_step_835.
  - intros fr segment H. rewrite step_is_dispatch_835.
    apply nested_services_dispatch_835, H.
Qed.

Lemma claims_of_payments_run_835 segments : forall fr claims,
  locals_settled fr ->
  ParsedData.claims (tree_of fr) = Some claims ->
  claims_of_payments (tree_of (run segments fr))
  = map_last
      (fun l => l ++ claims_before_next_payment (List.length claims) segments)
      (claims_of_payments (tree_of fr))
    ++ claims_by_payment (List.length claims) segments.
Proof.
  induction segments as [|segment rest IH]; intros fr claims H Hc.
  - cbn. rewrite app_nil_r, map_last_id; [reflexivity|].
    intros l. apply app_nil_r.
  - change (run (segment :: rest) fr) with (run rest (step fr segment)).
    pose proof (locals_settled_step_835 fr segment H) as H'.
    destruct (claims_of_payments_dispatch_835 (tag_of segment)
                (elements_of segment) fr claims H Hc) as [Hv Hl].
    rewrite <- step_is_dispatch_835 in Hv, Hl.
    destruct H' as (Hp' & Hc' & Hs'). pose proof Hc' as (claims' & Ec & _).
    rewrite (IH _ claims' (conj Hp' (conj Hc' Hs')) Ec).
    rewrite Ec in Hl. cbn in Hl. rewrite Hl, Hv.
    cbn [claims_before_next_payment claims_by_payment]. unfold has_tag.
    destruct (tag_of segment) as [t|]; [|reflexivity].
    unfold strict_eq.
    destruct (String.eqb_spec t "BPR") as [->|_].
    + cbn. rewrite map_last_snoc, <- app_assoc. cbn.
      rewrite map_last_id; [reflexivity|]. intros l. apply app_nil_r.
    + destruct (String.eqb t "CLP").
      * rewrite map_last_map_last. f_equal. apply map_last_ext.
        intros l. rewrite <- app_assoc. reflexivity.
      * reflexivity.
Qed.

Lemma flat_run_835 segments : forall fr services adjustments,
  ParsedData.services (tree_of fr) = Some services ->
  ParsedData.adjustments (tree_of fr) = Some adjustments ->
  ParsedData.services (tree_of (run segments fr))
  = Some (services ++ built_from "SVC" parseSVC segments)
  /\ ParsedData.adjustments (tree_of (run segments fr))
     = Some (adjustments ++ built_from "PLB" parsePLB segments).
Proof.
  unfold built_from.
  induction segments as [|segment rest IH]; intros fr services adjustments Hs Ha.
  - cbn. rewrite !app_nil_r. split; assumption.
  - change (run (segment :: rest) fr) with (run rest (step fr segment)).
    rewrite step_is_dispatch_835.
    destruct (flat_dispatch_835 (tag_of segment) (elements_of segment) fr
                services adjustments Hs Ha) as [Hs' Ha'].
    destruct (IH _ _ _ Hs' Ha') as [-> ->].
    rewrite <- !app_assoc. cbn [List.filter]. unfold has_tag.
    destruct (tag_of segment === "SVC"), (tag_of segment === "PLB");
      split; reflexivity.
Qed.

Lemma skeleton_run_835 segments : forall fr claims payments,
  ParsedData.claims (tree_of fr) = Some claims ->
  ParsedData.payments (tree_of fr) = Some payments ->
  exists final_claims final_payments,
    ParsedData.claims (tree_of (run segments fr)) = Some final_claims
    /\ Forall2 claim_grows (claims ++ built_from "CLP" parseCLP segments)
         final_claims
    /\ ParsedData.payments (tree_of (run segments fr)) = Some final_payments
    /\ Forall2 payment_grows
         (payments ++ built_from "BPR" parseBPR segments) final_payments.
Proof.
  unfold built_from.
  induction segments as [|segment rest IH]; intros fr claims payments Hc Hp.
  - exists claims, payments. cbn. rewrite !app_nil_r.
    conjuncts; try assumption; apply Forall2_same;
      [apply claim_grows_refl_835|apply payment_grows_refl_835].
  - destruct (skeleton_dispatch_835 (tag_of segment) (elements_of segment)
                fr claims payments Hc Hp)
      as (kc & kp & Hkc & Fkc & Hkp & Fkp).
    change (run (segment :: rest) fr) with (run rest (step fr segment)).
    rewrite step_is_dispatch_835.
    destruct (IH _ _ _ Hkc Hkp) as (fc & fp & Hfc & Ffc & Hfp & Ffp).
    exists fc, fp. conjuncts; try assumption.
    + eapply Forall2_chain; [apply claim_grows_trans_835| |exact Ffc].
      cbn [List.filter]. unfold has_tag.
      destruct (tag_of segment === "CLP"); cbn [List.map app].
      * change (claims ++ ?x :: ?l) with (claims ++ [x] ++ l).
        rewrite !app_assoc. apply Forall2_app;
          [apply Forall2_app; [exact Fkc|]|];
          apply Forall2_same, claim_grows_refl_835.
      * rewrite app_nil_r. apply Forall2_app; [exact Fkc|].
        apply Forall2_same, claim_grows_refl_835.
    + eapply Forall2_chain; [apply payment_grows_trans_835| |exact Ffp].
      cbn [List.filter]. unfold has_tag.
      destruct (tag_of segment === "BPR"); cbn [List.map app].
      * change (payments ++ ?x :: ?l) with (payments ++ [x] ++ l).
        rewrite !app_assoc. apply Forall2_app;
          [apply Forall2_app; [exact Fkp|]|];
          apply Forall2_same, payment_grows_refl_835.
      * rewrite app_nil_r. apply Forall2_app; [exact Fkp|].
        apply Forall2_same, payment_grows_refl_835.
Qed.
End Further835.

(** A service before any claim, two claims with services, two without. *)
Lemma claims_and_services_follow_the_segments_witness :
  exists tree this' claims,
    EDI837Parser.parse
      "SV1*HC:0*5.00~CLM*A*100~SV1*HC:1*10~DTP*472*D8*20210301~SV1*HC:2*20~CLM*B*50~CLM*C*70~SV1*HC:3*30~"
      EDI837Parser.constructor
    = Normal tree this'
    /\ EDI837Parser.ParsedData.claims tree = Some claims
    /\ Forall2 Spec837.claim_grows
         (built_from "CLM" EDI837Parser.parseCLM
            (EDI837Parser.tokenize
               (EDI837Parser.cleanData
                  "SV1*HC:0*5.00~CLM*A*100~SV1*HC:1*10~DTP*472*D8*20210301~SV1*HC:2*20~CLM*B*50~CLM*C*70~SV1*HC:3*30~")))
         claims
    /\ EDI837Parser.ParsedData.services tree
       = Some (built_from "SV1" EDI837Parser.parseSV1
                 (EDI837Parser.tokenize
                    (EDI837Parser.cleanData
                       "SV1*HC:0*5.00~CLM*A*100~SV1*HC:1*10~DTP*472*D8*20210301~SV1*HC:2*20~CLM*B*50~CLM*C*70~SV1*HC:3*30~"))).
Proof.
  apply (claims_and_services_follow_the_segments
           "SV1*HC:0*5.00~CLM*A*100~SV1*HC:1*10~DTP*472*D8*20210301~SV1*HC:2*20~CLM*B*50~CLM*C*70~SV1*HC:3*30~"
           EDI837Parser.constructor).
  vm_compute. discriminate.
Defined.

Lemma services_nest_in_the_latest_claim_witness :
  exists tree this',
    EDI837Parser.parse
      "SV1*HC:0*5.00~CLM*A*100~SV1*HC:1*10~DTP*472*D8*20210301~SV1*HC:2*20~CLM*B*50~CLM*C*70~SV1*HC:3*30~"
      EDI837Parser.constructor
    = Normal tree this'
    /\ Nest837.nested_services tree
       = nested_by_parent Nest837.service_role
           (EDI837Parser.tokenize
              (EDI837Parser.cleanData
                 "SV1*HC:0*5.00~CLM*A*100~SV1*HC:1*10~DTP*472*D8*20210301~SV1*HC:2*20~CLM*B*50~CLM*C*70~SV1*HC:3*30~")).
Proof.
  apply (services_nest_in_the_latest_claim
           "SV1*HC:0*5.00~CLM*A*100~SV1*HC:1*10~DTP*472*D8*20210301~SV1*HC:2*20~CLM*B*50~CLM*C*70~SV1*HC:3*30~"
           EDI837Parser.constructor).
  vm_compute. discriminate.
Defined.

(** What the two sides of the equation are on that input: the first and the
    second claim nest two and no services, the third one service, and the
    service that came first is in no claim. *)
Example services_nest_in_the_latest_claim_example :
  List.map (List.map EDI837Parser.Service.serviceCode)
    (nested_by_parent Nest837.service_role
       (EDI837Parser.tokenize
          (EDI837Parser.cleanData
             "SV1*HC:0*5.00~CLM*A*100~SV1*HC:1*10~DTP*472*D8*20210301~SV1*HC:2*20~CLM*B*50~CLM*C*70~SV1*HC:3*30~")))
  = [[Some "HC:1"; Some "HC:2"]; []; [Some "HC:3"]].
Proof. vm_compute. reflexivity. Qed.

(** X6.  In every frame that the loop of either parser reaches, each local
    that refers into the tree is null exactly while its list is empty, and
    otherwise refers to the entry pushed last: the current claim is the
    latest claim, the current subscriber the latest subscriber, and so on
    for the patient and the provider (837) and for the payment (835). *)
Theorem locals_refer_to_the_latest_entries :
  forall (segments pre : list string),
    Nest837.locals_settled (Spec837.run pre (Spec837.start segments))
    /\ Nest835.locals_settled (Spec835.run pre (Spec835.start segments)).
Proof.
  intros segments pre. split.
  - apply Further837.locals_settled_run_837, Further837.locals_settled_start_837.
  - apply Further835.locals_settled_run_835, Further835.locals_settled_start_835.
Qed.

(** X7.  The 835 tree has one claim for each CLP segment and one payment
    for each BPR segment, in the order of the segments, each with the
    fields read from its segment (only the keys created afterwards were
    filled); its flat list of services holds one service for each SVC
    segment and its list of adjustments one entry for each PLB segment, in
    order, each exactly as [parseSVC] and [parsePLB] built it. *)
Theorem remittance_lists_follow_the_segments :
  forall (ediData : string) (this : EDI835Parser.Parser.t),
    let segments := EDI835Parser.tokenize (EDI835Parser.cleanData ediData) in
    segments <> [] ->
    exists tree this' claims payments,
      EDI835Parser.parse ediData this = Normal tree this'
      /\ EDI835Parser.ParsedData.claims tree = Some claims
      /\ Forall2 Spec835.claim_grows
           (built_from "CLP" EDI835Parser.parseCLP segments) claims
      /\ EDI835Parser.ParsedData.payments tree = Some payments
      /\ Forall2 Spec835.payment_grows
           (built_from "BPR" EDI835Parser.parseBPR segments) payments
      /\ EDI835Parser.ParsedData.services tree
         = Some (built_from "SVC" EDI835Parser.parseSVC segments)
      /\ EDI835Parser.ParsedData.adjustments tree
         = Some (built_from "PLB" EDI835Parser.parsePLB segments).
Proof.
  intros ediData this segments Hne.
  rewrite Lemmas835.parse_eq_835. fold segments.
  destruct segments as [|s0 rest] eqn:E; [congruence|]. rewrite <- E.
  destruct (Further835.skeleton_run_835 segments (Spec835.start segments) [] []
              eq_refl eq_refl) as (fc & fp & Hfc & Ffc & Hfp & Ffp).
  destruct (Further835.flat_run_835 segments (Spec835.start segments) [] []
              eq_refl eq_refl) as [Hs Ha].
  exists (EDI835Parser.tree_of (Spec835.run segments (Spec835.start segments))).
  eexists. exists fc, fp.
  split; [reflexivity|]. repeat split; assumption.
Qed.

(** A claim before any payment, two payments, services and a PLB. *)
Lemma remittance_lists_follow_the_segments_witness :
  exists tree this' claims payments,
    EDI835Parser.parse
      "CLP*X*1~BPR*I*100~CLP*A*1~SVC*HC:1*10*8~CLP*B*2~BPR*H*50~CLP*C*4~SVC*HC:2*5*5~PLB*P*20210228*L6*-5.00~"
      EDI835Parser.constructor
    = Normal tree this'
    /\ EDI835Parser.ParsedData.claims tree = Some claims
    /\ Forall2 Spec835.claim_grows
         (built_from "CLP" EDI835Parser.parseCLP
            (EDI835Parser.tokenize
               (EDI835Parser.cleanData
                  "CLP*X*1~BPR*I*100~CLP*A*1~SVC*HC:1*10*8~CLP*B*2~BPR*H*50~CLP*C*4~SVC*HC:2*5*5~PLB*P*20210228*L6*-5.00~")))
         claims
    /\ EDI835Parser.ParsedData.payments tree = Some payments
    /\ Forall2 Spec835.payment_grows
         (built_from "BPR" EDI835Parser.parseBPR
            (EDI835Parser.tokenize
               (EDI835Parser.cleanData
                  "CLP*X*1~BPR*I*100~CLP*A*1~SVC*HC:1*10*8~CLP*B*2~BPR*H*50~CLP*C*4~SVC*HC:2*5*5~PLB*P*20210228*L6*-5.00~")))
         payments
    /\ EDI835Parser.ParsedData.services tree
       = Some (built_from "SVC" EDI835Parser.parseSVC
                 (EDI835Parser.tokenize
                    (EDI835Parser.cleanData
                       "CLP*X*1~BPR*I*100~CLP*A*1~SVC*HC:1*10*8~CLP*B*2~BPR*H*50~CLP*C*4~SVC*HC:2*5*5~PLB*P*20210228*L6*-5.00~")))
    /\ EDI835Parser.ParsedData.adjustments tree
       = Some (built_from "PLB" EDI835Parser.parsePLB
                 (EDI835Parser.tokenize
                    (EDI835Parser.cleanData
                       "CLP*X*1~BPR*I*100~CLP*A*1~SVC*HC:1*10*8~CLP*B*2~BPR*H*50~CLP*C*4~SVC*HC:2*5*5~PLB*P*20210228*L6*-5.00~"))).
Proof.
  apply (remittance_lists_follow_the_segments
           "CLP*X*1~BPR*I*100~CLP*A*1~SVC*HC:1*10*8~CLP*B*2~BPR*H*50~CLP*C*4~SVC*HC:2*5*5~PLB*P*20210228*L6*-5.00~"
           EDI835Parser.constructor).
  vm_compute. discriminate.
Defined.

(** X8.  Each claim of the 835 tree nests exactly the services of the SVC
    segments that stand between its CLP segment and the next CLP segment,
    in order; a service that arrives before the first CLP segment is nested
    nowhere. *)
Theorem remittance_services_nest_in_the_latest_claim :
  forall (ediData : string) (this : EDI835Parser.Parser.t),
    let segments := EDI835Parser.tokenize (EDI835Parser.cleanData ediData) in
    segments <> [] ->
    exists tree this',
      EDI835Parser.parse ediData this = Normal tree this'
      /\ Nest835.nested_services tree
         = nested_by_parent Nest835.service_role segments.
Proof.
  intros ediData this segments Hne.
  rewrite Lemmas835.parse_eq_835. fold segments.
  destruct segments as [|s0 rest] eqn:E; [congruence|]. rewrite <- E.
  do 2 eexists. split; [reflexivity|].
  cbv zeta.
  apply (Further835.nested_services_run_835 segments (Spec835.start segments)).
  apply Further835.locals_settled_start_835.
Qed.

Lemma remittance_services_nest_in_the_latest_claim_witness :
  exists tree this',
    EDI835Parser.parse
      "CLP*X*1~BPR*I*100~CLP*A*1~SVC*HC:1*10*8~CLP*B*2~BPR*H*50~CLP*C*4~SVC*HC:2*5*5~PLB*P*20210228*L6*-5.00~"
      EDI835Parser.constructor
    = Normal tree this'
    /\ Nest835.nested_services tree
       = nested_by_parent Nest835.service_role
           (EDI835Parser.tokenize
              (EDI835Parser.cleanData
                 "CLP*X*1~BPR*I*100~CLP*A*1~SVC*HC:1*10*8~CLP*B*2~BPR*H*50~CLP*C*4~SVC*HC:2*5*5~PLB*P*20210228*L6*-5.00~")).
Proof.
  apply (remittance_services_nest_in_the_latest_claim
           "CLP*X*1~BPR*I*100~CLP*A*1~SVC*HC:1*10*8~CLP*B*2~BPR*H*50~CLP*C*4~SVC*HC:2*5*5~PLB*P*20210228*L6*-5.00~"
           EDI835Parser.constructor).
  vm_compute. discriminate.
Defined.

(** X9.  Each payment of the 835 tree refers to exactly the claims of the
    CLP segments that stand between its BPR segment and the next BPR
    segment, in order, the claim of the k-th CLP segment of the input being
    referred to by its position k in the list of claims; a claim that
    arrives before the first BPR segment belongs to no payment. *)
Theorem payments_list_the_claims_that_follow :
  forall (ediData : string) (this : EDI835Parser.Parser.t),
    let segments := EDI835Parser.tokenize (EDI835Parser.cleanData ediData) in
    segments <> [] ->
    exists tree this',
      EDI835Parser.parse ediData this = Normal tree this'
      /\ Nest835.claims_of_payments tree
         = Nest835.claims_by_payment 0 segments.
Proof.
  intros ediData this segments Hne.
  rewrite Lemmas835.parse_eq_835. fold segments.
  destruct segments as [|s0 rest] eqn:E; [congruence|]. rewrite <- E.
  do 2 eexists. split; [reflexivity|].
  cbv zeta.
  apply (Further835.claims_of_payments_run_835 segments (Spec835.start segments) []).
  - apply Further835.locals_settled_start_835.
  - reflexivity.
Qed.

Lemma payments_list_the_claims_that_follow_witness :
  exists tree this',
    EDI835Parser.parse
      "CLP*X*1~BPR*I*100~CLP*A*1~SVC*HC:1*10*8~CLP*B*2~BPR*H*50~CLP*C*4~SVC*HC:2*5*5~PLB*P*20210228*L6*-5.00~"
      EDI835Parser.constructor
    = Normal tree this'
    /\ Nest835.claims_of_payments tree
       = Nest835.claims_by_payment 0
           (EDI835Parser.tokenize
              (EDI835Parser.cleanData
                 "CLP*X*1~BPR*I*100~CLP*A*1~SVC*HC:1*10*8~CLP*B*2~BPR*H*50~CLP*C*4~SVC*HC:2*5*5~PLB*P*20210228*L6*-5.00~")).
Proof.
  apply (payments_list_the_claims_that_follow
           "CLP*X*1~BPR*I*100~CLP*A*1~SVC*HC:1*10*8~CLP*B*2~BPR*H*50~CLP*C*4~SVC*HC:2*5*5~PLB*P*20210228*L6*-5.00~"
           EDI835Parser.constructor).
  vm_compute. discriminate.
Defined.

(** On that input the first payment refers to the second and third claims
    and the second payment to the fourth; the first claim has no payment. *)
Example payments_list_the_claims_that_follow_example :
  Nest835.claims_by_payment 0
    (EDI835Parser.tokenize
       (EDI835Parser.cleanData
          "CLP*X*1~BPR*I*100~CLP*A*1~SVC*HC:1*10*8~CLP*B*2~BPR*H*50~CLP*C*4~SVC*HC:2*5*5~PLB*P*20210228*L6*-5.00~"))
  = [[EDI835Parser.At 1; EDI835Parser.At 2]; [EDI835Parser.At 3]].
Proof. vm_compute. reflexivity. Qed.

(** * Further facts: documents in normal form *)

Section NormalForm.
Import Str.

Lemma strip_id s :
  contains CR s = false -> contains LF s = false -> strip_line_breaks s = s.
Proof.
  induction s as [|c s IH]; [reflexivity|]. cbn [contains].
  intros H1 H2.
  apply orb_false_elim in H1 as [C1 H1]. apply orb_false_elim in H2 as [C2 H2].
  rewrite strip_cons, C1, C2, (IH H1 H2). reflexivity.
Qed.

Lemma strip_terminated segments :
  Forall clean_segment segments ->
  strip_line_breaks (terminated segments) = terminated segments.
Proof.
  induction 1 as [|s rest (_ & _ & _ & HCR & HLF) _ IH]; [reflexivity|].
  cbn [terminated]. rewrite strip_app, (strip_id s HCR HLF).
  rewrite strip_cons. change (Ascii.eqb "~" CR || Ascii.eqb "~" LF) with false.
  cbv iota. rewrite IH. reflexivity.
Qed.

(** A trimmed string that is not empty starts with a solid character. *)
Lemma trimmed_head s :
  s <> EmptyString -> trim s = s ->
  exists c rest, s = String c rest /\ is_space c = false.
Proof.
  intros Hne Ht. unfold trim in Ht.
  destruct (trimStart s) as [|c t] eqn:E.
  - cbn in Ht. congruence.
  - assert (Hc : is_space c = false).
    { clear Ht. induction s as [|c' s IH]; [discriminate|].
      cbn in E. destruct (is_space c') eqn:C.
      - apply IH; [|exact E]. intros ->. discriminate.
      - injection E as -> _. exact C. }
    rewrite trimEnd_cons, Hc in Ht. cbn [andb] in Ht.
    exists c, (trimEnd t). split; [congruence|exact Hc].
Qed.

Lemma terminated_ends segments :
  segments <> [] ->
  exists x, terminated segments = (x ++ String "~" EmptyString)%string.
Proof.
  induction segments as [|s rest IH]; [contradiction|]. intros _.
  destruct rest as [|s' rest].
  - exists s. reflexivity.
  - destruct (IH ltac:(discriminate)) as [x Hx].
    exists (s ++ String "~" x)%string. cbn [terminated] in *. rewrite Hx.
    clear. induction s as [|c s IHs]; [reflexivity|].
    cbn [String.append]. f_equal. exact IHs.
Qed.

Lemma trim_terminated segments :
  Forall clean_segment segments ->
  trim (terminated segments) = terminated segments.
Proof.
  intros H. destruct segments as [|s rest]; [reflexivity|].
  destruct (terminated_ends (s :: rest) ltac:(discriminate)) as [x Hx].
  inversion H as [|? ? (Hne & Ht & _) _]; subst.
  destruct (trimmed_head s Hne Ht) as (c & s' & -> & Hc).
  unfold trim. cbn [terminated String.append trimStart]. rewrite Hc.
  cbn [terminated String.append] in Hx. rewrite Hx.
  apply trimEnd_app_solid. reflexivity.
Qed.

Lemma split_terminated segments :
  Forall clean_segment segments ->
  split "~" (terminated segments) = segments ++ [EmptyString].
Proof.
  induction 1 as [|s rest (_ & _ & Hsep & _) _ IH]; [reflexivity|].
  cbn [terminated]. rewrite split_app_sep, (split_without _ _ Hsep), IH.
  reflexivity.
Qed.

Lemma tokenize_terminated segments :
  Forall clean_segment segments ->
  EDI837Parser.tokenize (EDI837Parser.cleanData (terminated segments))
  = segments.
Proof.
  intros H. unfold EDI837Parser.tokenize.
  rewrite cleanData_strip, (strip_terminated _ H), (trim_terminated _ H).
  change EDI837Parser.segmentDelimiter with "~"%char.
  rewrite (split_terminated _ H), List.map_app, List.filter_app.
  cbn [List.map List.filter]. change (trim "") with "".
  cbn [String.length Nat.ltb Nat.leb]. rewrite app_nil_r.
  induction H as [|s rest (Hne & Ht & _) _ IH]; [reflexivity|].
  cbn [List.map List.filter]. rewrite Ht, IH.
  destruct s; [contradiction|reflexivity].
Qed.

Lemma tokens_clean data :
  Forall clean_segment (EDI837Parser.tokenize (EDI837Parser.cleanData data)).
Proof.
  unfold EDI837Parser.tokenize. rewrite cleanData_strip.
  apply List.Forall_forall. intros segment Hin.
  apply List.filter_In in Hin as [Hin Hlen].
  apply List.in_map_iff in Hin as (piece & <- & Hpiece).
  pose proof (split_pieces_solid EDI837Parser.segmentDelimiter
                (Str.trim (strip_line_breaks data))) as Hsolid.
  pose proof (split_pieces_within Str.CR EDI837Parser.segmentDelimiter _
                (contains_trim _ _ (contains_strip_CR data))) as HCR.
  pose proof (split_pieces_within Str.LF EDI837Parser.segmentDelimiter _
                (contains_trim _ _ (contains_strip_LF data))) as HLF.
  rewrite List.Forall_forall in Hsolid, HCR, HLF.
  repeat split.
  - intros E. rewrite E in Hlen. discriminate.
  - apply trim_idem.
  - apply contains_trim, Hsolid, Hpiece.
  - apply contains_trim, HCR, Hpiece.
  - apply contains_trim, HLF, Hpiece.
Qed.
End NormalForm.

(** X10.  Tokenizing is a left inverse of writing segments out: a document
    made of clean segments, each followed by [~], is tokenized by either
    parser into exactly those segments, in order. *)
Theorem terminated_segments_are_tokenized_back :
  forall segments : list string,
    Forall clean_segment segments ->
    EDI837Parser.tokenize (EDI837Parser.cleanData (terminated segments))
    = segments
    /\ EDI835Parser.tokenize (EDI835Parser.cleanData (terminated segments))
       = segments.
Proof.
  intros segments H. split; apply tokenize_terminated, H.
Qed.

Lemma terminated_segments_are_tokenized_back_witness :
  EDI837Parser.tokenize
    (EDI837Parser.cleanData
       (terminated ["CLM*CLAIM001*150.00"; "SV1*HC:99213*75.00*UN*1"]))
  = ["CLM*CLAIM001*150.00"; "SV1*HC:99213*75.00*UN*1"]
  /\ EDI835Parser.tokenize
       (EDI835Parser.cleanData
          (terminated ["CLM*CLAIM001*150.00"; "SV1*HC:99213*75.00*UN*1"]))
     = ["CLM*CLAIM001*150.00"; "SV1*HC:99213*75.00*UN*1"].
Proof.
  apply (terminated_segments_are_tokenized_back
           ["CLM*CLAIM001*150.00"; "SV1*HC:99213*75.00*UN*1"]).
  repeat constructor; try discriminate; vm_compute; reflexivity.
Defined.

(** X11.  Every input has a normal form that either parser treats alike:
    its own segments, as tokenized, each followed by [~].  Empty segments,
    white space around a segment and line breaks are thus all
    insignificant, for the tree or error as for the instance state. *)
Theorem input_is_parsed_like_its_normal_form :
  forall (data : string)
         (this837 : EDI837Parser.Parser.t) (this835 : EDI835Parser.Parser.t),
    EDI837Parser.parse
      (terminated (EDI837Parser.tokenize (EDI837Parser.cleanData data)))
      this837
    = EDI837Parser.parse data this837
    /\ EDI835Parser.parse
         (terminated (EDI835Parser.tokenize (EDI835Parser.cleanData data)))
         this835
       = EDI835Parser.parse data this835.
Proof.
  intros data this837 this835.
  pose proof (tokenize_terminated _ (tokens_clean data)) as E.
  split.
  - unfold EDI837Parser.parse. rewrite E. reflexivity.
  - unfold EDI835Parser.parse.
    change EDI835Parser.tokenize with EDI837Parser.tokenize.
    change EDI835Parser.cleanData with EDI837Parser.cleanData.
    rewrite E. reflexivity.
Qed.

(** * Further facts: parents built block by block *)

Section Blocks.
Context {Fr C : Type}.
Variable step : Fr -> string -> Fr.
Variable Inv : Fr -> Prop.
Variable tag : string.
Variable opened : string -> C.
Variable grown : string -> C -> C.
Variable view : Fr -> list C.

Hypothesis Inv_step : forall fr segment, Inv fr -> Inv (step fr segment).
Hypothesis view_step : forall fr segment,
  Inv fr ->
  view (step fr segment)
  = if has_tag tag segment then view fr ++ [opened segment]
    else map_last (grown segment) (view fr).

Lemma view_blocks segments : forall fr,
  Inv fr ->
  view (fold_left step segments fr)
  = map_last (grown_by grown (until_next tag segments)) (view fr)
    ++ flat_map (parent_of_block opened grown) (blocks_of tag segments).
Proof.
  induction segments as [|segment rest IH]; intros fr H.
  - cbn. rewrite app_nil_r, map_last_id; reflexivity.
  - cbn [fold_left until_next blocks_of].
    rewrite (IH _ (Inv_step _ segment H)), (view_step _ segment H).
    destruct (has_tag tag segment).
    + rewrite map_last_snoc, <- app_assoc. cbn [flat_map parent_of_block].
      rewrite map_last_id by reflexivity. reflexivity.
    + rewrite map_last_map_last. reflexivity.
Qed.
End Blocks.

Section BlockShape.
Variable tag : string.

Lemma until_next_idem l : until_next tag (until_next tag l) = until_next tag l.
Proof.
  induction l as [|s l IH]; [reflexivity|]. cbn.
  destruct (has_tag tag s) eqn:E; [reflexivity|]. cbn. rewrite E, IH.
  reflexivity.
Qed.

Lemma blocks_of_until_next l : blocks_of tag (until_next tag l) = [].
Proof.
  induction l as [|s l IH]; [reflexivity|]. cbn.
  destruct (has_tag tag s) eqn:E; [reflexivity|]. cbn. rewrite E, IH.
  reflexivity.
Qed.

(** A block is a segment of the tag and segments that do not carry it. *)
Lemma blocks_of_shape l :
  Forall (fun block =>
            exists s rest, block = s :: rest /\ has_tag tag s = true
                           /\ until_next tag rest = rest
                           /\ blocks_of tag rest = [])
         (blocks_of tag l).
Proof.
  induction l as [|s l IH]; [constructor|]. cbn.
  destruct (has_tag tag s) eqn:E; [|exact IH].
  constructor; [|exact IH].
  exists s, (until_next tag l).
  auto using until_next_idem, blocks_of_until_next.
Qed.

Lemma until_next_within (P : string -> Prop) l :
  Forall P l -> Forall P (until_next tag l).
Proof.
  induction 1 as [|s l Hs _ IH]; [constructor|]. cbn.
  destruct (has_tag tag s); [constructor|constructor; assumption].
Qed.

Lemma blocks_of_within (P : string -> Prop) l :
  Forall P l -> Forall (Forall P) (blocks_of tag l).
Proof.
  induction 1 as [|s l Hs Hl IH]; [constructor|]. cbn.
  destruct (has_tag tag s); [|exact IH].
  constructor; [|exact IH].
  constructor; [exact Hs|apply until_next_within, Hl].
Qed.
End BlockShape.

Lemma alter_last {A} (f : A -> A) l :
  alter f (List.length l - 1) l = map_last f l.
Proof.
  rewrite <- (List.map_id (alter f (List.length l - 1) l)).
  rewrite <- (List.map_id l) at 3.
  apply map_alter_last. reflexivity.
Qed.

Module Blocks837.
Import EDI837Parser Spec837 Nest837 Lemmas837.
Import Further837.

Lemma claims_view_dispatch_837 sid elements fr :
  claims_settled fr ->
  claims_view (after_of (dispatch sid elements fr))
  = if sid === "CLM" then claims_view fr ++ [parseCLM elements]
    else map_last (grown_claim_of sid elements) (claims_view fr).
Proof.
  unfold claims_settled. intros (Hc & [lsv Hsv]).
  open_frame fr. subst.
  pose proof Hc as (lc & -> & _).
  unfold claims_view, grown_claim_of, with_claim, dispatch.
  destruct sid as [s|];
    [|cbn; symmetry; apply map_last_id; reflexivity]; unfold strict_eq.
  tag_cases s ltac:(idtac; cbn; branches; crunch; use_latest;
                    rewrite ?alter_last;
                    first [ reflexivity
                          | symmetry; apply map_last_id; reflexivity
                          | apply map_last_ext; reflexivity ]).
Qed.

Lemma claims_view_step_837 fr segment :
  claims_settled fr ->
  claims_view (step fr segment)
  = if has_tag "CLM" segment then claims_view fr ++ [opened_claim segment]
    else map_last (grown_claim segment) (claims_view fr).
Proof.
  intros H. rewrite step_is_dispatch_837.
  apply claims_view_dispatch_837, H.
Qed.

Lemma claims_view_run_837 segments fr :
  claims_settled fr ->
  claims_view (run segments fr)
  = map_last (grown_by grown_claim (until_next "CLM" segments))
      (claims_view fr)
    ++ flat_map (parent_of_block opened_claim grown_claim)
         (blocks_of "CLM" segments).
Proof.
  apply (view_blocks step claims_settled "CLM" opened_claim grown_claim
           claims_view).
  - apply claims_settled_step_837.
  - apply claims_view_step_837.
Qed.

(** The tree of a document is the one that the loop leaves. *)
Lemma parse_terminated_837 block this :
  block <> [] -> Forall clean_segment block ->
  parse (terminated block) this
  = Normal (tree_of (run block (start block)))
      (Frame.this (run block (start block))).
Proof.
  intros Hne Hclean. rewrite parse_eq_837, (tokenize_terminated _ Hclean).
  destruct block; [contradiction|reflexivity].
Qed.

Lemma parse_tokens_837 ediData this :
  tokenize (cleanData ediData) <> [] ->
  parse ediData this
  = Normal (tree_of (run (tokenize (cleanData ediData))
                       (start (tokenize (cleanData ediData)))))
      (Frame.this (run (tokenize (cleanData ediData))
                     (start (tokenize (cleanData ediData))))).
Proof.
  intros Hne. rewrite parse_eq_837.
  destruct (tokenize (cleanData ediData)); [contradiction|reflexivity].
Qed.

Lemma has_claims_run_837 segments any :
  ParsedData.claims (tree_of (run segments (start any)))
  = Some (claims_view (run segments (start any))).
Proof.
  destruct (frame_ok_run_837 segments _ (frame_ok_start_837 any))
    as [_ [l Hl] _ _ _ _ _ _ _ _].
  unfold claims_view. rewrite Hl. reflexivity.
Qed.
End Blocks837.

(** X12.  Claims are parsed independently of one another and of what
    precedes them: the claims of the 837 tree are, in order, the claims
    that the blocks of the input yield when each block is parsed as a
    document of its own, a block being a CLM segment with the segments that
    follow it up to the next CLM segment.  So the services, dates and
    diagnosis codes nested in a claim are those of its own block. *)
Theorem each_claim_is_parsed_from_its_own_block :
  forall (ediData : string) (this : EDI837Parser.Parser.t),
    let segments := EDI837Parser.tokenize (EDI837Parser.cleanData ediData) in
    segments <> [] ->
    exists tree this' claims,
      EDI837Parser.parse ediData this = Normal tree this'
      /\ EDI837Parser.ParsedData.claims tree = Some claims
      /\ Forall2
           (fun block claim =>
              exists tree_b this_b,
                EDI837Parser.parse (terminated block) EDI837Parser.constructor
                = Normal tree_b this_b
                /\ EDI837Parser.ParsedData.claims tree_b = Some [claim])
           (blocks_of "CLM" segments) claims.
Proof.
  intros ediData this segments Hne.
  rewrite (Blocks837.parse_tokens_837 _ _ Hne). fold segments.
  do 3 eexists. split; [reflexivity|].
  split; [apply Blocks837.has_claims_run_837|].
  rewrite Blocks837.claims_view_run_837
    by apply Further837.claims_settled_start_837.
  cbn [Nest837.claims_view EDI837Parser.tree_of Spec837.start
       EDI837Parser.enter EDI837Parser.Frame.this
       EDI837Parser.Parser.parsedData EDI837Parser.fresh_tree
       EDI837Parser.ParsedData.claims default map_last app].
  pose proof (blocks_of_shape "CLM" segments) as Hshape.
  pose proof (blocks_of_within "CLM" clean_segment segments
                (tokens_clean ediData)) as Hclean.
  induction Hshape as [|block blocks (s & rest & -> & Hs & Hu & Hb) _ IH];
    [constructor|].
  inversion Hclean as [|? ? Hc Hcs]; subst.
  cbn [flat_map parent_of_block app]. constructor; [|exact (IH Hcs)].
  do 2 eexists.
  split; [apply Blocks837.parse_terminated_837; [discriminate|exact Hc]|].
  rewrite Blocks837.has_claims_run_837. f_equal.
  change (Spec837.run (s :: rest) (Spec837.start (s :: rest)))
    with (Spec837.run rest (Spec837.step (Spec837.start (s :: rest)) s)).
  rewrite Blocks837.claims_view_run_837
    by apply Further837.claims_settled_step_837,
             Further837.claims_settled_start_837.
  rewrite Hu, Hb, app_nil_r.
  rewrite Blocks837.claims_view_step_837
    by apply Further837.claims_settled_start_837.
  rewrite Hs. reflexivity.
Qed.

(** Two claims, each with a service, a date and a diagnosis code. *)
Lemma each_claim_is_parsed_from_its_own_block_witness :
  exists tree this' claims,
    EDI837Parser.parse
      "DTP*431*D8*20210101~CLM*A*100~HI*BK:Z8701~SV1*HC:1*10~CLM*B*50~DTP*472*D8*20210301~SV1*HC:2*20~"
      EDI837Parser.constructor
    = Normal tree this'
    /\ EDI837Parser.ParsedData.claims tree = Some claims
    /\ Forall2
         (fun block claim =>
            exists tree_b this_b,
              EDI837Parser.parse (terminated block) EDI837Parser.constructor
              = Normal tree_b this_b
              /\ EDI837Parser.ParsedData.claims tree_b = Some [claim])
         (blocks_of "CLM"
            (EDI837Parser.tokenize
               (EDI837Parser.cleanData
                  "DTP*431*D8*20210101~CLM*A*100~HI*BK:Z8701~SV1*HC:1*10~CLM*B*50~DTP*472*D8*20210301~SV1*HC:2*20~")))
         claims.
Proof.
  apply (each_claim_is_parsed_from_its_own_block
           "DTP*431*D8*20210101~CLM*A*100~HI*BK:Z8701~SV1*HC:1*10~CLM*B*50~DTP*472*D8*20210301~SV1*HC:2*20~"
           EDI837Parser.constructor).
  vm_compute. discriminate.
Defined.

(** The blocks of that input. *)
Example blocks_of_example :
  blocks_of "CLM"
    (EDI837Parser.tokenize
       (EDI837Parser.cleanData
          "DTP*431*D8*20210101~CLM*A*100~HI*BK:Z8701~SV1*HC:1*10~CLM*B*50~DTP*472*D8*20210301~SV1*HC:2*20~"))
  = [ ["CLM*A*100"; "HI*BK:Z8701"; "SV1*HC:1*10"];
      ["CLM*B*50"; "DTP*472*D8*20210301"; "SV1*HC:2*20"] ].
Proof. vm_compute. reflexivity. Qed.

Lemma map_last_map_fixed {A B} (h : B -> B) (g : A -> B) l :
  (forall x, h (g x) = g x) -> map_last h (List.map g l) = List.map g l.
Proof.
  intros H. induction l as [|x [|y l] IH]; [reflexivity| |].
  - cbn. rewrite H. reflexivity.
  - change (List.map g (x :: y :: l)) with (g x :: List.map g (y :: l)).
    rewrite map_last_cons by discriminate. rewrite IH. reflexivity.
Qed.

Module Blocks835.
Import EDI835Parser Spec835 Nest835 Lemmas835.
Import Further835.

Lemma claims_view_dispatch_835 sid elements fr :
  locals_settled fr ->
  claims_view (after_of (dispatch sid elements fr))
  = if sid === "CLP" then claims_view fr ++ [parseCLP elements]
    else map_last (grown_claim_of sid elements) (claims_view fr).
Proof.
  unfold locals_settled. intros (Hp & Hc & [lsv Hsv]).
  open_frame fr. subst.
  pose proof Hp as (lp & -> & _). pose proof Hc as (lc & -> & _).
  unfold claims_view, grown_claim_of, with_claim, dispatch.
  destruct sid as [s|];
    [|cbn; symmetry; apply map_last_id; reflexivity]; unfold strict_eq.
  tag_cases s ltac:(idtac; cbn; branches; crunch; use_latest;
                    rewrite ?alter_last;
                    first [ reflexivity
                          | symmetry; apply map_last_id; reflexivity
                          | apply map_last_ext; reflexivity ]).
Qed.

Lemma claims_view_step_835 fr segment :
  locals_settled fr ->
  claims_view (step fr segment)
  = if has_tag "CLP" segment then claims_view fr ++ [opened_claim segment]
    else map_last (grown_claim segment) (claims_view fr).
Proof.
  intros H. rewrite step_is_dispatch_835.
  apply claims_view_dispatch_835, H.
Qed.

Lemma claims_view_run_835 segments fr :
  locals_settled fr ->
  claims_view (run segments fr)
  = map_last (grown_by grown_claim (until_next "CLP" segments))
      (claims_view fr)
    ++ flat_map (parent_of_block opened_claim grown_claim)
         (blocks_of "CLP" segments).
Proof.
  apply (view_blocks step locals_settled "CLP" opened_claim grown_claim
           claims_view).
  - apply locals_settled_step_835.
  - apply claims_view_step_835.
Qed.

Lemma payments_view_dispatch_835 sid elements fr :
  locals_settled fr ->
  payments_view (after_of (dispatch sid elements fr))
  = if sid === "BPR"
    then payments_view fr ++ [without_claims (parseBPR elements)]
    else map_last (grown_payment_of sid elements) (payments_view fr).
Proof.
  unfold locals_settled. intros (Hp & Hc & [lsv Hsv]).
  open_frame fr. subst.
  pose proof Hp as (lp & -> & _). pose proof Hc as (lc & -> & _).
  unfold payments_view, grown_payment_of, with_payment, dispatch.
  destruct sid as [s|];
    [|cbn; symmetry; apply map_last_map_fixed; intros []; reflexivity];
    unfold strict_eq.
  tag_cases s ltac:(idtac; cbn; branches; crunch; use_latest;
                    first [ rewrite List.map_app; reflexivity
                          | symmetry; apply map_last_map_fixed;
                            intros []; reflexivity
                          | apply map_alter_last; intros []; reflexivity
                          | reflexivity ]).
Qed.

Lemma payments_view_step_835 fr segment :
  locals_settled fr ->
  payments_view (step fr segment)
  = if has_tag "BPR" segment
    then payments_view fr ++ [opened_payment segment]
    else map_last (grown_payment segment) (payments_view fr).
Proof.
  intros H. rewrite step_is_dispatch_835.
  apply payments_view_dispatch_835, H.
Qed.

Lemma payments_view_run_835 segments fr :
  locals_settled fr ->
  payments_view (run segments fr)
  = map_last (grown_by grown_payment (until_next "BPR" segments))
      (payments_view fr)
    ++ flat_map (parent_of_block opened_payment grown_payment)
         (blocks_of "BPR" segments).
Proof.
  apply (view_blocks step locals_settled "BPR" opened_payment grown_payment
           payments_view).
  - apply locals_settled_step_835.
  - apply payments_view_step_835.
Qed.

Lemma parse_terminated_835 block this :
  block <> [] -> Forall clean_segment block ->
  parse (terminated block) this
  = Normal (tree_of (run block (start block)))
      (Frame.this (run block (start block))).
Proof.
  intros Hne Hclean. rewrite parse_eq_835.
  change (tokenize (cleanData (terminated block)))
    with (EDI837Parser.tokenize (EDI837Parser.cleanData (terminated block))).
  rewrite (tokenize_terminated _ Hclean).
  destruct block; [contradiction|reflexivity].
Qed.

Lemma parse_tokens_835 ediData this :
  tokenize (cleanData ediData) <> [] ->
  parse ediData this
  = Normal (tree_of (run (tokenize (cleanData ediData))
                       (start (tokenize (cleanData ediData)))))
      (Frame.this (run (tokenize (cleanData ediData))
                     (start (tokenize (cleanData ediData))))).
Proof.
  intros Hne. rewrite parse_eq_835.
  destruct (tokenize (cleanData ediData)); [contradiction|reflexivity].
Qed.

Lemma has_claims_run_835 segments any :
  ParsedData.claims (tree_of (run segments (start any)))
  = Some (claims_view (run segments (start any))).
Proof.
  destruct (locals_settled_run_835 segments _ (locals_settled_start_835 any))
    as (_ & (l & Hl & _) & _).
  unfold claims_view. rewrite Hl. reflexivity.
Qed.

Lemma has_payments_run_835 segments any :
  exists payments,
    ParsedData.payments (tree_of (run segments (start any))) = Some payments
    /\ payments_view (run segments (start any))
       = List.map without_claims payments.
Proof.
  destruct (locals_settled_run_835 segments _ (locals_settled_start_835 any))
    as ((l & Hl & _) & _ & _).
  exists l. unfold payments_view. rewrite Hl. split; reflexivity.
Qed.

Lemma tokens_clean_835 data :
  Forall clean_segment (tokenize (cleanData data)).
Proof. apply tokens_clean. Qed.
End Blocks835.

(** X13.  Remittance claims are parsed independently of one another and
    of what precedes them: the claims of the 835 tree are, in order, the
    claims that the blocks of the input yield when each block is parsed as
    a document of its own, a block being a CLP segment with the segments
    that follow it up to the next CLP segment.  So the adjustments,
    entities, adjudication records, services, amounts and quantities of a
    claim are those of its own block. *)
Theorem each_remittance_claim_is_parsed_from_its_own_block :
  forall (ediData : string) (this : EDI835Parser.Parser.t),
    let segments := EDI835Parser.tokenize (EDI835Parser.cleanData ediData) in
    segments <> [] ->
    exists tree this' claims,
      EDI835Parser.parse ediData this = Normal tree this'
      /\ EDI835Parser.ParsedData.claims tree = Some claims
      /\ Forall2
           (fun block claim =>
              exists tree_b this_b,
                EDI835Parser.parse (terminated block) EDI835Parser.constructor
                = Normal tree_b this_b
                /\ EDI835Parser.ParsedData.claims tree_b = Some [claim])
           (blocks_of "CLP" segments) claims.
Proof.
  intros ediData this segments Hne.
  rewrite (Blocks835.parse_tokens_835 _ _ Hne). fold segments.
  do 3 eexists. split; [reflexivity|].
  split; [apply Blocks835.has_claims_run_835|].
  rewrite Blocks835.claims_view_run_835
    by apply Further835.locals_settled_start_835.
  cbn [Nest835.claims_view EDI835Parser.tree_of Spec835.start
       EDI835Parser.enter EDI835Parser.Frame.this
       EDI835Parser.Parser.parsedData EDI835Parser.fresh_tree
       EDI835Parser.ParsedData.claims default map_last app].
  pose proof (blocks_of_shape "CLP" segments) as Hshape.
  pose proof (blocks_of_within "CLP" clean_segment segments
                (Blocks835.tokens_clean_835 ediData)) as Hclean.
  induction Hshape as [|block blocks (s & rest & -> & Hs & Hu & Hb) _ IH];
    [constructor|].
  inversion Hclean as [|? ? Hc Hcs]; subst.
  cbn [flat_map parent_of_block app]. constructor; [|exact (IH Hcs)].
  do 2 eexists.
  split; [apply Blocks835.parse_terminated_835; [discriminate|exact Hc]|].
  rewrite Blocks835.has_claims_run_835. f_equal.
  change (Spec835.run (s :: rest) (Spec835.start (s :: rest)))
    with (Spec835.run rest (Spec835.step (Spec835.start (s :: rest)) s)).
  rewrite Blocks835.claims_view_run_835
    by apply Further835.locals_settled_step_835,
             Further835.locals_settled_start_835.
  rewrite Hu, Hb, app_nil_r.
  rewrite Blocks835.claims_view_step_835
    by apply Further835.locals_settled_start_835.
  rewrite Hs. reflexivity.
Qed.

(** Two claims, the first with an adjustment, an entity and a service. *)
Lemma each_remittance_claim_is_parsed_from_its_own_block_witness :
  exists tree this' claims,
    EDI835Parser.parse
      "CAS*PR*1*5.00~CLP*A*1*150*125~CAS*CO*45*25.00~NM1*QC*1*DOE*JANE~SVC*HC:1*75*65~CLP*B*2*50*40~AMT*AU*50~QTY*CA*1~"
      EDI835Parser.constructor
    = Normal tree this'
    /\ EDI835Parser.ParsedData.claims tree = Some claims
    /\ Forall2
         (fun block claim =>
            exists tree_b this_b,
              EDI835Parser.parse (terminated block) EDI835Parser.constructor
              = Normal tree_b this_b
              /\ EDI835Parser.ParsedData.claims tree_b = Some [claim])
         (blocks_of "CLP"
            (EDI835Parser.tokenize
               (EDI835Parser.cleanData
                  "CAS*PR*1*5.00~CLP*A*1*150*125~CAS*CO*45*25.00~NM1*QC*1*DOE*JANE~SVC*HC:1*75*65~CLP*B*2*50*40~AMT*AU*50~QTY*CA*1~")))
         claims.
Proof.
  apply (each_remittance_claim_is_parsed_from_its_own_block
           "CAS*PR*1*5.00~CLP*A*1*150*125~CAS*CO*45*25.00~NM1*QC*1*DOE*JANE~SVC*HC:1*75*65~CLP*B*2*50*40~AMT*AU*50~QTY*CA*1~"
           EDI835Parser.constructor).
  vm_compute. discriminate.
Defined.

(** X14.  Payments are parsed independently of one another and of what
    precedes them, their references to claims apart (these are positions
    in the list of claims of the whole tree): the payments of the 835 tree
    are, in order, the payments that the blocks of the input yield when
    each block is parsed as a document of its own, a block being a BPR
    segment with the segments that follow it up to the next BPR segment.
    So the trace number and the dates of a payment are those of its own
    block. *)
Theorem each_payment_is_parsed_from_its_own_block :
  forall (ediData : string) (this : EDI835Parser.Parser.t),
    let segments := EDI835Parser.tokenize (EDI835Parser.cleanData ediData) in
    segments <> [] ->
    exists tree this' payments,
      EDI835Parser.parse ediData this = Normal tree this'
      /\ EDI835Parser.ParsedData.payments tree = Some payments
      /\ Forall2
           (fun block payment =>
              exists tree_b this_b payment_b,
                EDI835Parser.parse (terminated block) EDI835Parser.constructor
                = Normal tree_b this_b
                /\ EDI835Parser.ParsedData.payments tree_b = Some [payment_b]
                /\ Nest835.without_claims payment_b
                   = Nest835.without_claims payment)
           (blocks_of "BPR" segments) payments.
Proof.
  intros ediData this segments Hne.
  rewrite (Blocks835.parse_tokens_835 _ _ Hne). fold segments.
  destruct (Blocks835.has_payments_run_835 segments segments)
    as (payments & Hp & Hview).
  do 2 eexists. exists payments. split; [reflexivity|].
  split; [exact Hp|].
  rewrite Blocks835.payments_view_run_835 in Hview
    by apply Further835.locals_settled_start_835.
  cbn [Nest835.payments_view EDI835Parser.tree_of Spec835.start
       EDI835Parser.enter EDI835Parser.Frame.this
       EDI835Parser.Parser.parsedData EDI835Parser.fresh_tree
       EDI835Parser.ParsedData.payments default map_last app List.map]
    in Hview.
  clear Hp.
  pose proof (blocks_of_shape "BPR" segments) as Hshape.
  pose proof (blocks_of_within "BPR" clean_segment segments
                (Blocks835.tokens_clean_835 ediData)) as Hclean.
  revert payments Hview.
  induction Hshape as [|block blocks (s & rest & -> & Hs & Hu & Hb) _ IH];
    intros payments Hview.
  - destruct payments; [constructor|discriminate].
  - inversion Hclean as [|? ? Hc Hcs]; subst.
    cbn [flat_map parent_of_block app] in Hview.
    destruct payments as [|payment payments]; [discriminate|].
    cbn [List.map] in Hview. injection Hview as Hhead Htail.
    constructor; [|exact (IH Hcs _ Htail)].
    destruct (Blocks835.has_payments_run_835 (s :: rest) (s :: rest))
      as (pb & Hpb & Hvb).
    change (Spec835.run (s :: rest) (Spec835.start (s :: rest)))
      with (Spec835.run rest (Spec835.step (Spec835.start (s :: rest)) s))
      in Hvb at 1.
    rewrite Blocks835.payments_view_run_835 in Hvb
      by apply Further835.locals_settled_step_835,
               Further835.locals_settled_start_835.
    rewrite Hu, Hb, app_nil_r in Hvb.
    rewrite Blocks835.payments_view_step_835 in Hvb
      by apply Further835.locals_settled_start_835.
    rewrite Hs in Hvb. cbn [Nest835.payments_view EDI835Parser.tree_of
       Spec835.start EDI835Parser.enter EDI835Parser.Frame.this
       EDI835Parser.Parser.parsedData EDI835Parser.fresh_tree
       EDI835Parser.ParsedData.payments default map_last app List.map]
      in Hvb.
    destruct pb as [|payment_b [|? ?]]; try discriminate.
    cbn [List.map] in Hvb. injection Hvb as Hb'.
    exists (EDI835Parser.tree_of
              (Spec835.run (s :: rest) (Spec835.start (s :: rest)))).
    eexists. exists payment_b.
    split; [apply Blocks835.parse_terminated_835; [discriminate|exact Hc]|].
    split; [exact Hpb|]. congruence.
Qed.

(** Two payments with their trace numbers and dates; a date and a trace
    number before the first payment. *)
Lemma each_payment_is_parsed_from_its_own_block_witness :
  exists tree this' payments,
    EDI835Parser.parse
      "DTM*405*20210101~TRN*1*T0~BPR*I*100~TRN*1*T1~DTM*405*20210228~CLP*A*1~BPR*H*50~CLP*B*2~DTM*405*20210301~TRN*1*T2~TRN*1*T3~"
      EDI835Parser.constructor
    = Normal tree this'
    /\ EDI835Parser.ParsedData.payments tree = Some payments
    /\ Forall2
         (fun block payment =>
            exists tree_b this_b payment_b,
              EDI835Parser.parse (terminated block) EDI835Parser.constructor
              = Normal tree_b this_b
              /\ EDI835Parser.ParsedData.payments tree_b = Some [payment_b]
              /\ Nest835.without_claims payment_b
                 = Nest835.without_claims payment)
         (blocks_of "BPR"
            (EDI835Parser.tokenize
               (EDI835Parser.cleanData
                  "DTM*405*20210101~TRN*1*T0~BPR*I*100~TRN*1*T1~DTM*405*20210228~CLP*A*1~BPR*H*50~CLP*B*2~DTM*405*20210301~TRN*1*T2~TRN*1*T3~")))
         payments.
Proof.
  apply (each_payment_is_parsed_from_its_own_block
           "DTM*405*20210101~TRN*1*T0~BPR*I*100~TRN*1*T1~DTM*405*20210228~CLP*A*1~BPR*H*50~CLP*B*2~DTM*405*20210301~TRN*1*T2~TRN*1*T3~"
           EDI835Parser.constructor).
  vm_compute. discriminate.
Defined.

(** * Further facts: lists whose entries are kept *)

Section KeptLists.
Context {Fr A : Type}.
Variable step : Fr -> string -> Fr.
Variable view : Fr -> option (list A).
Variable R : A -> A -> Prop.
Variable picked : string -> bool.
Variable built : string -> A.

Hypothesis R_refl : forall x, R x x.
Hypothesis R_trans : forall x y z, R x y -> R y z -> R x z.
Hypothesis view_step : forall fr segment l,
  view fr = Some l ->
  exists kept,
    view (step fr segment)
    = Some (kept ++ if picked segment then [built segment] else [])
    /\ Forall2 R l kept.

Lemma view_kept segments : forall fr l,
  view fr = Some l ->
  exists final,
    view (fold_left step segments fr) = Some final
    /\ Forall2 R (l ++ List.map built (List.filter picked segments)) final.
Proof.
  induction segments as [|segment rest IH]; intros fr l H.
  - exists l. cbn. rewrite app_nil_r.
    split; [exact H|apply Forall2_same, R_refl].
  - destruct (view_step fr segment l H) as (kept & Hk & Fk).
    destruct (IH _ _ Hk) as (final & Hf & Ff).
    exists final. split; [exact Hf|].
    eapply Forall2_chain; [exact R_trans| |exact Ff].
    cbn [List.filter fold_left].
    destruct (picked segment); cbn [List.map].
    + change (l ++ ?x :: ?t) with (l ++ [x] ++ t).
      rewrite !app_assoc.
      apply Forall2_app; [apply Forall2_app; [exact Fk|]|];
        apply Forall2_same, R_refl.
    + rewrite app_nil_r.
      apply Forall2_app; [exact Fk|apply Forall2_same, R_refl].
Qed.
End KeptLists.

Module Routing837.
Import EDI837Parser Spec837 Nest837 Lemmas837.
Import Further837.

Ltac code_cases c :=
  repeat match goal with
         | |- context [String.eqb ?lit c] =>
             destruct (String.eqb_spec lit c) as [<-|?];
             [first [congruence | cbn; reflexivity]|]
         | |- context [String.eqb c ?lit] =>
             destruct (String.eqb_spec c lit) as [->|?];
             [first [congruence | cbn; reflexivity]|]
         end.

(** The codes that [getEntityType] turns into each of the three words
    that the loop compares the type with. *)
Lemma type_is_subscriber code :
  type_is (getEntityType code) "subscriber"
  = existsb (fun c => code === c) ["IL"; "subscriber"].
Proof.
  destruct code as [c|]; [|reflexivity].
  unfold getEntityType, entityTypes, own_property, Object_prototype_keys,
    existsb, type_is, strict_eq.
  code_cases c. cbn. code_cases c. reflexivity.
Qed.

Lemma type_is_patient code :
  type_is (getEntityType code) "patient"
  = existsb (fun c => code === c) ["QC"; "patient"].
Proof.
  destruct code as [c|]; [|reflexivity].
  unfold getEntityType, entityTypes, own_property, Object_prototype_keys,
    existsb, type_is, strict_eq.
  code_cases c. cbn. code_cases c. reflexivity.
Qed.

Lemma type_is_provider code :
  type_is (getEntityType code) "provider"
  = existsb (fun c => code === c) ["provider"].
Proof.
  destruct code as [c|]; [|reflexivity].
  unfold getEntityType, entityTypes, own_property, Object_prototype_keys,
    existsb, type_is, strict_eq.
  code_cases c. cbn. code_cases c. reflexivity.
Qed.

Ltac kept_entities :=
  cbn; branches; crunch; eexists; rewrite ?app_nil_r;
  (split; [reflexivity|]);
  first [ apply Forall2_same, entity_kept_refl_837
        | apply Forall2_alter_kept;
          [ apply entity_kept_refl_837 | intros []; reflexivity ] ].

Ltac route sid elements fr l :=
  open_frame fr; intros ->;
  unfold dispatch; cbv zeta; unfold parseNM1; cbn [Entity.type];
  rewrite type_is_subscriber, type_is_patient, type_is_provider;
  generalize (elements !! 1); intros code;
  destruct sid as [s|];
  [|exists l; cbn; rewrite app_nil_r;
    split; [reflexivity|apply Forall2_same, entity_kept_refl_837]];
  unfold strict_eq at 1 2 3 4 5 6 7 8 9 10 11 12 13 14 15 16 17 18 19 20;
  destruct code as [c|]; cbn [existsb strict_eq orb andb].

Lemma subscribers_dispatch_837 sid elements fr l :
  ParsedData.subscribers (tree_of fr) = Some l ->
  exists kept,
    ParsedData.subscribers (tree_of (after_of (dispatch sid elements fr)))
    = Some (kept
            ++ if (sid === "NM1")
                  && existsb (fun c => elements !! 1 === c)
                       ["IL"; "subscriber"]
               then [parseNM1 elements] else [])
    /\ Forall2 entity_kept l kept.
Proof.
  route sid elements fr l.
  - tag_goals s ltac:(idtac; cbn; tag_goals c kept_entities).
  - tag_goals s kept_entities.
Qed.

Lemma patients_dispatch_837 sid elements fr l :
  ParsedData.patients (tree_of fr) = Some l ->
  exists kept,
    ParsedData.patients (tree_of (after_of (dispatch sid elements fr)))
    = Some (kept
            ++ if (sid === "NM1")
                  && existsb (fun c => elements !! 1 === c)
                       ["QC"; "patient"]
               then [parseNM1 elements] else [])
    /\ Forall2 entity_kept l kept.
Proof.
  route sid elements fr l.
  - tag_goals s ltac:(idtac; cbn; tag_goals c kept_entities).
  - tag_goals s kept_entities.
Qed.

Lemma providers_dispatch_837 sid elements fr l :
  ParsedData.providers (tree_of fr) = Some l ->
  exists kept,
    ParsedData.providers (tree_of (after_of (dispatch sid elements fr)))
    = Some (kept
            ++ if (sid === "NM1")
                  && existsb (fun c => elements !! 1 === c) ["provider"]
               then [parseNM1 elements] else [])
    /\ Forall2 entity_kept l kept.
Proof.
  route sid elements fr l.
  - tag_goals s ltac:(idtac; cbn; tag_goals c kept_entities).
  - tag_goals s kept_entities.
Qed.

Lemma subscribers_run_837 segments fr l :
  ParsedData.subscribers (tree_of fr) = Some l ->
  exists final,
    ParsedData.subscribers (tree_of (run segments fr)) = Some final
    /\ Forall2 entity_kept
         (l ++ entities_named ["IL"; "subscriber"] segments) final.
Proof.
  apply (view_kept step (fun fr => ParsedData.subscribers (tree_of fr))
           entity_kept (names ["IL"; "subscriber"])
           (fun segment => parseNM1 (elements_of segment))
           entity_kept_refl_837 entity_kept_trans_837).
  intros fr' segment l' H. rewrite step_is_dispatch_837.
  apply subscribers_dispatch_837, H.
Qed.

Lemma patients_run_837 segments fr l :
  ParsedData.patients (tree_of fr) = Some l ->
  exists final,
    ParsedData.patients (tree_of (run segments fr)) = Some final
    /\ Forall2 entity_kept
         (l ++ entities_named ["QC"; "patient"] segments) final.
Proof.
  apply (view_kept step (fun fr => ParsedData.patients (tree_of fr))
           entity_kept (names ["QC"; "patient"])
           (fun segment => parseNM1 (elements_of segment))
           entity_kept_refl_837 entity_kept_trans_837).
  intros fr' segment l' H. rewrite step_is_dispatch_837.
  apply patients_dispatch_837, H.
Qed.

Lemma providers_run_837 segments fr l :
  ParsedData.providers (tree_of fr) = Some l ->
  exists final,
    ParsedData.providers (tree_of (run segments fr)) = Some final
    /\ Forall2 entity_kept
         (l ++ entities_named ["provider"] segments) final.
Proof.
  apply (view_kept step (fun fr => ParsedData.providers (tree_of fr))
           entity_kept (names ["provider"])
           (fun segment => parseNM1 (elements_of segment))
           entity_kept_refl_837 entity_kept_trans_837).
  intros fr' segment l' H. rewrite step_is_dispatch_837.
  apply providers_dispatch_837, H.
Qed.
End Routing837.

(** X15.  The entity of an NM1 segment is stored by its entity-type code
    alone: the subscribers of the 837 tree are the entities of the NM1
    segments whose code is IL or the word subscriber, its patients those
    whose code is QC or the word patient, and its providers those whose
    code is the word provider, each list in the order of the segments and
    each entity with the fields read from its segment (only the keys that
    PRV and DMG write were added afterwards).  The entity of an NM1 segment
    with any other code is in none of the three lists. *)
Theorem entities_are_stored_by_their_code :
  forall (ediData : string) (this : EDI837Parser.Parser.t),
    let segments := EDI837Parser.tokenize (EDI837Parser.cleanData ediData) in
    segments <> [] ->
    exists tree this' subscribers patients providers,
      EDI837Parser.parse ediData this = Normal tree this'
      /\ EDI837Parser.ParsedData.subscribers tree = Some subscribers
      /\ Forall2 Spec837.entity_kept
           (Nest837.entities_named ["IL"; "subscriber"] segments) subscribers
      /\ EDI837Parser.ParsedData.patients tree = Some patients
      /\ Forall2 Spec837.entity_kept
           (Nest837.entities_named ["QC"; "patient"] segments) patients
      /\ EDI837Parser.ParsedData.providers tree = Some providers
      /\ Forall2 Spec837.entity_kept
           (Nest837.entities_named ["provider"] segments) providers.
Proof.
  intros ediData this segments Hne.
  rewrite (Blocks837.parse_tokens_837 _ _ Hne). fold segments.
  destruct (Routing837.subscribers_run_837 segments (Spec837.start segments)
              [] eq_refl) as (ls & Hls & Fls).
  destruct (Routing837.patients_run_837 segments (Spec837.start segments)
              [] eq_refl) as (lp & Hlp & Flp).
  destruct (Routing837.providers_run_837 segments (Spec837.start segments)
              [] eq_refl) as (lpr & Hlpr & Flpr).
  do 2 eexists. exists ls, lp, lpr.
  split; [reflexivity|]. repeat split; assumption.
Qed.

(** The seven codes of the table, the three words, and an unknown code. *)
Lemma entities_are_stored_by_their_code_witness :
  exists tree this' subscribers patients providers,
    EDI837Parser.parse
      "NM1*85*2*CLINIC~NM1*IL*1*SMITH*JOHN~DMG*D8*19800101*M~NM1*QC*1*SMITH*ANN~NM1*PR*2*PAYER~NM1*82*1*WELBY~NM1*77*2*FACILITY~NM1*DN*1*REFERRER~NM1*provider*2*P~PRV*BI*PXC*207Q00000X~NM1*subscriber*1*S~NM1*patient*1*T~NM1*ZZ*1*U~"
      EDI837Parser.constructor
    = Normal tree this'
    /\ EDI837Parser.ParsedData.subscribers tree = Some subscribers
    /\ Forall2 Spec837.entity_kept
         (Nest837.entities_named ["IL"; "subscriber"]
            (EDI837Parser.tokenize
               (EDI837Parser.cleanData
                  "NM1*85*2*CLINIC~NM1*IL*1*SMITH*JOHN~DMG*D8*19800101*M~NM1*QC*1*SMITH*ANN~NM1*PR*2*PAYER~NM1*82*1*WELBY~NM1*77*2*FACILITY~NM1*DN*1*REFERRER~NM1*provider*2*P~PRV*BI*PXC*207Q00000X~NM1*subscriber*1*S~NM1*patient*1*T~NM1*ZZ*1*U~")))
         subscribers
    /\ EDI837Parser.ParsedData.patients tree = Some patients
    /\ Forall2 Spec837.entity_kept
         (Nest837.entities_named ["QC"; "patient"]
            (EDI837Parser.tokenize
               (EDI837Parser.cleanData
                  "NM1*85*2*CLINIC~NM1*IL*1*SMITH*JOHN~DMG*D8*19800101*M~NM1*QC*1*SMITH*ANN~NM1*PR*2*PAYER~NM1*82*1*WELBY~NM1*77*2*FACILITY~NM1*DN*1*REFERRER~NM1*provider*2*P~PRV*BI*PXC*207Q00000X~NM1*subscriber*1*S~NM1*patient*1*T~NM1*ZZ*1*U~")))
         patients
    /\ EDI837Parser.ParsedData.providers tree = Some providers
    /\ Forall2 Spec837.entity_kept
         (Nest837.entities_named ["provider"]
            (EDI837Parser.tokenize
               (EDI837Parser.cleanData
                  "NM1*85*2*CLINIC~NM1*IL*1*SMITH*JOHN~DMG*D8*19800101*M~NM1*QC*1*SMITH*ANN~NM1*PR*2*PAYER~NM1*82*1*WELBY~NM1*77*2*FACILITY~NM1*DN*1*REFERRER~NM1*provider*2*P~PRV*BI*PXC*207Q00000X~NM1*subscriber*1*S~NM1*patient*1*T~NM1*ZZ*1*U~")))
         providers.
Proof.
  apply (entities_are_stored_by_their_code
           "NM1*85*2*CLINIC~NM1*IL*1*SMITH*JOHN~DMG*D8*19800101*M~NM1*QC*1*SMITH*ANN~NM1*PR*2*PAYER~NM1*82*1*WELBY~NM1*77*2*FACILITY~NM1*DN*1*REFERRER~NM1*provider*2*P~PRV*BI*PXC*207Q00000X~NM1*subscriber*1*S~NM1*patient*1*T~NM1*ZZ*1*U~"
           EDI837Parser.constructor).
  vm_compute. discriminate.
Defined.

(** The last names stored in each list on that input. *)
Example entities_are_stored_by_their_code_example :
  let segments :=
    EDI837Parser.tokenize
      (EDI837Parser.cleanData
         "NM1*85*2*CLINIC~NM1*IL*1*SMITH*JOHN~DMG*D8*19800101*M~NM1*QC*1*SMITH*ANN~NM1*PR*2*PAYER~NM1*82*1*WELBY~NM1*77*2*FACILITY~NM1*DN*1*REFERRER~NM1*provider*2*P~PRV*BI*PXC*207Q00000X~NM1*subscriber*1*S~NM1*patient*1*T~NM1*ZZ*1*U~") in
  List.map EDI837Parser.Entity.lastName
    (Nest837.entities_named ["IL"; "subscriber"] segments)
  = [Some "SMITH"; Some "S"]
  /\ List.map EDI837Parser.Entity.lastName
       (Nest837.entities_named ["QC"; "patient"] segments)
     = [Some "SMITH"; Some "T"]
  /\ List.map EDI837Parser.Entity.lastName
       (Nest837.entities_named ["provider"] segments)
     = [Some "P"].
Proof. vm_compute. repeat split. Qed.

Module Demographics837.
Import EDI837Parser Spec837 Nest837 Lemmas837.
Import Further837 Routing837.

(** The loop does not read [this.segments] in its body. *)
Lemma dispatch_segments_837 sid elements fr segs :
  after_of (dispatch sid elements
              (Frame.set_this (Parser.set_segments segs (Frame.this fr)) fr))
  = Frame.set_this
      (Parser.set_segments segs
         (Frame.this (after_of (dispatch sid elements fr))))
      (after_of (dispatch sid elements fr)).
Proof.
  open_frame fr. unfold dispatch.
  branches; crunch; reflexivity.
Qed.

Lemma run_segments_837 segments : forall fr segs,
  run segments
    (Frame.set_this (Parser.set_segments segs (Frame.this fr)) fr)
  = Frame.set_this
      (Parser.set_segments segs (Frame.this (run segments fr)))
      (run segments fr).
Proof.
  induction segments as [|segment rest IH]; intros fr segs.
  - reflexivity.
  - change (run (segment :: rest) ?f) with (run rest (step f segment)).
    rewrite !step_is_dispatch_837, dispatch_segments_837. apply IH.
Qed.

Lemma tree_of_start_837 segments a b :
  tree_of (run segments (start a)) = tree_of (run segments (start b)).
Proof.
  change (start a)
    with (Frame.set_this (Parser.set_segments a (Frame.this (start b)))
            (start b)).
  rewrite run_segments_837. reflexivity.
Qed.

(** Once a subscriber is current, it stays so, and the patients are only
    pushed to. *)
Lemma patients_dispatch_named_837 sid elements fr l :
  locals_settled fr ->
  is_Some (Frame.currentSubscriber fr) ->
  ParsedData.patients (tree_of fr) = Some l ->
  ParsedData.patients (tree_of (after_of (dispatch sid elements fr)))
  = Some (l ++ if (sid === "NM1")
                  && existsb (fun c => elements !! 1 === c)
                       ["QC"; "patient"]
               then [parseNM1 elements] else [])
  /\ is_Some (Frame.currentSubscriber (after_of (dispatch sid elements fr))).
Proof.
  unfold locals_settled. intros (Hc & Hs & Hp & Hpr) [r Hr].
  open_frame fr. intros ->. subst.
  pose proof Hc as (lc & -> & _). pose proof Hs as (ls & -> & _).
  pose proof Hpr as (lpr & -> & _).
  destruct Hs as (e & [= <-] & Hs). destruct ls as [|s0 ls]; [discriminate|].
  injection Hs as ->.
  unfold dispatch; cbv zeta; unfold parseNM1; cbn [Entity.type].
  rewrite type_is_subscriber, type_is_patient, type_is_provider.
  generalize (elements !! 1); intros code.
  destruct sid as [s|];
    [|cbn; rewrite app_nil_r; split; [reflexivity|eauto]].
  unfold strict_eq at 1 2 3 4 5 6 7 8 9 10 11 12 13 14 15 16 17 18 19 20.
  destruct code as [c|]; cbn [existsb strict_eq orb andb].
  - tag_goals s ltac:(idtac; cbn;
                      tag_goals c ltac:(idtac; cbn; branches; crunch;
                                        rewrite ?app_nil_r;
                                        first [ exfalso; absurd_latest
                                              | split; [reflexivity|eauto] ])).
  - tag_goals s ltac:(idtac; cbn; branches; crunch; rewrite ?app_nil_r;
                      first [ exfalso; absurd_latest
                            | split; [reflexivity|eauto] ]).
Qed.

Lemma patients_run_named_837 segments : forall fr l,
  locals_settled fr ->
  is_Some (Frame.currentSubscriber fr) ->
  ParsedData.patients (tree_of fr) = Some l ->
  ParsedData.patients (tree_of (run segments fr))
  = Some (l ++ entities_named ["QC"; "patient"] segments).
Proof.
  unfold entities_named.
  induction segments as [|segment rest IH]; intros fr l Hl Hs Hp.
  - cbn. rewrite app_nil_r. exact Hp.
  - change (run (segment :: rest) fr) with (run rest (step fr segment)).
    pose proof (locals_settled_run_837 [segment] fr Hl) as Hl'.
    change (run [segment] fr) with (step fr segment) in Hl'.
    rewrite step_is_dispatch_837 in *.
    destruct (patients_dispatch_named_837 (tag_of segment)
                (elements_of segment) fr l Hl Hs Hp) as [Hp' Hs'].
    rewrite (IH _ _ Hl' Hs' Hp'), <- app_assoc. cbn [List.filter].
    unfold names at 2, has_tag.
    destruct (_ && _); reflexivity.
Qed.

(** A subscriber is current after a segment that names one. *)
Lemma subscriber_dispatch_837 sid elements fr :
  locals_settled fr ->
  (is_Some (Frame.currentSubscriber fr)
   \/ (sid === "NM1")
      && existsb (fun c => elements !! 1 === c) ["IL"; "subscriber"] = true) ->
  is_Some (Frame.currentSubscriber (after_of (dispatch sid elements fr))).
Proof.
  intros Hl [Hs|Hn].
  - destruct (locals_settled_run_837 [] fr Hl) as (_ & _ & (lp & Hp & _) & _).
    apply (patients_dispatch_named_837 sid elements fr lp Hl Hs Hp).
  - revert Hn. destruct Hl as (_ & (ls & Hls & _) & _).
    open_frame fr. subst.
    unfold dispatch; cbv zeta; unfold parseNM1; cbn [Entity.type].
    rewrite type_is_subscriber.
    destruct sid as [s|]; [|discriminate]. unfold strict_eq at 1 4.
    destruct (String.eqb_spec s "NM1") as [->|]; [|discriminate].
    cbn [andb existsb]. intros ->. cbn. eauto.
Qed.

Lemma subscriber_run_837 segments : forall fr,
  locals_settled fr ->
  (is_Some (Frame.currentSubscriber fr)
   \/ existsb (names ["IL"; "subscriber"]) segments = true) ->
  is_Some (Frame.currentSubscriber (run segments fr)).
Proof.
  induction segments as [|segment rest IH]; intros fr Hl H.
  - destruct H as [H|H]; [exact H|discriminate].
  - change (run (segment :: rest) fr) with (run rest (step fr segment)).
    pose proof (locals_settled_run_837 [segment] fr Hl) as Hl'.
    change (run [segment] fr) with (step fr segment) in Hl'.
    apply (IH _ Hl').
    cbn [existsb] in H. rewrite orb_true_iff in H.
    destruct H as [H|[H|H]]; [left|left|right; exact H];
      rewrite step_is_dispatch_837;
      apply subscriber_dispatch_837; auto.
Qed.
End Demographics837.

(** X16.  Once an NM1 segment has named a subscriber, no later segment
    writes to a patient: if the segments of the input are [pre] followed by
    [post] and [pre] names a subscriber, the patients of the 837 tree are
    those that [pre] yields on its own, unchanged, followed by the entities
    of the NM1 segments of [post] that name a patient, exactly as
    [parseNM1] built them.  A patient named after a subscriber therefore
    never has demographics: the DMG segment that follows its NM1 segment is
    attached to the subscriber. *)
Theorem patients_after_a_subscriber_are_never_written :
  forall (ediData : string) (this : EDI837Parser.Parser.t)
         (pre post : list string),
    EDI837Parser.tokenize (EDI837Parser.cleanData ediData) = pre ++ post ->
    existsb (Nest837.names ["IL"; "subscriber"]) pre = true ->
    exists tree this' tree_pre this_pre before,
      EDI837Parser.parse ediData this = Normal tree this'
      /\ EDI837Parser.parse (terminated pre) EDI837Parser.constructor
         = Normal tree_pre this_pre
      /\ EDI837Parser.ParsedData.patients tree_pre = Some before
      /\ EDI837Parser.ParsedData.patients tree
         = Some (before ++ Nest837.entities_named ["QC"; "patient"] post)
      /\ Forall (fun patient => EDI837Parser.Entity.demographics patient = None)
           (Nest837.entities_named ["QC"; "patient"] post).
Proof.
  intros ediData this pre post Htok Hpre.
  assert (Hne : pre <> []) by (intros ->; discriminate).
  assert (Hclean : Forall clean_segment pre).
  { pose proof (tokens_clean ediData) as H. rewrite Htok in H.
    apply Forall_app in H as [H _]. exact H. }
  rewrite Blocks837.parse_tokens_837
    by (rewrite Htok; destruct pre; [contradiction|discriminate]).
  rewrite Htok.
  rewrite (Blocks837.parse_terminated_837 pre _ Hne Hclean).
  pose proof (Further837.locals_settled_run_837 pre _
                (Further837.locals_settled_start_837 pre)) as Hl.
  pose proof Hl as (_ & _ & (before & Hb & _) & _).
  do 4 eexists. exists before.
  split; [reflexivity|]. split; [reflexivity|]. split; [exact Hb|].
  split.
  - rewrite (Demographics837.tree_of_start_837 _ _ pre).
    rewrite Lemmas837.run_app_837.
    apply Demographics837.patients_run_named_837; [exact Hl| |exact Hb].
    apply Demographics837.subscriber_run_837;
      [apply Further837.locals_settled_start_837|right; exact Hpre].
  - unfold Nest837.entities_named. apply List.Forall_forall.
    intros patient Hin. apply List.in_map_iff in Hin as (s & <- & _).
    reflexivity.
Qed.

(** The patient named after the subscriber, and the DMG segment that
    follows it. *)
Lemma patients_after_a_subscriber_are_never_written_witness :
  exists tree this' tree_pre this_pre before,
    EDI837Parser.parse
      "NM1*QC*1*DOE*BABY~DMG*D8*20200101*F~NM1*IL*1*SMITH*JOHN~DMG*D8*19800101*M~NM1*QC*1*SMITH*ANN~DMG*D8*20100101*F~"
      EDI837Parser.constructor
    = Normal tree this'
    /\ EDI837Parser.parse
         (terminated
            ["NM1*QC*1*DOE*BABY"; "DMG*D8*20200101*F"; "NM1*IL*1*SMITH*JOHN"])
         EDI837Parser.constructor
       = Normal tree_pre this_pre
    /\ EDI837Parser.ParsedData.patients tree_pre = Some before
    /\ EDI837Parser.ParsedData.patients tree
       = Some (before
               ++ Nest837.entities_named ["QC"; "patient"]
                    ["DMG*D8*19800101*M"; "NM1*QC*1*SMITH*ANN";
                     "DMG*D8*20100101*F"])
    /\ Forall (fun patient => EDI837Parser.Entity.demographics patient = None)
         (Nest837.entities_named ["QC"; "patient"]
            ["DMG*D8*19800101*M"; "NM1*QC*1*SMITH*ANN"; "DMG*D8*20100101*F"]).
Proof.
  apply (patients_after_a_subscriber_are_never_written
           "NM1*QC*1*DOE*BABY~DMG*D8*20200101*F~NM1*IL*1*SMITH*JOHN~DMG*D8*19800101*M~NM1*QC*1*SMITH*ANN~DMG*D8*20100101*F~"
           EDI837Parser.constructor
           ["NM1*QC*1*DOE*BABY"; "DMG*D8*20200101*F"; "NM1*IL*1*SMITH*JOHN"]
           ["DMG*D8*19800101*M"; "NM1*QC*1*SMITH*ANN"; "DMG*D8*20100101*F"]).
  - vm_compute. reflexivity.
  - vm_compute. reflexivity.
Defined.

(** * Further facts: header fields and flat lists *)

Section Fields.
Context {Fr H : Type}.
Variable step : Fr -> string -> Fr.
Variable Inv : Fr -> Prop.
Hypothesis Inv_step : forall fr segment, Inv fr -> Inv (step fr segment).

(** A field that one tag assigns keeps what the last segment of that
    tag assigned. *)
Lemma view_last (view : Fr -> H) (tag : string) (written : string -> H) :
  (forall fr segment,
      Inv fr ->
      view (step fr segment)
      = if has_tag tag segment then written segment else view fr) ->
  forall segments fr,
    Inv fr ->
    view (fold_left step segments fr)
    = match last (List.filter (has_tag tag) segments) with
      | Some segment => written segment
      | None => view fr
      end.
Proof.
  intros Hstep. induction segments as [|segment rest IH]; intros fr Hfr.
  - reflexivity.
  - cbn [fold_left List.filter].
    rewrite (IH _ (Inv_step _ segment Hfr)), (Hstep _ _ Hfr).
    destruct (has_tag tag segment); [|reflexivity].
    destruct (List.filter (has_tag tag) rest) as [|x l] eqn:E;
      [reflexivity|].
    change (last (segment :: x :: l)) with (last (x :: l)).
    destruct (last (x :: l)) eqn:L; [reflexivity|].
    apply last_None in L. discriminate.
Qed.

(** A list that is only pushed to is the concatenation of what each
    segment pushes. *)
Lemma view_pushed {A} (view : Fr -> list A) (pushed : string -> list A) :
  (forall fr segment,
      Inv fr -> view (step fr segment) = view fr ++ pushed segment) ->
  forall segments fr,
    Inv fr ->
    view (fold_left step segments fr)
    = view fr ++ flat_map pushed segments.
Proof.
  intros Hstep. induction segments as [|segment rest IH]; intros fr Hfr.
  - cbn. rewrite app_nil_r. reflexivity.
  - cbn [fold_left flat_map].
    rewrite (IH _ (Inv_step _ segment Hfr)), (Hstep _ _ Hfr), app_assoc.
    reflexivity.
Qed.
End Fields.

Module Fields837.
Import EDI837Parser Spec837 Nest837 Lemmas837.
Import Further837.

Lemma alone_837 segment :
  clean_segment segment ->
  alone segment = tree_of (step (start []) segment).
Proof.
  intros H. unfold alone.
  rewrite (Blocks837.parse_terminated_837 [segment] constructor);
    [|discriminate|constructor; [exact H|constructor]].
  cbn [result_of default]. apply (Demographics837.tree_of_start_837 [segment]).
Qed.

Ltac header_field :=
  let s := fresh "s" in
  intros sid elements fr; open_frame fr;
  unfold dispatch;
  destruct sid as [s|]; [|reflexivity]; unfold strict_eq;
  tag_cases s ltac:(idtac; cbn; branches; crunch; reflexivity).

Lemma interchange_dispatch_837 : forall sid elements fr,
  ParsedData.interchange (tree_of (after_of (dispatch sid elements fr)))
  = if sid === "ISA"
    then ParsedData.interchange
           (tree_of (after_of (dispatch sid elements (start []))))
    else ParsedData.interchange (tree_of fr).
Proof. header_field. Qed.

Lemma interchange_run_837 segments any :
  Forall clean_segment segments ->
  ParsedData.interchange (tree_of (run segments (start any)))
  = ParsedData.interchange (last_alone "ISA" segments).
Proof.
  intros Hclean. unfold last_alone.
  rewrite (view_last step (fun _ => True) (fun _ _ _ => I)
             (fun fr => ParsedData.interchange (tree_of fr)) "ISA"
             (fun segment =>
                ParsedData.interchange (tree_of (step (start []) segment))));
    [|intros fr segment _; rewrite !step_is_dispatch_837;
      apply interchange_dispatch_837|exact I].
  destruct (last (List.filter (has_tag "ISA") segments)) as [s|] eqn:L;
    [|reflexivity].
  rewrite alone_837; [reflexivity|].
  apply last_Some_elem_of, list_elem_of_In, List.filter_In in L as [L _].
  rewrite List.Forall_forall in Hclean. exact (Hclean _ L).
Qed.

Lemma transactionSet_dispatch_837 : forall sid elements fr,
  ParsedData.transactionSet (tree_of (after_of (dispatch sid elements fr)))
  = if sid === "ST"
    then ParsedData.transactionSet
           (tree_of (after_of (dispatch sid elements (start []))))
    else ParsedData.transactionSet (tree_of fr).
Proof. header_field. Qed.

Lemma transactionSet_run_837 segments any :
  Forall clean_segment segments ->
  ParsedData.transactionSet (tree_of (run segments (start any)))
  = ParsedData.transactionSet (last_alone "ST" segments).
Proof.
  intros Hclean. unfold last_alone.
  rewrite (view_last step (fun _ => True) (fun _ _ _ => I)
             (fun fr => ParsedData.transactionSet (tree_of fr)) "ST"
             (fun segment =>
                ParsedData.transactionSet (tree_of (step (start []) segment))));
    [|intros fr segment _; rewrite !step_is_dispatch_837;
      apply transactionSet_dispatch_837|exact I].
  destruct (last (List.filter (has_tag "ST") segments)) as [s|] eqn:L;
    [|reflexivity].
  rewrite alone_837; [reflexivity|].
  apply last_Some_elem_of, list_elem_of_In, List.filter_In in L as [L _].
  rewrite List.Forall_forall in Hclean. exact (Hclean _ L).
Qed.

Lemma beginningTransaction_dispatch_837 : forall sid elements fr,
  ParsedData.beginningTransaction (tree_of (after_of (dispatch sid elements fr)))
  = if sid === "BHT"
    then ParsedData.beginningTransaction
           (tree_of (after_of (dispatch sid elements (start []))))
    else ParsedData.beginningTransaction (tree_of fr).
Proof. header_field. Qed.

Lemma beginningTransaction_run_837 segments any :
  Forall clean_segment segments ->
  ParsedData.beginningTransaction (tree_of (run segments (start any)))
  = ParsedData.beginningTransaction (last_alone "BHT" segments).
Proof.
  intros Hclean. unfold last_alone.
  rewrite (view_last step (fun _ => True) (fun _ _ _ => I)
             (fun fr => ParsedData.beginningTransaction (tree_of fr)) "BHT"
             (fun segment =>
                ParsedData.beginningTransaction (tree_of (step (start []) segment))));
    [|intros fr segment _; rewrite !step_is_dispatch_837;
      apply beginningTransaction_dispatch_837|exact I].
  destruct (last (List.filter (has_tag "BHT") segments)) as [s|] eqn:L;
    [|reflexivity].
  rewrite alone_837; [reflexivity|].
  apply last_Some_elem_of, list_elem_of_In, List.filter_In in L as [L _].
  rewrite List.Forall_forall in Hclean. exact (Hclean _ L).
Qed.

Lemma subscriberInfo_dispatch_837 : forall sid elements fr,
  ParsedData.subscriberInfo (tree_of (after_of (dispatch sid elements fr)))
  = if sid === "SBR"
    then ParsedData.subscriberInfo
           (tree_of (after_of (dispatch sid elements (start []))))
    else ParsedData.subscriberInfo (tree_of fr).
Proof. header_field. Qed.

Lemma subscriberInfo_run_837 segments any :
  Forall clean_segment segments ->
  ParsedData.subscriberInfo (tree_of (run segments (start any)))
  = ParsedData.subscriberInfo (last_alone "SBR" segments).
Proof.
  intros Hclean. unfold last_alone.
  rewrite (view_last step (fun _ => True) (fun _ _ _ => I)
             (fun fr => ParsedData.subscriberInfo (tree_of fr)) "SBR"
             (fun segment =>
                ParsedData.subscriberInfo (tree_of (step (start []) segment))));
    [|intros fr segment _; rewrite !step_is_dispatch_837;
      apply subscriberInfo_dispatch_837|exact I].
  destruct (last (List.filter (has_tag "SBR") segments)) as [s|] eqn:L;
    [|reflexivity].
  rewrite alone_837; [reflexivity|].
  apply last_Some_elem_of, list_elem_of_In, List.filter_In in L as [L _].
  rewrite List.Forall_forall in Hclean. exact (Hclean _ L).
Qed.

Lemma serviceLineNumber_dispatch_837 : forall sid elements fr,
  ParsedData.serviceLineNumber (tree_of (after_of (dispatch sid elements fr)))
  = if sid === "LX"
    then ParsedData.serviceLineNumber
           (tree_of (after_of (dispatch sid elements (start []))))
    else ParsedData.serviceLineNumber (tree_of fr).
Proof. header_field. Qed.

Lemma serviceLineNumber_run_837 segments any :
  Forall clean_segment segments ->
  ParsedData.serviceLineNumber (tree_of (run segments (start any)))
  = ParsedData.serviceLineNumber (last_alone "LX" segments).
Proof.
  intros Hclean. unfold last_alone.
  rewrite (view_last step (fun _ => True) (fun _ _ _ => I)
             (fun fr => ParsedData.serviceLineNumber (tree_of fr)) "LX"
             (fun segment =>
                ParsedData.serviceLineNumber (tree_of (step (start []) segment))));
    [|intros fr segment _; rewrite !step_is_dispatch_837;
      apply serviceLineNumber_dispatch_837|exact I].
  destruct (last (List.filter (has_tag "LX") segments)) as [s|] eqn:L;
    [|reflexivity].
  rewrite alone_837; [reflexivity|].
  apply last_Some_elem_of, list_elem_of_In, List.filter_In in L as [L _].
  rewrite List.Forall_forall in Hclean. exact (Hclean _ L).
Qed.

Lemma transactionSetTrailer_dispatch_837 : forall sid elements fr,
  ParsedData.transactionSetTrailer (tree_of (after_of (dispatch sid elements fr)))
  = if sid === "SE"
    then ParsedData.transactionSetTrailer
           (tree_of (after_of (dispatch sid elements (start []))))
    else ParsedData.transactionSetTrailer (tree_of fr).
Proof. header_field. Qed.

Lemma transactionSetTrailer_run_837 segments any :
  Forall clean_segment segments ->
  ParsedData.transactionSetTrailer (tree_of (run segments (start any)))
  = ParsedData.transactionSetTrailer (last_alone "SE" segments).
Proof.
  intros Hclean. unfold last_alone.
  rewrite (view_last step (fun _ => True) (fun _ _ _ => I)
             (fun fr => ParsedData.transactionSetTrailer (tree_of fr)) "SE"
             (fun segment =>
                ParsedData.transactionSetTrailer (tree_of (step (start []) segment))));
    [|intros fr segment _; rewrite !step_is_dispatch_837;
      apply transactionSetTrailer_dispatch_837|exact I].
  destruct (last (List.filter (has_tag "SE") segments)) as [s|] eqn:L;
    [|reflexivity].
  rewrite alone_837; [reflexivity|].
  apply last_Some_elem_of, list_elem_of_In, List.filter_In in L as [L _].
  rewrite List.Forall_forall in Hclean. exact (Hclean _ L).
Qed.

Lemma functionalGroupTrailer_dispatch_837 : forall sid elements fr,
  ParsedData.functionalGroupTrailer (tree_of (after_of (dispatch sid elements fr)))
  = if sid === "GE"
    then ParsedData.functionalGroupTrailer
           (tree_of (after_of (dispatch sid elements (start []))))
    else ParsedData.functionalGroupTrailer (tree_of fr).
Proof. header_field. Qed.

Lemma functionalGroupTrailer_run_837 segments any :
  Forall clean_segment segments ->
  ParsedData.functionalGroupTrailer (tree_of (run segments (start any)))
  = ParsedData.functionalGroupTrailer (last_alone "GE" segments).
Proof.
  intros Hclean. unfold last_alone.
  rewrite (view_last step (fun _ => True) (fun _ _ _ => I)
             (fun fr => ParsedData.functionalGroupTrailer (tree_of fr)) "GE"
             (fun segment =>
                ParsedData.functionalGroupTrailer (tree_of (step (start []) segment))));
    [|intros fr segment _; rewrite !step_is_dispatch_837;
      apply functionalGroupTrailer_dispatch_837|exact I].
  destruct (last (List.filter (has_tag "GE") segments)) as [s|] eqn:L;
    [|reflexivity].
  rewrite alone_837; [reflexivity|].
  apply last_Some_elem_of, list_elem_of_In, List.filter_In in L as [L _].
  rewrite List.Forall_forall in Hclean. exact (Hclean _ L).
Qed.

Lemma interchangeTrailer_dispatch_837 : forall sid elements fr,
  ParsedData.interchangeTrailer (tree_of (after_of (dispatch sid elements fr)))
  = if sid === "IEA"
    then ParsedData.interchangeTrailer
           (tree_of (after_of (dispatch sid elements (start []))))
    else ParsedData.interchangeTrailer (tree_of fr).
Proof. header_field. Qed.

Lemma interchangeTrailer_run_837 segments any :
  Forall clean_segment segments ->
  ParsedData.interchangeTrailer (tree_of (run segments (start any)))
  = ParsedData.interchangeTrailer (last_alone "IEA" segments).
Proof.
  intros Hclean. unfold last_alone.
  rewrite (view_last step (fun _ => True) (fun _ _ _ => I)
             (fun fr => ParsedData.interchangeTrailer (tree_of fr)) "IEA"
             (fun segment =>
                ParsedData.interchangeTrailer (tree_of (step (start []) segment))));
    [|intros fr segment _; rewrite !step_is_dispatch_837;
      apply interchangeTrailer_dispatch_837|exact I].
  destruct (last (List.filter (has_tag "IEA") segments)) as [s|] eqn:L;
    [|reflexivity].
  rewrite alone_837; [reflexivity|].
  apply last_Some_elem_of, list_elem_of_In, List.filter_In in L as [L _].
  rewrite List.Forall_forall in Hclean. exact (Hclean _ L).
Qed.

End Fields837.

Module Fields835.
Import EDI835Parser Spec835 Nest835 Lemmas835.
Import Further835.

Lemma dispatch_segments_835 sid elements fr segs :
  after_of (dispatch sid elements
              (Frame.set_this (Parser.set_segments segs (Frame.this fr)) fr))
  = Frame.set_this
      (Parser.set_segments segs
         (Frame.this (after_of (dispatch sid elements fr))))
      (after_of (dispatch sid elements fr)).
Proof.
  open_frame fr. unfold dispatch.
  branches; crunch; reflexivity.
Qed.

Lemma run_segments_835 segments : forall fr segs,
  run segments
    (Frame.set_this (Parser.set_segments segs (Frame.this fr)) fr)
  = Frame.set_this
      (Parser.set_segments segs (Frame.this (run segments fr)))
      (run segments fr).
Proof.
  induction segments as [|segment rest IH]; intros fr segs.
  - reflexivity.
  - change (run (segment :: rest) ?f) with (run rest (step f segment)).
    rewrite !step_is_dispatch_835, dispatch_segments_835. apply IH.
Qed.

Lemma tree_of_start_835 segments a b :
  tree_of (run segments (start a)) = tree_of (run segments (start b)).
Proof.
  change (start a)
    with (Frame.set_this (Parser.set_segments a (Frame.this (start b)))
            (start b)).
  rewrite run_segments_835. reflexivity.
Qed.

Lemma alone_835 segment :
  clean_segment segment ->
  alone segment = tree_of (step (start []) segment).
Proof.
  intros H. unfold alone.
  rewrite (Blocks835.parse_terminated_835 [segment] constructor);
    [|discriminate|constructor; [exact H|constructor]].
  cbn [result_of default]. apply (tree_of_start_835 [segment]).
Qed.

Ltac header_field :=
  let s := fresh "s" in
  intros sid elements fr; open_frame fr;
  unfold dispatch;
  destruct sid as [s|]; [|reflexivity]; unfold strict_eq;
  tag_cases s ltac:(idtac; cbn; branches; crunch; reflexivity).

Lemma interchange_dispatch_835 : forall sid elements fr,
  ParsedData.interchange (tree_of (after_of (dispatch sid elements fr)))
  = if sid === "ISA"
    then ParsedData.interchange
           (tree_of (after_of (dispatch sid elements (start []))))
    else ParsedData.interchange (tree_of fr).
Proof. header_field. Qed.

Lemma interchange_run_835 segments any :
  Forall clean_segment segments ->
  ParsedData.interchange (tree_of (run segments (start any)))
  = ParsedData.interchange (last_alone "ISA" segments).
Proof.
  intros Hclean. unfold last_alone.
  rewrite (view_last step (fun _ => True) (fun _ _ _ => I)
             (fun fr => ParsedData.interchange (tree_of fr)) "ISA"
             (fun segment =>
                ParsedData.interchange (tree_of (step (start []) segment))));
    [|intros fr segment _; rewrite !step_is_dispatch_835;
      apply interchange_dispatch_835|exact I].
  destruct (last (List.filter (has_tag "ISA") segments)) as [s|] eqn:L;
    [|reflexivity].
  rewrite alone_835; [reflexivity|].
  apply last_Some_elem_of, list_elem_of_In, List.filter_In in L as [L _].
  rewrite List.Forall_forall in Hclean. exact (Hclean _ L).
Qed.

Lemma transactionSet_dispatch_835 : forall sid elements fr,
  ParsedData.transactionSet (tree_of (after_of (dispatch sid elements fr)))
  = if sid === "ST"
    then ParsedData.transactionSet
           (tree_of (after_of (dispatch sid elements (start []))))
    else ParsedData.transactionSet (tree_of fr).
Proof. header_field. Qed.

Lemma transactionSet_run_835 segments any :
  Forall clean_segment segments ->
  ParsedData.transactionSet (tree_of (run segments (start any)))
  = ParsedData.transactionSet (last_alone "ST" segments).
Proof.
  intros Hclean. unfold last_alone.
  rewrite (view_last step (fun _ => True) (fun _ _ _ => I)
             (fun fr => ParsedData.transactionSet (tree_of fr)) "ST"
             (fun segment =>
                ParsedData.transactionSet (tree_of (step (start []) segment))));
    [|intros fr segment _; rewrite !step_is_dispatch_835;
      apply transactionSet_dispatch_835|exact I].
  destruct (last (List.filter (has_tag "ST") segments)) as [s|] eqn:L;
    [|reflexivity].
  rewrite alone_835; [reflexivity|].
  apply last_Some_elem_of, list_elem_of_In, List.filter_In in L as [L _].
  rewrite List.Forall_forall in Hclean. exact (Hclean _ L).
Qed.

Lemma transactionSetTrailer_dispatch_835 : forall sid elements fr,
  ParsedData.transactionSetTrailer (tree_of (after_of (dispatch sid elements fr)))
  = if sid === "SE"
    then ParsedData.transactionSetTrailer
           (tree_of (after_of (dispatch sid elements (start []))))
    else ParsedData.transactionSetTrailer (tree_of fr).
Proof. header_field. Qed.

Lemma transactionSetTrailer_run_835 segments any :
  Forall clean_segment segments ->
  ParsedData.transactionSetTrailer (tree_of (run segments (start any)))
  = ParsedData.transactionSetTrailer (last_alone "SE" segments).
Proof.
  intros Hclean. unfold last_alone.
  rewrite (view_last step (fun _ => True) (fun _ _ _ => I)
             (fun fr => ParsedData.transactionSetTrailer (tree_of fr)) "SE"
             (fun segment =>
                ParsedData.transactionSetTrailer (tree_of (step (start []) segment))));
    [|intros fr segment _; rewrite !step_is_dispatch_835;
      apply transactionSetTrailer_dispatch_835|exact I].
  destruct (last (List.filter (has_tag "SE") segments)) as [s|] eqn:L;
    [|reflexivity].
  rewrite alone_835; [reflexivity|].
  apply last_Some_elem_of, list_elem_of_In, List.filter_In in L as [L _].
  rewrite List.Forall_forall in Hclean. exact (Hclean _ L).
Qed.

Lemma functionalGroupTrailer_dispatch_835 : forall sid elements fr,
  ParsedData.functionalGroupTrailer (tree_of (after_of (dispatch sid elements fr)))
  = if sid === "GE"
    then ParsedData.functionalGroupTrailer
           (tree_of (after_of (dispatch sid elements (start []))))
    else ParsedData.functionalGroupTrailer (tree_of fr).
Proof. header_field. Qed.

Lemma functionalGroupTrailer_run_835 segments any :
  Forall clean_segment segments ->
  ParsedData.functionalGroupTrailer (tree_of (run segments (start any)))
  = ParsedData.functionalGroupTrailer (last_alone "GE" segments).
Proof.
  intros Hclean. unfold last_alone.
  rewrite (view_last step (fun _ => True) (fun _ _ _ => I)
             (fun fr => ParsedData.functionalGroupTrailer (tree_of fr)) "GE"
             (fun segment =>
                ParsedData.functionalGroupTrailer (tree_of (step (start []) segment))));
    [|intros fr segment _; rewrite !step_is_dispatch_835;
      apply functionalGroupTrailer_dispatch_835|exact I].
  destruct (last (List.filter (has_tag "GE") segments)) as [s|] eqn:L;
    [|reflexivity].
  rewrite alone_835; [reflexivity|].
  apply last_Some_elem_of, list_elem_of_In, List.filter_In in L as [L _].
  rewrite List.Forall_forall in Hclean. exact (Hclean _ L).
Qed.

Lemma interchangeTrailer_dispatch_835 : forall sid elements fr,
  ParsedData.interchangeTrailer (tree_of (after_of (dispatch sid elements fr)))
  = if sid === "IEA"
    then ParsedData.interchangeTrailer
           (tree_of (after_of (dispatch sid elements (start []))))
    else ParsedData.interchangeTrailer (tree_of fr).
Proof. header_field. Qed.

Lemma interchangeTrailer_run_835 segments any :
  Forall clean_segment segments ->
  ParsedData.interchangeTrailer (tree_of (run segments (start any)))
  = ParsedData.interchangeTrailer (last_alone "IEA" segments).
Proof.
  intros Hclean. unfold last_alone.
  rewrite (view_last step (fun _ => True) (fun _ _ _ => I)
             (fun fr => ParsedData.interchangeTrailer (tree_of fr)) "IEA"
             (fun segment =>
                ParsedData.interchangeTrailer (tree_of (step (start []) segment))));
    [|intros fr segment _; rewrite !step_is_dispatch_835;
      apply interchangeTrailer_dispatch_835|exact I].
  destruct (last (List.filter (has_tag "IEA") segments)) as [s|] eqn:L;
    [|reflexivity].
  rewrite alone_835; [reflexivity|].
  apply last_Some_elem_of, list_elem_of_In, List.filter_In in L as [L _].
  rewrite List.Forall_forall in Hclean. exact (Hclean _ L).
Qed.

End Fields835.

Module Lists837.
Import EDI837Parser Spec837 Nest837 Lemmas837.
Import Further837 Fields837.

Ltac pushed_list :=
  let s := fresh "s" in
  intros sid elements fr Hok;
  pose proof (has_groups _ Hok) as [? Hg];
  pose proof (has_services _ Hok) as [? Hs];
  open_frame fr; subst;
  unfold dispatch;
  destruct sid as [s|]; [|cbn; rewrite app_nil_r; reflexivity];
  unfold strict_eq;
  tag_cases s ltac:(idtac; cbn; branches; crunch; rewrite ?app_nil_r;
                    reflexivity).

Lemma flat_map_alone_837 {A} (view : ParsedData.t -> list A) segments :
  Forall clean_segment segments ->
  flat_map (fun segment => view (tree_of (step (start []) segment))) segments
  = flat_map (fun segment => view (alone segment)) segments.
Proof.
  induction 1 as [|s l Hs _ IH]; [reflexivity|].
  cbn [flat_map]. rewrite IH, (alone_837 s Hs). reflexivity.
Qed.

Lemma groups_pushed_837 : forall sid elements fr,
  frame_ok fr ->
  default [] (ParsedData.groups (tree_of (after_of (dispatch sid elements fr))))
  = default [] (ParsedData.groups (tree_of fr))
    ++ default []
         (ParsedData.groups
            (tree_of (after_of (dispatch sid elements (start []))))).
Proof. pushed_list. Qed.

Lemma groups_concat_837 segments any :
  Forall clean_segment segments ->
  default [] (ParsedData.groups (tree_of (run segments (start any))))
  = flat_map (fun segment => default [] (ParsedData.groups (alone segment)))
      segments.
Proof.
  intros Hclean.
  rewrite <- (flat_map_alone_837
                (fun tree => default [] (ParsedData.groups tree)) _ Hclean).
  rewrite (view_pushed step frame_ok frame_ok_step_837
             (fun fr => default [] (ParsedData.groups (tree_of fr)))
             (fun segment =>
                default []
                  (ParsedData.groups (tree_of (step (start []) segment)))));
    [reflexivity| |apply frame_ok_start_837].
  intros fr segment Hok. rewrite !step_is_dispatch_837.
  apply groups_pushed_837, Hok.
Qed.

Lemma references_pushed_837 : forall sid elements fr,
  frame_ok fr ->
  default [] (ParsedData.references (tree_of (after_of (dispatch sid elements fr))))
  = default [] (ParsedData.references (tree_of fr))
    ++ default []
         (ParsedData.references
            (tree_of (after_of (dispatch sid elements (start []))))).
Proof. pushed_list. Qed.

Lemma references_concat_837 segments any :
  Forall clean_segment segments ->
  default [] (ParsedData.references (tree_of (run segments (start any))))
  = flat_map (fun segment => default [] (ParsedData.references (alone segment)))
      segments.
Proof.
  intros Hclean.
  rewrite <- (flat_map_alone_837
                (fun tree => default [] (ParsedData.references tree)) _ Hclean).
  rewrite (view_pushed step frame_ok frame_ok_step_837
             (fun fr => default [] (ParsedData.references (tree_of fr)))
             (fun segment =>
                default []
                  (ParsedData.references (tree_of (step (start []) segment)))));
    [reflexivity| |apply frame_ok_start_837].
  intros fr segment Hok. rewrite !step_is_dispatch_837.
  apply references_pushed_837, Hok.
Qed.

Lemma contacts_pushed_837 : forall sid elements fr,
  frame_ok fr ->
  default [] (ParsedData.contacts (tree_of (after_of (dispatch sid elements fr))))
  = default [] (ParsedData.contacts (tree_of fr))
    ++ default []
         (ParsedData.contacts
            (tree_of (after_of (dispatch sid elements (start []))))).
Proof. pushed_list. Qed.

Lemma contacts_concat_837 segments any :
  Forall clean_segment segments ->
  default [] (ParsedData.contacts (tree_of (run segments (start any))))
  = flat_map (fun segment => default [] (ParsedData.contacts (alone segment)))
      segments.
Proof.
  intros Hclean.
  rewrite <- (flat_map_alone_837
                (fun tree => default [] (ParsedData.contacts tree)) _ Hclean).
  rewrite (view_pushed step frame_ok frame_ok_step_837
             (fun fr => default [] (ParsedData.contacts (tree_of fr)))
             (fun segment =>
                default []
                  (ParsedData.contacts (tree_of (step (start []) segment)))));
    [reflexivity| |apply frame_ok_start_837].
  intros fr segment Hok. rewrite !step_is_dispatch_837.
  apply contacts_pushed_837, Hok.
Qed.

Lemma services_pushed_837 : forall sid elements fr,
  frame_ok fr ->
  default [] (ParsedData.services (tree_of (after_of (dispatch sid elements fr))))
  = default [] (ParsedData.services (tree_of fr))
    ++ default []
         (ParsedData.services
            (tree_of (after_of (dispatch sid elements (start []))))).
Proof. pushed_list. Qed.

Lemma services_concat_837 segments any :
  Forall clean_segment segments ->
  default [] (ParsedData.services (tree_of (run segments (start any))))
  = flat_map (fun segment => default [] (ParsedData.services (alone segment)))
      segments.
Proof.
  intros Hclean.
  rewrite <- (flat_map_alone_837
                (fun tree => default [] (ParsedData.services tree)) _ Hclean).
  rewrite (view_pushed step frame_ok frame_ok_step_837
             (fun fr => default [] (ParsedData.services (tree_of fr)))
             (fun segment =>
                default []
                  (ParsedData.services (tree_of (step (start []) segment)))));
    [reflexivity| |apply frame_ok_start_837].
  intros fr segment Hok. rewrite !step_is_dispatch_837.
  apply services_pushed_837, Hok.
Qed.

End Lists837.

Module Lists835.
Import EDI835Parser Spec835 Nest835 Lemmas835.
Import Further835 Fields835.

Ltac pushed_list :=
  let s := fresh "s" in
  intros sid elements fr Hok;
  pose proof (has_groups _ Hok) as [? Hg];
  pose proof (has_services _ Hok) as [? Hs];
  pose proof (has_adjustments _ Hok) as [? Ha];
  pose proof (has_references _ Hok) as [? Hr];
  pose proof (has_contacts _ Hok) as [? Hc];
  open_frame fr; subst;
  unfold dispatch;
  destruct sid as [s|]; [|cbn; rewrite app_nil_r; reflexivity];
  unfold strict_eq;
  tag_cases s ltac:(idtac; cbn; branches; crunch; rewrite ?app_nil_r;
                    reflexivity).

Lemma flat_map_alone_835 {A} (view : ParsedData.t -> list A) segments :
  Forall clean_segment segments ->
  flat_map (fun segment => view (tree_of (step (start []) segment))) segments
  = flat_map (fun segment => view (alone segment)) segments.
Proof.
  induction 1 as [|s l Hs _ IH]; [reflexivity|].
  cbn [flat_map]. rewrite IH, (alone_835 s Hs). reflexivity.
Qed.

Lemma groups_pushed_835 : forall sid elements fr,
  frame_ok fr ->
  default [] (ParsedData.groups (tree_of (after_of (dispatch sid elements fr))))
  = default [] (ParsedData.groups (tree_of fr))
    ++ default []
         (ParsedData.groups
            (tree_of (after_of (dispatch sid elements (start []))))).
Proof. pushed_list. Qed.

Lemma groups_concat_835 segments any :
  Forall clean_segment segments ->
  default [] (ParsedData.groups (tree_of (run segments (start any))))
  = flat_map (fun segment => default [] (ParsedData.groups (alone segment)))
      segments.
Proof.
  intros Hclean.
  rewrite <- (flat_map_alone_835
                (fun tree => default [] (ParsedData.groups tree)) _ Hclean).
  rewrite (view_pushed step frame_ok frame_ok_step_835
             (fun fr => default [] (ParsedData.groups (tree_of fr)))
             (fun segment =>
                default []
                  (ParsedData.groups (tree_of (step (start []) segment)))));
    [reflexivity| |apply frame_ok_start_835].
  intros fr segment Hok. rewrite !step_is_dispatch_835.
  apply groups_pushed_835, Hok.
Qed.

Lemma references_pushed_835 : forall sid elements fr,
  frame_ok fr ->
  default [] (ParsedData.references (tree_of (after_of (dispatch sid elements fr))))
  = default [] (ParsedData.references (tree_of fr))
    ++ default []
         (ParsedData.references
            (tree_of (after_of (dispatch sid elements (start []))))).
Proof. pushed_list. Qed.

Lemma references_concat_835 segments any :
  Forall clean_segment segments ->
  default [] (ParsedData.references (tree_of (run segments (start any))))
  = flat_map (fun segment => default [] (ParsedData.references (alone segment)))
      segments.
Proof.
  intros Hclean.
  rewrite <- (flat_map_alone_835
                (fun tree => default [] (ParsedData.references tree)) _ Hclean).
  rewrite (view_pushed step frame_ok frame_ok_step_835
             (fun fr => default [] (ParsedData.references (tree_of fr)))
             (fun segment =>
                default []
                  (ParsedData.references (tree_of (step (start []) segment)))));
    [reflexivity| |apply frame_ok_start_835].
  intros fr segment Hok. rewrite !step_is_dispatch_835.
  apply references_pushed_835, Hok.
Qed.

Lemma contacts_pushed_835 : forall sid elements fr,
  frame_ok fr ->
  default [] (ParsedData.contacts (tree_of (after_of (dispatch sid elements fr))))
  = default [] (ParsedData.contacts (tree_of fr))
    ++ default []
         (ParsedData.contacts
            (tree_of (after_of (dispatch sid elements (start []))))).
Proof. pushed_list. Qed.

Lemma contacts_concat_835 segments any :
  Forall clean_segment segments ->
  default [] (ParsedData.contacts (tree_of (run segments (start any))))
  = flat_map (fun segment => default [] (ParsedData.contacts (alone segment)))
      segments.
Proof.
  intros Hclean.
  rewrite <- (flat_map_alone_835
                (fun tree => default [] (ParsedData.contacts tree)) _ Hclean).
  rewrite (view_pushed step frame_ok frame_ok_step_835
             (fun fr => default [] (ParsedData.contacts (tree_of fr)))
             (fun segment =>
                default []
                  (ParsedData.contacts (tree_of (step (start []) segment)))));
    [reflexivity| |apply frame_ok_start_835].
  intros fr segment Hok. rewrite !step_is_dispatch_835.
  apply contacts_pushed_835, Hok.
Qed.

Lemma services_pushed_835 : forall sid elements fr,
  frame_ok fr ->
  default [] (ParsedData.services (tree_of (after_of (dispatch sid elements fr))))
  = default [] (ParsedData.services (tree_of fr))
    ++ default []
         (ParsedData.services
            (tree_of (after_of (dispatch sid elements (start []))))).
Proof. pushed_list. Qed.

Lemma services_concat_835 segments any :
  Forall clean_segment segments ->
  default [] (ParsedData.services (tree_of (run segments (start any))))
  = flat_map (fun segment => default [] (ParsedData.services (alone segment)))
      segments.
Proof.
  intros Hclean.
  rewrite <- (flat_map_alone_835
                (fun tree => default [] (ParsedData.services tree)) _ Hclean).
  rewrite (view_pushed step frame_ok frame_ok_step_835
             (fun fr => default [] (ParsedData.services (tree_of fr)))
             (fun segment =>
                default []
                  (ParsedData.services (tree_of (step (start []) segment)))));
    [reflexivity| |apply frame_ok_start_835].
  intros fr segment Hok. rewrite !step_is_dispatch_835.
  apply services_pushed_835, Hok.
Qed.

Lemma adjustments_pushed_835 : forall sid elements fr,
  frame_ok fr ->
  default [] (ParsedData.adjustments (tree_of (after_of (dispatch sid elements fr))))
  = default [] (ParsedData.adjustments (tree_of fr))
    ++ default []
         (ParsedData.adjustments
            (tree_of (after_of (dispatch sid elements (start []))))).
Proof. pushed_list. Qed.

Lemma adjustments_concat_835 segments any :
  Forall clean_segment segments ->
  default [] (ParsedData.adjustments (tree_of (run segments (start any))))
  = flat_map (fun segment => default [] (ParsedData.adjustments (alone segment)))
      segments.
Proof.
  intros Hclean.
  rewrite <- (flat_map_alone_835
                (fun tree => default [] (ParsedData.adjustments tree)) _ Hclean).
  rewrite (view_pushed step frame_ok frame_ok_step_835
             (fun fr => default [] (ParsedData.adjustments (tree_of fr)))
             (fun segment =>
                default []
                  (ParsedData.adjustments (tree_of (step (start []) segment)))));
    [reflexivity| |apply frame_ok_start_835].
  intros fr segment Hok. rewrite !step_is_dispatch_835.
  apply adjustments_pushed_835, Hok.
Qed.

End Lists835.

(** X17.  A field of the tree that one tag assigns keeps what the last
    segment of that tag assigned, whatever stands before, between and
    after: in either tree the interchange header, the transaction set and
    the three trailers (and in the 837 tree the beginning of transaction,
    the subscriber information and the service line number) are those of
    the tree that the last ISA, ST, SE, GE, IEA (BHT, SBR, LX) segment
    yields when it is parsed alone, and those of the fresh tree when the
    tag does not occur. *)
Theorem header_fields_keep_the_last_segment :
  forall (ediData : string)
         (this837 : EDI837Parser.Parser.t) (this835 : EDI835Parser.Parser.t),
    let segments := EDI837Parser.tokenize (EDI837Parser.cleanData ediData) in
    segments <> [] ->
  (exists tree this',
       EDI837Parser.parse ediData this837 = Normal tree this'
       /\ EDI837Parser.ParsedData.interchange tree
          = EDI837Parser.ParsedData.interchange (Nest837.last_alone "ISA" segments)
       /\ EDI837Parser.ParsedData.transactionSet tree
          = EDI837Parser.ParsedData.transactionSet (Nest837.last_alone "ST" segments)
       /\ EDI837Parser.ParsedData.beginningTransaction tree
          = EDI837Parser.ParsedData.beginningTransaction (Nest837.last_alone "BHT" segments)
       /\ EDI837Parser.ParsedData.subscriberInfo tree
          = EDI837Parser.ParsedData.subscriberInfo (Nest837.last_alone "SBR" segments)
       /\ EDI837Parser.ParsedData.serviceLineNumber tree
          = EDI837Parser.ParsedData.serviceLineNumber (Nest837.last_alone "LX" segments)
       /\ EDI837Parser.ParsedData.transactionSetTrailer tree
          = EDI837Parser.ParsedData.transactionSetTrailer (Nest837.last_alone "SE" segments)
       /\ EDI837Parser.ParsedData.functionalGroupTrailer tree
          = EDI837Parser.ParsedData.functionalGroupTrailer (Nest837.last_alone "GE" segments)
       /\ EDI837Parser.ParsedData.interchangeTrailer tree
          = EDI837Parser.ParsedData.interchangeTrailer (Nest837.last_alone "IEA" segments))
    /\ (exists tree this',
          EDI835Parser.parse ediData this835 = Normal tree this'
          /\ EDI835Parser.ParsedData.interchange tree
             = EDI835Parser.ParsedData.interchange (Nest835.last_alone "ISA" segments)
          /\ EDI835Parser.ParsedData.transactionSet tree
             = EDI835Parser.ParsedData.transactionSet (Nest835.last_alone "ST" segments)
          /\ EDI835Parser.ParsedData.transactionSetTrailer tree
             = EDI835Parser.ParsedData.transactionSetTrailer (Nest835.last_alone "SE" segments)
          /\ EDI835Parser.ParsedData.functionalGroupTrailer tree
             = EDI835Parser.ParsedData.functionalGroupTrailer (Nest835.last_alone "GE" segments)
          /\ EDI835Parser.ParsedData.interchangeTrailer tree
             = EDI835Parser.ParsedData.interchangeTrailer (Nest835.last_alone "IEA" segments)).
Proof.
  intros ediData this837 this835 segments Hne.
  pose proof (tokens_clean ediData) as Hclean. fold segments in Hclean.
  split.
  - rewrite (Blocks837.parse_tokens_837 _ _ Hne). fold segments.
    do 2 eexists. split; [reflexivity|].
    repeat split;
      first [ apply Fields837.interchange_run_837
            | apply Fields837.transactionSet_run_837
            | apply Fields837.beginningTransaction_run_837
            | apply Fields837.subscriberInfo_run_837
            | apply Fields837.serviceLineNumber_run_837
            | apply Fields837.transactionSetTrailer_run_837
            | apply Fields837.functionalGroupTrailer_run_837
            | apply Fields837.interchangeTrailer_run_837 ];
      exact Hclean.
  - rewrite (Blocks835.parse_tokens_835 _ _ Hne).
    change (EDI835Parser.tokenize (EDI835Parser.cleanData ediData))
      with segments.
    do 2 eexists. split; [reflexivity|].
    repeat split;
      first [ apply Fields835.interchange_run_835
            | apply Fields835.transactionSet_run_835
            | apply Fields835.transactionSetTrailer_run_835
            | apply Fields835.functionalGroupTrailer_run_835
            | apply Fields835.interchangeTrailer_run_835 ];
      exact Hclean.
Qed.

(** Two ISA and two ST segments, one SE segment, no GE and no IEA. *)
Lemma header_fields_keep_the_last_segment_witness :
  (exists tree this',
     EDI837Parser.parse 
       "ISA*00*A~GS*HC~ST*837*0001~REF*EI*1~ISA*00*B~PER*IC*DESK~GS*HP~SE*9*0001~ST*835*0002~REF*EI*2~"
       EDI837Parser.constructor = Normal tree this'
     /\ EDI837Parser.ParsedData.interchange tree
        = EDI837Parser.ParsedData.interchange (Nest837.last_alone "ISA" (EDI837Parser.tokenize (EDI837Parser.cleanData
          "ISA*00*A~GS*HC~ST*837*0001~REF*EI*1~ISA*00*B~PER*IC*DESK~GS*HP~SE*9*0001~ST*835*0002~REF*EI*2~")))
     /\ EDI837Parser.ParsedData.transactionSet tree
        = EDI837Parser.ParsedData.transactionSet (Nest837.last_alone "ST" (EDI837Parser.tokenize (EDI837Parser.cleanData
          "ISA*00*A~GS*HC~ST*837*0001~REF*EI*1~ISA*00*B~PER*IC*DESK~GS*HP~SE*9*0001~ST*835*0002~REF*EI*2~")))
     /\ EDI837Parser.ParsedData.beginningTransaction tree
        = EDI837Parser.ParsedData.beginningTransaction (Nest837.last_alone "BHT" (EDI837Parser.tokenize (EDI837Parser.cleanData
          "ISA*00*A~GS*HC~ST*837*0001~REF*EI*1~ISA*00*B~PER*IC*DESK~GS*HP~SE*9*0001~ST*835*0002~REF*EI*2~")))
     /\ EDI837Parser.ParsedData.subscriberInfo tree
        = EDI837Parser.ParsedData.subscriberInfo (Nest837.last_alone "SBR" (EDI837Parser.tokenize (EDI837Parser.cleanData
          "ISA*00*A~GS*HC~ST*837*0001~REF*EI*1~ISA*00*B~PER*IC*DESK~GS*HP~SE*9*0001~ST*835*0002~REF*EI*2~")))
     /\ EDI837Parser.ParsedData.serviceLineNumber tree
        = EDI837Parser.ParsedData.serviceLineNumber (Nest837.last_alone "LX" (EDI837Parser.tokenize (EDI837Parser.cleanData
          "ISA*00*A~GS*HC~ST*837*0001~REF*EI*1~ISA*00*B~PER*IC*DESK~GS*HP~SE*9*0001~ST*835*0002~REF*EI*2~")))
     /\ EDI837Parser.ParsedData.transactionSetTrailer tree
        = EDI837Parser.ParsedData.transactionSetTrailer (Nest837.last_alone "SE" (EDI837Parser.tokenize (EDI837Parser.cleanData
          "ISA*00*A~GS*HC~ST*837*0001~REF*EI*1~ISA*00*B~PER*IC*DESK~GS*HP~SE*9*0001~ST*835*0002~REF*EI*2~")))
     /\ EDI837Parser.ParsedData.functionalGroupTrailer tree
        = EDI837Parser.ParsedData.functionalGroupTrailer (Nest837.last_alone "GE" (EDI837Parser.tokenize (EDI837Parser.cleanData
          "ISA*00*A~GS*HC~ST*837*0001~REF*EI*1~ISA*00*B~PER*IC*DESK~GS*HP~SE*9*0001~ST*835*0002~REF*EI*2~")))
     /\ EDI837Parser.ParsedData.interchangeTrailer tree
        = EDI837Parser.ParsedData.interchangeTrailer (Nest837.last_alone "IEA" (EDI837Parser.tokenize (EDI837Parser.cleanData
          "ISA*00*A~GS*HC~ST*837*0001~REF*EI*1~ISA*00*B~PER*IC*DESK~GS*HP~SE*9*0001~ST*835*0002~REF*EI*2~"))))
  /\ (exists tree this',
        EDI835Parser.parse 
       "ISA*00*A~GS*HC~ST*837*0001~REF*EI*1~ISA*00*B~PER*IC*DESK~GS*HP~SE*9*0001~ST*835*0002~REF*EI*2~"
       EDI835Parser.constructor = Normal tree this'
        /\ EDI835Parser.ParsedData.interchange tree
           = EDI835Parser.ParsedData.interchange (Nest835.last_alone "ISA" (EDI837Parser.tokenize (EDI837Parser.cleanData
          "ISA*00*A~GS*HC~ST*837*0001~REF*EI*1~ISA*00*B~PER*IC*DESK~GS*HP~SE*9*0001~ST*835*0002~REF*EI*2~")))
        /\ EDI835Parser.ParsedData.transactionSet tree
           = EDI835Parser.ParsedData.transactionSet (Nest835.last_alone "ST" (EDI837Parser.tokenize (EDI837Parser.cleanData
          "ISA*00*A~GS*HC~ST*837*0001~REF*EI*1~ISA*00*B~PER*IC*DESK~GS*HP~SE*9*0001~ST*835*0002~REF*EI*2~")))
        /\ EDI835Parser.ParsedData.transactionSetTrailer tree
           = EDI835Parser.ParsedData.transactionSetTrailer (Nest835.last_alone "SE" (EDI837Parser.tokenize (EDI837Parser.cleanData
          "ISA*00*A~GS*HC~ST*837*0001~REF*EI*1~ISA*00*B~PER*IC*DESK~GS*HP~SE*9*0001~ST*835*0002~REF*EI*2~")))
        /\ EDI835Parser.ParsedData.functionalGroupTrailer tree
           = EDI835Parser.ParsedData.functionalGroupTrailer (Nest835.last_alone "GE" (EDI837Parser.tokenize (EDI837Parser.cleanData
          "ISA*00*A~GS*HC~ST*837*0001~REF*EI*1~ISA*00*B~PER*IC*DESK~GS*HP~SE*9*0001~ST*835*0002~REF*EI*2~")))
        /\ EDI835Parser.ParsedData.interchangeTrailer tree
           = EDI835Parser.ParsedData.interchangeTrailer (Nest835.last_alone "IEA" (EDI837Parser.tokenize (EDI837Parser.cleanData
          "ISA*00*A~GS*HC~ST*837*0001~REF*EI*1~ISA*00*B~PER*IC*DESK~GS*HP~SE*9*0001~ST*835*0002~REF*EI*2~")))).
Proof.
  apply (header_fields_keep_the_last_segment
           "ISA*00*A~GS*HC~ST*837*0001~REF*EI*1~ISA*00*B~PER*IC*DESK~GS*HP~SE*9*0001~ST*835*0002~REF*EI*2~"
           EDI837Parser.constructor EDI835Parser.constructor).
  vm_compute. discriminate.
Defined.

(** On that input the interchange header is the one of the second ISA
    segment and the transaction set the one of the second ST segment. *)
Example header_fields_keep_the_last_segment_example :
  exists tree this' header,
    EDI837Parser.parse
      "ISA*00*A~GS*HC~ST*837*0001~REF*EI*1~ISA*00*B~PER*IC*DESK~GS*HP~SE*9*0001~ST*835*0002~REF*EI*2~"
      EDI837Parser.constructor
    = Normal tree this'
    /\ EDI837Parser.ParsedData.interchange tree = Some (Some header)
    /\ Interchange.authorizationInfo header = Some "B"
    /\ (TransactionSet.type
          <$> EDI837Parser.ParsedData.transactionSet tree)
       = Some (Some "835")
    /\ EDI837Parser.ParsedData.interchangeTrailer tree = None.
Proof. do 3 eexists. vm_compute. repeat split. Qed.

(** X18.  The lists of the tree that are only pushed to are put together
    segment by segment: in either tree the groups, the references, the
    contacts and the flat list of services (and in the 835 tree the
    provider adjustments) are the concatenation, in the order of the
    segments, of the lists of the trees that the segments yield when each
    is parsed alone. *)
Theorem flat_lists_are_put_together_segment_by_segment :
  forall (ediData : string)
         (this837 : EDI837Parser.Parser.t) (this835 : EDI835Parser.Parser.t),
    let segments := EDI837Parser.tokenize (EDI837Parser.cleanData ediData) in
    segments <> [] ->
  (exists tree this',
       EDI837Parser.parse ediData this837 = Normal tree this'
       /\ default [] (EDI837Parser.ParsedData.groups tree)
          = flat_map
              (fun segment =>
                 default [] (EDI837Parser.ParsedData.groups (Nest837.alone segment)))
              segments
       /\ default [] (EDI837Parser.ParsedData.references tree)
          = flat_map
              (fun segment =>
                 default [] (EDI837Parser.ParsedData.references (Nest837.alone segment)))
              segments
       /\ default [] (EDI837Parser.ParsedData.contacts tree)
          = flat_map
              (fun segment =>
                 default [] (EDI837Parser.ParsedData.contacts (Nest837.alone segment)))
              segments
       /\ default [] (EDI837Parser.ParsedData.services tree)
          = flat_map
              (fun segment =>
                 default [] (EDI837Parser.ParsedData.services (Nest837.alone segment)))
              segments)
    /\ (exists tree this',
          EDI835Parser.parse ediData this835 = Normal tree this'
          /\ default [] (EDI835Parser.ParsedData.groups tree)
             = flat_map
                 (fun segment =>
                    default [] (EDI835Parser.ParsedData.groups (Nest835.alone segment)))
                 segments
          /\ default [] (EDI835Parser.ParsedData.references tree)
             = flat_map
                 (fun segment =>
                    default [] (EDI835Parser.ParsedData.references (Nest835.alone segment)))
                 segments
          /\ default [] (EDI835Parser.ParsedData.contacts tree)
             = flat_map
                 (fun segment =>
                    default [] (EDI835Parser.ParsedData.contacts (Nest835.alone segment)))
                 segments
          /\ default [] (EDI835Parser.ParsedData.services tree)
             = flat_map
                 (fun segment =>
                    default [] (EDI835Parser.ParsedData.services (Nest835.alone segment)))
                 segments
          /\ default [] (EDI835Parser.ParsedData.adjustments tree)
             = flat_map
                 (fun segment =>
                    default [] (EDI835Parser.ParsedData.adjustments (Nest835.alone segment)))
                 segments).
Proof.
  intros ediData this837 this835 segments Hne.
  pose proof (tokens_clean ediData) as Hclean. fold segments in Hclean.
  split.
  - rewrite (Blocks837.parse_tokens_837 _ _ Hne). fold segments.
    do 2 eexists. split; [reflexivity|].
    repeat split;
      first [ apply Lists837.groups_concat_837
            | apply Lists837.references_concat_837
            | apply Lists837.contacts_concat_837
            | apply Lists837.services_concat_837 ];
      exact Hclean.
  - rewrite (Blocks835.parse_tokens_835 _ _ Hne).
    change (EDI835Parser.tokenize (EDI835Parser.cleanData ediData))
      with segments.
    do 2 eexists. split; [reflexivity|].
    repeat split;
      first [ apply Lists835.groups_concat_835
            | apply Lists835.references_concat_835
            | apply Lists835.contacts_concat_835
            | apply Lists835.services_concat_835
            | apply Lists835.adjustments_concat_835 ];
      exact Hclean.
Qed.

Lemma flat_lists_are_put_together_segment_by_segment_witness :
  (exists tree this',
     EDI837Parser.parse 
       "ISA*00*A~GS*HC~ST*837*0001~REF*EI*1~ISA*00*B~PER*IC*DESK~GS*HP~SE*9*0001~ST*835*0002~REF*EI*2~"
       EDI837Parser.constructor = Normal tree this'
     /\ default [] (EDI837Parser.ParsedData.groups tree)
        = flat_map
            (fun segment =>
               default [] (EDI837Parser.ParsedData.groups (Nest837.alone segment)))
            (EDI837Parser.tokenize (EDI837Parser.cleanData
          "ISA*00*A~GS*HC~ST*837*0001~REF*EI*1~ISA*00*B~PER*IC*DESK~GS*HP~SE*9*0001~ST*835*0002~REF*EI*2~"))
     /\ default [] (EDI837Parser.ParsedData.references tree)
        = flat_map
            (fun segment =>
               default [] (EDI837Parser.ParsedData.references (Nest837.alone segment)))
            (EDI837Parser.tokenize (EDI837Parser.cleanData
          "ISA*00*A~GS*HC~ST*837*0001~REF*EI*1~ISA*00*B~PER*IC*DESK~GS*HP~SE*9*0001~ST*835*0002~REF*EI*2~"))
     /\ default [] (EDI837Parser.ParsedData.contacts tree)
        = flat_map
            (fun segment =>
               default [] (EDI837Parser.ParsedData.contacts (Nest837.alone segment)))
            (EDI837Parser.tokenize (EDI837Parser.cleanData
          "ISA*00*A~GS*HC~ST*837*0001~REF*EI*1~ISA*00*B~PER*IC*DESK~GS*HP~SE*9*0001~ST*835*0002~REF*EI*2~"))
     /\ default [] (EDI837Parser.ParsedData.services tree)
        = flat_map
            (fun segment =>
               default [] (EDI837Parser.ParsedData.services (Nest837.alone segment)))
            (EDI837Parser.tokenize (EDI837Parser.cleanData
          "ISA*00*A~GS*HC~ST*837*0001~REF*EI*1~ISA*00*B~PER*IC*DESK~GS*HP~SE*9*0001~ST*835*0002~REF*EI*2~")))
  /\ (exists tree this',
        EDI835Parser.parse 
       "ISA*00*A~GS*HC~ST*837*0001~REF*EI*1~ISA*00*B~PER*IC*DESK~GS*HP~SE*9*0001~ST*835*0002~REF*EI*2~"
       EDI835Parser.constructor = Normal tree this'
        /\ default [] (EDI835Parser.ParsedData.groups tree)
           = flat_map
               (fun segment =>
                  default [] (EDI835Parser.ParsedData.groups (Nest835.alone segment)))
               (EDI837Parser.tokenize (EDI837Parser.cleanData
          "ISA*00*A~GS*HC~ST*837*0001~REF*EI*1~ISA*00*B~PER*IC*DESK~GS*HP~SE*9*0001~ST*835*0002~REF*EI*2~"))
        /\ default [] (EDI835Parser.ParsedData.references tree)
           = flat_map
               (fun segment =>
                  default [] (EDI835Parser.ParsedData.references (Nest835.alone segment)))
               (EDI837Parser.tokenize (EDI837Parser.cleanData
          "ISA*00*A~GS*HC~ST*837*0001~REF*EI*1~ISA*00*B~PER*IC*DESK~GS*HP~SE*9*0001~ST*835*0002~REF*EI*2~"))
        /\ default [] (EDI835Parser.ParsedData.contacts tree)
           = flat_map
               (fun segment =>
                  default [] (EDI835Parser.ParsedData.contacts (Nest835.alone segment)))
               (EDI837Parser.tokenize (EDI837Parser.cleanData
          "ISA*00*A~GS*HC~ST*837*0001~REF*EI*1~ISA*00*B~PER*IC*DESK~GS*HP~SE*9*0001~ST*835*0002~REF*EI*2~"))
        /\ default [] (EDI835Parser.ParsedData.services tree)
           = flat_map
               (fun segment =>
                  default [] (EDI835Parser.ParsedData.services (Nest835.alone segment)))
               (EDI837Parser.tokenize (EDI837Parser.cleanData
          "ISA*00*A~GS*HC~ST*837*0001~REF*EI*1~ISA*00*B~PER*IC*DESK~GS*HP~SE*9*0001~ST*835*0002~REF*EI*2~"))
        /\ default [] (EDI835Parser.ParsedData.adjustments tree)
           = flat_map
               (fun segment =>
                  default [] (EDI835Parser.ParsedData.adjustments (Nest835.alone segment)))
               (EDI837Parser.tokenize (EDI837Parser.cleanData
          "ISA*00*A~GS*HC~ST*837*0001~REF*EI*1~ISA*00*B~PER*IC*DESK~GS*HP~SE*9*0001~ST*835*0002~REF*EI*2~"))).
Proof.
  apply (flat_lists_are_put_together_segment_by_segment
           "ISA*00*A~GS*HC~ST*837*0001~REF*EI*1~ISA*00*B~PER*IC*DESK~GS*HP~SE*9*0001~ST*835*0002~REF*EI*2~"
           EDI837Parser.constructor EDI835Parser.constructor).
  vm_compute. discriminate.
Defined.

(** * Further facts: addresses *)

Lemma last_or_alter {A} (f : A -> A) (l : list A) :
  match last l with
  | Some _ => alter f (List.length l - 1) l
  | None => l
  end = map_last f l.
Proof.
  destruct (last l) eqn:E; [apply alter_last|].
  apply last_None in E. subst. reflexivity.
Qed.

Lemma grown_by_N4 rest : forall address,
  grown_by grown_address rest address
  = match last (List.filter (has_tag "N4") rest) with
    | Some segment => written_address (elements_of segment) address
    | None => address
    end.
Proof.
  unfold grown_by.
  induction rest as [|s rest IH]; intros address; [reflexivity|].
  cbn [fold_left List.filter]. rewrite IH. unfold grown_address.
  destruct (has_tag "N4" s); [|reflexivity].
  destruct (List.filter (has_tag "N4") rest) as [|x l]; [reflexivity|].
  change (last (s :: x :: l)) with (last (x :: l)).
  destruct (last (x :: l)) eqn:L; [|apply last_None in L; discriminate].
  destruct address. reflexivity.
Qed.

Lemma parent_of_block_address block :
  parent_of_block (fun segment => pushed_address (elements_of segment))
    grown_address block
  = address_of_block block.
Proof.
  destruct block as [|n3 rest]; [reflexivity|].
  cbn [parent_of_block address_of_block]. rewrite grown_by_N4.
  destruct (last (List.filter (has_tag "N4") rest)); reflexivity.
Qed.

Lemma flat_map_address blocks :
  flat_map (parent_of_block (fun segment => pushed_address (elements_of segment))
              grown_address) blocks
  = flat_map address_of_block blocks.
Proof.
  induction blocks as [|b l IH]; [reflexivity|].
  cbn [flat_map]. rewrite IH, parent_of_block_address. reflexivity.
Qed.

(** The case of N4: the last address, if there is one, is written to. *)
Ltac last_address :=
  cbn;
  repeat match goal with
         | |- context [match ?a with Some _ => _ | None => _ end] =>
             is_var a; destruct a; cbn
         end;
  try match goal with
      | |- context [last ?l] =>
          let L := fresh "L" in
          destruct (last l) eqn:L; cbn;
          [rewrite alter_last|apply last_None in L; subst]
      end;
  reflexivity.

Module Addresses837.
Import EDI837Parser Spec837 Nest837 Lemmas837.
Import Further837.

Lemma addresses_dispatch_837 sid elements fr :
  default []
    (ParsedData.addresses (tree_of (after_of (dispatch sid elements fr))))
  = if sid === "N3"
    then default [] (ParsedData.addresses (tree_of fr))
         ++ [pushed_address elements]
    else map_last (if sid === "N4" then written_address elements
                   else fun address => address)
           (default [] (ParsedData.addresses (tree_of fr))).
Proof.
  open_frame fr. unfold dispatch.
  destruct sid as [s|];
    [|cbn; symmetry; apply map_last_id; reflexivity]; unfold strict_eq.
  tag_cases s ltac:(idtac; cbn;
                    first [ solve [ branches; crunch;
                                    first [ reflexivity
                                          | symmetry; apply map_last_id;
                                            reflexivity ] ]
                          | last_address ]).
Qed.

Lemma addresses_step_837 fr segment :
  default [] (ParsedData.addresses (tree_of (step fr segment)))
  = if has_tag "N3" segment
    then default [] (ParsedData.addresses (tree_of fr))
         ++ [pushed_address (elements_of segment)]
    else map_last (grown_address segment)
           (default [] (ParsedData.addresses (tree_of fr))).
Proof.
  rewrite step_is_dispatch_837, addresses_dispatch_837.
  unfold has_tag, grown_address, has_tag.
  destruct (tag_of segment === "N3"); [reflexivity|].
  destruct (tag_of segment === "N4"); reflexivity.
Qed.

Lemma addresses_run_837 segments any :
  default [] (ParsedData.addresses (tree_of (run segments (start any))))
  = flat_map address_of_block (blocks_of "N3" segments).
Proof.
  rewrite <- flat_map_address.
  apply (view_blocks step (fun _ => True) "N3"
           (fun segment => pushed_address (elements_of segment))
           grown_address
           (fun fr => default [] (ParsedData.addresses (tree_of fr)))
           (fun _ _ _ => I)
           (fun fr segment _ => addresses_step_837 fr segment)
           segments (start any) I).
Qed.
End Addresses837.

Module Addresses835.
Import EDI835Parser Spec835 Nest835 Lemmas835.
Import Further835.

Lemma addresses_dispatch_835 sid elements fr :
  frame_ok fr ->
  default []
    (ParsedData.addresses (tree_of (after_of (dispatch sid elements fr))))
  = if sid === "N3"
    then default [] (ParsedData.addresses (tree_of fr))
         ++ [pushed_address elements]
    else map_last (if sid === "N4" then written_address elements
                   else fun address => address)
           (default [] (ParsedData.addresses (tree_of fr))).
Proof.
  intros Hok.
  pose proof (has_groups _ Hok) as [? Hg];
  pose proof (has_payments _ Hok) as [? Hp];
  pose proof (has_claims _ Hok) as [? Hcl];
  pose proof (has_services _ Hok) as [? Hs];
  pose proof (has_adjustments _ Hok) as [? Ha];
  pose proof (has_references _ Hok) as [? Hr];
  pose proof (has_contacts _ Hok) as [? Hc];
  pose proof (has_addresses _ Hok) as [? Had].
  open_frame fr. subst. unfold dispatch.
  destruct sid as [s|];
    [|cbn; symmetry; apply map_last_id; reflexivity]; unfold strict_eq.
  tag_cases s ltac:(idtac; cbn;
                    first [ solve [ branches; crunch;
                                    first [ reflexivity
                                          | symmetry; apply map_last_id;
                                            reflexivity ] ]
                          | last_address ]).
Qed.

Lemma addresses_step_835 fr segment :
  frame_ok fr ->
  default [] (ParsedData.addresses (tree_of (step fr segment)))
  = if has_tag "N3" segment
    then default [] (ParsedData.addresses (tree_of fr))
         ++ [pushed_address (elements_of segment)]
    else map_last (grown_address segment)
           (default [] (ParsedData.addresses (tree_of fr))).
Proof.
  intros Hok. rewrite step_is_dispatch_835, (addresses_dispatch_835 _ _ _ Hok).
  unfold has_tag, grown_address, has_tag.
  destruct (tag_of segment === "N3"); [reflexivity|].
  destruct (tag_of segment === "N4"); reflexivity.
Qed.

Lemma addresses_run_835 segments any :
  default [] (ParsedData.addresses (tree_of (run segments (start any))))
  = flat_map address_of_block (blocks_of "N3" segments).
Proof.
  rewrite <- flat_map_address.
  apply (view_blocks step frame_ok "N3"
           (fun segment => pushed_address (elements_of segment))
           grown_address
           (fun fr => default [] (ParsedData.addresses (tree_of fr)))
           frame_ok_step_835 addresses_step_835
           segments (start any) (frame_ok_start_835 any)).
Qed.
End Addresses835.

(** X19.  In either tree there is one address for each N3 segment, in the
    order of the segments: it has the two lines of its N3 segment and the
    city, state, postal code and country code of the last N4 segment that
    stands between its N3 segment and the next N3 segment, and none of
    these four keys when there is no such N4 segment.  An N4 segment that
    stands before the first N3 segment is ignored. *)
Theorem addresses_pair_N3_with_the_last_N4 :
  forall (ediData : string)
         (this837 : EDI837Parser.Parser.t) (this835 : EDI835Parser.Parser.t),
    let segments := EDI837Parser.tokenize (EDI837Parser.cleanData ediData) in
    segments <> [] ->
    (exists tree this',
       EDI837Parser.parse ediData this837 = Normal tree this'
       /\ default [] (EDI837Parser.ParsedData.addresses tree)
          = flat_map address_of_block (blocks_of "N3" segments))
    /\ (exists tree this',
          EDI835Parser.parse ediData this835 = Normal tree this'
          /\ default [] (EDI835Parser.ParsedData.addresses tree)
             = flat_map address_of_block (blocks_of "N3" segments)).
Proof.
  intros ediData this837 this835 segments Hne. split.
  - rewrite (Blocks837.parse_tokens_837 _ _ Hne). fold segments.
    do 2 eexists. split; [reflexivity|apply Addresses837.addresses_run_837].
  - rewrite (Blocks835.parse_tokens_835 _ _ Hne).
    change (EDI835Parser.tokenize (EDI835Parser.cleanData ediData))
      with segments.
    do 2 eexists. split; [reflexivity|apply Addresses835.addresses_run_835].
Qed.

(** An N4 segment before any N3, an address with two N4 segments, and an
    address with none. *)
Lemma addresses_pair_N3_with_the_last_N4_witness :
  (exists tree this',
     EDI837Parser.parse
       "N4*NOWHERE*ZZ*00000~N3*1 MAIN ST*SUITE 2~N4*OLDTOWN*CA*90000~REF*EI*1~N4*NEWTOWN*NY*10001*US~N3*PO BOX 9~"
       EDI837Parser.constructor
     = Normal tree this'
     /\ default [] (EDI837Parser.ParsedData.addresses tree)
        = flat_map address_of_block
            (blocks_of "N3"
               (EDI837Parser.tokenize
                  (EDI837Parser.cleanData
                     "N4*NOWHERE*ZZ*00000~N3*1 MAIN ST*SUITE 2~N4*OLDTOWN*CA*90000~REF*EI*1~N4*NEWTOWN*NY*10001*US~N3*PO BOX 9~"))))
  /\ (exists tree this',
        EDI835Parser.parse
          "N4*NOWHERE*ZZ*00000~N3*1 MAIN ST*SUITE 2~N4*OLDTOWN*CA*90000~REF*EI*1~N4*NEWTOWN*NY*10001*US~N3*PO BOX 9~"
          EDI835Parser.constructor
        = Normal tree this'
        /\ default [] (EDI835Parser.ParsedData.addresses tree)
           = flat_map address_of_block
               (blocks_of "N3"
                  (EDI837Parser.tokenize
                     (EDI837Parser.cleanData
                        "N4*NOWHERE*ZZ*00000~N3*1 MAIN ST*SUITE 2~N4*OLDTOWN*CA*90000~REF*EI*1~N4*NEWTOWN*NY*10001*US~N3*PO BOX 9~")))).
Proof.
  apply (addresses_pair_N3_with_the_last_N4
           "N4*NOWHERE*ZZ*00000~N3*1 MAIN ST*SUITE 2~N4*OLDTOWN*CA*90000~REF*EI*1~N4*NEWTOWN*NY*10001*US~N3*PO BOX 9~"
           EDI837Parser.constructor EDI835Parser.constructor).
  vm_compute. discriminate.
Defined.

(** The two addresses of that input. *)
Example addresses_pair_N3_with_the_last_N4_example :
  flat_map address_of_block
    (blocks_of "N3"
       (EDI837Parser.tokenize
          (EDI837Parser.cleanData
             "N4*NOWHERE*ZZ*00000~N3*1 MAIN ST*SUITE 2~N4*OLDTOWN*CA*90000~REF*EI*1~N4*NEWTOWN*NY*10001*US~N3*PO BOX 9~")))
  = [ {| Address.addressLine1 := Some "1 MAIN ST";
         Address.addressLine2 := Some "SUITE 2";
         Address.city := Some (Some "NEWTOWN");
         Address.state := Some (Some "NY");
         Address.postalCode := Some (Some "10001");
         Address.countryCode := Some (Some "US") |};
      {| Address.addressLine1 := Some "PO BOX 9";
         Address.addressLine2 := None;
         Address.city := None;
         Address.state := None;
         Address.postalCode := None;
         Address.countryCode := None |} ].
Proof. vm_compute. reflexivity. Qed.

(** * Further facts: segments that leave no trace *)

Module Traces837.
Import EDI837Parser Spec837 Nest837 Lemmas837.
Import Further837.


End Traces837.

Module Traces835.
Import EDI835Parser Spec835 Nest835 Lemmas835.
Import Further835.




End Traces835.





(** * Further facts: dependent segments without a parent *)

Section Orphans.
Context {Fr : Type}.
Variable step : Fr -> string -> Fr.
Variable orphaned : list string -> string -> bool.
Variable Inv : list string -> Fr -> Prop.

Hypothesis Inv_step : forall before fr segment,
  Inv before fr -> Inv (before ++ [segment]) (step fr segment).
Hypothesis orphan_step : forall before fr segment,
  Inv before fr -> orphaned before segment = true -> step fr segment = fr.

End Orphans.


Module Orphans837.
Import EDI837Parser Spec837 Nest837 Lemmas837.
Import Further837 Routing837.









End Orphans837.

Module Orphans835.
Import EDI835Parser Spec835 Nest835 Lemmas835.
Import Further835.







End Orphans835.





(** * Further facts: the instance after a call *)

Lemma segments_run_837 segments : forall fr,
  EDI837Parser.Parser.segments (EDI837Parser.Frame.this (Spec837.run segments fr))
  = EDI837Parser.Parser.segments (EDI837Parser.Frame.this fr).
Proof.
  induction segments as [|segment rest IH]; intros fr; [reflexivity|].
  change (Spec837.run (segment :: rest) fr)
    with (Spec837.run rest (Spec837.step fr segment)).
  rewrite IH. apply Lemmas837.segments_kept_837.
Qed.

Lemma segments_run_835 segments : forall fr,
  EDI835Parser.Parser.segments (EDI835Parser.Frame.this (Spec835.run segments fr))
  = EDI835Parser.Parser.segments (EDI835Parser.Frame.this fr).
Proof.
  induction segments as [|segment rest IH]; intros fr; [reflexivity|].
  change (Spec835.run (segment :: rest) fr)
    with (Spec835.run rest (Spec835.step fr segment)).
  rewrite IH. apply Lemmas835.segments_kept_835.
Qed.

(** X24.  What a call of [parse] leaves in the instance, for either
    parser: [this.segments] holds the segments of the input as tokenized,
    which the loop never changes; when the call returns, [this.parsedData]
    is the tree that is returned; when it throws, [this.parsedData] is what
    it was before the call, so the instance still holds the tree of the
    call before. *)
Theorem instance_after_parse :
  forall (ediData : string)
         (this837 : EDI837Parser.Parser.t) (this835 : EDI835Parser.Parser.t),
    (EDI837Parser.Parser.segments
       (after_of (EDI837Parser.parse ediData this837))
     = EDI837Parser.tokenize (EDI837Parser.cleanData ediData)
     /\ EDI837Parser.Parser.parsedData
          (after_of (EDI837Parser.parse ediData this837))
        = default (EDI837Parser.Parser.parsedData this837)
            (result_of (EDI837Parser.parse ediData this837)))
    /\ (EDI835Parser.Parser.segments
          (after_of (EDI835Parser.parse ediData this835))
        = EDI835Parser.tokenize (EDI835Parser.cleanData ediData)
        /\ EDI835Parser.Parser.parsedData
             (after_of (EDI835Parser.parse ediData this835))
           = default (EDI835Parser.Parser.parsedData this835)
               (result_of (EDI835Parser.parse ediData this835))).
Proof.
  intros ediData this837 this835. split.
  - rewrite Lemmas837.parse_eq_837.
    destruct (EDI837Parser.tokenize (EDI837Parser.cleanData ediData))
      as [|s rest] eqn:E; [split; reflexivity|].
    cbn [after_of result_of default]. split; [|reflexivity].
    apply segments_run_837.
  - rewrite Lemmas835.parse_eq_835.
    destruct (EDI835Parser.tokenize (EDI835Parser.cleanData ediData))
      as [|s rest] eqn:E; [split; reflexivity|].
    cbn [after_of result_of default]. split; [|reflexivity].
    apply segments_run_835.
Qed.

(** After a call that throws, the tree of the call before is still there. *)
Example instance_after_parse_example :
  let before := after_of (EDI837Parser.parse "CLM*A*100~" EDI837Parser.constructor) in
  let after := after_of (EDI837Parser.parse "  ~ ~" before) in
  result_of (EDI837Parser.parse "  ~ ~" before) = None
  /\ EDI837Parser.Parser.segments after = []
  /\ EDI837Parser.Parser.parsedData after = EDI837Parser.Parser.parsedData before
  /\ (List.map EDI837Parser.Claim.claimId
        <$> EDI837Parser.ParsedData.claims (EDI837Parser.Parser.parsedData after))
     = Some [Some "A"].
Proof. vm_compute. repeat split. Qed.

(** * Further facts: the renderers *)

Section TextFacts.
Import Text.

Lemma length_append a b :
  String.length (a ++ b) = String.length a + String.length b.
Proof. induction a as [|c a IH]; cbn; [reflexivity|]. rewrite IH. reflexivity. Qed.

Lemma all_digits_append a b :
  all_digits (a ++ b) = all_digits a && all_digits b.
Proof.
  induction a as [|c a IH]; cbn; [reflexivity|].
  rewrite IH, andb_assoc. reflexivity.
Qed.

Lemma digits_length n s : digits n s = true -> String.length s = n.
Proof.
  unfold digits. intros H. apply andb_prop in H as [H _].
  apply Nat.eqb_eq, H.
Qed.

Lemma digits_append n m a b :
  digits n a = true -> digits m b = true -> digits (n + m) (a ++ b) = true.
Proof.
  unfold digits. intros Ha Hb.
  apply andb_prop in Ha as [Ha1 Ha2]. apply andb_prop in Hb as [Hb1 Hb2].
  apply Nat.eqb_eq in Ha1, Hb1.
  rewrite length_append, all_digits_append, Ha1, Hb1, Ha2, Hb2.
  rewrite Nat.eqb_refl. reflexivity.
Qed.

Lemma substring_prefix a b :
  String.substring 0 (String.length a) (a ++ b) = a.
Proof.
  induction a as [|c a IH]; cbn; [destruct b; reflexivity|].
  rewrite IH. reflexivity.
Qed.

Lemma substring_skip a b m :
  String.substring (String.length a) m (a ++ b) = String.substring 0 m b.
Proof. induction a as [|c a IH]; cbn; [reflexivity|exact IH]. Qed.

Lemma substring_all a : String.substring 0 (String.length a) a = a.
Proof. induction a as [|c a IH]; cbn; [reflexivity|]. rewrite IH. reflexivity. Qed.

(** The three parts of a string that is made of three parts. *)
Lemma substring_first a b c i :
  String.length a = i -> substring 0 i (a ++ b ++ c) = a.
Proof.
  intros <-. unfold substring. cbn [Nat.min]. rewrite Nat.max_0_l, Nat.sub_0_r.
  apply substring_prefix.
Qed.

Lemma substring_second a b c i j :
  String.length a = i -> String.length b = j - i -> i <= j ->
  substring i j (a ++ b ++ c) = b.
Proof.
  intros <- Hb Hij. unfold substring.
  rewrite Nat.min_l, Nat.max_r by exact Hij.
  rewrite substring_skip, <- Hb. apply substring_prefix.
Qed.

Lemma substring_third a b c i j :
  String.length a + String.length b = i -> String.length c = j - i ->
  i <= j ->
  substring i j (a ++ b ++ c) = c.
Proof.
  intros <- Hc Hij. unfold substring.
  rewrite Nat.min_l, Nat.max_r by exact Hij.
  replace (a ++ b ++ c)%string with ((a ++ b) ++ c)%string.
  - rewrite <- Hc, <- length_append, substring_skip. apply substring_all.
  - clear. induction a as [|x a IH]; cbn; [reflexivity|].
    rewrite IH. reflexivity.
Qed.
End TextFacts.

(** X25.  A value of eight digits under a key whose name contains the word
    date, in whatever case, is shown by either renderer as month, day and
    year separated by slashes, the value being read as year, month and day;
    nothing checks that the digits make a date. *)
Theorem dates_are_shown_month_day_year :
  forall (Obj Num : Type) (JSON_stringify : Obj -> string)
         (parseFloat : string -> option Num) (toFixed_2 : Num -> string)
         (key year month day : string),
    Text.includes "date" (Text.toLowerCase key) = true ->
    Text.digits 4 year = true ->
    Text.digits 2 month = true ->
    Text.digits 2 day = true ->
    EDIRenderer.formatFieldValue JSON_stringify parseFloat toFixed_2 key
      (Text (year ++ month ++ day))
    = (month ++ "/" ++ day ++ "/" ++ year)%string
    /\ EDI835Renderer.formatFieldValue JSON_stringify parseFloat toFixed_2 key
         (Text (year ++ month ++ day))
       = EDI835Renderer.Shown_string (month ++ "/" ++ day ++ "/" ++ year).
Proof.
  intros Obj Num JSON_stringify parseFloat toFixed_2 key year month day
    Hkey Hy Hm Hd.
  pose proof (digits_append _ _ _ _ Hy (digits_append _ _ _ _ Hm Hd)) as H8.
  cbn [Nat.add] in H8.
  pose proof (digits_length _ _ Hy) as Ly.
  pose proof (digits_length _ _ Hm) as Lm.
  pose proof (digits_length _ _ Hd) as Ld.
  unfold EDIRenderer.formatFieldValue, EDI835Renderer.formatFieldValue.
  rewrite Hkey, H8. cbn [andb].
  rewrite (substring_first year month day 4 Ly).
  rewrite (substring_second year month day 4 6 Ly Lm) by lia.
  rewrite (substring_third year month day 6 8) by (rewrite ?Ly, ?Lm, ?Ld; lia).
  split; reflexivity.
Qed.

(** A birth date; the thirteenth month is shown as well. *)
Lemma dates_are_shown_month_day_year_witness :
  EDIRenderer.formatFieldValue (fun _ : unit => "") (fun _ => @None unit)
    (fun _ => "") "birthDate" (Text ("1980" ++ "13" ++ "01"))
  = ("13" ++ "/" ++ "01" ++ "/" ++ "1980")%string
  /\ EDI835Renderer.formatFieldValue (fun _ : unit => "") (fun _ => @None unit)
       (fun _ => "") "birthDate" (Text ("1980" ++ "13" ++ "01"))
     = EDI835Renderer.Shown_string ("13" ++ "/" ++ "01" ++ "/" ++ "1980").
Proof.
  apply (dates_are_shown_month_day_year unit unit (fun _ => "")
           (fun _ => None) (fun _ => "") "birthDate" "1980" "13" "01");
    reflexivity.
Defined.

(** X26.  A value of six digits under a key whose name contains the word
    date and not the word amount is shown by the 835 renderer as month, day
    and year, the first two digits being read as a year of the century
    that starts in 2000; the 837 renderer shows the six digits as they
    are. *)
Theorem six_digit_dates_are_read_in_this_century :
  forall (Obj Num : Type) (JSON_stringify : Obj -> string)
         (parseFloat : string -> option Num) (toFixed_2 : Num -> string)
         (key year month day : string),
    Text.includes "date" (Text.toLowerCase key) = true ->
    Text.includes "amount" (Text.toLowerCase key) = false ->
    Text.digits 2 year = true ->
    Text.digits 2 month = true ->
    Text.digits 2 day = true ->
    EDI835Renderer.formatFieldValue JSON_stringify parseFloat toFixed_2 key
      (Text (year ++ month ++ day))
    = EDI835Renderer.Shown_string (month ++ "/" ++ day ++ "/" ++ "20" ++ year)
    /\ EDIRenderer.formatFieldValue JSON_stringify parseFloat toFixed_2 key
         (Text (year ++ month ++ day))
       = (year ++ month ++ day)%string.
Proof.
  intros Obj Num JSON_stringify parseFloat toFixed_2 key year month day
    Hkey Hamount Hy Hm Hd.
  pose proof (digits_append _ _ _ _ Hy (digits_append _ _ _ _ Hm Hd)) as H6.
  cbn [Nat.add] in H6.
  pose proof (digits_length _ _ Hy) as Ly.
  pose proof (digits_length _ _ Hm) as Lm.
  pose proof (digits_length _ _ Hd) as Ld.
  assert (H8 : Text.digits 8 (year ++ month ++ day) = false).
  { unfold Text.digits. rewrite !length_append, Ly, Lm, Ld. reflexivity. }
  assert (H4 : Text.digits 4 (year ++ month ++ day) = false).
  { unfold Text.digits. rewrite !length_append, Ly, Lm, Ld. reflexivity. }
  unfold EDIRenderer.formatFieldValue, EDI835Renderer.formatFieldValue.
  rewrite Hkey, Hamount, H8, H6, H4. cbn [andb]. rewrite andb_false_r.
  rewrite (substring_first year month day 2 Ly).
  rewrite (substring_second year month day 2 4 Ly Lm) by lia.
  rewrite (substring_third year month day 4 6) by (rewrite ?Ly, ?Lm, ?Ld; lia).
  split; reflexivity.
Qed.

(** The date of an interchange header of 1999. *)
Lemma six_digit_dates_are_read_in_this_century_witness :
  EDI835Renderer.formatFieldValue (fun _ : unit => "") (fun _ => @None unit)
    (fun _ => "") "date" (Text ("99" ++ "12" ++ "31"))
  = EDI835Renderer.Shown_string ("12" ++ "/" ++ "31" ++ "/" ++ "20" ++ "99")
  /\ EDIRenderer.formatFieldValue (fun _ : unit => "") (fun _ => @None unit)
       (fun _ => "") "date" (Text ("99" ++ "12" ++ "31"))
     = ("99" ++ "12" ++ "31")%string.
Proof.
  apply (six_digit_dates_are_read_in_this_century unit unit (fun _ => "")
           (fun _ => None) (fun _ => "") "date" "99" "12" "31");
    reflexivity.
Defined.

Lemma not_all_digits n s :
  Text.all_digits s = false -> Text.digits n s = false.
Proof. unfold Text.digits. intros ->. apply andb_false_r. Qed.

(** X27.  A string value that holds a character other than a digit is
    shown as it is, whatever it holds, markup included, under every key
    whose name contains neither the word amount nor, for the 835 renderer,
    the word payment, and that is not claimStatusCode: neither renderer
    escapes or changes it. *)
Theorem values_are_shown_unescaped :
  forall (Obj Num : Type) (JSON_stringify : Obj -> string)
         (parseFloat : string -> option Num) (toFixed_2 : Num -> string)
         (key value : string),
    Text.all_digits value = false ->
    Text.includes "amount" (Text.toLowerCase key) = false ->
    Text.includes "payment" (Text.toLowerCase key) = false ->
    key <> "claimStatusCode" ->
    EDIRenderer.formatFieldValue JSON_stringify parseFloat toFixed_2 key
      (Text value)
    = value
    /\ EDI835Renderer.formatFieldValue JSON_stringify parseFloat toFixed_2 key
         (Text value)
       = EDI835Renderer.Shown_string value.
Proof.
  intros Obj Num JSON_stringify parseFloat toFixed_2 key value
    Hvalue Hamount Hpayment Hkey.
  unfold EDIRenderer.formatFieldValue, EDI835Renderer.formatFieldValue.
  rewrite !(not_all_digits _ _ Hvalue), Hamount, Hpayment, !andb_false_r.
  cbn [orb]. apply String.eqb_neq in Hkey. rewrite Hkey.
  split; reflexivity.
Qed.

(** A last name that is markup. *)
Lemma values_are_shown_unescaped_witness :
  EDIRenderer.formatFieldValue (fun _ : unit => "") (fun _ => @None unit)
    (fun _ => "") "lastName" (Text "<img src=x onerror=alert(1)>")
  = "<img src=x onerror=alert(1)>"
  /\ EDI835Renderer.formatFieldValue (fun _ : unit => "") (fun _ => @None unit)
       (fun _ => "") "lastName" (Text "<img src=x onerror=alert(1)>")
     = EDI835Renderer.Shown_string "<img src=x onerror=alert(1)>".
Proof.
  apply (values_are_shown_unescaped unit unit (fun _ => "")
           (fun _ => None) (fun _ => "") "lastName"
           "<img src=x onerror=alert(1)>");
    first [reflexivity | discriminate].
Defined.

Lemma substring_head a b i :
  String.length a = i -> Text.substring 0 i (a ++ b) = a.
Proof.
  intros <-. unfold Text.substring. cbn [Nat.min].
  rewrite Nat.max_0_l, Nat.sub_0_r. apply substring_prefix.
Qed.

Lemma substring_tail a b i j :
  String.length a = i -> String.length b = j - i -> i <= j ->
  Text.substring i j (a ++ b) = b.
Proof.
  intros <- Hb Hij. unfold Text.substring.
  rewrite Nat.min_l, Nat.max_r by exact Hij.
  rewrite substring_skip, <- Hb. apply substring_all.
Qed.

(** X28.  A value of four digits under a key whose name contains the word
    time, in whatever case, is shown by either renderer as hours and
    minutes separated by a colon, whether or not the name of the key also
    contains the word date; nothing checks that the digits make a time. *)
Theorem times_are_shown_hours_minutes :
  forall (Obj Num : Type) (JSON_stringify : Obj -> string)
         (parseFloat : string -> option Num) (toFixed_2 : Num -> string)
         (key hour minute : string),
    Text.includes "time" (Text.toLowerCase key) = true ->
    Text.digits 2 hour = true ->
    Text.digits 2 minute = true ->
    EDIRenderer.formatFieldValue JSON_stringify parseFloat toFixed_2 key
      (Text (hour ++ minute))
    = (hour ++ ":" ++ minute)%string
    /\ EDI835Renderer.formatFieldValue JSON_stringify parseFloat toFixed_2 key
         (Text (hour ++ minute))
       = EDI835Renderer.Shown_string (hour ++ ":" ++ minute).
Proof.
  intros Obj Num JSON_stringify parseFloat toFixed_2 key hour minute
    Hkey Hh Hm.
  pose proof (digits_append _ _ _ _ Hh Hm) as H4. cbn [Nat.add] in H4.
  pose proof (digits_length _ _ Hh) as Lh.
  pose proof (digits_length _ _ Hm) as Lm.
  assert (H8 : Text.digits 8 (hour ++ minute) = false).
  { unfold Text.digits. rewrite !length_append, Lh, Lm. reflexivity. }
  assert (H6 : Text.digits 6 (hour ++ minute) = false).
  { unfold Text.digits. rewrite !length_append, Lh, Lm. reflexivity. }
  unfold EDIRenderer.formatFieldValue, EDI835Renderer.formatFieldValue.
  rewrite Hkey, H8, H6, H4, !andb_false_r. cbn [andb].
  rewrite (substring_head hour minute 2 Lh).
  rewrite (substring_tail hour minute 2 4 Lh Lm) by lia.
  split; reflexivity.
Qed.

(** The time of an interchange header; the key of a date and time
    qualifier. *)
Lemma times_are_shown_hours_minutes_witness :
  EDIRenderer.formatFieldValue (fun _ : unit => "") (fun _ => @None unit)
    (fun _ => "") "dateTimeQualifier" (Text ("25" ++ "61"))
  = ("25" ++ ":" ++ "61")%string
  /\ EDI835Renderer.formatFieldValue (fun _ : unit => "") (fun _ => @None unit)
       (fun _ => "") "dateTimeQualifier" (Text ("25" ++ "61"))
     = EDI835Renderer.Shown_string ("25" ++ ":" ++ "61").
Proof.
  apply (times_are_shown_hours_minutes unit unit (fun _ => "")
           (fun _ => None) (fun _ => "") "dateTimeQualifier" "25" "61");
    reflexivity.
Defined.

Section DisplayNames.
Import Str Text EDIRenderer.

Lemma alphanumeric_solid c : alphanumeric c = true -> is_space c = false.
Proof.
  destruct c as [b0 b1 b2 b3 b4 b5 b6 b7].
  destruct b0, b1, b2, b3, b4, b5, b6, b7; vm_compute; congruence.
Qed.

Lemma alphanumeric_not_space c :
  alphanumeric c = true -> Ascii.eqb c " " = false.
Proof.
  destruct c as [b0 b1 b2 b3 b4 b5 b6 b7].
  destruct b0, b1, b2, b3, b4, b5, b6, b7; vm_compute; congruence.
Qed.

Lemma small_letter_facts c :
  small_letter c = true ->
  is_capital c = false
  /\ (Ascii.eqb c LF || Ascii.eqb c CR) = false
  /\ upper c = Some (String (capital_of c) EmptyString)
  /\ is_space (capital_of c) = false
  /\ Ascii.eqb (capital_of c) " " = false
  /\ is_capital (capital_of c) = true.
Proof.
  destruct c as [b0 b1 b2 b3 b4 b5 b6 b7].
  destruct b0, b1, b2, b3, b4, b5, b6, b7; vm_compute;
    first [discriminate | repeat split].
Qed.

Lemma trimEnd_space_capitals rest :
  every alphanumeric rest = true ->
  trimEnd (space_capitals rest) = space_capitals rest.
Proof.
  induction rest as [|d r IH]; [reflexivity|].
  cbn [every space_capitals]. intros H. apply andb_prop in H as [Hd Hr].
  pose proof (alphanumeric_solid d Hd) as Sd.
  assert (E : trimEnd (String d (space_capitals r))
              = String d (space_capitals r)).
  { rewrite trimEnd_cons, Sd, (IH Hr). reflexivity. }
  destruct (is_capital d); [|exact E].
  rewrite trimEnd_cons. cbn [blank]. rewrite Sd, andb_false_r, E.
  reflexivity.
Qed.

Lemma without_spaces_space_capitals rest :
  every alphanumeric rest = true ->
  without_spaces (space_capitals rest) = rest.
Proof.
  induction rest as [|d r IH]; [reflexivity|].
  cbn [every space_capitals]. intros H. apply andb_prop in H as [Hd Hr].
  pose proof (alphanumeric_not_space d Hd) as Sd.
  destruct (is_capital d); cbn [without_spaces];
    rewrite ?Ascii.eqb_refl, Sd, (IH Hr); reflexivity.
Qed.
End DisplayNames.

(** X29.  The display name of a key loses nothing of the key: for a key
    made of letters of ASCII and digits that starts with a small letter,
    either renderer returns a name that has no space at either end and
    that, once its spaces are removed, is the key with its first letter
    made a capital.  The spaces stand before the capitals of the key. *)
Theorem display_names_keep_the_key :
  forall (c : ascii) (rest : string),
    small_letter c = true ->
    every alphanumeric rest = true ->
    exists name,
      EDIRenderer.formatFieldName (String c rest) = Some name
      /\ EDI835Renderer.formatFieldName (String c rest) = Some name
      /\ name = String (capital_of c) (EDIRenderer.space_capitals rest)
      /\ Str.trim name = name
      /\ without_spaces name = String (capital_of c) rest.
Proof.
  intros c rest Hc Hrest.
  destruct (small_letter_facts c Hc) as (Hcap & Hline & Hup & Hsp & Hbl & _).
  assert (Htrim : Str.trim (String (capital_of c) (EDIRenderer.space_capitals rest))
                  = String (capital_of c) (EDIRenderer.space_capitals rest)).
  { unfold Str.trim. cbn [Str.trimStart]. rewrite Hsp.
    rewrite trimEnd_cons, Hsp, (trimEnd_space_capitals _ Hrest). reflexivity. }
  exists (String (capital_of c) (EDIRenderer.space_capitals rest)).
  assert (E : EDIRenderer.formatFieldName (String c rest)
              = Some (String (capital_of c) (EDIRenderer.space_capitals rest))).
  { unfold EDIRenderer.formatFieldName, EDIRenderer.capitalize.
    cbn [EDIRenderer.space_capitals]. rewrite Hcap, Hline, Hup.
    cbn [fmap option_fmap option_map String.append]. rewrite Htrim.
    reflexivity. }
  split; [exact E|]. split; [exact E|]. split; [reflexivity|].
  split; [exact Htrim|].
  cbn [without_spaces]. rewrite Hbl, (without_spaces_space_capitals _ Hrest).
  reflexivity.
Qed.

(** A key of the tree of payments, with an acronym in it. *)
Lemma display_names_keep_the_key_witness :
  exists name,
    EDIRenderer.formatFieldName "senderDFIIdQualifier" = Some name
    /\ EDI835Renderer.formatFieldName "senderDFIIdQualifier" = Some name
    /\ name = String (capital_of "s")
                (EDIRenderer.space_capitals "enderDFIIdQualifier")
    /\ Str.trim name = name
    /\ without_spaces name = String (capital_of "s") "enderDFIIdQualifier".
Proof.
  apply (display_names_keep_the_key "s" "enderDFIIdQualifier"); reflexivity.
Defined.

Example display_names_keep_the_key_example :
  EDIRenderer.formatFieldName "senderDFIIdQualifier"
  = Some "Sender D F I Id Qualifier".
Proof. reflexivity. Qed.

Lemma Forall2_same_length {A B} (R : A -> B -> Prop) l l' :
  Forall2 R l l' -> List.length l' = List.length l.
Proof. induction 1; cbn; congruence. Qed.

Lemma built_from_length {B} tag (build : list string -> B) segments :
  List.length (built_from tag build segments)
  = List.length (List.filter (has_tag tag) segments).
Proof. unfold built_from. apply List.length_map. Qed.

Lemma entities_named_length codes segments :
  List.length (Nest837.entities_named codes segments)
  = List.length (List.filter (Nest837.names codes) segments).
Proof. unfold Nest837.entities_named. apply List.length_map. Qed.

(** X30.  The summary cards count segments.  For the tree of an 837 input
    the card Claims shows the number of CLM segments, the card Services
    the number of SV1 segments, the card Providers the number of NM1
    segments whose entity-type code is the word provider, and the card
    Patients the number of NM1 segments that name a subscriber (code IL or
    the word subscriber): it counts the subscribers of the tree, not its
    patients.  For the tree of an 835 input the cards Payments, Claims,
    Services and Adjustments show the numbers of BPR, CLP, SVC and PLB
    segments. *)
Theorem summary_cards_count_the_segments :
  forall (ediData : string)
         (this837 : EDI837Parser.Parser.t) (this835 : EDI835Parser.Parser.t),
    let segments := EDI837Parser.tokenize (EDI837Parser.cleanData ediData) in
    let count := fun picked => List.length (List.filter picked segments) in
    segments <> [] ->
    (exists tree this',
       EDI837Parser.parse ediData this837 = Normal tree this'
       /\ List.map (fun card => (EDIRenderer.Card.title card,
                                 EDIRenderer.Card.count card))
            (EDIRenderer.cards tree)
          = [ ("Claims", count (has_tag "CLM"));
              ("Services", count (has_tag "SV1"));
              ("Providers", count (Nest837.names ["provider"]));
              ("Patients", count (Nest837.names ["IL"; "subscriber"])) ])
    /\ (exists tree this',
          EDI835Parser.parse ediData this835 = Normal tree this'
          /\ List.map (fun card => (EDIRenderer.Card.title card,
                                    EDIRenderer.Card.count card))
               (EDI835Renderer.cards tree)
             = [ ("Payments", count (has_tag "BPR"));
                 ("Claims", count (has_tag "CLP"));
                 ("Services", count (has_tag "SVC"));
                 ("Adjustments", count (has_tag "PLB")) ]).
Proof.
  intros ediData this837 this835 segments count Hne. subst count. split.
  - rewrite (Blocks837.parse_tokens_837 _ _ Hne). fold segments.
    destruct (Further837.claims_run_837 segments (Spec837.start segments) []
                eq_refl) as (lc & Hlc & Flc).
    pose proof (Further837.services_run_837 segments (Spec837.start segments)
                  [] eq_refl) as Hsv.
    destruct (Routing837.providers_run_837 segments (Spec837.start segments)
                [] eq_refl) as (lp & Hlp & Flp).
    destruct (Routing837.subscribers_run_837 segments (Spec837.start segments)
                [] eq_refl) as (ls & Hls & Fls).
    do 2 eexists. split; [reflexivity|].
    unfold EDIRenderer.cards. cbn [List.map EDIRenderer.Card.title
                                     EDIRenderer.Card.count].
    rewrite Hlc, Hsv, Hlp, Hls. cbn [EDIRenderer.length_or_0 app].
    rewrite (Forall2_same_length _ _ _ Flc), (Forall2_same_length _ _ _ Flp),
      (Forall2_same_length _ _ _ Fls).
    cbn [app]. rewrite !built_from_length, !entities_named_length.
    reflexivity.
  - rewrite (Blocks835.parse_tokens_835 _ _ Hne).
    change (EDI835Parser.tokenize (EDI835Parser.cleanData ediData))
      with segments.
    destruct (Further835.skeleton_run_835 segments (Spec835.start segments)
                [] [] eq_refl eq_refl) as (lc & lp & Hlc & Flc & Hlp & Flp).
    destruct (Further835.flat_run_835 segments (Spec835.start segments)
                [] [] eq_refl eq_refl) as [Hsv Hadj].
    do 2 eexists. split; [reflexivity|].
    unfold EDI835Renderer.cards. cbn [List.map EDIRenderer.Card.title
                                        EDIRenderer.Card.count].
    rewrite Hlc, Hlp, Hsv, Hadj. cbn [EDI835Renderer.length_or_0 app].
    rewrite (Forall2_same_length _ _ _ Flc), (Forall2_same_length _ _ _ Flp).
    cbn [app]. rewrite !built_from_length.
    reflexivity.
Qed.

(** A billing provider, a subscriber with one claim of two services, and a
    patient. *)
Lemma summary_cards_count_the_segments_witness :
  (exists tree this',
     EDI837Parser.parse
       "NM1*85*2*CLINIC~NM1*IL*1*SMITH*JOHN~NM1*QC*1*SMITH*ANN~CLM*A*100~SV1*HC:1*60~SV1*HC:2*40~"
       EDI837Parser.constructor
     = Normal tree this'
     /\ List.map (fun card => (EDIRenderer.Card.title card,
                               EDIRenderer.Card.count card))
          (EDIRenderer.cards tree)
        = [ ("Claims",
             List.length
               (List.filter (has_tag "CLM")
                  (EDI837Parser.tokenize
                     (EDI837Parser.cleanData
                        "NM1*85*2*CLINIC~NM1*IL*1*SMITH*JOHN~NM1*QC*1*SMITH*ANN~CLM*A*100~SV1*HC:1*60~SV1*HC:2*40~"))));
            ("Services",
             List.length
               (List.filter (has_tag "SV1")
                  (EDI837Parser.tokenize
                     (EDI837Parser.cleanData
                        "NM1*85*2*CLINIC~NM1*IL*1*SMITH*JOHN~NM1*QC*1*SMITH*ANN~CLM*A*100~SV1*HC:1*60~SV1*HC:2*40~"))));
            ("Providers",
             List.length
               (List.filter (Nest837.names ["provider"])
                  (EDI837Parser.tokenize
                     (EDI837Parser.cleanData
                        "NM1*85*2*CLINIC~NM1*IL*1*SMITH*JOHN~NM1*QC*1*SMITH*ANN~CLM*A*100~SV1*HC:1*60~SV1*HC:2*40~"))));
            ("Patients",
             List.length
               (List.filter (Nest837.names ["IL"; "subscriber"])
                  (EDI837Parser.tokenize
                     (EDI837Parser.cleanData
                        "NM1*85*2*CLINIC~NM1*IL*1*SMITH*JOHN~NM1*QC*1*SMITH*ANN~CLM*A*100~SV1*HC:1*60~SV1*HC:2*40~")))) ])
  /\ (exists tree this',
        EDI835Parser.parse
          "NM1*85*2*CLINIC~NM1*IL*1*SMITH*JOHN~NM1*QC*1*SMITH*ANN~CLM*A*100~SV1*HC:1*60~SV1*HC:2*40~"
          EDI835Parser.constructor
        = Normal tree this'
        /\ List.map (fun card => (EDIRenderer.Card.title card,
                                  EDIRenderer.Card.count card))
             (EDI835Renderer.cards tree)
           = [ ("Payments",
                List.length
                  (List.filter (has_tag "BPR")
                     (EDI837Parser.tokenize
                        (EDI837Parser.cleanData
                           "NM1*85*2*CLINIC~NM1*IL*1*SMITH*JOHN~NM1*QC*1*SMITH*ANN~CLM*A*100~SV1*HC:1*60~SV1*HC:2*40~"))));
               ("Claims",
                List.length
                  (List.filter (has_tag "CLP")
                     (EDI837Parser.tokenize
                        (EDI837Parser.cleanData
                           "NM1*85*2*CLINIC~NM1*IL*1*SMITH*JOHN~NM1*QC*1*SMITH*ANN~CLM*A*100~SV1*HC:1*60~SV1*HC:2*40~"))));
               ("Services",
                List.length
                  (List.filter (has_tag "SVC")
                     (EDI837Parser.tokenize
                        (EDI837Parser.cleanData
                           "NM1*85*2*CLINIC~NM1*IL*1*SMITH*JOHN~NM1*QC*1*SMITH*ANN~CLM*A*100~SV1*HC:1*60~SV1*HC:2*40~"))));
               ("Adjustments",
                List.length
                  (List.filter (has_tag "PLB")
                     (EDI837Parser.tokenize
                        (EDI837Parser.cleanData
                           "NM1*85*2*CLINIC~NM1*IL*1*SMITH*JOHN~NM1*QC*1*SMITH*ANN~CLM*A*100~SV1*HC:1*60~SV1*HC:2*40~")))) ]).
Proof.
  apply (summary_cards_count_the_segments
           "NM1*85*2*CLINIC~NM1*IL*1*SMITH*JOHN~NM1*QC*1*SMITH*ANN~CLM*A*100~SV1*HC:1*60~SV1*HC:2*40~"
           EDI837Parser.constructor EDI835Parser.constructor).
  vm_compute. discriminate.
Defined.

(** The cards of that input: no provider, and one patient, who is the
    subscriber. *)
Example summary_cards_count_the_segments_example :
  exists tree this',
    EDI837Parser.parse
      "NM1*85*2*CLINIC~NM1*IL*1*SMITH*JOHN~NM1*QC*1*SMITH*ANN~CLM*A*100~SV1*HC:1*60~SV1*HC:2*40~"
      EDI837Parser.constructor
    = Normal tree this'
    /\ List.map (fun card => (EDIRenderer.Card.title card,
                              EDIRenderer.Card.count card))
         (EDIRenderer.cards tree)
       = [("Claims", 1); ("Services", 2); ("Providers", 0); ("Patients", 1)].
Proof. do 2 eexists. vm_compute. split; reflexivity. Qed.
(** * The claims on failures and on lists: the decoders against the
    reference reading *)

Lemma reading_lookup elements k : reading elements k = elements !! k.
Proof.
  unfold reading. destruct (Nat.ltb_spec k (List.length elements)) as [H|H].
  - destruct (lookup_lt_is_Some_2 elements k H) as [x Hx].
    rewrite Hx, nth_lookup, Hx. reflexivity.
  - symmetry. apply lookup_ge_None_2. exact H.
Qed.

Lemma extended_nil {A} (o : option (list A)) : extended [] o = o.
Proof. reflexivity. Qed.

Lemma extended_appended {A} (e : A) l o :
  extended l (appended e o) = extended (e :: l) o.
Proof.
  unfold appended. destruct l as [|x l]; cbn; [reflexivity|].
  rewrite <- app_assoc. reflexivity.
Qed.

Lemma extended_absent {A} (l : list A) : extended l None = lazily l.
Proof. destruct l; reflexivity. Qed.

Lemma extended_empty {A} (l : list A) : extended l (Some []) = Some l.
Proof. destruct l; reflexivity. Qed.

(** A list that segments append to holds the records of those segments. *)
Section Appending.
Context {Fr A : Type}.
Variable step : Fr -> string -> Fr.
Variable view : Fr -> option (list A).
Variable picked : string -> bool.
Variable record : string -> A.

Hypothesis view_step : forall fr segment,
  view (step fr segment)
  = if picked segment then appended (record segment) (view fr) else view fr.

Lemma view_appended segments : forall fr,
  view (fold_left step segments fr)
  = extended (List.map record (List.filter picked segments)) (view fr).
Proof.
  induction segments as [|segment rest IH]; intros fr; [reflexivity|].
  cbn [fold_left List.filter]. rewrite IH, view_step.
  destruct (picked segment); [|reflexivity].
  cbn [List.map]. apply extended_appended.
Qed.
End Appending.

(** The lists nested in parents are created by the first entry that joins
    them. *)
Section LazyNesting.
Context {Fr B : Type}.
Variable step : Fr -> string -> Fr.
Variable Inv : Fr -> Prop.
Variable role : string -> Role B.
Variable view : Fr -> list (option (list B)).

Hypothesis Inv_step : forall fr segment, Inv fr -> Inv (step fr segment).
Hypothesis view_step : forall fr segment,
  Inv fr ->
  view (step fr segment)
  = match role segment with
    | Opens => view fr ++ [None]
    | Joins entry => map_last (appended entry) (view fr)
    | Neither => view fr
    end.

Lemma view_nested segments : forall fr,
  Inv fr ->
  view (fold_left step segments fr)
  = map_last (extended (joined_before_next role segments)) (view fr)
    ++ List.map lazily (nested_by_parent role segments).
Proof.
  induction segments as [|segment rest IH]; intros fr H; cbn.
  - rewrite app_nil_r, map_last_id; reflexivity.
  - rewrite (IH _ (Inv_step _ segment H)), (view_step _ segment H).
    destruct (role segment) as [|entry|].
    + rewrite map_last_snoc, <- app_assoc. cbn.
      rewrite map_last_id by reflexivity. rewrite extended_absent.
      reflexivity.
    + rewrite map_last_map_last. f_equal. apply map_last_ext.
      intros o. apply extended_appended.
    + reflexivity.
Qed.
End LazyNesting.

Lemma reading_beyond elements k :
  reading elements (List.length elements + k) = None.
Proof.
  unfold reading.
  destruct (Nat.ltb_spec (List.length elements + k) (List.length elements));
    [lia|reflexivity].
Qed.

Lemma reading_within before element after :
  reading (before ++ element :: after) (List.length before) = Some element.
Proof. rewrite reading_lookup. apply list_lookup_middle. reflexivity. Qed.

Lemma lazily_absent {A} (l : list A) : lazily l = None <-> l = [].
Proof. destruct l; split; intros H; try reflexivity; discriminate. Qed.

Lemma read_from_none {B} tag (record : (nat -> value) -> B) segments :
  read_from tag record segments = []
  <-> existsb (has_tag tag) segments = false.
Proof.
  unfold read_from. induction segments as [|segment rest IH]; cbn.
  - split; reflexivity.
  - destruct (has_tag tag segment); cbn; [split; discriminate|exact IH].
Qed.

Lemma addresses_none segments :
  flat_map address_of_block (blocks_of "N3" segments) = []
  <-> existsb (has_tag "N3") segments = false.
Proof.
  induction segments as [|segment rest IH]; cbn.
  - split; reflexivity.
  - destruct (has_tag "N3" segment); cbn; [split; discriminate|exact IH].
Qed.

Module Reading837.
Import EDI837Parser Spec837 Expected837 Nest837 Lemmas837 Further837.

Lemma role_resolves code : getEntityType code = role code.
Proof.
  destruct code as [c|]; [|reflexivity].
  unfold getEntityType, role, inherited. cbn [own_property entityTypes].
  rewrite !(String.eqb_sym _ c).
  tag_cases c ltac:(idtac; reflexivity).
Qed.

Lemma part_composite element k : part element k = composite_part element k.
Proof. destruct element; [apply reading_lookup|reflexivity]. Qed.

(** On a frame whose tree has the lists of the fresh tree, no handler
    throws, and the switch has the effect of the reference reading. *)
Lemma dispatch_effect_837 fr segment :
  frame_ok fr ->
  dispatch (tag_of segment) (elements_of segment) fr
  = Normal tt (effect fr segment).
Proof.
  intros [Hg Hc Hp Hs Hpa Hsv _ _ _ _].
  unfold effect, tag_of. generalize (elements_of segment). intros elements.
  unfold Expected.interchange, Expected.group, Expected.transactionSet,
    Expected.reference, Expected.contact, Expected.address,
    Expected.located, Expected.transactionSetTrailer,
    Expected.functionalGroupTrailer, Expected.interchangeTrailer,
    beginningTransaction, demographics, claim, dateInfo, service,
    subscriberInfo, entity, qualified, healthInfo, on_claim,
    on_entity, put, next.
  cbn zeta. rewrite <- !role_resolves.
  repeat match goal with
         | |- context [is_role ?n ?t] => change (is_role n t) with (type_is t n)
         end.
  rewrite !reading_lookup, !part_composite.
  open_frame fr.
  destruct Hg as [lg ->], Hc as [lc ->], Hp as [lp ->], Hs as [ls ->],
    Hpa as [lpa ->], Hsv as [lsv ->].
  unfold dispatch, parseNM1.
  destruct (elements !! 0) as [s|]; [|reflexivity]; unfold strict_eq.
  tag_cases s ltac:(idtac; cbn; branches;
                    first
                      [ solve [ unfold appended, push_lazy, written; crunch;
                                reflexivity ]
                      | unfold on_this, zoom, parseN4, set_tree, modify; cbn;
                        destruct addresses as [l|]; cbn; [|reflexivity];
                        destruct (last l) eqn:E;
                        [ rewrite alter_last; reflexivity
                        | apply last_None in E; subst; reflexivity ] ]).
Qed.

Lemma step_effect_837 fr segment :
  frame_ok fr -> step fr segment = effect fr segment.
Proof.
  intros H. rewrite step_is_dispatch_837, (dispatch_effect_837 _ _ H).
  reflexivity.
Qed.

Lemma run_reads_837 segments : forall fr,
  frame_ok fr -> run segments fr = reads segments fr.
Proof.
  induction segments as [|segment rest IH]; intros fr H; [reflexivity|].
  change (run (segment :: rest) fr) with (run rest (step fr segment)).
  change (reads (segment :: rest) fr) with (reads rest (effect fr segment)).
  rewrite <- (step_effect_837 _ _ H). apply IH, frame_ok_step_837, H.
Qed.

Lemma parse_reads_837 ediData this segments :
  tokenize (cleanData ediData) = segments ->
  segments <> [] ->
  parse ediData this
  = Normal (tree_of (reads segments (start segments)))
      (Frame.this (reads segments (start segments))).
Proof.
  intros E Hne.
  rewrite <- (run_reads_837 segments _ (frame_ok_start_837 segments)).
  rewrite parse_eq_837, E.
  destruct segments as [|segment rest]; [congruence|reflexivity].
Qed.

Lemma settled_start_837 segments : settled (start segments).
Proof. split; [apply frame_ok_start_837|apply locals_settled_start_837]. Qed.

Lemma settled_effect_837 fr segment : settled fr -> settled (effect fr segment).
Proof.
  intros [Hok Hl]. rewrite <- (step_effect_837 _ _ Hok).
  split; [apply frame_ok_step_837, Hok|].
  rewrite step_is_dispatch_837. apply locals_settled_dispatch_837, Hl.
Qed.

Lemma settled_reads_837 segments : forall fr,
  settled fr -> settled (reads segments fr).
Proof.
  induction segments as [|segment rest IH]; intros fr H; [exact H|].
  apply IH, settled_effect_837, H.
Qed.

(** Splits on the tag that the effect dispatches on. *)
Ltac reads_crunch :=
  repeat (progress (cbn; unfold on_claim, on_entity, put, written, next,
                      tree_of; scrutinees)).

Ltac by_tag tac :=
  unfold effect, nests, has_tag, tag_of;
  rewrite (reading_lookup _ 0);
  match goal with
  | |- context [elements_of ?segment !! 0] =>
      destruct (elements_of segment !! 0) as [?s|];
      [unfold strict_eq|solve [tac]]
  end;
  match goal with s : string |- _ => tag_cases s tac end.

(** *** Lists of the tree *)

Ltac same_list :=
  first [ reflexivity
        | rewrite List.map_app; reflexivity
        | f_equal; apply map_alter_same; intros; reflexivity
        | apply map_alter_same; intros; reflexivity
        | apply map_alter_last; intros; reflexivity ].

Ltac options :=
  repeat match goal with
         | |- context [default [] ?o] => is_var o; destruct o; cbn
         | |- context [fmap _ ?o] => is_var o; destruct o; cbn
         end.

Ltac flat := idtac; cbn; branches; reads_crunch; unfold appended; options;
             same_list.

Lemma groups_effect_837 fr segment :
  ParsedData.groups (tree_of (effect fr segment))
  = if has_tag "GS" segment
    then appended (Expected.group (reading (elements_of segment)))
           (ParsedData.groups (tree_of fr))
    else ParsedData.groups (tree_of fr).
Proof. open_frame fr. by_tag flat. Qed.

Lemma services_effect_837 fr segment :
  ParsedData.services (tree_of (effect fr segment))
  = if has_tag "SV1" segment
    then appended (service (reading (elements_of segment)))
           (ParsedData.services (tree_of fr))
    else ParsedData.services (tree_of fr).
Proof. open_frame fr. by_tag flat. Qed.

Lemma references_effect_837 fr segment :
  ParsedData.references (tree_of (effect fr segment))
  = if has_tag "REF" segment
    then appended (Expected.reference (reading (elements_of segment)))
           (ParsedData.references (tree_of fr))
    else ParsedData.references (tree_of fr).
Proof. open_frame fr. by_tag flat. Qed.

Lemma contacts_effect_837 fr segment :
  ParsedData.contacts (tree_of (effect fr segment))
  = if has_tag "PER" segment
    then appended (Expected.contact (reading (elements_of segment)))
           (ParsedData.contacts (tree_of fr))
    else ParsedData.contacts (tree_of fr).
Proof. open_frame fr. by_tag flat. Qed.

Lemma bare_claims_effect_837 fr segment :
  List.map bare_claim <$> ParsedData.claims (tree_of (effect fr segment))
  = if has_tag "CLM" segment
    then appended (claim (reading (elements_of segment)))
           (List.map bare_claim <$> ParsedData.claims (tree_of fr))
    else List.map bare_claim <$> ParsedData.claims (tree_of fr).
Proof. open_frame fr. by_tag flat. Qed.

(** The case of NM1: the role decides the list. *)
Ltac routed :=
  idtac; cbn;
  try match goal with
      | |- context [is_role _ ?t] =>
          destruct t as [|?r|?k]; cbn;
          [|match goal with r : string |- _ => tag_cases r flat end|]
      end;
  flat.

Lemma subscribers_effect_837 fr segment :
  List.map bare_entity <$> ParsedData.subscribers (tree_of (effect fr segment))
  = if plays "subscriber" segment
    then appended (entity (reading (elements_of segment)))
           (List.map bare_entity <$> ParsedData.subscribers (tree_of fr))
    else List.map bare_entity <$> ParsedData.subscribers (tree_of fr).
Proof. open_frame fr. unfold plays. by_tag routed. Qed.

Lemma patients_effect_837 fr segment :
  List.map bare_entity <$> ParsedData.patients (tree_of (effect fr segment))
  = if plays "patient" segment
    then appended (entity (reading (elements_of segment)))
           (List.map bare_entity <$> ParsedData.patients (tree_of fr))
    else List.map bare_entity <$> ParsedData.patients (tree_of fr).
Proof. open_frame fr. unfold plays. by_tag routed. Qed.

Lemma providers_effect_837 fr segment :
  List.map bare_entity <$> ParsedData.providers (tree_of (effect fr segment))
  = if plays "provider" segment
    then appended (entity (reading (elements_of segment)))
           (List.map bare_entity <$> ParsedData.providers (tree_of fr))
    else List.map bare_entity <$> ParsedData.providers (tree_of fr).
Proof. open_frame fr. unfold plays. by_tag routed. Qed.

(** *** Lists nested in the claims *)

Ltac nested := idtac; cbn; branches; reads_crunch; use_latest; same_list.

Lemma nested_services_effect_837 fr segment :
  settled fr ->
  List.map Claim.services
    (default [] (ParsedData.claims (tree_of (effect fr segment))))
  = match nests "CLM" "SV1" service segment with
    | Opens =>
        List.map Claim.services (default [] (ParsedData.claims (tree_of fr)))
        ++ [None]
    | Joins entry =>
        map_last (appended entry)
          (List.map Claim.services
             (default [] (ParsedData.claims (tree_of fr))))
    | Neither =>
        List.map Claim.services (default [] (ParsedData.claims (tree_of fr)))
    end.
Proof.
  intros [_ (Hc & _)]. open_frame fr. pose proof Hc as (lc & -> & _).
  by_tag nested.
Qed.

Lemma nested_dates_effect_837 fr segment :
  settled fr ->
  List.map Claim.dates
    (default [] (ParsedData.claims (tree_of (effect fr segment))))
  = match nests "CLM" "DTP" dateInfo segment with
    | Opens =>
        List.map Claim.dates (default [] (ParsedData.claims (tree_of fr)))
        ++ [None]
    | Joins entry =>
        map_last (appended entry)
          (List.map Claim.dates
             (default [] (ParsedData.claims (tree_of fr))))
    | Neither =>
        List.map Claim.dates (default [] (ParsedData.claims (tree_of fr)))
    end.
Proof.
  intros [_ (Hc & _)]. open_frame fr. pose proof Hc as (lc & -> & _).
  by_tag nested.
Qed.

Lemma nested_healthInfo_effect_837 fr segment :
  settled fr ->
  List.map Claim.healthInfo
    (default [] (ParsedData.claims (tree_of (effect fr segment))))
  = match nests "CLM" "HI" healthInfo segment with
    | Opens =>
        List.map Claim.healthInfo (default [] (ParsedData.claims (tree_of fr)))
        ++ [None]
    | Joins entry =>
        map_last (appended entry)
          (List.map Claim.healthInfo
             (default [] (ParsedData.claims (tree_of fr))))
    | Neither =>
        List.map Claim.healthInfo (default [] (ParsedData.claims (tree_of fr)))
    end.
Proof.
  intros [_ (Hc & _)]. open_frame fr. pose proof Hc as (lc & -> & _).
  by_tag nested.
Qed.

(** *** Addresses *)

Lemma addresses_created_837 fr segment :
  ParsedData.addresses (tree_of fr) <> Some [] ->
  ParsedData.addresses (tree_of (effect fr segment)) <> Some [].
Proof.
  open_frame fr. intros H.
  by_tag ltac:(idtac; cbn; branches; reads_crunch;
               first [ exact H
                     | unfold appended; intros [= E];
                       apply app_eq_nil in E; destruct E; discriminate
                     | destruct addresses as [[|a [|b l]]|]; cbn;
                       congruence ]).
Qed.

Lemma addresses_never_empty_837 segments : forall fr,
  ParsedData.addresses (tree_of fr) <> Some [] ->
  ParsedData.addresses (tree_of (reads segments fr)) <> Some [].
Proof.
  induction segments as [|segment rest IH]; intros fr H; [exact H|].
  apply IH, addresses_created_837, H.
Qed.

Lemma lazily_default {A} (o : option (list A)) :
  o <> Some [] -> o = lazily (default [] o).
Proof. destruct o as [[|x l]|]; [congruence|reflexivity|reflexivity]. Qed.

Lemma addresses_reads_837 segments any :
  ParsedData.addresses (tree_of (reads segments (start any)))
  = lazily (flat_map address_of_block (blocks_of "N3" segments)).
Proof.
  rewrite <- (Addresses837.addresses_run_837 segments any).
  rewrite (run_reads_837 segments _ (frame_ok_start_837 any)).
  apply lazily_default, addresses_never_empty_837. discriminate.
Qed.

(** *** The lists after a run of segments *)

Lemma nested_empty_837 {A} (view : Claim.t -> option (list A)) any :
  List.map view (default [] (ParsedData.claims (tree_of (start any)))) = [].
Proof. reflexivity. Qed.

Ltac appended_from_start step_lemma :=
  etransitivity;
  [ apply (view_appended effect _ _ _ step_lemma)
  | first [apply extended_empty | apply extended_absent] ].

Ltac nested_from_start step_lemma :=
  etransitivity;
  [ apply (view_nested effect settled _ _ settled_effect_837 step_lemma);
    apply settled_start_837
  | reflexivity ].

Lemma lists_reads_837 pre any :
  lists_read pre (tree_of (reads pre (start any))).
Proof.
  assert (List.map bare_claim
            <$> ParsedData.claims (tree_of (reads pre (start any)))
          = Some (read_from "CLM" claim pre)) as Hclaims
    by appended_from_start bare_claims_effect_837.
  assert (List.map bare_entity
            <$> ParsedData.subscribers (tree_of (reads pre (start any)))
          = Some (entities_read "subscriber" pre)) as Hsubscribers
    by appended_from_start subscribers_effect_837.
  assert (List.map bare_entity
            <$> ParsedData.patients (tree_of (reads pre (start any)))
          = Some (entities_read "patient" pre)) as Hpatients
    by appended_from_start patients_effect_837.
  assert (List.map bare_entity
            <$> ParsedData.providers (tree_of (reads pre (start any)))
          = Some (entities_read "provider" pre)) as Hproviders
    by appended_from_start providers_effect_837.
  assert (List.map Claim.services
            (default [] (ParsedData.claims (tree_of (reads pre (start any)))))
          = List.map lazily
              (nested_by_parent (nests "CLM" "SV1" service) pre))
    as Hservices by nested_from_start nested_services_effect_837.
  assert (List.map Claim.dates
            (default [] (ParsedData.claims (tree_of (reads pre (start any)))))
          = List.map lazily
              (nested_by_parent (nests "CLM" "DTP" dateInfo) pre))
    as Hdates by nested_from_start nested_dates_effect_837.
  assert (List.map Claim.healthInfo
            (default [] (ParsedData.claims (tree_of (reads pre (start any)))))
          = List.map lazily
              (nested_by_parent (nests "CLM" "HI" healthInfo) pre))
    as HhealthInfo by nested_from_start nested_healthInfo_effect_837.
  unfold lists_read. conjuncts.
  - appended_from_start groups_effect_837.
  - appended_from_start services_effect_837.
  - destruct (ParsedData.claims (tree_of (reads pre (start any))))
      as [claims|]; [|discriminate].
    exists claims. injection Hclaims as Hclaims. auto.
  - destruct (ParsedData.subscribers (tree_of (reads pre (start any))))
      as [l|]; [|discriminate].
    exists l. injection Hsubscribers as H. auto.
  - destruct (ParsedData.patients (tree_of (reads pre (start any))))
      as [l|]; [|discriminate].
    exists l. injection Hpatients as H. auto.
  - destruct (ParsedData.providers (tree_of (reads pre (start any))))
      as [l|]; [|discriminate].
    exists l. injection Hproviders as H. auto.
  - appended_from_start references_effect_837.
  - appended_from_start contacts_effect_837.
  - apply addresses_reads_837.
Qed.
End Reading837.

Module Reading835.
Import EDI835Parser Spec835 Expected835 Nest835 Lemmas835 Further835.

(** On a frame whose tree has the lists of the fresh tree, no handler
    throws, and the switch has the effect of the reference reading. *)
Lemma dispatch_effect_835 fr segment :
  frame_ok fr ->
  dispatch (tag_of segment) (elements_of segment) fr
  = Normal tt (effect fr segment).
Proof.
  intros [Hg Hp Hc Hsv Ha Hr Hco Had _ _].
  unfold effect, tag_of. generalize (elements_of segment). intros elements.
  unfold Expected.interchange, Expected.group, Expected.transactionSet,
    Expected.reference, Expected.contact, Expected.address,
    Expected.located, Expected.transactionSetTrailer,
    Expected.functionalGroupTrailer, Expected.interchangeTrailer,
    payment, traceNumber, dateInfo, provider, claim, adjustment, entity,
    inpatientAdjudication, outpatientAdjudication, service, amount,
    quantity, providerAdjustment, on_claim, on_payment, put, next.
  cbn zeta. rewrite !reading_lookup.
  open_frame fr.
  destruct Hg as [lg ->], Hp as [lp ->], Hc as [lc ->], Hsv as [lsv ->],
    Ha as [la ->], Hr as [lr ->], Hco as [lco ->], Had as [lad ->].
  unfold dispatch.
  destruct (elements !! 0) as [s|]; [|reflexivity]; unfold strict_eq.
  tag_cases s ltac:(idtac; cbn; branches;
                    first
                      [ solve [ unfold appended, push_lazy, written; crunch;
                                reflexivity ]
                      | unfold on_this, zoom, parseN4, set_tree, modify; cbn;
                        destruct (last lad) eqn:E;
                        [ rewrite alter_last; reflexivity
                        | apply last_None in E; subst; reflexivity ] ]).
Qed.

Lemma step_effect_835 fr segment :
  frame_ok fr -> step fr segment = effect fr segment.
Proof.
  intros H. rewrite step_is_dispatch_835, (dispatch_effect_835 _ _ H).
  reflexivity.
Qed.

Lemma run_reads_835 segments : forall fr,
  frame_ok fr -> run segments fr = reads segments fr.
Proof.
  induction segments as [|segment rest IH]; intros fr H; [reflexivity|].
  change (run (segment :: rest) fr) with (run rest (step fr segment)).
  change (reads (segment :: rest) fr) with (reads rest (effect fr segment)).
  rewrite <- (step_effect_835 _ _ H). apply IH, frame_ok_step_835, H.
Qed.

Lemma parse_reads_835 ediData this segments :
  tokenize (cleanData ediData) = segments ->
  segments <> [] ->
  parse ediData this
  = Normal (tree_of (reads segments (start segments)))
      (Frame.this (reads segments (start segments))).
Proof.
  intros E Hne.
  rewrite <- (run_reads_835 segments _ (frame_ok_start_835 segments)).
  rewrite parse_eq_835, E.
  destruct segments as [|segment rest]; [congruence|reflexivity].
Qed.

Lemma settled_start_835 segments : settled (start segments).
Proof. split; [apply frame_ok_start_835|apply locals_settled_start_835]. Qed.

Lemma settled_effect_835 fr segment : settled fr -> settled (effect fr segment).
Proof.
  intros [Hok Hl]. rewrite <- (step_effect_835 _ _ Hok).
  split; [apply frame_ok_step_835, Hok|].
  apply locals_settled_step_835, Hl.
Qed.

(** Splits on the tag that the effect dispatches on. *)
Ltac reads_crunch :=
  repeat (progress (cbn; unfold on_claim, on_payment, put, written, next,
                      tree_of; scrutinees)).

Ltac by_tag tac :=
  unfold effect, nests, has_tag, tag_of;
  rewrite (reading_lookup _ 0);
  match goal with
  | |- context [elements_of ?segment !! 0] =>
      destruct (elements_of segment !! 0) as [?s|];
      [unfold strict_eq|solve [tac]]
  end;
  match goal with s : string |- _ => tag_cases s tac end.

Ltac same_list :=
  first [ reflexivity
        | rewrite List.map_app; reflexivity
        | f_equal; apply map_alter_same; intros; reflexivity
        | apply map_alter_same; intros; reflexivity
        | apply map_alter_last; intros; reflexivity ].

Ltac options :=
  repeat match goal with
         | |- context [default [] ?o] => is_var o; destruct o; cbn
         | |- context [fmap _ ?o] => is_var o; destruct o; cbn
         end.

Ltac flat := idtac; cbn; branches; reads_crunch; unfold appended; options;
             same_list.

Ltac nested := idtac; cbn; branches; reads_crunch; use_latest; same_list.

(** *** Lists of the tree *)

Lemma groups_effect_835 fr segment :
  ParsedData.groups (tree_of (effect fr segment))
  = if has_tag "GS" segment
    then appended (Expected.group (reading (elements_of segment)))
           (ParsedData.groups (tree_of fr))
    else ParsedData.groups (tree_of fr).
Proof. open_frame fr. by_tag flat. Qed.

Lemma services_effect_835 fr segment :
  ParsedData.services (tree_of (effect fr segment))
  = if has_tag "SVC" segment
    then appended (service (reading (elements_of segment)))
           (ParsedData.services (tree_of fr))
    else ParsedData.services (tree_of fr).
Proof. open_frame fr. by_tag flat. Qed.

Lemma adjustments_effect_835 fr segment :
  ParsedData.adjustments (tree_of (effect fr segment))
  = if has_tag "PLB" segment
    then appended (providerAdjustment (reading (elements_of segment)))
           (ParsedData.adjustments (tree_of fr))
    else ParsedData.adjustments (tree_of fr).
Proof. open_frame fr. by_tag flat. Qed.

Lemma references_effect_835 fr segment :
  ParsedData.references (tree_of (effect fr segment))
  = if has_tag "REF" segment
    then appended (Expected.reference (reading (elements_of segment)))
           (ParsedData.references (tree_of fr))
    else ParsedData.references (tree_of fr).
Proof. open_frame fr. by_tag flat. Qed.

Lemma contacts_effect_835 fr segment :
  ParsedData.contacts (tree_of (effect fr segment))
  = if has_tag "PER" segment
    then appended (Expected.contact (reading (elements_of segment)))
           (ParsedData.contacts (tree_of fr))
    else ParsedData.contacts (tree_of fr).
Proof. open_frame fr. by_tag flat. Qed.

Lemma bare_payments_effect_835 fr segment :
  List.map bare_payment <$> ParsedData.payments (tree_of (effect fr segment))
  = if has_tag "BPR" segment
    then appended (payment (reading (elements_of segment)))
           (List.map bare_payment <$> ParsedData.payments (tree_of fr))
    else List.map bare_payment <$> ParsedData.payments (tree_of fr).
Proof. open_frame fr. by_tag flat. Qed.

Lemma bare_claims_effect_835 fr segment :
  List.map bare_claim <$> ParsedData.claims (tree_of (effect fr segment))
  = if has_tag "CLP" segment
    then appended (claim (reading (elements_of segment)))
           (List.map bare_claim <$> ParsedData.claims (tree_of fr))
    else List.map bare_claim <$> ParsedData.claims (tree_of fr).
Proof. open_frame fr. by_tag flat. Qed.

(** *** Lists nested in the claims and in the payments *)

Lemma nested_adjustments_effect_835 fr segment :
  settled fr ->
  List.map Claim.adjustments
    (default [] (ParsedData.claims (tree_of (effect fr segment))))
  = match nests "CLP" "CAS" adjustment segment with
    | Opens =>
        List.map Claim.adjustments (default [] (ParsedData.claims (tree_of fr)))
        ++ [None]
    | Joins entry =>
        map_last (appended entry)
          (List.map Claim.adjustments
             (default [] (ParsedData.claims (tree_of fr))))
    | Neither =>
        List.map Claim.adjustments (default [] (ParsedData.claims (tree_of fr)))
    end.
Proof.
  intros [_ (Hp & Hc & _)]. open_frame fr.
  pose proof Hp as (lp & -> & _). pose proof Hc as (lc & -> & _).
  by_tag nested.
Qed.

Lemma nested_entities_effect_835 fr segment :
  settled fr ->
  List.map Claim.entities
    (default [] (ParsedData.claims (tree_of (effect fr segment))))
  = match nests "CLP" "NM1" entity segment with
    | Opens =>
        List.map Claim.entities (default [] (ParsedData.claims (tree_of fr)))
        ++ [None]
    | Joins entry =>
        map_last (appended entry)
          (List.map Claim.entities
             (default [] (ParsedData.claims (tree_of fr))))
    | Neither =>
        List.map Claim.entities (default [] (ParsedData.claims (tree_of fr)))
    end.
Proof.
  intros [_ (Hp & Hc & _)]. open_frame fr.
  pose proof Hp as (lp & -> & _). pose proof Hc as (lc & -> & _).
  by_tag nested.
Qed.

Lemma nested_services_effect_835 fr segment :
  settled fr ->
  List.map Claim.services
    (default [] (ParsedData.claims (tree_of (effect fr segment))))
  = match nests "CLP" "SVC" service segment with
    | Opens =>
        List.map Claim.services (default [] (ParsedData.claims (tree_of fr)))
        ++ [None]
    | Joins entry =>
        map_last (appended entry)
          (List.map Claim.services
             (default [] (ParsedData.claims (tree_of fr))))
    | Neither =>
        List.map Claim.services (default [] (ParsedData.claims (tree_of fr)))
    end.
Proof.
  intros [_ (Hp & Hc & _)]. open_frame fr.
  pose proof Hp as (lp & -> & _). pose proof Hc as (lc & -> & _).
  by_tag nested.
Qed.

Lemma nested_amounts_effect_835 fr segment :
  settled fr ->
  List.map Claim.amounts
    (default [] (ParsedData.claims (tree_of (effect fr segment))))
  = match nests "CLP" "AMT" amount segment with
    | Opens =>
        List.map Claim.amounts (default [] (ParsedData.claims (tree_of fr)))
        ++ [None]
    | Joins entry =>
        map_last (appended entry)
          (List.map Claim.amounts
             (default [] (ParsedData.claims (tree_of fr))))
    | Neither =>
        List.map Claim.amounts (default [] (ParsedData.claims (tree_of fr)))
    end.
Proof.
  intros [_ (Hp & Hc & _)]. open_frame fr.
  pose proof Hp as (lp & -> & _). pose proof Hc as (lc & -> & _).
  by_tag nested.
Qed.

Lemma nested_quantities_effect_835 fr segment :
  settled fr ->
  List.map Claim.quantities
    (default [] (ParsedData.claims (tree_of (effect fr segment))))
  = match nests "CLP" "QTY" quantity segment with
    | Opens =>
        List.map Claim.quantities (default [] (ParsedData.claims (tree_of fr)))
        ++ [None]
    | Joins entry =>
        map_last (appended entry)
          (List.map Claim.quantities
             (default [] (ParsedData.claims (tree_of fr))))
    | Neither =>
        List.map Claim.quantities (default [] (ParsedData.claims (tree_of fr)))
    end.
Proof.
  intros [_ (Hp & Hc & _)]. open_frame fr.
  pose proof Hp as (lp & -> & _). pose proof Hc as (lc & -> & _).
  by_tag nested.
Qed.

Lemma nested_dates_effect_835 fr segment :
  settled fr ->
  List.map Payment.dates
    (default [] (ParsedData.payments (tree_of (effect fr segment))))
  = match nests "BPR" "DTM" dateInfo segment with
    | Opens =>
        List.map Payment.dates
          (default [] (ParsedData.payments (tree_of fr)))
        ++ [None]
    | Joins entry =>
        map_last (appended entry)
          (List.map Payment.dates
             (default [] (ParsedData.payments (tree_of fr))))
    | Neither =>
        List.map Payment.dates
          (default [] (ParsedData.payments (tree_of fr)))
    end.
Proof.
  intros [_ (Hp & Hc & _)]. open_frame fr.
  pose proof Hp as (lp & -> & _). pose proof Hc as (lc & -> & _).
  by_tag nested.
Qed.

Lemma claims_of_payments_effect_835 fr segment claims :
  settled fr ->
  ParsedData.claims (tree_of fr) = Some claims ->
  List.map Payment.claims
    (default [] (ParsedData.payments (tree_of (effect fr segment))))
  = (if has_tag "BPR" segment
     then List.map Payment.claims
            (default [] (ParsedData.payments (tree_of fr))) ++ [None]
     else if has_tag "CLP" segment
          then map_last (appended (At (List.length claims)))
                 (List.map Payment.claims
                    (default [] (ParsedData.payments (tree_of fr))))
          else List.map Payment.claims
                 (default [] (ParsedData.payments (tree_of fr))))
  /\ List.length
       (default [] (ParsedData.claims (tree_of (effect fr segment))))
     = (if has_tag "CLP" segment then S (List.length claims)
        else List.length claims).
Proof.
  intros [_ (Hp & Hc & _)]. open_frame fr. intros ->.
  pose proof Hp as (lp & -> & _).
  by_tag ltac:(idtac; cbn; branches; reads_crunch; use_latest;
               (split;
                [ same_list
                | rewrite ?length_alter, ?length_app; cbn;
                  first [reflexivity | lia] ])).
Qed.

Lemma claims_of_payments_reads_835 segments : forall fr claims,
  settled fr ->
  ParsedData.claims (tree_of fr) = Some claims ->
  List.map Payment.claims
    (default [] (ParsedData.payments (tree_of (reads segments fr))))
  = map_last
      (extended (claims_before_next_payment (List.length claims) segments))
      (List.map Payment.claims
         (default [] (ParsedData.payments (tree_of fr))))
    ++ List.map lazily (claims_by_payment (List.length claims) segments).
Proof.
  induction segments as [|segment rest IH]; intros fr claims H Hc.
  - cbn. rewrite app_nil_r, map_last_id; reflexivity.
  - change (reads (segment :: rest) fr) with (reads rest (effect fr segment)).
    pose proof (settled_effect_835 fr segment H) as H'.
    destruct (claims_of_payments_effect_835 fr segment claims H Hc)
      as [Hv Hl].
    pose proof H' as [_ (_ & (claims' & Ec & _) & _)].
    rewrite (IH _ claims' H' Ec).
    rewrite Ec in Hl. cbn in Hl. rewrite Hl, Hv.
    cbn [claims_before_next_payment claims_by_payment].
    unfold has_tag. destruct (tag_of segment) as [t|]; [|reflexivity].
    unfold strict_eq.
    destruct (String.eqb_spec t "BPR") as [->|_].
    + cbn. rewrite map_last_snoc, <- app_assoc. cbn.
      rewrite map_last_id by reflexivity. rewrite extended_absent.
      reflexivity.
    + destruct (String.eqb t "CLP").
      * rewrite map_last_map_last. f_equal. apply map_last_ext.
        intros o. apply extended_appended.
      * reflexivity.
Qed.

(** *** The lists after a run of segments *)

Ltac appended_from_start step_lemma :=
  etransitivity;
  [ apply (view_appended effect _ _ _ step_lemma)
  | first [apply extended_empty | apply extended_absent] ].

Ltac nested_from_start step_lemma :=
  etransitivity;
  [ apply (view_nested effect settled _ _ settled_effect_835 step_lemma);
    apply settled_start_835
  | reflexivity ].

Lemma addresses_reads_835 segments any :
  ParsedData.addresses (tree_of (reads segments (start any)))
  = Some (flat_map address_of_block (blocks_of "N3" segments)).
Proof.
  rewrite <- (Addresses835.addresses_run_835 segments any).
  destruct (has_addresses _
              (frame_ok_run_835 segments _ (frame_ok_start_835 any)))
    as [l E].
  rewrite <- (run_reads_835 segments _ (frame_ok_start_835 any)).
  rewrite E. reflexivity.
Qed.

Lemma lists_reads_835 pre any :
  lists_read pre (tree_of (reads pre (start any))).
Proof.
  assert (List.map bare_payment
            <$> ParsedData.payments (tree_of (reads pre (start any)))
          = Some (read_from "BPR" payment pre)) as Hpayments
    by appended_from_start bare_payments_effect_835.
  assert (List.map bare_claim
            <$> ParsedData.claims (tree_of (reads pre (start any)))
          = Some (read_from "CLP" claim pre)) as Hclaims
    by appended_from_start bare_claims_effect_835.
  assert (List.map Payment.dates
            (default []
               (ParsedData.payments (tree_of (reads pre (start any)))))
          = List.map lazily
              (nested_by_parent (nests "BPR" "DTM" dateInfo) pre))
    as Hdates by nested_from_start nested_dates_effect_835.
  assert (List.map Payment.claims
            (default []
               (ParsedData.payments (tree_of (reads pre (start any)))))
          = List.map lazily (claims_by_payment 0 pre)) as Hrefs
    by (etransitivity;
        [ apply (claims_of_payments_reads_835 pre (start any) []);
          [apply settled_start_835|reflexivity]
        | reflexivity ]).
  assert (List.map Claim.adjustments
            (default [] (ParsedData.claims (tree_of (reads pre (start any)))))
          = List.map lazily
              (nested_by_parent (nests "CLP" "CAS" adjustment) pre))
    as Hadjustments by nested_from_start nested_adjustments_effect_835.
  assert (List.map Claim.entities
            (default [] (ParsedData.claims (tree_of (reads pre (start any)))))
          = List.map lazily
              (nested_by_parent (nests "CLP" "NM1" entity) pre))
    as Hentities by nested_from_start nested_entities_effect_835.
  assert (List.map Claim.services
            (default [] (ParsedData.claims (tree_of (reads pre (start any)))))
          = List.map lazily
              (nested_by_parent (nests "CLP" "SVC" service) pre))
    as Hservices by nested_from_start nested_services_effect_835.
  assert (List.map Claim.amounts
            (default [] (ParsedData.claims (tree_of (reads pre (start any)))))
          = List.map lazily
              (nested_by_parent (nests "CLP" "AMT" amount) pre))
    as Hamounts by nested_from_start nested_amounts_effect_835.
  assert (List.map Claim.quantities
            (default [] (ParsedData.claims (tree_of (reads pre (start any)))))
          = List.map lazily
              (nested_by_parent (nests "CLP" "QTY" quantity) pre))
    as Hquantities by nested_from_start nested_quantities_effect_835.
  unfold lists_read. conjuncts.
  - appended_from_start groups_effect_835.
  - appended_from_start services_effect_835.
  - appended_from_start adjustments_effect_835.
  - appended_from_start references_effect_835.
  - appended_from_start contacts_effect_835.
  - apply addresses_reads_835.
  - destruct (ParsedData.payments (tree_of (reads pre (start any))))
      as [payments|]; [|discriminate].
    exists payments. injection Hpayments as Hpayments. auto.
  - destruct (ParsedData.claims (tree_of (reads pre (start any))))
      as [claims|]; [|discriminate].
    exists claims. injection Hclaims as Hclaims.
    conjuncts; auto.
Qed.
End Reading835.

(** The loop handles each segment on the frame that the segment before
    has left, whether its handler has thrown or not. *)
Lemma for_each_dispatch_837 segments : forall fr,
  EDI837Parser.for_each segments fr
  = Normal tt
      (fold_left
         (fun fr segment =>
            after_of (EDI837Parser.dispatch (tag_of segment)
                        (elements_of segment) fr))
         segments fr).
Proof.
  induction segments as [|segment rest IH]; intros fr; [reflexivity|].
  cbn [EDI837Parser.for_each fold_left]. unfold bind.
  rewrite Lemmas837.iteration_normal_837, Further837.step_is_dispatch_837.
  apply IH.
Qed.

Lemma for_each_dispatch_835 segments : forall fr,
  EDI835Parser.for_each segments fr
  = Normal tt
      (fold_left
         (fun fr segment =>
            after_of (EDI835Parser.dispatch (tag_of segment)
                        (elements_of segment) fr))
         segments fr).
Proof.
  induction segments as [|segment rest IH]; intros fr; [reflexivity|].
  cbn [EDI835Parser.for_each fold_left]. unfold bind.
  rewrite Lemmas835.iteration_normal_835, Further835.step_is_dispatch_835.
  apply IH.
Qed.

Lemma frame_ok_reads_837 pre segments :
  Spec837.frame_ok (Expected837.reads pre (Spec837.start segments)).
Proof.
  rewrite <- (Reading837.run_reads_837 pre _
                (Lemmas837.frame_ok_start_837 segments)).
  apply Lemmas837.frame_ok_run_837, Lemmas837.frame_ok_start_837.
Qed.

Lemma frame_ok_reads_835 pre segments :
  Spec835.frame_ok (Expected835.reads pre (Spec835.start segments)).
Proof.
  rewrite <- (Reading835.run_reads_835 pre _
                (Lemmas835.frame_ok_start_835 segments)).
  apply Lemmas835.frame_ok_run_835, Lemmas835.frame_ok_start_835.
Qed.

Lemma iteration_effect_837 fr segment :
  Spec837.frame_ok fr ->
  EDI837Parser.iteration segment fr
  = Normal tt (Expected837.effect fr segment).
Proof.
  intros H. rewrite Lemmas837.iteration_normal_837.
  rewrite (Reading837.step_effect_837 _ _ H). reflexivity.
Qed.

Lemma iteration_effect_835 fr segment :
  Spec835.frame_ok fr ->
  EDI835Parser.iteration segment fr
  = Normal tt (Expected835.effect fr segment).
Proof.
  intros H. rewrite Lemmas835.iteration_normal_835.
  rewrite (Reading835.step_effect_835 _ _ H). reflexivity.
Qed.

(** ** Failures of a single segment *)

(** C9.  For every input with at least one non-empty segment, [parse] of
    either parser returns a tree, and that tree is the one of the
    reference reading of the segments: each segment, in order, has the
    effect that its tag prescribes, and its record is read by position, a
    position beyond the last element of the segment reading as absent,
    whatever the handler and however short the segment.  On every frame
    that the loop of [parse] reaches, the switch completes normally on
    every segment, with that effect: no handler throws there, whatever the
    number of elements.  On any frame whatever, an iteration of the loop
    completes normally, on the frame that the switch has left, and the
    loop handles each segment on the frame that the segment before has
    left, whether its handler has thrown or not.  A handler does throw
    on a frame that [parse] never makes: on an instance whose tree has no
    [groups], [parseGS] throws, and the ST segment that follows is handled
    all the same.  What the tree held after any prefix of the segments is
    still in the tree after all of them, whatever the frame. *)
Theorem segment_failures_do_not_escape :
  forall (ediData : string) (segments : list string),
    EDI837Parser.tokenize (EDI837Parser.cleanData ediData) = segments ->
    EDI835Parser.tokenize (EDI835Parser.cleanData ediData) = segments ->
    segments <> [] ->
    (forall this,
       EDI837Parser.parse ediData this
       = Normal
           (EDI837Parser.tree_of
              (Expected837.reads segments (Spec837.start segments)))
           (EDI837Parser.Frame.this
              (Expected837.reads segments (Spec837.start segments))))
    /\ (forall this,
          EDI835Parser.parse ediData this
          = Normal
              (EDI835Parser.tree_of
                 (Expected835.reads segments (Spec835.start segments)))
              (EDI835Parser.Frame.this
                 (Expected835.reads segments (Spec835.start segments))))
    /\ (forall pre segment,
          let fr := Expected837.reads pre (Spec837.start segments) in
          EDI837Parser.dispatch (tag_of segment) (elements_of segment) fr
          = Normal tt (Expected837.effect fr segment)
          /\ EDI837Parser.iteration segment fr
             = Normal tt (Expected837.effect fr segment))
    /\ (forall pre segment,
          let fr := Expected835.reads pre (Spec835.start segments) in
          EDI835Parser.dispatch (tag_of segment) (elements_of segment) fr
          = Normal tt (Expected835.effect fr segment)
          /\ EDI835Parser.iteration segment fr
             = Normal tt (Expected835.effect fr segment))
    /\ (forall elements k,
          reading elements (List.length elements + k) = None)
    /\ (forall before element after,
          reading (before ++ element :: after) (List.length before)
          = Some element)
    /\ (forall segment fr,
          EDI837Parser.iteration segment fr
          = Normal tt
              (after_of (EDI837Parser.dispatch (tag_of segment)
                           (elements_of segment) fr)))
    /\ (forall segment fr,
          EDI835Parser.iteration segment fr
          = Normal tt
              (after_of (EDI835Parser.dispatch (tag_of segment)
                           (elements_of segment) fr)))
    /\ (forall rest fr,
          EDI837Parser.for_each rest fr
          = Normal tt
              (fold_left
                 (fun fr segment =>
                    after_of (EDI837Parser.dispatch (tag_of segment)
                                (elements_of segment) fr))
                 rest fr))
    /\ (forall rest fr,
          EDI835Parser.for_each rest fr
          = Normal tt
              (fold_left
                 (fun fr segment =>
                    after_of (EDI835Parser.dispatch (tag_of segment)
                                (elements_of segment) fr))
                 rest fr))
    /\ (let fr := EDI837Parser.enter EDI837Parser.constructor in
        message_of
          (EDI837Parser.dispatch (tag_of "GS*HC") (elements_of "GS*HC") fr)
        = Some TypeError_push
        /\ exists fr',
             EDI837Parser.for_each ["GS*HC"; "ST*837*0001"] fr = Normal tt fr'
             /\ EDI837Parser.ParsedData.groups (EDI837Parser.tree_of fr')
                = None
             /\ EDI837Parser.ParsedData.transactionSet
                  (EDI837Parser.tree_of fr')
                = Some {| TransactionSet.type := Some "837";
                          TransactionSet.controlNumber := Some "0001";
                          TransactionSet.implementationGuide := None |})
    /\ (forall pre post fr,
          Spec837.tree_grows (EDI837Parser.tree_of (Spec837.run pre fr))
            (EDI837Parser.tree_of (Spec837.run (pre ++ post) fr)))
    /\ (forall pre post fr,
          Spec835.tree_grows (EDI835Parser.tree_of (Spec835.run pre fr))
            (EDI835Parser.tree_of (Spec835.run (pre ++ post) fr))).
Proof.
  intros ediData segments E837 E835 Hne.
  split; [intros this; apply Reading837.parse_reads_837; assumption|].
  split; [intros this; apply Reading835.parse_reads_835; assumption|].
  split.
  { intros pre segment fr.
    pose proof (frame_ok_reads_837 pre segments) as Hok.
    split; [apply Reading837.dispatch_effect_837, Hok
           |apply iteration_effect_837, Hok]. }
  split.
  { intros pre segment fr.
    pose proof (frame_ok_reads_835 pre segments) as Hok.
    split; [apply Reading835.dispatch_effect_835, Hok
           |apply iteration_effect_835, Hok]. }
  split; [apply reading_beyond|].
  split; [apply reading_within|].
  split.
  { intros segment fr.
    rewrite Lemmas837.iteration_normal_837, Further837.step_is_dispatch_837.
    reflexivity. }
  split.
  { intros segment fr.
    rewrite Lemmas835.iteration_normal_835, Further835.step_is_dispatch_835.
    reflexivity. }
  split; [intros rest fr; apply for_each_dispatch_837|].
  split; [intros rest fr; apply for_each_dispatch_835|].
  split.
  { cbn zeta. split; [reflexivity|].
    eexists. split; [vm_compute; reflexivity|]. split; reflexivity. }
  split.
  - intros pre post fr. rewrite Lemmas837.run_app_837.
    apply Lemmas837.tree_grows_run_837.
  - intros pre post fr. rewrite Lemmas835.run_app_835.
    apply Lemmas835.tree_grows_run_835.
Qed.

(** Three segments that carry fewer elements than their handlers read,
    followed by a full one. *)
Lemma segment_failures_do_not_escape_witness :
  EDI837Parser.parse "CLM~DTP~SV1*HC:1~CLM*CLAIM002*80.00~"
    EDI837Parser.constructor
  = Normal
      (EDI837Parser.tree_of
         (Expected837.reads ["CLM"; "DTP"; "SV1*HC:1"; "CLM*CLAIM002*80.00"]
            (Spec837.start
               ["CLM"; "DTP"; "SV1*HC:1"; "CLM*CLAIM002*80.00"])))
      (EDI837Parser.Frame.this
         (Expected837.reads ["CLM"; "DTP"; "SV1*HC:1"; "CLM*CLAIM002*80.00"]
            (Spec837.start
               ["CLM"; "DTP"; "SV1*HC:1"; "CLM*CLAIM002*80.00"]))).
Proof.
  apply (proj1 (segment_failures_do_not_escape
                  "CLM~DTP~SV1*HC:1~CLM*CLAIM002*80.00~"
                  ["CLM"; "DTP"; "SV1*HC:1"; "CLM*CLAIM002*80.00"]
                  eq_refl eq_refl ltac:(discriminate))).
Defined.

(** The tree of that document: the first claim and its date have every
    field absent, the service has its code only, and the claim that follows
    the short segments is read in full. *)
Lemma short_segments_example :
  result_of
    (EDI837Parser.parse "CLM~DTP~SV1*HC:1~CLM*CLAIM002*80.00~"
       EDI837Parser.constructor)
  = Some
      (EDI837Parser.ParsedData.set_services
         (Some [EDI837Parser.Service.mk (Some "HC:1") None None None None
                  None])
         (EDI837Parser.ParsedData.set_claims
            (Some
               [ EDI837Parser.Claim.mk None None None None None None None
                   (Some [EDI837Parser.Service.mk (Some "HC:1") None None
                            None None None])
                   (Some [EDI837Parser.DateInfo.mk None None None])
                   None;
                 EDI837Parser.Claim.mk (Some "CLAIM002") (Some "80.00") None
                   None None None None None None None ])
            EDI837Parser.fresh_tree)).
Proof. vm_compute. reflexivity. Qed.

(** ** Lists of the tree *)

(** C7 (amended).  For every input with at least one non-empty segment,
    [parse] of either parser returns the tree that the loop leaves when it
    has handled every segment; and after any run [pre] of segments from
    the start of the loop, the lists of the tree are those read from
    [pre], in the order of the segments ([lists_read]).  Before any
    segment is handled, [pre] is empty: the lists that [parse] puts in
    the fresh tree (837: groups, claims, providers, subscribers, patients,
    services; 835: groups, payments, claims, services, adjustments,
    references, contacts, addresses) are then present and empty.  The
    other lists are absent until the first segment that appends to them
    creates them: the references, contacts and addresses of the 837 tree
    are absent exactly when no REF, PER or N3 segment has been handled,
    and a list of a claim or of a payment is absent exactly when no
    segment has joined that claim or payment with an entry.  Whatever the
    frame and the segment, one iteration of the loop only appends at the
    end of the lists of the tree, and of the lists of the claims and
    payments already in it: entries keep their positions, so the order is
    the order of arrival, with no sorting or reordering. *)
Theorem lists_start_empty_and_only_grow :
  forall (ediData : string) (segments : list string),
    EDI837Parser.tokenize (EDI837Parser.cleanData ediData) = segments ->
    EDI835Parser.tokenize (EDI835Parser.cleanData ediData) = segments ->
    segments <> [] ->
    (forall this,
       exists this',
         EDI837Parser.parse ediData this
         = Normal
             (EDI837Parser.tree_of
                (Spec837.run segments (Spec837.start segments)))
             this')
    /\ (forall pre,
          Expected837.lists_read pre
            (EDI837Parser.tree_of (Spec837.run pre (Spec837.start segments))))
    /\ (forall pre,
          let tree :=
            EDI837Parser.tree_of (Spec837.run pre (Spec837.start segments)) in
          (EDI837Parser.ParsedData.references tree = None
           <-> existsb (has_tag "REF") pre = false)
          /\ (EDI837Parser.ParsedData.contacts tree = None
              <-> existsb (has_tag "PER") pre = false)
          /\ (EDI837Parser.ParsedData.addresses tree = None
              <-> existsb (has_tag "N3") pre = false))
    /\ (forall this,
          exists this',
            EDI835Parser.parse ediData this
            = Normal
                (EDI835Parser.tree_of
                   (Spec835.run segments (Spec835.start segments)))
                this')
    /\ (forall pre,
          Expected835.lists_read pre
            (EDI835Parser.tree_of (Spec835.run pre (Spec835.start segments))))
    /\ (forall A (entries : list A), lazily entries = None <-> entries = [])
    /\ (forall fr segment,
          Spec837.tree_grows (EDI837Parser.tree_of fr)
            (EDI837Parser.tree_of (Spec837.step fr segment)))
    /\ (forall fr segment,
          Spec835.tree_grows (EDI835Parser.tree_of fr)
            (EDI835Parser.tree_of (Spec835.step fr segment))).
Proof.
  intros ediData segments E837 E835 Hne.
  assert (forall pre,
            Expected837.lists_read pre
              (EDI837Parser.tree_of
                 (Spec837.run pre (Spec837.start segments)))) as H837.
  { intros pre.
    rewrite (Reading837.run_reads_837 pre _
               (Lemmas837.frame_ok_start_837 segments)).
    apply Reading837.lists_reads_837. }
  split.
  { intros this. rewrite Lemmas837.parse_eq_837, E837.
    destruct segments; [congruence|]. eexists. reflexivity. }
  split; [exact H837|].
  split.
  { intros pre tree.
    destruct (H837 pre) as (_ & _ & _ & _ & _ & _ & Hr & Hc & Ha).
    fold tree in Hr, Hc, Ha. rewrite Hr, Hc, Ha.
    rewrite !lazily_absent, !read_from_none, addresses_none.
    repeat split; auto. }
  split.
  { intros this. rewrite Lemmas835.parse_eq_835, E835.
    destruct segments; [congruence|]. eexists. reflexivity. }
  split.
  { intros pre.
    rewrite (Reading835.run_reads_835 pre _
               (Lemmas835.frame_ok_start_835 segments)).
    apply Reading835.lists_reads_835. }
  split; [intros A entries; apply lazily_absent|].
  split; [apply Lemmas837.tree_grows_step_837
         |apply Lemmas835.tree_grows_step_835].
Qed.

(** A group, a reference and two claims, the first with a service. *)
Lemma lists_start_empty_and_only_grow_witness :
  exists this',
    EDI837Parser.parse "GS*HC~REF*EA*1~CLM*C1*10~SV1*HC:1*5~CLM*C2*20~"
      EDI837Parser.constructor
    = Normal
        (EDI837Parser.tree_of
           (Spec837.run
              ["GS*HC"; "REF*EA*1"; "CLM*C1*10"; "SV1*HC:1*5"; "CLM*C2*20"]
              (Spec837.start
                 ["GS*HC"; "REF*EA*1"; "CLM*C1*10"; "SV1*HC:1*5";
                  "CLM*C2*20"])))
        this'.
Proof.
  apply (proj1 (lists_start_empty_and_only_grow
                  "GS*HC~REF*EA*1~CLM*C1*10~SV1*HC:1*5~CLM*C2*20~"
                  ["GS*HC"; "REF*EA*1"; "CLM*C1*10"; "SV1*HC:1*5"; "CLM*C2*20"]
                  eq_refl eq_refl ltac:(discriminate))
           EDI837Parser.constructor).
Defined.
